(** * SSO gateway: the authentication and session core

    A shallow embedding of the authentication/session core of the SSO web
    application and the properties of its specification:
    - config/oauthErrors.ts: [createOAuthError], [handleOAuthError],
      [validateOAuthState] (module [OAuthErrors]);
    - config/oauth.ts: [loadOAuthConfig], [normalizeProfile] (module [OAuth]);
    - models/User.ts and models/Session.ts (modules [User], [Session]);
    - services/UserService.ts (module [UserService]);
    - services/SessionManager.ts (module [SessionManager]);
    - services/AuthService.ts (module [AuthService]);
    - config/passport.ts: [handleOAuthCallback] and the verify callback of
      the strategies (module [Passport]).

    Conventions of the embedding.
    - A JavaScript string is a [string]: a sequence of code units, here
      restricted to the code units 0..255 (ASCII and Latin-1).
    - A value of type [string | undefined] is an [option string].
    - A [Date] is its time value, an integer number of milliseconds since
      the epoch ([Z]); time values stay within the range of [Date].
    - Code that reads or writes the database, the clock, the random source
      or the network is a computation over [World] that returns or throws.
    - Logging ([console.log] and the like) is left out.

    The first part of the file holds the definitions, the second part the
    lemmas and the theorems. *)

From Stdlib Require Import String Ascii List ZArith NArith Lia Bool Arith DecimalString.
Import ListNotations.
Open Scope string_scope.

(* ================================================================== *)
(** * The JavaScript runtime: strings and 32-bit integers *)
(* ================================================================== *)

Module Js.

(** Truthiness of a [string | undefined] value: [undefined] and the empty
    string are falsy, every other string is truthy. *)
Definition truthy (v : option string) : bool :=
  match v with
  | Some (String _ _) => true
  | _ => false
  end.

(** Truthiness of a string. *)
Definition nonempty (s : string) : bool :=
  match s with
  | EmptyString => false
  | String _ _ => true
  end.

(** [a || b] on strings. *)
Definition or_else (a b : string) : string :=
  if nonempty a then a else b.

(** [a || b] where [a] may be undefined. *)
Definition opt_or_else (a : option string) (b : string) : string :=
  match a with
  | Some s => or_else s b
  | None => b
  end.

Definition code (c : ascii) : Z := Z.of_N (N_of_ascii c).

(** ToInt32: the wrap-around of the bitwise operators. *)
Definition to_int32 (z : Z) : Z :=
  (z + 2147483648) mod 4294967296 - 2147483648.

Definition int32_or (a b : Z) : Z := to_int32 (Z.lor (to_int32 a) (to_int32 b)).
Definition int32_xor (a b : Z) : Z := to_int32 (Z.lxor (to_int32 a) (to_int32 b)).

(** [s.charCodeAt(i)] as an operand of a bitwise operator: out of range
    it is NaN, which ToInt32 turns into 0. *)
Definition charCodeAt (s : string) (i : nat) : Z :=
  match String.get i s with
  | Some c => code c
  | None => 0
  end.

(** White space of [String.prototype.trim] and of the regular-expression
    class [\s], within the code units 0..255: TAB, LF, VT, FF, CR, SPACE
    and NBSP. *)
Definition is_space (c : ascii) : bool :=
  let n := N_of_ascii c in
  (N.leb 9 n && N.leb n 13) || N.eqb n 32 || N.eqb n 160.

Fixpoint trim_start (s : string) : string :=
  match s with
  | String c s' => if is_space c then trim_start s' else s
  | EmptyString => EmptyString
  end.

(** Drops the trailing white space: a character is kept when it is not
    white space or when something is kept after it. *)
Fixpoint trim_end (s : string) : string :=
  match s with
  | EmptyString => EmptyString
  | String c s' =>
      match trim_end s' with
      | EmptyString => if is_space c then EmptyString else String c EmptyString
      | t => String c t
      end
  end.

Definition trim (s : string) : string := trim_end (trim_start s).

(** [toLowerCase] on one code unit: A-Z, and the Latin-1 capitals
    U+00C0..U+00DE except the multiplication sign U+00D7. *)
Definition lower_char (c : ascii) : ascii :=
  let n := N_of_ascii c in
  if (N.leb 65 n && N.leb n 90)
     || (N.leb 192 n && N.leb n 222 && negb (N.eqb n 215))
  then ascii_of_N (n + 32) else c.

Fixpoint toLowerCase (s : string) : string :=
  match s with
  | EmptyString => EmptyString
  | String c s' => String (lower_char c) (toLowerCase s')
  end.

(** [s.includes(pat)]: [pat] occurs in [s] as a substring. *)
Fixpoint includes (s pat : string) : bool :=
  String.prefix pat s ||
  match s with
  | EmptyString => false
  | String _ s' => includes s' pat
  end.

(** [arr.includes(x)] on an array of strings. *)
Definition array_includes (arr : list string) (x : string) : bool :=
  existsb (String.eqb x) arr.

(** [s.split(sep)[0]] for a one-character separator: the part of [s]
    before the first separator. *)
Fixpoint split_head (sep : ascii) (s : string) : string :=
  match s with
  | EmptyString => EmptyString
  | String c s' => if Ascii.eqb c sep then EmptyString else String c (split_head sep s')
  end.

(** The time values a [Date] can hold: at most 8.64e15 ms from the epoch
    (ECMAScript's TimeClip). [new Date(t)] for any other number is the
    Invalid Date, which compares false with every date and whose
    [toISOString()] throws a RangeError. The models keep a date as its time
    value in [Z]; they describe the program where the dates it computes
    are valid, and a statement about a computed date says so. *)
Definition max_time : Z := 8640000000000000%Z.

Definition valid_time (t : Z) : bool := (Z.abs t <=? max_time)%Z.

End Js.


(* ================================================================== *)
(** * models/interfaces.ts and config/oauthErrors.ts: error values *)
(* ================================================================== *)

(** The [type] of an error object is a string at run time; it is drawn
    from the enum [ErrorType] or, through the cast in [createOAuthError],
    from the enum [OAuthErrorType]. *)
Inductive ErrorType :=
| AUTHENTICATION_FAILED
| SESSION_EXPIRED
| USER_NOT_FOUND
| DATABASE_ERROR
| OAUTH_ERROR
| TEMPLATE_ERROR
| VALIDATION_ERROR
| OAUTH_INVALID_STATE
| OAUTH_PROVIDER_ERROR
| OAUTH_PROFILE_ERROR
| OAUTH_TOKEN_ERROR
| OAUTH_CALLBACK_ERROR.

(** [AppError]. The [details] field is a diagnostic payload that no branch
    of the code reads; it is left out. *)
Record AppError := mkAppError {
  type : ErrorType;
  message : string;
  statusCode : Z
}.

(** What a [throw] can carry: an [AppError]-shaped object, or an [Error]
    instance such as the database driver or [fetch] raise. *)
Inductive JsValue :=
| AppErr (e : AppError)
| JsError (msg : string).

(** The type guard [isAppError] of the three services: an object with the
    properties [type], [message] and [statusCode]. *)
Definition isAppError (v : JsValue) : bool :=
  match v with
  | AppErr _ => true
  | JsError _ => false
  end.

(** [error.message] *)
Definition message_of (v : JsValue) : string :=
  match v with
  | AppErr e => message e
  | JsError m => m
  end.

Inductive Provider := microsoft | github.

Definition provider_name (p : Provider) : string :=
  match p with
  | microsoft => "microsoft"
  | github => "github"
  end.

(** [UserProfile] / [OAuthProfile]. The field [provider] is declared
    ['microsoft' | 'github'] but is a string at run time, and the User Store
    checks it as one. *)
Record UserProfile := mkProfile {
  profile_id : string;
  profile_username : string;
  profile_email : string;
  profile_provider : string
}.

(** [Partial<UserProfile>] *)
Record PartialProfile := mkPartial {
  partial_id : option string;
  partial_username : option string;
  partial_email : option string;
  partial_provider : option string
}.

(* ================================================================== *)
(** * The world: database, clock, random source, environment, network *)
(* ================================================================== *)

(** A row of table [users]. The two timestamp columns hold the text of
    [toISOString()]; the row keeps the time value that text denotes. *)
Record user_row := mkUserRow {
  u_id : string;
  u_username : string;
  u_email : string;
  u_provider : string;
  u_provider_id : string;
  u_created_at : Z;
  u_updated_at : Z
}.

(** A row of table [sessions], timestamps as in [user_row]. *)
Record session_row := mkSessionRow {
  s_id : string;
  s_user_id : string;
  s_created_at : Z;
  s_expires_at : Z
}.

Record OAuthProviderConfig := mkProviderConfig {
  clientId : string;
  clientSecret : string;
  redirectUri : string;
  scope : list string
}.

Record OAuthConfig := mkOAuthConfig {
  cfg_microsoft : OAuthProviderConfig;
  cfg_github : OAuthProviderConfig
}.

(** The variables of [process.env] that [loadOAuthConfig] reads. *)
Record Env := mkEnv {
  BASE_URL : option string;
  MICROSOFT_CLIENT_ID : option string;
  MICROSOFT_CLIENT_SECRET : option string;
  GITHUB_CLIENT_ID : option string;
  GITHUB_CLIENT_SECRET : option string
}.

(** The outcome of one [fetch]: the promise rejects, or it resolves with
    [ok] false and a body, or with [ok] true and a JSON payload. *)
Inductive Reply (A : Type) :=
| NetworkFailure (msg : string)
| HttpFailure (body : string)
| HttpOk (payload : A).
Arguments NetworkFailure {A} msg.
Arguments HttpFailure {A} body.
Arguments HttpOk {A} payload.

(** The JSON of [https://graph.microsoft.com/v1.0/me]. *)
Record MsProfileData := mkMsProfile {
  ms_id : string;
  ms_displayName : option string;
  ms_mail : option string;
  ms_userPrincipalName : option string
}.

(** The JSON of [https://api.github.com/user]. *)
Record GhProfileData := mkGhProfile {
  gh_id : Z;
  gh_login : string;
  gh_name : option string
}.

(** An entry of [https://api.github.com/user/emails]. *)
Record GhEmail := mkGhEmail {
  gh_email : string;
  gh_primary : bool
}.

(** A request sent to an identity provider. *)
Inductive NetCall :=
| TokenRequest (p : Provider) (client_id client_secret code : string)
| ProfileRequest (p : Provider) (access_token : string)
| EmailsRequest (access_token : string).

(** The identity providers, as functions of the request. *)
Record Network := mkNetwork {
  token_endpoint : Provider -> string -> string -> string -> Reply string;
  microsoft_me : string -> Reply MsProfileData;
  github_user : string -> Reply GhProfileData;
  github_emails : string -> Reply (list GhEmail)
}.

(** Everything outside the three services.
    - [users], [sessions]: the two tables, rows in insertion order.
    - [clock]: [Date.now()]; an operation runs within one clock reading,
      time passes between operations.
    - [random], [random_pos]: the values [uuidv4()] and
      [randomBytes(32).toString('hex')] return, and how many were drawn.
    - [db_fault], [db_pos]: which executions of a database statement fail
      in the driver (an [Error] that is not a constraint violation), and how
      many statements were executed.
    - [environment]: the variables of [process.env] the configuration is
      read from.
    - [network], [net_log]: the providers, and the requests sent so far. *)
Record World := mkWorld {
  users : list user_row;
  sessions : list session_row;
  clock : Z;
  random : nat -> string;
  random_pos : nat;
  db_fault : nat -> bool;
  db_pos : nat;
  environment : Env;
  network : Network;
  net_log : list NetCall
}.

Definition set_users (us : list user_row) (w : World) : World :=
  mkWorld us (sessions w) (clock w) (random w) (random_pos w)
          (db_fault w) (db_pos w) (environment w) (network w) (net_log w).

Definition set_sessions (ss : list session_row) (w : World) : World :=
  mkWorld (users w) ss (clock w) (random w) (random_pos w)
          (db_fault w) (db_pos w) (environment w) (network w) (net_log w).

Definition set_random_pos (n : nat) (w : World) : World :=
  mkWorld (users w) (sessions w) (clock w) (random w) n
          (db_fault w) (db_pos w) (environment w) (network w) (net_log w).

Definition set_db_pos (n : nat) (w : World) : World :=
  mkWorld (users w) (sessions w) (clock w) (random w) (random_pos w)
          (db_fault w) n (environment w) (network w) (net_log w).

Definition set_net_log (l : list NetCall) (w : World) : World :=
  mkWorld (users w) (sessions w) (clock w) (random w) (random_pos w)
          (db_fault w) (db_pos w) (environment w) (network w) l.

Definition set_clock (t : Z) (w : World) : World :=
  mkWorld (users w) (sessions w) t (random w) (random_pos w)
          (db_fault w) (db_pos w) (environment w) (network w) (net_log w).

(* ================================================================== *)
(** * Computations that may throw and that change the world *)
(* ================================================================== *)

Inductive Outcome (A : Type) :=
| Returned (a : A)
| Thrown (v : JsValue).
Arguments Returned {A} a.
Arguments Thrown {A} v.

(** A computation: from a world to an outcome and the world it leaves.
    A thrown exception keeps the effects that happened before it. *)
Definition Prog (A : Type) : Type := World -> Outcome A * World.

Definition ret {A} (a : A) : Prog A := fun w => (Returned a, w).

Definition throw {A} (v : JsValue) : Prog A := fun w => (Thrown v, w).

Definition bind {A B} (p : Prog A) (k : A -> Prog B) : Prog B :=
  fun w =>
    match p w with
    | (Returned a, w') => k a w'
    | (Thrown v, w') => (Thrown v, w')
    end.

(** [try { p } catch (error) { h error }] *)
Definition try_catch {A} (p : Prog A) (h : JsValue -> Prog A) : Prog A :=
  fun w =>
    match p w with
    | (Returned a, w') => (Returned a, w')
    | (Thrown v, w') => h v w'
    end.

Declare Scope prog_scope.
Delimit Scope prog_scope with prog.
Notation "x <- c1 ;; c2" := (bind c1 (fun x => c2))
  (at level 61, c1 at next level, right associativity) : prog_scope.
Notation "c1 ;;; c2" := (bind c1 (fun _ => c2))
  (at level 61, right associativity) : prog_scope.
Open Scope prog_scope.

(** [throw { type, message, statusCode, details } as AppError] *)
Definition throw_app {A} (t : ErrorType) (msg : string) (status : Z) : Prog A :=
  throw (AppErr (mkAppError t msg status)).

(** [new Date()] and [Date.now()] *)
Definition now : Prog Z := fun w => (Returned (clock w), w).

(** [uuidv4()] and [randomBytes(32).toString('hex')]: the next value of the
    random source. *)
Definition draw_random : Prog string :=
  fun w => (Returned (random w (random_pos w)), set_random_pos (S (random_pos w)) w).

(* ================================================================== *)
(** * Timestamps as text: [toISOString] and SQLite's [datetime('now')] *)
(* ================================================================== *)

(** The two functions of the runtimes that turn an instant into the text
    the database stores and compares: [Date.prototype.toISOString] of
    JavaScript, which [toDatabaseRow] and [extendSession] use to write
    [expires_at], and [datetime('now')] of SQLite, which [cleanup] compares
    it with. *)
Module DateText.
Local Open Scope Z_scope.

Definition ms_per_day : Z := 86400000.

(** Year, month and day of a day number counted from 1970-01-01, in the
    proleptic Gregorian calendar. *)
Definition civil_from_days (days : Z) : Z * Z * Z :=
  let z := days + 719468 in
  let era := z / 146097 in
  let doe := z - era * 146097 in
  let yoe := (doe - doe / 1460 + doe / 36524 - doe / 146096) / 365 in
  let y := yoe + era * 400 in
  let doy := doe - (365 * yoe + yoe / 4 - yoe / 100) in
  let mp := (5 * doy + 2) / 153 in
  let d := doy - (153 * mp + 2) / 5 + 1 in
  let m := if mp <? 10 then mp + 3 else mp - 9 in
  (if m <=? 2 then y + 1 else y, m, d).

Definition digit (n : Z) : ascii := ascii_of_N (48 + Z.to_N (n mod 10)).

(** The last [width] decimal digits of [n], zero-padded. *)
Fixpoint digits (width : nat) (n : Z) : string :=
  match width with
  | O => EmptyString
  | S w => digits w (n / 10) ++ String (digit n) EmptyString
  end.

(** [YYYY-MM-DD], with the expanded year of ECMAScript outside 0..9999. *)
Definition date_text (t : Z) : string :=
  let '(y, m, d) := civil_from_days (t / ms_per_day) in
  let year :=
    if (0 <=? y) && (y <=? 9999) then digits 4 y
    else (if y <? 0 then "-" else "+") ++ digits 6 (Z.abs y) in
  year ++ "-" ++ digits 2 m ++ "-" ++ digits 2 d.

(** [HH:MM:SS] *)
Definition time_text (t : Z) : string :=
  let s := (t mod ms_per_day) / 1000 in
  digits 2 (s / 3600) ++ ":" ++ digits 2 (s / 60 mod 60) ++ ":" ++ digits 2 (s mod 60).

(** [Date.prototype.toISOString]: [YYYY-MM-DDTHH:MM:SS.sssZ]. *)
Definition toISOString (t : Z) : string :=
  date_text t ++ "T" ++ time_text t ++ "." ++ digits 3 (t mod 1000) ++ "Z".

(** The text of SQLite's [datetime('now')] at clock [t], for an instant
    SQLite covers (see [sqlite_now]): [YYYY-MM-DD HH:MM:SS]. *)
Definition datetime_now (t : Z) : string :=
  date_text t ++ " " ++ time_text t.

(** SQLite's [<] on two TEXT values (BINARY collation): byte-wise
    lexicographic order. Column [expires_at] is declared DATETIME, so it has
    NUMERIC affinity; neither an ISO timestamp nor the result of
    [datetime] reads as a number, so both operands stay TEXT. *)
Definition text_lt (a b : string) : bool := String.ltb a b.

(** The instants the date functions of SQLite cover: the years 0000 to
    9999, from 0000-01-01 00:00:00.000 to 9999-12-31 23:59:59.999. *)
Definition sqlite_first : Z := -62167219200000.
Definition sqlite_last : Z := 253402300799999.

Definition in_sqlite_range (t : Z) : bool :=
  (sqlite_first <=? t) && (t <=? sqlite_last).

(** What [datetime('now')] evaluates to at clock [t]: the text
    [datetime_now t] within the range of SQLite, and NULL after the year
    9999. Before the year 0000, where no clock of a running system is,
    SQLite leaves the result of its date functions open; NULL stands for it
    here too, and no statement below depends on it. *)
Definition sqlite_now (t : Z) : option string :=
  if in_sqlite_range t then Some (datetime_now t) else None.

End DateText.

(* ================================================================== *)
(** * The database: the statements the services prepare and run *)
(* ================================================================== *)

Module Db.
Local Open Scope Z_scope.

Definition driver_failure : string := "SQLITE_IOERR: disk I/O error".

(** One [prepare(...)] and [get]/[run]/[all]: counts as one statement; it
    throws when the driver fails at this execution. *)
Definition statement {A} (run : Prog A) : Prog A :=
  fun w =>
    let w1 := set_db_pos (S (db_pos w)) w in
    if db_fault w (db_pos w) then (Thrown (JsError driver_failure), w1)
    else run w1.

(** [SELECT * FROM users WHERE provider_id = ? AND provider = ?], [get] *)
Definition select_user_by_provider (provider_id provider : string) : Prog (option user_row) :=
  statement (fun w =>
    (Returned (find (fun r => String.eqb (u_provider_id r) provider_id
                               && String.eqb (u_provider r) provider) (users w)), w)).

(** [SELECT * FROM users WHERE id = ?], [get] *)
Definition select_user_by_id (id : string) : Prog (option user_row) :=
  statement (fun w =>
    (Returned (find (fun r => String.eqb (u_id r) id) (users w)), w)).

(** [SELECT 1 FROM users WHERE id = ?], [get]: whether a row came back. *)
Definition select_user_exists (id : string) : Prog bool :=
  statement (fun w =>
    (Returned (existsb (fun r => String.eqb (u_id r) id) (users w)), w)).

Definition same_identity (a b : user_row) : bool :=
  String.eqb (u_provider a) (u_provider b)
  && String.eqb (u_provider_id a) (u_provider_id b).

(** [INSERT INTO users (...) VALUES (...)], [run]: the number of rows
    changed; throws on the primary key and on UNIQUE(provider,
    provider_id). *)
Definition insert_user (r : user_row) : Prog Z :=
  statement (fun w =>
    if existsb (fun x => String.eqb (u_id x) (u_id r)) (users w)
    then (Thrown (JsError "UNIQUE constraint failed: users.id"), w)
    else if existsb (same_identity r) (users w)
    then (Thrown (JsError "UNIQUE constraint failed: users.provider, users.provider_id"), w)
    else (Returned 1, set_users (users w ++ [r])%list w)).

(** [UPDATE users SET username = ?, email = ?, provider = ?,
    provider_id = ?, updated_at = ? WHERE id = ?], [run]. *)
Definition update_user (username email provider provider_id : string)
           (updated_at : Z) (id : string) : Prog Z :=
  statement (fun w =>
    let hit r := String.eqb (u_id r) id in
    let upd r := mkUserRow (u_id r) username email provider provider_id
                           (u_created_at r) updated_at in
    let clash r := negb (hit r) && String.eqb (u_provider r) provider
                   && String.eqb (u_provider_id r) provider_id in
    if existsb hit (users w) && existsb clash (users w)
    then (Thrown (JsError "UNIQUE constraint failed: users.provider, users.provider_id"), w)
    else (Returned (Z.of_nat (length (filter hit (users w)))),
          set_users (map (fun r => if hit r then upd r else r) (users w)) w)).

(** [INSERT INTO sessions (...) VALUES (...)], [run]: throws on the primary
    key and on the foreign key to [users] (foreign_keys = ON). *)
Definition insert_session (r : session_row) : Prog Z :=
  statement (fun w =>
    if existsb (fun x => String.eqb (s_id x) (s_id r)) (sessions w)
    then (Thrown (JsError "UNIQUE constraint failed: sessions.id"), w)
    else if negb (existsb (fun u => String.eqb (u_id u) (s_user_id r)) (users w))
    then (Thrown (JsError "FOREIGN KEY constraint failed"), w)
    else (Returned 1, set_sessions (sessions w ++ [r])%list w)).

(** [SELECT * FROM sessions WHERE id = ?], [get] *)
Definition select_session (id : string) : Prog (option session_row) :=
  statement (fun w =>
    (Returned (find (fun r => String.eqb (s_id r) id) (sessions w)), w)).

(** [DELETE FROM sessions WHERE id = ?], [run] *)
Definition delete_session (id : string) : Prog Z :=
  statement (fun w =>
    let hit r := String.eqb (s_id r) id in
    (Returned (Z.of_nat (length (filter hit (sessions w)))),
     set_sessions (filter (fun r => negb (hit r)) (sessions w)) w)).

(** The WHERE clause [expires_at < datetime('now')] on one row: a
    comparison of the stored text with the text of the current time. A
    comparison with NULL is not true: it selects no row. *)
Definition expired_in_sql (t : Z) (r : session_row) : bool :=
  match DateText.sqlite_now t with
  | Some current => DateText.text_lt (DateText.toISOString (s_expires_at r)) current
  | None => false
  end.

(** [DELETE FROM sessions WHERE expires_at < datetime('now')], [run] *)
Definition delete_expired_sessions : Prog Z :=
  statement (fun w =>
    let hit := expired_in_sql (clock w) in
    (Returned (Z.of_nat (length (filter hit (sessions w)))),
     set_sessions (filter (fun r => negb (hit r)) (sessions w)) w)).

(** [DELETE FROM users WHERE id = ?], [run]: the number of [users] rows
    deleted. The rows of [sessions] that reference a deleted user are
    deleted with it (ON DELETE CASCADE, foreign_keys = ON); they do not
    count as changes. *)
Definition delete_user (id : string) : Prog Z :=
  statement (fun w =>
    let hit r := String.eqb (u_id r) id in
    let orphaned s := existsb hit (users w) && String.eqb (s_user_id s) id in
    (Returned (Z.of_nat (length (filter hit (users w)))),
     set_sessions (filter (fun s => negb (orphaned s)) (sessions w))
       (set_users (filter (fun r => negb (hit r)) (users w)) w))).

(** [DELETE FROM sessions WHERE user_id = ?], [run] *)
Definition delete_user_sessions (user_id : string) : Prog Z :=
  statement (fun w =>
    let hit r := String.eqb (s_user_id r) user_id in
    (Returned (Z.of_nat (length (filter hit (sessions w)))),
     set_sessions (filter (fun r => negb (hit r)) (sessions w)) w)).

(** [UPDATE sessions SET expires_at = ? WHERE id = ?], [run] *)
Definition update_session_expiry (expires_at : Z) (id : string) : Prog Z :=
  statement (fun w =>
    let hit r := String.eqb (s_id r) id in
    let upd r := mkSessionRow (s_id r) (s_user_id r) (s_created_at r) expires_at in
    (Returned (Z.of_nat (length (filter hit (sessions w)))),
     set_sessions (map (fun r => if hit r then upd r else r) (sessions w)) w)).

(** The WHERE clause [expires_at > datetime('now')] on one row. *)
Definition active_in_sql (t : Z) (r : session_row) : bool :=
  match DateText.sqlite_now t with
  | Some current => DateText.text_lt current (DateText.toISOString (s_expires_at r))
  | None => false
  end.

(** The WHERE clause [expires_at <= datetime('now')] on one row: not
    above; with NULL it selects no row either. *)
Definition at_most_now_in_sql (t : Z) (r : session_row) : bool :=
  match DateText.sqlite_now t with
  | Some current =>
      negb (DateText.text_lt current (DateText.toISOString (s_expires_at r)))
  | None => false
  end.

(** [SELECT COUNT( * ) as count FROM sessions], [get] *)
Definition count_sessions : Prog Z :=
  statement (fun w => (Returned (Z.of_nat (length (sessions w))), w)).

(** [SELECT COUNT( * ) as count FROM sessions WHERE expires_at > datetime('now')] *)
Definition count_active_sessions : Prog Z :=
  statement (fun w =>
    (Returned (Z.of_nat (length (filter (active_in_sql (clock w)) (sessions w)))), w)).

(** [SELECT COUNT( * ) as count FROM sessions WHERE expires_at <= datetime('now')] *)
Definition count_expired_sessions : Prog Z :=
  statement (fun w =>
    (Returned (Z.of_nat (length (filter (at_most_now_in_sql (clock w)) (sessions w)))), w)).

End Db.

(* ================================================================== *)
(** * models/User.ts *)
(* ================================================================== *)

Module User.
Local Open Scope Z_scope.

Record t := mk {
  id : string;
  username : string;
  email : string;
  provider : string;
  providerId : string;
  createdAt : Z;
  updatedAt : Z
}.

(** [Partial<IUser>] *)
Record partial := mkPartial {
  p_id : option string;
  p_username : option string;
  p_email : option string;
  p_provider : option string;
  p_providerId : option string;
  p_createdAt : option Z;
  p_updatedAt : option Z
}.

(** [data.date || new Date()]: a [Date] object is always truthy. *)
Definition date_or_now (d : option Z) : Prog Z :=
  match d with
  | Some t => ret t
  | None => now
  end.

(** [constructor(data)]; [uuidv4()] is called only when [data.id] is
    falsy. *)
Definition new (data : partial) : Prog t :=
  i <- (if Js.truthy (p_id data) then ret (Js.opt_or_else (p_id data) "")
        else draw_random) ;;
  c <- date_or_now (p_createdAt data) ;;
  u <- date_or_now (p_updatedAt data) ;;
  ret (mk i
          (Js.opt_or_else (p_username data) "")
          (Js.opt_or_else (p_email data) "")
          (Js.opt_or_else (p_provider data) "")
          (Js.opt_or_else (p_providerId data) "")
          c u).

Definition fromProfile (profile : UserProfile) : Prog t :=
  c <- now ;;
  u <- now ;;
  new (mkPartial None
                 (Some (profile_username profile))
                 (Some (profile_email profile))
                 (Some (profile_provider profile))
                 (Some (profile_id profile))
                 (Some c) (Some u)).

Definition fromDatabaseRow (row : user_row) : Prog t :=
  new (mkPartial (Some (u_id row))
                 (Some (u_username row))
                 (Some (u_email row))
                 (Some (u_provider row))
                 (Some (u_provider_id row))
                 (Some (u_created_at row))
                 (Some (u_updated_at row))).

(** A character of the class [[^\s@]]. *)
Definition email_char (c : ascii) : bool :=
  negb (Js.is_space c) && negb (Ascii.eqb c "@").

Fixpoint all_chars (f : ascii -> bool) (s : string) : bool :=
  match s with
  | EmptyString => true
  | String c s' => f c && all_chars f s'
  end.

(** Some ["."] of [s] is followed by at least one more character. *)
Fixpoint dot_then_more (s : string) : bool :=
  match s with
  | String c ((String _ _) as s') =>
      Ascii.eqb c "." || dot_then_more s'
  | _ => false
  end.

(** After the ["@"]: [[^\s@]+\.[^\s@]+$], that is, only characters of the
    class, and a ["."] that is neither the first nor the last of them. *)
Definition email_domain (s : string) : bool :=
  all_chars email_char s &&
  match s with
  | String _ rest => dot_then_more rest
  | EmptyString => false
  end.

(** [^[^\s@]+@...]: a non-empty run of the class, then ["@"], then the
    domain. [seen] says whether the run is non-empty so far. *)
Fixpoint email_from (seen : bool) (s : string) : bool :=
  match s with
  | EmptyString => false
  | String c s' =>
      if Ascii.eqb c "@" then seen && email_domain s'
      else if Js.is_space c then false
      else email_from true s'
  end.

(** [/^[^\s@]+@[^\s@]+\.[^\s@]+$/.test(email)] *)
Definition isValidEmail (email : string) : bool := email_from false email.

(** [['microsoft', 'github'].includes(provider.toLowerCase())] *)
Definition isValidProvider (provider : string) : bool :=
  Js.array_includes ["microsoft"; "github"] (Js.toLowerCase provider).

Definition validation_error (msg : string) : AppError :=
  mkAppError VALIDATION_ERROR msg 400.

(** [validate()]: the list of errors, in the order they are pushed. *)
Definition validate (u : t) : list AppError :=
  ((if negb (Js.nonempty (username u))
       || (String.length (Js.trim (username u)) =? 0)%nat
    then [validation_error "Username is required"] else [])
   ++ (if negb (Js.nonempty (email u)) || negb (isValidEmail (email u))
       then [validation_error "Valid email is required"] else [])
   ++ (if negb (Js.nonempty (provider u)) || negb (isValidProvider (provider u))
       then [validation_error "Valid provider is required (microsoft or github)"] else [])
   ++ (if negb (Js.nonempty (providerId u))
          || (String.length (Js.trim (providerId u)) =? 0)%nat
       then [validation_error "Provider ID is required"] else []))%list.

Definition isValid (u : t) : bool :=
  (length (validate u) =? 0)%nat.

Definition or_keep (new_value : option string) (old : string) : string :=
  match new_value with
  | Some v => v
  | None => old
  end.

(** [update(data)]: each field that is not [undefined] is assigned, then
    [updatedAt] is set to the current time. *)
Definition update (data : partial) (u : t) : Prog t :=
  n <- now ;;
  ret (mk (id u)
          (or_keep (p_username data) (username u))
          (or_keep (p_email data) (email u))
          (or_keep (p_provider data) (provider u))
          (or_keep (p_providerId data) (providerId u))
          (createdAt u)
          n).

Definition toDatabaseRow (u : t) : user_row :=
  mkUserRow (id u) (username u) (email u) (provider u) (providerId u)
            (createdAt u) (updatedAt u).

End User.

(* ================================================================== *)
(** * models/Session.ts *)
(* ================================================================== *)

Module Session.
Local Open Scope Z_scope.

(** A session. Its two dates are kept as their time values, in
    milliseconds from the epoch: the record stands for a session whose
    dates are valid ([Js.valid_time]). *)
Record t := mk {
  id : string;
  userId : string;
  createdAt : Z;
  expiresAt : Z
}.

(** [Partial<ISession>] *)
Record partial := mkPartial {
  p_id : option string;
  p_userId : option string;
  p_createdAt : option Z;
  p_expiresAt : option Z
}.

Definition DEFAULT_DURATION_MS : Z := 24 * 60 * 60 * 1000.

Definition new (data : partial) : Prog t :=
  i <- (if Js.truthy (p_id data) then ret (Js.opt_or_else (p_id data) "")
        else draw_random) ;;
  c <- User.date_or_now (p_createdAt data) ;;
  e <- match p_expiresAt data with
       | Some d => ret d
       | None => n <- now ;; ret (n + DEFAULT_DURATION_MS)
       end ;;
  ret (mk i (Js.opt_or_else (p_userId data) "") c e).

Definition fromDatabaseRow (row : session_row) : Prog t :=
  new (mkPartial (Some (s_id row)) (Some (s_user_id row))
                 (Some (s_created_at row)) (Some (s_expires_at row))).

(** [new Date() > this.expiresAt] *)
Definition isExpired (s : t) : Prog bool :=
  n <- now ;;
  ret (expiresAt s <? n).

Definition isValid (s : t) : Prog bool :=
  e <- isExpired s ;;
  ret (negb e && (0 <? String.length (Js.trim (userId s)))%nat).

(** [validate()]: the list of errors, in the order they are pushed. *)
Definition validate (s : t) : Prog (list AppError) :=
  e <- isExpired s ;;
  ret ((if negb (Js.nonempty (userId s))
           || (String.length (Js.trim (userId s)) =? 0)%nat
        then [mkAppError VALIDATION_ERROR "User ID is required for session" 400]
        else [])
       ++ (if e then [mkAppError SESSION_EXPIRED "Session has expired" 401] else [])
       ++ (if expiresAt s <? createdAt s
           then [mkAppError VALIDATION_ERROR
                   "Session expiration time cannot be before creation time" 400]
           else []))%list.

Definition toDatabaseRow (s : t) : session_row :=
  mkSessionRow (id s) (userId s) (createdAt s) (expiresAt s).

(** [durationMs || Session.DEFAULT_DURATION_MS]: [undefined] and 0 are
    falsy. *)
Definition duration_or_default (durationMs : option Z) : Z :=
  match durationMs with
  | Some d => if d =? 0 then DEFAULT_DURATION_MS else d
  | None => DEFAULT_DURATION_MS
  end.

(** [createForUser(userId, durationMs)], for a duration that gives an
    expiry a [Date] can hold ([Js.valid_time]). *)
Definition createForUser (userId : string) (durationMs : option Z) : Prog t :=
  let duration := duration_or_default durationMs in
  c <- now ;;
  n <- now ;;
  new (mkPartial None (Some userId) (Some c) (Some (n + duration))).

(** [Math.max(0, this.expiresAt.getTime() - Date.now())], for a valid
    [expiresAt]. *)
Definition getRemainingTime (s : t) : Prog Z :=
  n <- now ;;
  ret (Z.max 0 (expiresAt s - n)).

(** [extend(durationMs = DEFAULT_DURATION_MS)]: the default replaces an
    argument that is [undefined], not one that is 0. The method assigns
    [expiresAt]; here it returns the session with the new value. As in
    [createForUser], the new expiry is kept as the time value
    [now + duration], which describes the source where that is a time a
    [Date] can hold ([Js.valid_time]). *)
Definition extend (durationMs : option Z) (s : t) : Prog t :=
  let d := match durationMs with
           | Some d => d
           | None => DEFAULT_DURATION_MS
           end in
  n <- now ;;
  ret (mk (id s) (userId s) (createdAt s) (n + d)).

Definition refresh (s : t) : Prog t := extend None s.

End Session.

(* ================================================================== *)
(** * services/UserService.ts *)
(* ================================================================== *)

(** [error instanceof Error ? ... : ...] *)
Definition instanceof_Error (v : JsValue) : bool :=
  match v with
  | JsError _ => true
  | AppErr _ => false
  end.

Module UserService.
Local Open Scope Z_scope.

(** [sanitizeInput]: the argument is a string, so it is trimmed. *)
Definition sanitizeInput (input : string) : string := Js.trim input.

Definition isValidProvider (provider : string) : bool :=
  Js.array_includes ["microsoft"; "github"] (Js.toLowerCase provider).

(** The [catch] clause most methods share: an [AppError] is thrown again,
    anything else becomes a DATABASE_ERROR with status 500. *)
Definition rethrow_or_database_error {A} (msg : string) (error : JsValue) : Prog A :=
  if isAppError error then throw error
  else throw_app DATABASE_ERROR msg 500.

Definition user_of_row (row : option user_row) : Prog (option User.t) :=
  match row with
  | None => ret None
  | Some r => u <- User.fromDatabaseRow r ;; ret (Some u)
  end.

Definition findByProviderId (providerId provider : string) : Prog (option User.t) :=
  try_catch
    (let sanitizedProviderId := sanitizeInput providerId in
     let sanitizedProvider := sanitizeInput provider in
     if negb (Js.nonempty sanitizedProviderId) || negb (Js.nonempty sanitizedProvider)
     then throw_app VALIDATION_ERROR "Provider ID and provider are required" 400
     else if negb (isValidProvider sanitizedProvider)
     then throw_app VALIDATION_ERROR "Invalid provider. Must be microsoft or github" 400
     else
       row <- Db.select_user_by_provider sanitizedProviderId sanitizedProvider ;;
       user_of_row row)
    (rethrow_or_database_error "Failed to find user by provider ID").

(** [createUser] up to its only [await]: sanitize, build the [User],
    validate it, and look the identity up. *)
Definition createUser_lookup (profile : UserProfile) : Prog (User.t * option User.t) :=
  let sanitizedProfile :=
    mkProfile (sanitizeInput (profile_id profile))
              (sanitizeInput (profile_username profile))
              (sanitizeInput (profile_email profile))
              (profile_provider profile) in
  user <- User.fromProfile sanitizedProfile ;;
  if (0 <? length (User.validate user))%nat
  then throw_app VALIDATION_ERROR "User validation failed" 400
  else
    existingUser <- findByProviderId (profile_id sanitizedProfile)
                                     (profile_provider sanitizedProfile) ;;
    ret (user, existingUser).

(** [createUser] after the [await]: refuse an identity that was found,
    insert otherwise. *)
Definition createUser_insert (r : User.t * option User.t) : Prog User.t :=
  let (user, existingUser) := r in
  match existingUser with
  | Some _ =>
      throw_app VALIDATION_ERROR "User already exists with this provider ID" 409
  | None =>
      changes <- Db.insert_user (User.toDatabaseRow user) ;;
      if changes =? 0
      then throw_app DATABASE_ERROR "Failed to create user - no rows affected" 500
      else ret user
  end.

(** The [catch] clause of [createUser]: a violated UNIQUE constraint is
    reported like an identity that was found. *)
Definition createUser_catch (error : JsValue) : Prog User.t :=
  if isAppError error then throw error
  else if instanceof_Error error
          && Js.includes (message_of error) "UNIQUE constraint failed"
  then throw_app VALIDATION_ERROR "User already exists with this provider ID" 409
  else throw_app DATABASE_ERROR "Failed to create user" 500.

Definition createUser (profile : UserProfile) : Prog User.t :=
  try_catch
    (r <- createUser_lookup profile ;; createUser_insert r)
    createUser_catch.

(** A [createUser] call resumed after its [await]: [r] is what the first
    part produced. *)
Definition createUser_resume (r : Outcome (User.t * option User.t)) : Prog User.t :=
  try_catch
    (match r with
     | Returned x => createUser_insert x
     | Thrown v => throw v
     end)
    createUser_catch.

(** Two [createUser] calls in flight at once: each runs up to its [await]
    before either is resumed. The outcomes of the first and of the second
    call, and the world they leave. *)
Definition createUser_race (first second : UserProfile)
  : World -> (Outcome User.t * Outcome User.t) * World :=
  fun w =>
    let (r1, w1) := createUser_lookup first w in
    let (r2, w2) := createUser_lookup second w1 in
    let (o1, w3) := createUser_resume r1 w2 in
    let (o2, w4) := createUser_resume r2 w3 in
    ((o1, o2), w4).

(** The validation errors [createUser] finds in a profile: those of the
    [User] built from the sanitized fields (they do not depend on the
    generated id nor on the timestamps). *)
Definition profile_errors (profile : UserProfile) : list AppError :=
  User.validate
    (User.mk "" (sanitizeInput (profile_username profile))
             (sanitizeInput (profile_email profile))
             (profile_provider profile)
             (sanitizeInput (profile_id profile)) 0 0).

(** [findById]: its [catch] clause wraps everything, [AppError] or not. *)
Definition findById (userId : string) : Prog (option User.t) :=
  try_catch
    (let sanitizedUserId := sanitizeInput userId in
     if negb (Js.nonempty sanitizedUserId) then ret None
     else
       row <- Db.select_user_by_id sanitizedUserId ;;
       user_of_row row)
    (fun _ => throw_app DATABASE_ERROR "Failed to find user by ID" 500).

Definition updateUser (userId : string) (profile : PartialProfile) : Prog User.t :=
  try_catch
    (let sanitizedUserId := sanitizeInput userId in
     if negb (Js.nonempty sanitizedUserId)
     then throw_app VALIDATION_ERROR "User ID is required" 400
     else
       found <- findById sanitizedUserId ;;
       match found with
       | None => throw_app USER_NOT_FOUND "User not found" 404
       | Some existingUser =>
           let updateData :=
             User.mkPartial None
               (option_map sanitizeInput (partial_username profile))
               (option_map sanitizeInput (partial_email profile))
               (option_map sanitizeInput (partial_provider profile))
               (option_map sanitizeInput (partial_id profile))
               None None in
           updated <- User.update updateData existingUser ;;
           if (0 <? length (User.validate updated))%nat
           then throw_app VALIDATION_ERROR "User validation failed" 400
           else
             let dbRow := User.toDatabaseRow updated in
             changes <- Db.update_user (u_username dbRow) (u_email dbRow)
                                       (u_provider dbRow) (u_provider_id dbRow)
                                       (u_updated_at dbRow) (u_id dbRow) ;;
             if changes =? 0
             then throw_app DATABASE_ERROR "Failed to update user - no rows affected" 500
             else ret updated
       end)
    (rethrow_or_database_error "Failed to update user").

(** [deleteUser]: whether a row was deleted. *)
Definition deleteUser (userId : string) : Prog bool :=
  try_catch
    (let sanitizedUserId := sanitizeInput userId in
     if negb (Js.nonempty sanitizedUserId)
     then throw_app VALIDATION_ERROR "User ID is required" 400
     else
       changes <- Db.delete_user sanitizedUserId ;;
       ret (0 <? changes))
    (rethrow_or_database_error "Failed to delete user").

End UserService.

(* ================================================================== *)
(** * services/SessionManager.ts *)
(* ================================================================== *)

Module SessionManager.
Local Open Scope Z_scope.

Definition sanitizeInput (input : string) : string := Js.trim input.

Definition rethrow_or_database_error {A} (msg : string) (error : JsValue) : Prog A :=
  if isAppError error then throw error
  else throw_app DATABASE_ERROR msg 500.

Definition generateSecureSessionId : Prog string := draw_random.

(** [verifyUserExists]: a failure of the query counts as "no such user". *)
Definition verifyUserExists (userId : string) : Prog bool :=
  try_catch (Db.select_user_exists userId) (fun _ => ret false).

(** [durationMs || 24 * 60 * 60 * 1000]: [undefined] and 0 are falsy. *)
Definition duration_or_default (durationMs : option Z) : Z :=
  match durationMs with
  | Some d => if d =? 0 then 24 * 60 * 60 * 1000 else d
  | None => 24 * 60 * 60 * 1000
  end.

(** [create]. The expiry [new Date(Date.now() + duration)] is kept as the
    time value [now + duration]: the model describes [create] for the
    durations that give a time a [Date] can hold ([Js.valid_time]). For
    any other the source builds the Invalid Date, which passes
    [validate()] and makes [toDatabaseRow()] throw. *)
Definition create (userId : string) (durationMs : option Z) : Prog Session.t :=
  try_catch
    (let sanitizedUserId := sanitizeInput userId in
     if negb (Js.nonempty sanitizedUserId)
     then throw_app VALIDATION_ERROR "User ID is required to create session" 400
     else
       userExists <- verifyUserExists sanitizedUserId ;;
       if negb userExists
       then throw_app USER_NOT_FOUND "Cannot create session for non-existent user" 404
       else
         sessionId <- generateSecureSessionId ;;
         createdAt <- now ;;
         n <- now ;;
         session <- Session.new
                      (Session.mkPartial (Some sessionId) (Some sanitizedUserId)
                                         (Some createdAt)
                                         (Some (n + duration_or_default durationMs))) ;;
         validationErrors <- Session.validate session ;;
         if (0 <? length validationErrors)%nat
         then throw_app VALIDATION_ERROR "Session validation failed" 400
         else
           changes <- Db.insert_session (Session.toDatabaseRow session) ;;
           if changes =? 0
           then throw_app DATABASE_ERROR "Failed to create session - no rows affected" 500
           else ret session)
    (rethrow_or_database_error "Failed to create session").

Definition destroy (sessionId : string) : Prog unit :=
  try_catch
    (let sanitizedSessionId := sanitizeInput sessionId in
     if negb (Js.nonempty sanitizedSessionId)
     then throw_app VALIDATION_ERROR "Session ID is required" 400
     else
       _ <- Db.delete_session sanitizedSessionId ;;
       ret tt)
    (rethrow_or_database_error "Failed to destroy session").

(** [validate]: [null] is [None]. The [catch] clause returns [null] for
    whatever was thrown. *)
Definition validate (sessionId : string) : Prog (option Session.t) :=
  try_catch
    (let sanitizedSessionId := sanitizeInput sessionId in
     if negb (Js.nonempty sanitizedSessionId) then ret None
     else
       row <- Db.select_session sanitizedSessionId ;;
       match row with
       | None => ret None
       | Some r =>
           session <- Session.fromDatabaseRow r ;;
           expired <- Session.isExpired session ;;
           if expired
           then destroy (Session.id session) ;;; ret None
           else
             valid <- Session.isValid session ;;
             if negb valid then ret None else ret (Some session)
       end)
    (fun _ => ret None).

(** [cleanup]: the number of rows the DELETE changed. *)
Definition cleanup : Prog Z :=
  try_catch
    Db.delete_expired_sessions
    (fun _ => throw_app DATABASE_ERROR "Failed to cleanup expired sessions" 500).

(** [getSessionWithUser]: the session and its user, or [null]. *)
Definition getSessionWithUser (sessionId : string) : Prog (option (Session.t * User.t)) :=
  try_catch
    (session <- validate sessionId ;;
     match session with
     | None => ret None
     | Some s =>
         userRow <- Db.select_user_by_id (Session.userId s) ;;
         match userRow with
         | None => destroy (Session.id s) ;;; ret None
         | Some r =>
             user <- User.fromDatabaseRow r ;;
             ret (Some (s, user))
         end
     end)
    (fun _ => ret None).

(** [destroyAllUserSessions]: the number of rows deleted. *)
Definition destroyAllUserSessions (userId : string) : Prog Z :=
  try_catch
    (let sanitizedUserId := sanitizeInput userId in
     if negb (Js.nonempty sanitizedUserId)
     then throw_app VALIDATION_ERROR "User ID is required" 400
     else Db.delete_user_sessions sanitizedUserId)
    (rethrow_or_database_error "Failed to destroy user sessions").

(** [extendSession(sessionId, durationMs = 24 * 60 * 60 * 1000)], for a
    duration that gives an expiry a [Date] can hold ([Js.valid_time]); for
    any other, [toISOString()] throws in the source and [null] is
    returned. *)
Definition extendSession (sessionId : string) (durationMs : option Z)
  : Prog (option Session.t) :=
  let duration := match durationMs with
                  | Some d => d
                  | None => 24 * 60 * 60 * 1000
                  end in
  try_catch
    (session <- validate sessionId ;;
     match session with
     | None => ret None
     | Some s =>
         extended <- Session.extend (Some duration) s ;;
         changes <- Db.update_session_expiry (Session.expiresAt extended)
                                             (Session.id extended) ;;
         if changes =? 0 then ret None else ret (Some extended)
     end)
    (fun _ => ret None).

Record SessionStats := mkStats {
  totalSessions : Z;
  activeSessions : Z;
  expiredSessions : Z
}.

(** [getSessionStats()]. The three SELECTs run one after the other within
    one reading of the clock. *)
Definition getSessionStats : Prog SessionStats :=
  try_catch
    (totalResult <- Db.count_sessions ;;
     activeResult <- Db.count_active_sessions ;;
     expiredResult <- Db.count_expired_sessions ;;
     ret (mkStats totalResult activeResult expiredResult))
    (fun _ => ret (mkStats 0 0 0)).

End SessionManager.

(* ================================================================== *)
(** * config/oauthErrors.ts *)
(* ================================================================== *)

Module OAuthErrors.
Local Open Scope Z_scope.

Definition createOAuthError (t : ErrorType) (msg : string) (status : Z) : AppError :=
  mkAppError t msg status.

(** [handleOAuthError(error, provider)]: the result depends on
    [error.message] only. *)
Definition handleOAuthError (error : JsValue) (provider : Provider) : AppError :=
  let msg := message_of error in
  if Js.includes msg "Invalid state parameter" then
    createOAuthError OAUTH_INVALID_STATE
      "Authentication request validation failed. Please try again." 400
  else if Js.includes msg "access_denied" then
    createOAuthError OAUTH_PROVIDER_ERROR
      ("Access denied by " ++ provider_name provider
         ++ ". Please grant the required permissions.") 403
  else if Js.includes msg "invalid_client" then
    createOAuthError OAUTH_PROVIDER_ERROR
      "OAuth configuration error. Please contact support." 500
  else if Js.includes msg "User not found" then
    createOAuthError OAUTH_PROFILE_ERROR
      "Failed to retrieve user profile. Please try again." 500
  else
    createOAuthError OAUTH_CALLBACK_ERROR
      ("Authentication with " ++ provider_name provider
         ++ " failed. Please try again.") 500.

(** The loop of [validateOAuthState]: from index [i], [count] more
    iterations of [result |= r.charCodeAt(i) ^ s.charCodeAt(i)]. Returns
    the accumulator and the number of iterations performed. *)
Fixpoint xor_loop (r s : string) (i count : nat) (result : Z) (steps : nat) : Z * nat :=
  match count with
  | O => (result, steps)
  | S count' =>
      xor_loop r s (S i) count'
               (Js.int32_or result (Js.int32_xor (Js.charCodeAt r i) (Js.charCodeAt s i)))
               (S steps)
  end.

Definition validateOAuthState (requestState sessionState : option string) : bool :=
  match requestState, sessionState with
  | Some r, Some s =>
      if negb (Js.nonempty r) || negb (Js.nonempty s) then false
      else if negb (String.length r =? String.length s)%nat then false
      else fst (xor_loop r s 0 (String.length r) 0 0) =? 0
  | _, _ => false
  end.

(** [validateOAuthConfig(config)], for a configuration that has both
    provider sections: the messages, in the order they are pushed. *)
Definition validateOAuthConfig (config : OAuthConfig) : list string :=
  ((if negb (Js.nonempty (clientId (cfg_microsoft config)))
    then ["Microsoft client ID is required"] else [])
   ++ (if negb (Js.nonempty (clientSecret (cfg_microsoft config)))
       then ["Microsoft client secret is required"] else [])
   ++ (if negb (Js.nonempty (clientId (cfg_github config)))
       then ["GitHub client ID is required"] else [])
   ++ (if negb (Js.nonempty (clientSecret (cfg_github config)))
       then ["GitHub client secret is required"] else []))%list.

End OAuthErrors.

(* ================================================================== *)
(** * config/oauth.ts *)
(* ================================================================== *)

Module OAuth.

Definition missing (name : string) (v : option string) : list string :=
  if Js.truthy v then [] else [name].

Fixpoint join (sep : string) (l : list string) : string :=
  match l with
  | [] => ""
  | [x] => x
  | x :: rest => x ++ sep ++ join sep rest
  end.

(** [loadOAuthConfig()] as a function of the environment: the
    configuration, or the message of the [Error] it throws. *)
Definition loadOAuthConfig (env : Env) : OAuthConfig + string :=
  let baseUrl := Js.opt_or_else (BASE_URL env) "http://localhost:3000" in
  let missingVars :=
    (missing "MICROSOFT_CLIENT_ID" (MICROSOFT_CLIENT_ID env)
     ++ missing "MICROSOFT_CLIENT_SECRET" (MICROSOFT_CLIENT_SECRET env)
     ++ missing "GITHUB_CLIENT_ID" (GITHUB_CLIENT_ID env)
     ++ missing "GITHUB_CLIENT_SECRET" (GITHUB_CLIENT_SECRET env))%list in
  if (0 <? length missingVars)%nat
  then inr ("Missing required environment variables: " ++ join ", " missingVars)
  else inl (mkOAuthConfig
              (mkProviderConfig (Js.opt_or_else (MICROSOFT_CLIENT_ID env) "")
                                (Js.opt_or_else (MICROSOFT_CLIENT_SECRET env) "")
                                (baseUrl ++ "/auth/callback/microsoft")
                                ["openid"; "profile"; "email"])
              (mkProviderConfig (Js.opt_or_else (GITHUB_CLIENT_ID env) "")
                                (Js.opt_or_else (GITHUB_CLIENT_SECRET env) "")
                                (baseUrl ++ "/auth/callback/github")
                                ["user:email"])).

(** The profile object handed to [normalizeProfile]: [emails] is the
    [value] of each entry. *)
Record RawProfile := mkRaw {
  raw_id : string;
  raw_username : option string;
  raw_displayName : option string;
  raw_emails : option (list string)
}.

(** [profile.emails?.[0]?.value] *)
Definition first_email (p : RawProfile) : option string :=
  match raw_emails p with
  | Some (v :: _) => Some v
  | _ => None
  end.

Definition normalizeProfile (provider : Provider) (p : RawProfile) : UserProfile :=
  match provider with
  | microsoft =>
      mkProfile (raw_id p)
        (Js.or_else
           (Js.or_else (Js.opt_or_else (raw_displayName p) "")
                       (Js.opt_or_else (option_map (Js.split_head "@") (first_email p)) ""))
           "Unknown")
        (Js.opt_or_else (first_email p) "")
        "microsoft"
  | github =>
      mkProfile (raw_id p)
        (Js.or_else
           (Js.or_else (Js.opt_or_else (raw_username p) "")
                       (Js.opt_or_else (raw_displayName p) ""))
           "Unknown")
        (Js.opt_or_else (first_email p) "")
        "github"
  end.

End OAuth.

(* ================================================================== *)
(** * services/AuthService.ts *)
(* ================================================================== *)

(** What [AuthServiceImpl] uses of the [UserService] it is constructed
    with. *)
Record UserServiceI := mkUserServiceI {
  us_findByProviderId : string -> string -> Prog (option User.t);
  us_createUser : UserProfile -> Prog User.t;
  us_updateUser : string -> PartialProfile -> Prog User.t;
  us_findById : string -> Prog (option User.t)
}.

(** What [AuthServiceImpl] uses of the [SessionManager] it is constructed
    with. *)
Record SessionManagerI := mkSessionManagerI {
  sm_create : string -> option Z -> Prog Session.t;
  sm_validate : string -> Prog (option Session.t);
  sm_destroy : string -> Prog unit
}.

(** [new UserService()] *)
Definition theUserService : UserServiceI :=
  mkUserServiceI UserService.findByProviderId UserService.createUser
                 UserService.updateUser UserService.findById.

(** [new SessionManager()] *)
Definition theSessionManager : SessionManagerI :=
  mkSessionManagerI SessionManager.create SessionManager.validate
                    SessionManager.destroy.

Module AuthService.
Local Open Scope Z_scope.
Import OAuthErrors.

Record AuthServiceImpl := mk {
  userService : UserServiceI;
  sessionManager : SessionManagerI;
  isInitialized : bool
}.

(** [new AuthServiceImpl(userService, sessionManager)] *)
Definition new (us : UserServiceI) (sm : SessionManagerI) : AuthServiceImpl :=
  mk us sm false.

(** [loadOAuthConfig()] in the current environment. *)
Definition loadOAuthConfig : Prog OAuthConfig :=
  fun w =>
    match OAuth.loadOAuthConfig (environment w) with
    | inl cfg => (Returned cfg, w)
    | inr msg => (Thrown (JsError msg), w)
    end.

(** [configurePassport(userService)] loads the configuration and registers
    the two strategies with passport; nothing of the world changes. *)
Definition configurePassport : Prog unit :=
  _ <- loadOAuthConfig ;; ret tt.

(** [initializeOAuth()]: the service with [isInitialized] set, or the
    PROVIDER_ERROR it throws. *)
Definition initializeOAuth (svc : AuthServiceImpl) : Prog AuthServiceImpl :=
  try_catch
    (_ <- loadOAuthConfig ;;
     configurePassport ;;;
     ret (mk (userService svc) (sessionManager svc) true))
    (fun _ =>
       throw (AppErr (createOAuthError OAUTH_PROVIDER_ERROR
                        "Failed to initialize OAuth2 configuration" 500))).

Definition ensureInitialized (svc : AuthServiceImpl) : Prog unit :=
  if negb (isInitialized svc)
  then throw (AppErr (createOAuthError OAUTH_PROVIDER_ERROR
                        "OAuth service not initialized. Call initializeOAuth() first." 500))
  else ret tt.

(** [error instanceof Error ? error.message : 'Unknown error'] *)
Definition message_or_unknown (error : JsValue) : string :=
  match error with
  | JsError m => m
  | AppErr _ => "Unknown error"
  end.

(** The three [fetch] calls: each one is recorded in [net_log]. *)
Definition fetch_token (p : Provider) (config : OAuthProviderConfig) (code : string)
  : Prog (Reply string) :=
  fun w =>
    (Returned (token_endpoint (network w) p (clientId config) (clientSecret config) code),
     set_net_log (net_log w ++ [TokenRequest p (clientId config) (clientSecret config) code])%list w).

Definition fetch_profile {A} (p : Provider) (endpoint : Network -> string -> Reply A)
           (accessToken : string) : Prog (Reply A) :=
  fun w =>
    (Returned (endpoint (network w) accessToken),
     set_net_log (net_log w ++ [ProfileRequest p accessToken])%list w).

Definition fetch_emails (accessToken : string) : Prog (Reply (list GhEmail)) :=
  fun w =>
    (Returned (github_emails (network w) accessToken),
     set_net_log (net_log w ++ [EmailsRequest accessToken])%list w).

(** A response that must be [ok]: the payload, or the [Error] thrown. *)
Definition expect_ok {A} (what : string) (r : Reply A) : Prog A :=
  match r with
  | NetworkFailure m => throw (JsError m)
  | HttpFailure body => throw (JsError (what ++ body))
  | HttpOk payload => ret payload
  end.

Definition exchangeMicrosoftCode (code : string) (config : OAuthProviderConfig)
  : Prog UserProfile :=
  try_catch
    (tokenResponse <- fetch_token microsoft config code ;;
     accessToken <- expect_ok "Token exchange failed: " tokenResponse ;;
     profileResponse <- fetch_profile microsoft microsoft_me accessToken ;;
     profileData <- expect_ok "Profile fetch failed: " profileResponse ;;
     ret (OAuth.normalizeProfile microsoft
            (OAuth.mkRaw (ms_id profileData) None (ms_displayName profileData)
               (Some [Js.or_else
                        (Js.or_else (Js.opt_or_else (ms_mail profileData) "")
                                    (Js.opt_or_else (ms_userPrincipalName profileData) ""))
                        ""]))))
    (fun error =>
       throw (JsError ("Microsoft token exchange failed: " ++ message_or_unknown error))).

(** [emailData.find((e) => e.primary) || emailData[0]], then
    [primaryEmail?.email || ''] *)
Definition primary_email (emailData : list GhEmail) : string :=
  match find gh_primary emailData with
  | Some e => gh_email e
  | None =>
      match emailData with
      | e :: _ => gh_email e
      | [] => ""
      end
  end.

(** [profileData.id.toString()], for an id that is a safe integer (below
    2^53 in size), as the numeric ids GitHub assigns are: the decimal
    digits. A larger number in the JSON reply is rounded to a double
    when it is parsed, and printed with an exponent from 1e21. *)
Definition number_toString (n : Z) : string :=
  DecimalString.NilZero.string_of_int (Z.to_int n).

Definition exchangeGitHubCode (code : string) (config : OAuthProviderConfig)
  : Prog UserProfile :=
  try_catch
    (tokenResponse <- fetch_token github config code ;;
     accessToken <- expect_ok "Token exchange failed: " tokenResponse ;;
     profileResponse <- fetch_profile github github_user accessToken ;;
     profileData <- expect_ok "Profile fetch failed: " profileResponse ;;
     emailResponse <- fetch_emails accessToken ;;
     email <- match emailResponse with
              | NetworkFailure m => throw (JsError m)
              | HttpFailure _ => ret ""
              | HttpOk emailData => ret (primary_email emailData)
              end ;;
     ret (OAuth.normalizeProfile github
            (OAuth.mkRaw (number_toString (gh_id profileData))
               (Some (gh_login profileData))
               (Some (Js.or_else (Js.opt_or_else (gh_name profileData) "")
                                 (gh_login profileData)))
               (Some [email]))))
    (fun error =>
       throw (JsError ("GitHub token exchange failed: " ++ message_or_unknown error))).

Definition exchangeCodeForProfile (provider : Provider) (code : string) : Prog UserProfile :=
  try_catch
    (config <- loadOAuthConfig ;;
     match provider with
     | microsoft => exchangeMicrosoftCode code (cfg_microsoft config)
     | github => exchangeGitHubCode code (cfg_github config)
     end)
    (fun _ =>
       throw (AppErr (createOAuthError OAUTH_TOKEN_ERROR
                        ("Failed to exchange authorization code for " ++ provider_name provider)
                        500))).

Definition findOrCreateUser (svc : AuthServiceImpl) (profile : UserProfile) : Prog User.t :=
  try_catch
    (found <- us_findByProviderId (userService svc)
                (profile_id profile) (profile_provider profile) ;;
     match found with
     | None => us_createUser (userService svc) profile
     | Some user =>
         let needsUpdate :=
           negb (String.eqb (User.username user) (profile_username profile))
           || negb (String.eqb (User.email user) (profile_email profile)) in
         if needsUpdate
         then us_updateUser (userService svc) (User.id user)
                (mkPartial None (Some (profile_username profile))
                           (Some (profile_email profile)) None)
         else ret user
     end)
    (fun _ =>
       throw (AppErr (createOAuthError OAUTH_PROFILE_ERROR
                        "Failed to process user profile" 500))).

Definition handleMicrosoftCallback (svc : AuthServiceImpl) (code : string)
           (state sessionState : option string) : Prog UserProfile :=
  try_catch
    (ensureInitialized svc ;;;
     if negb (Js.nonempty code)
     then throw (AppErr (createOAuthError OAUTH_CALLBACK_ERROR
                           "Authorization code is required for Microsoft OAuth callback" 400))
     else if Js.truthy state && Js.truthy sessionState
             && negb (validateOAuthState state sessionState)
     then throw (AppErr (createOAuthError OAUTH_INVALID_STATE
                           "Invalid state parameter - possible CSRF attack" 400))
     else
       profile <- exchangeCodeForProfile microsoft code ;;
       user <- findOrCreateUser svc profile ;;
       ret (mkProfile (User.id user) (User.username user) (User.email user) "microsoft"))
    (fun error => throw (AppErr (handleOAuthError error microsoft))).

Definition handleGitHubCallback (svc : AuthServiceImpl) (code : string)
           (state sessionState : option string) : Prog UserProfile :=
  try_catch
    (ensureInitialized svc ;;;
     if negb (Js.nonempty code)
     then throw (AppErr (createOAuthError OAUTH_CALLBACK_ERROR
                           "Authorization code is required for GitHub OAuth callback" 400))
     else if Js.truthy state && Js.truthy sessionState
             && negb (validateOAuthState state sessionState)
     then throw (AppErr (createOAuthError OAUTH_INVALID_STATE
                           "Invalid state parameter - possible CSRF attack" 400))
     else
       profile <- exchangeCodeForProfile github code ;;
       user <- findOrCreateUser svc profile ;;
       ret (mkProfile (User.id user) (User.username user) (User.email user) "github"))
    (fun error => throw (AppErr (handleOAuthError error github))).

(** The specification's [handleCallback(provider, code, requestState,
    storedState)]: the callback of that provider. *)
Definition handleCallback (provider : Provider) (svc : AuthServiceImpl) (code : string)
           (requestState storedState : option string) : Prog UserProfile :=
  match provider with
  | microsoft => handleMicrosoftCallback svc code requestState storedState
  | github => handleGitHubCallback svc code requestState storedState
  end.

(** [!id || id.trim().length === 0] *)
Definition blank (id : string) : bool :=
  negb (Js.nonempty id) || (String.length (Js.trim id) =? 0)%nat.

Definition createSession (svc : AuthServiceImpl) (userId : string) : Prog string :=
  try_catch
    (if blank userId
     then throw_app VALIDATION_ERROR "User ID is required to create session" 400
     else
       session <- sm_create (sessionManager svc) userId None ;;
       ret (Session.id session))
    (fun error =>
       if isAppError error then throw error
       else throw_app AUTHENTICATION_FAILED "Failed to create authentication session" 500).

Definition validateSession (svc : AuthServiceImpl) (sessionId : string)
  : Prog (option User.t) :=
  try_catch
    (if blank sessionId then ret None
     else
       session <- sm_validate (sessionManager svc) sessionId ;;
       match session with
       | None => ret None
       | Some s =>
           user <- us_findById (userService svc) (Session.userId s) ;;
           match user with
           | None => sm_destroy (sessionManager svc) sessionId ;;; ret None
           | Some u => ret (Some u)
           end
       end)
    (fun _ => ret None).

Definition destroySession (svc : AuthServiceImpl) (sessionId : string) : Prog unit :=
  try_catch
    (if blank sessionId
     then throw_app VALIDATION_ERROR "Session ID is required to destroy session" 400
     else sm_destroy (sessionManager svc) sessionId)
    (fun error =>
       if isAppError error then throw error
       else throw_app AUTHENTICATION_FAILED "Failed to destroy session" 500).

End AuthService.

(* ================================================================== *)
(** * config/passport.ts *)
(* ================================================================== *)

Module Passport.
Import OAuthErrors.

(** [handleOAuthCallback(userService, profile)]: find the user of the
    profile, or create it, or refresh its username and e-mail address. *)
Definition handleOAuthCallback (userService : UserServiceI) (profile : UserProfile)
  : Prog User.t :=
  try_catch
    (found <- us_findByProviderId userService
                (profile_id profile) (profile_provider profile) ;;
     match found with
     | None =>
         us_createUser userService
           (mkProfile (profile_id profile) (profile_username profile)
                      (profile_email profile) (profile_provider profile))
     | Some user =>
         let needsUpdate :=
           negb (String.eqb (User.username user) (profile_username profile))
           || negb (String.eqb (User.email user) (profile_email profile)) in
         if needsUpdate
         then us_updateUser userService (User.id user)
                (mkPartial None (Some (profile_username profile))
                           (Some (profile_email profile)) None)
         else ret user
     end)
    (fun _ => throw (JsError "Failed to process OAuth authentication")).

(** What the verify callback of a strategy passes to [done]: an error, or
    the user. *)
Inductive Done :=
| DoneError (error : AppError)
| DoneUser (user : User.t).

(** The verify callback of the two strategies, for the provider of the
    strategy: [queryState] is [req.query.state], [sessionState] is
    [req.session?.oauthState]. It returns what it passes to [done] and
    [req.session.oauthState] as it leaves it. *)
Definition verify (provider : Provider) (userService : UserServiceI)
           (queryState sessionState : option string) (profile : OAuth.RawProfile)
  : Prog (Done * option string) :=
  try_catch
    (if negb (validateOAuthState queryState sessionState)
     then ret (DoneError (handleOAuthError
                            (JsError "Invalid state parameter - possible CSRF attack")
                            provider),
               sessionState)
     else
       let normalizedProfile := OAuth.normalizeProfile provider profile in
       user <- handleOAuthCallback userService normalizedProfile ;;
       ret (DoneUser user, if Js.truthy sessionState then None else sessionState))
    (fun error => ret (DoneError (handleOAuthError error provider), sessionState)).

(** [generateOAuthState()] *)
Definition generateOAuthState : Prog string := draw_random.

End Passport.

(* ================================================================== *)
(** * Reasoning about computations *)
(* ================================================================== *)

(** [p] leaves the component [f] of the world as it found it, whether it
    returns or throws. *)
Definition preserves {X A : Type} (f : World -> X) (p : Prog A) : Prop :=
  forall w, f (snd (p w)) = f w.

(** [p] leaves the rows of [users] as they are; it may append rows. *)
Definition appends_users {A : Type} (p : Prog A) : Prop :=
  forall w, exists tail, users (snd (p w)) = (users w ++ tail)%list.

(** [p] never throws. *)
Definition never_throws {A : Type} (p : Prog A) : Prop :=
  forall w, exists a, fst (p w) = Returned a.

(** The status code of a thrown [AppError]. *)
Definition thrown_status {A : Type} (o : Outcome A) : option Z :=
  match o with
  | Thrown (AppErr e) => Some (statusCode e)
  | _ => None
  end.

(** The error every callback failure other than a state mismatch ends in:
    the last case of [handleOAuthError]. *)
Definition generic_failure (p : Provider) : AppError :=
  mkAppError OAUTH_CALLBACK_ERROR
    ("Authentication with " ++ provider_name p ++ " failed. Please try again.") 500.

(** The database executes every statement: no driver failure. *)
Definition db_reliable (w : World) : Prop :=
  forall n, db_fault w n = false.

(* ================================================================== *)
(** * A concrete world *)
(* ================================================================== *)

Module Example.
Local Open Scope Z_scope.

(** Identity providers that accept the code ["good"]. *)
Definition network : Network :=
  mkNetwork
    (fun _ _ _ code => if String.eqb code "good" then HttpOk "token-1"
                       else HttpFailure "bad_verification_code")
    (fun _ => HttpOk (mkMsProfile "ms-1" (Some "Alice") (Some "alice@example.com") None))
    (fun _ => HttpOk (mkGhProfile 42 "alice" None))
    (fun _ => HttpOk [mkGhEmail "alice@example.com" true]).

Definition environment : Env :=
  mkEnv None (Some "ms-client") (Some "ms-secret") (Some "gh-client") (Some "gh-secret").

(** The random source: ["r0"], ["r1"], ... *)
Definition random (n : nat) : string :=
  "r" ++ AuthService.number_toString (Z.of_nat n).

(** 2024-01-01T10:00:00.000Z *)
Definition ten_o_clock : Z := 1704103200000.

(** 2024-01-01T12:00:00.000Z *)
Definition noon : Z := 1704110400000.

(** An empty database at ten o'clock, a database that never fails. *)
Definition world : World :=
  mkWorld [] [] ten_o_clock random 0 (fun _ => false) 0 environment network [].

Definition alice : user_row :=
  mkUserRow "u-alice" "alice" "alice@example.com" "github" "gh-1"
            ten_o_clock ten_o_clock.

(** The same, with one user. *)
Definition world_with_alice : World := set_users [alice] world.

(** A session of alice that expired at 10:00:00.001, one millisecond after
    it was created. *)
Definition short_session : session_row :=
  mkSessionRow "s-1" "u-alice" ten_o_clock (ten_o_clock + 1).

(** Ten milliseconds after ten o'clock, with alice and her session. *)
Definition world_soon_after : World :=
  set_clock (ten_o_clock + 10) (set_sessions [short_session] world_with_alice).

(** The same at noon of the same day, two hours after the session
    expired. *)
Definition world_at_noon : World :=
  set_clock noon (set_sessions [short_session] world_with_alice).

(** A service that was constructed and never initialized. *)
Definition fresh_service : AuthService.AuthServiceImpl :=
  AuthService.new theUserService theSessionManager.

(** The service after a successful [initializeOAuth()]. *)
Definition ready_service : AuthService.AuthServiceImpl :=
  AuthService.mk theUserService theSessionManager true.

End Example.

(* ================================================================== *)
(** * Letter-casings of a provider name *)
(* ================================================================== *)

Module Casing.

Definition is_lower_letter (c : ascii) : bool :=
  let n := N_of_ascii c in N.leb 97 n && N.leb n 122.

(** The capital of a small ASCII letter. *)
Definition capital (c : ascii) : ascii := ascii_of_N (N_of_ascii c - 32).

(** [a] is [b], or [b] is a small letter and [a] is its capital. *)
Definition casing_char (a b : ascii) : bool :=
  Ascii.eqb a b || (is_lower_letter b && Ascii.eqb a (capital b)).

(** [p] is a letter-casing of the lower-case name [name]: the same
    letters, each one small or capital. *)
Fixpoint casing_of (name p : string) : bool :=
  match name, p with
  | EmptyString, EmptyString => true
  | String b name', String a p' => casing_char a b && casing_of name' p'
  | _, _ => false
  end.

End Casing.

(* ================================================================== *)
(** * Vocabulary of the statements about the stores *)
(* ================================================================== *)

(** [w'] is [w] except for the number of random values drawn. *)
Definition same_but_random (w w' : World) : Prop :=
  w' = set_random_pos (random_pos w') w.

(** The rows of [users] that carry the identity [(provider, provider_id)]. *)
Definition with_identity (provider provider_id : string) (rows : list user_row)
  : list user_row :=
  filter (fun r => String.eqb (u_provider_id r) provider_id
                   && String.eqb (u_provider r) provider) rows.

(** Id, provider and provider-assigned id of every user, in table order. *)
Definition identities (w : World) : list (string * string * string) :=
  map (fun r => (u_id r, u_provider r, u_provider_id r)) (users w).

(** The kinds and statuses of the errors of the Session Store's [create]. *)
Definition create_error (e : AppError) : Prop :=
  (type e = VALIDATION_ERROR /\ statusCode e = 400%Z)
  \/ (type e = USER_NOT_FOUND /\ statusCode e = 404%Z)
  \/ (type e = DATABASE_ERROR /\ statusCode e = 500%Z).

(** On a table whose ids are distinct (the primary key), [p] leaves the
    identity of every user as it is; it may add users. *)
Definition keeps_identities {A : Type} (p : Prog A) : Prop :=
  forall w,
    NoDup (map u_id (users w)) ->
    exists tail, identities (snd (p w)) = (identities w ++ tail)%list.

(** The error [createUser] throws for an identity that is taken: the
    specification's ConflictError. Its [type] is VALIDATION_ERROR, its
    status 409. *)
Definition conflict_error : AppError :=
  mkAppError VALIDATION_ERROR "User already exists with this provider ID" 409.

(** Scenario A of the specification: the profile of alice at GitHub. *)
Definition alice_profile : UserProfile :=
  mkProfile "gh-1" "alice" "a@x.com" "github".

(** Every value [p] throws satisfies [P]. *)
Definition throws_only {A : Type} (P : JsValue -> Prop) (p : Prog A) : Prop :=
  forall w v, fst (p w) = Thrown v -> P v.

(** The value is an [AppError] whose kind and status satisfy [P]. *)
Definition app_error (P : ErrorType -> Z -> Prop) (v : JsValue) : Prop :=
  exists e, v = AppErr e /\ P (type e) (statusCode e).

(** The constraints of the schema on the two tables: the primary key of
    [users], UNIQUE(provider, provider_id), the primary key of [sessions],
    and the foreign key from [sessions.user_id] to [users.id]. *)
Definition tables_wf (w : World) : Prop :=
  NoDup (map u_id (users w))
  /\ NoDup (map (fun r => (u_provider r, u_provider_id r)) (users w))
  /\ NoDup (map s_id (sessions w))
  /\ forall s, In s (sessions w) -> In (s_user_id s) (map u_id (users w)).

(** [p] keeps the constraints of the schema. *)
Definition keeps_wf {A : Type} (p : Prog A) : Prop :=
  forall w, tables_wf w -> tables_wf (snd (p w)).

(** The two tables. *)
Definition tables (w : World) : list user_row * list session_row :=
  (users w, sessions w).

(** The kind and the status are one of the listed pairs. *)
Definition one_of (l : list (ErrorType * Z)) (t : ErrorType) (status : Z) : Prop :=
  In (t, status) l.

(** What the body of a store method may throw before its [catch] clause
    sees it: an [Error] of the driver, or an [AppError] of the listed
    kinds. *)
Definition raw_or (l : list (ErrorType * Z)) (v : JsValue) : Prop :=
  (exists m, v = JsError m) \/ app_error (one_of l) v.

(** The [User] that [User.fromDatabaseRow] builds from a row with a
    non-empty id. *)
Definition row_user (r : user_row) : User.t :=
  User.mk (u_id r) (u_username r) (u_email r) (u_provider r) (u_provider_id r)
          (u_created_at r) (u_updated_at r).

(** The [Session] that [Session.fromDatabaseRow] builds from a row with a
    non-empty id. *)
Definition row_session (r : session_row) : Session.t :=
  Session.mk (s_id r) (s_user_id r) (s_created_at r) (s_expires_at r).

(** The [User] that [updateUser] writes for a patch at time [t], given the
    stored row: each field of the patch that is not [undefined] is trimmed
    and assigned. *)
Definition merged_user (patch : PartialProfile) (r : user_row) (t : Z) : User.t :=
  User.mk (u_id r)
          (User.or_keep (option_map Js.trim (partial_username patch)) (u_username r))
          (User.or_keep (option_map Js.trim (partial_email patch)) (u_email r))
          (User.or_keep (option_map Js.trim (partial_provider patch)) (u_provider r))
          (User.or_keep (option_map Js.trim (partial_id patch)) (u_provider_id r))
          (u_created_at r) t.

(** The table [users] after the row of id [id] was replaced by [u]. *)
Definition replace_user (id : string) (u : User.t) (rows : list user_row) : list user_row :=
  map (fun x => if String.eqb (u_id x) id
                then mkUserRow (u_id x) (User.username u) (User.email u) (User.provider u)
                               (User.providerId u) (u_created_at x) (User.updatedAt u)
                else x) rows.

(** When [p] throws, the two tables are as it found them. *)
Definition fails_clean {A : Type} (p : Prog A) : Prop :=
  forall w v, fst (p w) = Thrown v -> tables (snd (p w)) = tables w.

(** A statement that leaves the tables as they were when it throws and
    when it reports that it changed no row. *)
Definition clean_write (stmt : Prog Z) : Prop :=
  forall w,
    match stmt w with
    | (Returned changes, w1) => changes = 0%Z -> tables w1 = tables w
    | (Thrown _, w1) => tables w1 = tables w
    end.

(** The table [sessions] after the expiry of the rows of id [id] was set
    to [t]. *)
Definition with_expiry (id : string) (t : Z) (rows : list session_row) : list session_row :=
  map (fun x => if String.eqb (s_id x) id
                then mkSessionRow (s_id x) (s_user_id x) (s_created_at x) t
                else x) rows.

(** A GitHub that refuses to list the e-mail addresses of the account. *)
Definition private_email_network : Network :=
  mkNetwork (token_endpoint Example.network) (microsoft_me Example.network)
            (github_user Example.network) (fun _ => HttpFailure "Forbidden").

(** The empty database of [Example.world], in front of that GitHub. *)
Definition world_private_email : World :=
  mkWorld [] [] Example.ten_o_clock Example.random 0 (fun _ => false) 0
          Example.environment private_email_network [].

(* ================================================================== *)
(** * Properties *)
(* ================================================================== *)

(** ** Code units and the bitwise operators *)

Module JsFacts.
Local Open Scope Z_scope.

Lemma to_int32_small z :
  -2147483648 <= z < 2147483648 -> Js.to_int32 z = z.
Proof.
  intros H. unfold Js.to_int32.
  rewrite Z.mod_small by lia. lia.
Qed.

Lemma code_range c : 0 <= Js.code c < 256.
Proof.
  unfold Js.code.
  pose proof (N_ascii_bounded c) as H.
  lia.
Qed.

Lemma code_inj a b : Js.code a = Js.code b -> a = b.
Proof.
  unfold Js.code. intros H.
  apply N2Z.inj in H.
  rewrite <- (ascii_N_embedding a), <- (ascii_N_embedding b).
  now rewrite H.
Qed.

Lemma charCodeAt_range s i : 0 <= Js.charCodeAt s i < 256.
Proof.
  unfold Js.charCodeAt. destruct (String.get i s).
  - apply code_range.
  - lia.
Qed.

Lemma log2_byte a : 0 <= a < 256 -> Z.log2 a < 8.
Proof.
  intros [H0 H1].
  destruct (Z.eq_dec a 0) as [-> | Hn].
  - reflexivity.
  - apply Z.log2_lt_pow2; lia.
Qed.

Lemma byte_of_log2 a : 0 <= a -> Z.log2 a < 8 -> 0 <= a < 256.
Proof.
  intros H0 Hl. split; [assumption|].
  destruct (Z.eq_dec a 0) as [-> | Hn]; [lia|].
  apply (Z.log2_lt_pow2 a 8); lia.
Qed.

Lemma lor_byte a b : 0 <= a < 256 -> 0 <= b < 256 -> 0 <= Z.lor a b < 256.
Proof.
  intros Ha Hb.
  apply byte_of_log2.
  - apply Z.lor_nonneg; lia.
  - rewrite Z.log2_lor by lia.
    pose proof (log2_byte a Ha). pose proof (log2_byte b Hb). lia.
Qed.

Lemma lxor_byte a b : 0 <= a < 256 -> 0 <= b < 256 -> 0 <= Z.lxor a b < 256.
Proof.
  intros Ha Hb.
  apply byte_of_log2.
  - apply Z.lxor_nonneg; lia.
  - pose proof (Z.log2_lxor a b) as H.
    pose proof (log2_byte a Ha). pose proof (log2_byte b Hb). lia.
Qed.

(** On code units the 32-bit operators do not wrap. *)
Lemma int32_xor_byte a b :
  0 <= a < 256 -> 0 <= b < 256 -> Js.int32_xor a b = Z.lxor a b.
Proof.
  intros Ha Hb. unfold Js.int32_xor.
  rewrite (to_int32_small a), (to_int32_small b) by lia.
  apply to_int32_small. pose proof (lxor_byte a b Ha Hb). lia.
Qed.

Lemma int32_or_byte a b :
  0 <= a < 256 -> 0 <= b < 256 -> Js.int32_or a b = Z.lor a b.
Proof.
  intros Ha Hb. unfold Js.int32_or.
  rewrite (to_int32_small a), (to_int32_small b) by lia.
  apply to_int32_small. pose proof (lor_byte a b Ha Hb). lia.
Qed.

Lemma nonempty_true s : Js.nonempty s = true <-> s <> "".
Proof.
  destruct s; simpl; split; intros H; try discriminate; try reflexivity.
  now contradiction H.
Qed.

Lemma nonempty_false s : Js.nonempty s = false <-> s = "".
Proof.
  destruct s; simpl; split; intros H; try discriminate; reflexivity.
Qed.

Lemma truthy_true v : Js.truthy v = true <-> exists s, v = Some s /\ s <> "".
Proof.
  destruct v as [[|c s]|]; simpl; split; intros H; try discriminate.
  - destruct H as [s [E N]]. inversion E; subst. now contradiction N.
  - exists (String c s). split; [reflexivity | discriminate].
  - reflexivity.
  - destruct H as [s [E _]]. discriminate.
Qed.

Lemma truthy_false v : Js.truthy v = false <-> v = None \/ v = Some "".
Proof.
  destruct v as [[|c s]|]; simpl; split; intros H; auto; try discriminate.
  destruct H as [H | H]; discriminate.
Qed.

End JsFacts.

(** ** [trim] and [toLowerCase] *)

Module StringFacts.

Lemma or_else_empty s : Js.or_else s "" = s.
Proof. destruct s; reflexivity. Qed.

Lemma opt_or_else_some s : Js.opt_or_else (Some s) "" = s.
Proof. apply or_else_empty. Qed.

Lemma length_zero s : (String.length s =? 0)%nat = negb (Js.nonempty s).
Proof. destruct s; reflexivity. Qed.

Lemma trim_end_idem s : Js.trim_end (Js.trim_end s) = Js.trim_end s.
Proof.
  induction s as [|c s IH]; simpl; [reflexivity|].
  destruct (Js.trim_end s) as [|d t] eqn:E.
  - destruct (Js.is_space c) eqn:Ec; simpl; [reflexivity|].
    now rewrite Ec.
  - simpl. simpl in IH. now rewrite IH.
Qed.

Lemma trim_end_head c s :
  Js.is_space c = false -> exists t, Js.trim_end (String c s) = String c t.
Proof.
  intros Hc. simpl.
  destruct (Js.trim_end s) as [|d t].
  - rewrite Hc. now exists "".
  - now exists (String d t).
Qed.

Lemma trim_start_head s :
  Js.trim_start s = "" \/
  exists c t, Js.trim_start s = String c t /\ Js.is_space c = false.
Proof.
  induction s as [|c s IH]; simpl.
  - now left.
  - destruct (Js.is_space c) eqn:Ec; [exact IH|].
    right. now exists c, s.
Qed.

Lemma trim_idem s : Js.trim (Js.trim s) = Js.trim s.
Proof.
  unfold Js.trim.
  destruct (trim_start_head s) as [-> | [c [t [-> Hc]]]]; [reflexivity|].
  destruct (trim_end_head c t Hc) as [t' E].
  rewrite E. simpl Js.trim_start. rewrite Hc.
  rewrite <- E. apply trim_end_idem.
Qed.

Lemma trim_end_no_space s :
  User.all_chars (fun c => negb (Js.is_space c)) s = true -> Js.trim_end s = s.
Proof.
  induction s as [|c s IH]; simpl; [reflexivity|].
  intros H. apply andb_prop in H. destruct H as [Hc Hs].
  rewrite (IH Hs).
  destruct s; [|reflexivity].
  apply negb_true_iff in Hc. now rewrite Hc.
Qed.

Lemma trim_no_space s :
  User.all_chars (fun c => negb (Js.is_space c)) s = true -> Js.trim s = s.
Proof.
  intros H. unfold Js.trim.
  assert (E : Js.trim_start s = s).
  { destruct s as [|c s]; [reflexivity|]. simpl in *.
    apply andb_prop in H. destruct H as [Hc _].
    apply negb_true_iff in Hc. now rewrite Hc. }
  rewrite E. now apply trim_end_no_space.
Qed.

(** Lower-casing neither makes nor removes white space. *)
Lemma is_space_lower c : Js.is_space (Js.lower_char c) = Js.is_space c.
Proof.
  destruct c as [[] [] [] [] [] [] [] []]; reflexivity.
Qed.

Lemma no_space_lower s :
  User.all_chars (fun c => negb (Js.is_space c)) (Js.toLowerCase s)
  = User.all_chars (fun c => negb (Js.is_space c)) s.
Proof.
  induction s as [|c s IH]; simpl; [reflexivity|].
  now rewrite is_space_lower, IH.
Qed.

(** A provider name that passes the check has no white space to trim. *)
Lemma valid_provider_trim p :
  UserService.isValidProvider p = true -> Js.trim p = p.
Proof.
  unfold UserService.isValidProvider, Js.array_includes. simpl.
  rewrite orb_false_r. intros H.
  apply trim_no_space. rewrite <- no_space_lower.
  apply orb_prop in H. destruct H as [H | H];
    apply String.eqb_eq in H; rewrite H; reflexivity.
Qed.

Lemma valid_provider_nonempty p :
  UserService.isValidProvider p = true -> Js.nonempty p = true.
Proof.
  destruct p; [|reflexivity]. intros H. discriminate H.
Qed.

Lemma casing_char_lower a b :
  Casing.casing_char a b = true -> Js.lower_char a = Js.lower_char b.
Proof.
  unfold Casing.casing_char. intros H.
  apply orb_prop in H. destruct H as [H | H].
  - apply Ascii.eqb_eq in H. now subst.
  - apply andb_prop in H. destruct H as [Hl H].
    apply Ascii.eqb_eq in H. subst a.
    destruct b as [[] [] [] [] [] [] [] []]; try discriminate Hl; reflexivity.
Qed.

Lemma casing_of_lower name : forall p,
  Casing.casing_of name p = true -> Js.toLowerCase p = Js.toLowerCase name.
Proof.
  induction name as [|b name IH]; intros [|a p] H; simpl in H; try discriminate.
  - reflexivity.
  - apply andb_prop in H. destruct H as [Hc Hp].
    simpl. now rewrite (casing_char_lower a b Hc), (IH p Hp).
Qed.

End StringFacts.

(** ** The state-token validator (config/oauthErrors.ts) *)

Module StateTokenFacts.
Local Open Scope Z_scope.
Import OAuthErrors.

Lemma get_some s : forall i, (i < String.length s)%nat -> exists c, String.get i s = Some c.
Proof.
  induction s as [|a s IH]; simpl; intros i Hi.
  - lia.
  - destruct i as [|i].
    + now exists a.
    + apply IH. lia.
Qed.

Lemma get_none s : forall i, (String.length s <= i)%nat -> String.get i s = None.
Proof.
  induction s as [|a s IH]; simpl; intros i Hi.
  - reflexivity.
  - destruct i as [|i]; [lia|]. apply IH. lia.
Qed.

(** Within both strings, equal code units are equal characters. *)
Lemma charCodeAt_eq_get r s i :
  (i < String.length r)%nat -> (i < String.length s)%nat ->
  (Js.charCodeAt r i = Js.charCodeAt s i <-> String.get i r = String.get i s).
Proof.
  intros Hr Hs. unfold Js.charCodeAt.
  destruct (get_some r i Hr) as [a ->].
  destruct (get_some s i Hs) as [b ->].
  split; intros H.
  - f_equal. now apply JsFacts.code_inj.
  - now inversion H.
Qed.

Lemma xor_loop_steps r s : forall count i acc steps,
  snd (xor_loop r s i count acc steps) = (steps + count)%nat.
Proof.
  induction count as [|count IH]; intros i acc steps; simpl.
  - lia.
  - rewrite IH. lia.
Qed.

Lemma xor_step_byte r s i acc :
  0 <= acc < 256 ->
  Js.int32_or acc (Js.int32_xor (Js.charCodeAt r i) (Js.charCodeAt s i))
  = Z.lor acc (Z.lxor (Js.charCodeAt r i) (Js.charCodeAt s i))
  /\ 0 <= Z.lor acc (Z.lxor (Js.charCodeAt r i) (Js.charCodeAt s i)) < 256.
Proof.
  intros Hacc.
  pose proof (JsFacts.charCodeAt_range r i) as Hr.
  pose proof (JsFacts.charCodeAt_range s i) as Hs.
  pose proof (JsFacts.lxor_byte _ _ Hr Hs) as Hx.
  rewrite JsFacts.int32_xor_byte by assumption.
  rewrite JsFacts.int32_or_byte by assumption.
  split; [reflexivity|]. now apply JsFacts.lor_byte.
Qed.

(** The accumulator is the bitwise OR of the initial value and of the XOR
    at every position the loop ranges over. *)
Lemma xor_loop_bits r s b : forall count i acc steps,
  0 <= acc < 256 ->
  Z.testbit (fst (xor_loop r s i count acc steps)) b
  = Z.testbit acc b
    || existsb (fun j => Z.testbit (Z.lxor (Js.charCodeAt r j) (Js.charCodeAt s j)) b)
               (seq i count).
Proof.
  induction count as [|count IH]; intros i acc steps Hacc; simpl.
  - now rewrite orb_false_r.
  - destruct (xor_step_byte r s i acc Hacc) as [-> Hrange].
    rewrite IH by assumption.
    rewrite Z.lor_spec. now rewrite orb_assoc.
Qed.

(** The accumulator ends at zero exactly when it started at zero and the
    two strings agree at every position. *)
Lemma xor_loop_zero r s : forall count i acc steps,
  0 <= acc < 256 ->
  (fst (xor_loop r s i count acc steps) = 0 <->
   acc = 0 /\ forall j, (i <= j < i + count)%nat -> Js.charCodeAt r j = Js.charCodeAt s j).
Proof.
  induction count as [|count IH]; intros i acc steps Hacc; simpl.
  - split.
    + intros ->. split; [reflexivity | intros j Hj; lia].
    + now intros [-> _].
  - destruct (xor_step_byte r s i acc Hacc) as [-> Hrange].
    rewrite IH by assumption.
    rewrite Z.lor_eq_0_iff.
    split.
    + intros [[Ha Hx] Hrest]. split; [assumption|].
      intros j Hj.
      destruct (Nat.eq_dec j i) as [-> | Hne].
      * now apply Z.lxor_eq.
      * apply Hrest. lia.
    + intros [Ha Hall]. split; [split|].
      * assumption.
      * rewrite (Hall i) by lia. apply Z.lxor_nilpotent.
      * intros j Hj. apply Hall. lia.
Qed.

(** On two non-empty strings of equal length the validator compares every
    character. *)
Lemma validate_equal_length r s :
  r <> "" -> s <> "" -> String.length r = String.length s ->
  (validateOAuthState (Some r) (Some s) = true <->
   forall i, (i < String.length r)%nat -> String.get i r = String.get i s).
Proof.
  intros Hr Hs Hlen. unfold validateOAuthState.
  apply JsFacts.nonempty_true in Hr. apply JsFacts.nonempty_true in Hs.
  rewrite Hr, Hs. simpl.
  rewrite Hlen, Nat.eqb_refl. simpl. rewrite <- Hlen.
  rewrite Z.eqb_eq.
  rewrite xor_loop_zero by lia.
  split.
  - intros [_ H] i Hi. apply charCodeAt_eq_get; [lia | lia |]. apply H. lia.
  - intros H. split; [reflexivity|].
    intros j Hj. apply charCodeAt_eq_get; [lia | lia |]. apply H. lia.
Qed.

Lemma pointwise_equal r s :
  String.length r = String.length s ->
  (forall i, (i < String.length r)%nat -> String.get i r = String.get i s) ->
  r = s.
Proof.
  intros Hlen H. apply String.get_correct. intros n.
  destruct (Nat.lt_ge_cases n (String.length r)) as [Hlt | Hge].
  - now apply H.
  - rewrite (get_none r n Hge). rewrite (get_none s n); [reflexivity | lia].
Qed.

Lemma validate_true_iff_equal (x y : option string) :
  validateOAuthState x y = true <-> exists t, x = Some t /\ y = Some t /\ t <> "".
Proof.
  split.
  - destruct x as [r|], y as [s|]; try (simpl; discriminate).
    intros H.
    assert (Hne : Js.nonempty r = true /\ Js.nonempty s = true
                  /\ String.length r = String.length s).
    { unfold validateOAuthState in H.
      destruct (Js.nonempty r), (Js.nonempty s); simpl in H; try discriminate.
      destruct (Nat.eqb_spec (String.length r) (String.length s)) as [E|E];
        simpl in H; try discriminate.
      auto. }
    destruct Hne as [Hr [Hs Hlen]].
    apply JsFacts.nonempty_true in Hr. apply JsFacts.nonempty_true in Hs.
    pose proof (proj1 (validate_equal_length r s Hr Hs Hlen) H) as Hall.
    pose proof (pointwise_equal r s Hlen Hall) as ->.
    exists s. auto.
  - intros [t [-> [-> Ht]]].
    apply (validate_equal_length t t Ht Ht eq_refl). reflexivity.
Qed.

(** The cases of the repository's tests. *)
Example validate_same_state :
  validateOAuthState (Some "test-state-123") (Some "test-state-123") = true.
Proof. reflexivity. Qed.

Example validate_different_states :
  validateOAuthState (Some "abc123") (Some "def456") = false.
Proof. reflexivity. Qed.

Example validate_different_lengths :
  validateOAuthState (Some "abc") (Some "abcdef") = false.
Proof. reflexivity. Qed.

Example validate_undefined :
  validateOAuthState None (Some "abc123") = false
  /\ validateOAuthState (Some "abc123") None = false
  /\ validateOAuthState None None = false.
Proof. repeat split. Qed.

End StateTokenFacts.

(** C2. For all inputs [requestToken] and [storedToken], each possibly
    absent, the state-token validator returns true if and only if both are
    present, non-empty, of equal length and equal character by character.
    In particular [validate(x, x)] is true for every non-empty [x], and
    [validate(x, y)] is false whenever [x] differs from [y] or either is
    empty or undefined. On the equal-length path the result is the test of
    an accumulator against zero; the loop runs once per character whatever
    the strings are, and the accumulator is the bitwise OR of the XORs of
    all positions: no position is skipped after a mismatch. *)
Theorem validateOAuthState_spec :
  (forall requestToken storedToken : option string,
      OAuthErrors.validateOAuthState requestToken storedToken = true <->
      exists x y,
        requestToken = Some x /\ storedToken = Some y
        /\ x <> "" /\ y <> ""
        /\ String.length x = String.length y
        /\ forall i, (i < String.length x)%nat -> String.get i x = String.get i y)
  /\ (forall x : string,
         x <> "" -> OAuthErrors.validateOAuthState (Some x) (Some x) = true)
  /\ (forall x y : option string,
         x <> y \/ x = None \/ x = Some "" \/ y = None \/ y = Some "" ->
         OAuthErrors.validateOAuthState x y = false)
  /\ (forall r s : string,
         r <> "" -> s <> "" -> String.length r = String.length s ->
         let loop := OAuthErrors.xor_loop r s 0 (String.length r) 0 0 in
         OAuthErrors.validateOAuthState (Some r) (Some s) = (fst loop =? 0)%Z
         /\ snd loop = String.length r
         /\ forall b : Z,
             Z.testbit (fst loop) b
             = existsb (fun i => Z.testbit (Z.lxor (Js.charCodeAt r i) (Js.charCodeAt s i)) b)
                       (seq 0 (String.length r))).
Proof.
  split; [|split; [|split]].
  - intros x y. rewrite StateTokenFacts.validate_true_iff_equal. split.
    + intros [t [-> [-> Ht]]]. exists t, t. repeat split; auto.
    + intros [r [s [-> [-> [Hr [Hs [Hlen Hall]]]]]]].
      pose proof (StateTokenFacts.pointwise_equal r s Hlen Hall) as ->.
      exists s. auto.
  - intros x Hx. apply StateTokenFacts.validate_true_iff_equal. exists x. auto.
  - intros x y H.
    destruct (OAuthErrors.validateOAuthState x y) eqn:E; [|reflexivity].
    apply StateTokenFacts.validate_true_iff_equal in E.
    destruct E as [t [-> [-> Ht]]].
    destruct H as [H | [H | [H | [H | H]]]]; try discriminate.
    + now contradiction H.
    + inversion H. now contradiction Ht.
    + inversion H. now contradiction Ht.
  - intros r s Hr Hs Hlen loop. subst loop. repeat split.
    + unfold OAuthErrors.validateOAuthState.
      apply JsFacts.nonempty_true in Hr. apply JsFacts.nonempty_true in Hs.
      rewrite Hr, Hs, Hlen, Nat.eqb_refl. reflexivity.
    + now rewrite StateTokenFacts.xor_loop_steps.
    + intros b. rewrite StateTokenFacts.xor_loop_bits by lia.
      now rewrite Z.testbit_0_l.
Qed.

(** ** The Auth Orchestrator (services/AuthService.ts) *)

Module AuthFacts.
Local Open Scope Z_scope.
Import AuthService OAuthErrors.

(** What [handleOAuthError] makes of the errors the callbacks raise
    themselves. *)
Lemma handleOAuthError_invalid_state p :
  handleOAuthError
    (AppErr (createOAuthError OAUTH_INVALID_STATE
               "Invalid state parameter - possible CSRF attack" 400)) p
  = mkAppError OAUTH_INVALID_STATE
      "Authentication request validation failed. Please try again." 400.
Proof. reflexivity. Qed.

Lemma handleOAuthError_not_initialized p :
  handleOAuthError
    (AppErr (createOAuthError OAUTH_PROVIDER_ERROR
               "OAuth service not initialized. Call initializeOAuth() first." 500)) p
  = generic_failure p.
Proof. destruct p; reflexivity. Qed.

Lemma handleOAuthError_code_required_microsoft :
  handleOAuthError
    (AppErr (createOAuthError OAUTH_CALLBACK_ERROR
               "Authorization code is required for Microsoft OAuth callback" 400)) microsoft
  = generic_failure microsoft.
Proof. reflexivity. Qed.

Lemma handleOAuthError_code_required_github :
  handleOAuthError
    (AppErr (createOAuthError OAUTH_CALLBACK_ERROR
               "Authorization code is required for GitHub OAuth callback" 400)) github
  = generic_failure github.
Proof. reflexivity. Qed.

(** [initializeOAuth()] in the example environment turns the fresh
    service into the ready one; with a variable missing it throws the
    PROVIDER_ERROR and the service stays as it was. *)
Example initializeOAuth_example :
  initializeOAuth Example.fresh_service Example.world
  = (Returned Example.ready_service, Example.world).
Proof. reflexivity. Qed.

Example initializeOAuth_without_secret :
  fst (initializeOAuth Example.fresh_service
         (mkWorld [] [] Example.ten_o_clock Example.random 0 (fun _ => false) 0
                  (mkEnv None (Some "ms-client") None (Some "gh-client") (Some "gh-secret"))
                  Example.network []))
  = Thrown (AppErr (mkAppError OAUTH_PROVIDER_ERROR
                      "Failed to initialize OAuth2 configuration" 500)).
Proof. reflexivity. Qed.

(** Before initialization both callbacks stop at the gate; the
    PROVIDER_ERROR it raises reaches the caller as the generic failure. *)
Lemma callback_before_initialization p us sm code st ss w :
  handleCallback p (mk us sm false) code st ss w
  = (Thrown (AppErr (generic_failure p)), w).
Proof.
  destruct p; reflexivity.
Qed.

(** With an empty code both callbacks fail with the generic failure,
    initialized or not, and leave the world untouched. *)
Lemma callback_empty_code p svc st ss w :
  handleCallback p svc "" st ss w = (Thrown (AppErr (generic_failure p)), w).
Proof.
  destruct svc as [us sm [|]].
  - destruct p; reflexivity.
  - apply callback_before_initialization.
Qed.

End AuthFacts.

Module CallbackFacts.
Local Open Scope Z_scope.
Import AuthService OAuthErrors.

(** The steps of a callback after the two checks: token exchange, upsert,
    and the profile returned; a failure goes through [handleOAuthError]. *)
Lemma callback_skips_state_check p us sm c code st ss w :
  Js.truthy st && Js.truthy ss && negb (validateOAuthState st ss) = false ->
  handleCallback p (mk us sm true) (String c code) st ss w
  = try_catch
      (profile <- exchangeCodeForProfile p (String c code) ;;
       user <- findOrCreateUser (mk us sm true) profile ;;
       ret (mkProfile (User.id user) (User.username user) (User.email user)
                      (provider_name p)))
      (fun error => throw (AppErr (handleOAuthError error p))) w.
Proof.
  intros H.
  destruct p; unfold handleCallback, handleMicrosoftCallback, handleGitHubCallback;
    unfold try_catch at 1; unfold bind at 1; simpl; rewrite H; reflexivity.
Qed.

Lemma callback_rejects_state p us sm c code st ss w :
  Js.truthy st && Js.truthy ss && negb (validateOAuthState st ss) = true ->
  handleCallback p (mk us sm true) (String c code) st ss w
  = (Thrown (AppErr (mkAppError OAUTH_INVALID_STATE
                       "Authentication request validation failed. Please try again." 400)),
     w).
Proof.
  intros H.
  destruct p; unfold handleCallback, handleMicrosoftCallback, handleGitHubCallback;
    unfold try_catch at 1; unfold bind at 1; simpl; rewrite H; reflexivity.
Qed.

(** The token exchange begins with a request to the provider's token
    endpoint that carries the authorization code. *)
Lemma exchange_sends_token_request p code w cfg :
  OAuth.loadOAuthConfig (environment w) = inl cfg ->
  let pc := match p with microsoft => cfg_microsoft cfg | github => cfg_github cfg end in
  exists rest,
    net_log (snd (exchangeCodeForProfile p code w))
    = (net_log w ++ TokenRequest p (clientId pc) (clientSecret pc) code :: rest)%list.
Proof.
  intros Hcfg pc. subst pc.
  unfold exchangeCodeForProfile, try_catch, bind, loadOAuthConfig.
  rewrite Hcfg.
  destruct p.
  - unfold exchangeMicrosoftCode, try_catch, bind, fetch_token.
    destruct (token_endpoint (network w) microsoft _ _ code) as [m|body|tok]; simpl.
    + exists []. reflexivity.
    + exists []. reflexivity.
    + unfold fetch_profile.
      destruct (microsoft_me _ tok) as [m|body|pd]; simpl;
        eexists; rewrite <- app_assoc; simpl; reflexivity.
  - unfold exchangeGitHubCode, try_catch, bind, fetch_token.
    destruct (token_endpoint (network w) github _ _ code) as [m|body|tok]; simpl.
    + exists []. reflexivity.
    + exists []. reflexivity.
    + unfold fetch_profile.
      destruct (github_user _ tok) as [m|body|pd]; simpl.
      * eexists; rewrite <- app_assoc; simpl; reflexivity.
      * eexists; rewrite <- app_assoc; simpl; reflexivity.
      * unfold fetch_emails.
        destruct (github_emails _ tok) as [m|body|es]; simpl;
          eexists; rewrite <- !app_assoc; simpl; reflexivity.
Qed.

End CallbackFacts.

(** C1, as the code has it. For every callback invocation of
    [handleCallback] (Microsoft or GitHub) on an initialized Orchestrator
    with a non-empty authorization code: if both [requestState] and
    [storedState] are present and non-empty and they fail the state-token
    validation, the call fails with the INVALID_STATE error, status 400, and
    the world is left as it was: the provider is not contacted. If either
    state value is absent or empty, the call is the one with both states
    absent: validation is skipped, the next step is the token exchange, and
    when the configuration loads the exchange sends the provider's token
    endpoint a request carrying the code. *)
Theorem callback_state_validation :
  forall (p : Provider) (us : UserServiceI) (sm : SessionManagerI)
         (code : string) (requestState storedState : option string) (w : World),
    code <> "" ->
    let svc := AuthService.mk us sm true in
    (Js.truthy requestState = true -> Js.truthy storedState = true ->
     OAuthErrors.validateOAuthState requestState storedState = false ->
     AuthService.handleCallback p svc code requestState storedState w
     = (Thrown (AppErr (mkAppError OAUTH_INVALID_STATE
                          "Authentication request validation failed. Please try again."
                          400)),
        w)
     /\ net_log (snd (AuthService.handleCallback p svc code requestState storedState w))
        = net_log w)
    /\ (Js.truthy requestState = false \/ Js.truthy storedState = false ->
        AuthService.handleCallback p svc code requestState storedState w
        = AuthService.handleCallback p svc code None None w
        /\ AuthService.handleCallback p svc code requestState storedState w
           = try_catch
               (profile <- AuthService.exchangeCodeForProfile p code ;;
                user <- AuthService.findOrCreateUser svc profile ;;
                ret (mkProfile (User.id user) (User.username user) (User.email user)
                               (provider_name p)))
               (fun error => throw (AppErr (OAuthErrors.handleOAuthError error p))) w
        /\ forall cfg,
            OAuth.loadOAuthConfig (environment w) = inl cfg ->
            let pc := match p with
                      | microsoft => cfg_microsoft cfg
                      | github => cfg_github cfg
                      end in
            exists rest,
              net_log (snd (AuthService.exchangeCodeForProfile p code w))
              = (net_log w ++ TokenRequest p (clientId pc) (clientSecret pc) code :: rest)%list).
Proof.
  intros p us sm code st ss w Hcode svc. subst svc.
  destruct code as [|c code]; [now contradiction Hcode|].
  split.
  - intros Hst Hss Hval.
    assert (H : Js.truthy st && Js.truthy ss
                && negb (OAuthErrors.validateOAuthState st ss) = true)
      by now rewrite Hst, Hss, Hval.
    rewrite (CallbackFacts.callback_rejects_state p us sm c code st ss w H).
    split; reflexivity.
  - intros Habsent.
    assert (H : Js.truthy st && Js.truthy ss
                && negb (OAuthErrors.validateOAuthState st ss) = false).
    { destruct Habsent as [-> | ->]; [reflexivity|].
      now rewrite andb_false_r. }
    split; [|split].
    + rewrite (CallbackFacts.callback_skips_state_check p us sm c code st ss w H).
      now rewrite (CallbackFacts.callback_skips_state_check p us sm c code None None w).
    + apply CallbackFacts.callback_skips_state_check. exact H.
    + intros cfg Hcfg. now apply CallbackFacts.exchange_sends_token_request.
Qed.

(** The theorem at work: a mismatched state on the initialized example
    service. *)
Lemma callback_state_validation_witness :
  AuthService.handleCallback microsoft Example.ready_service "good"
    (Some "abd") (Some "abc") Example.world
  = (Thrown (AppErr (mkAppError OAUTH_INVALID_STATE
                       "Authentication request validation failed. Please try again."
                       400)),
     Example.world).
Proof.
  refine (proj1 (proj1 (callback_state_validation microsoft theUserService
                          theSessionManager "good" (Some "abd") (Some "abc")
                          Example.world _) _ _ _)).
  - discriminate.
  - reflexivity.
  - reflexivity.
  - reflexivity.
Defined.

(** C1 as stated fails in two places. On an Orchestrator that was never
    initialized, a callback with a non-empty code and two different,
    non-empty states ends in the generic CALLBACK_ERROR with status 500, not
    in INVALID_STATE with status 400, and with both states absent it stops
    at the gate instead of going on to the token exchange. On an
    initialized one, a request state that is the empty string does not fail
    the call although validation of the pair fails: the code treats the
    empty string as absent and goes on to the token exchange. *)
Lemma callback_state_validation_counterexample :
  AuthService.handleCallback microsoft Example.fresh_service "good"
    (Some "abd") (Some "abc") Example.world
  = (Thrown (AppErr (mkAppError OAUTH_CALLBACK_ERROR
                       "Authentication with microsoft failed. Please try again." 500)),
     Example.world)
  /\ net_log (snd (AuthService.handleCallback microsoft Example.fresh_service "good"
                     None None Example.world)) = []
  /\ OAuthErrors.validateOAuthState (Some "") (Some "abc") = false
  /\ fst (AuthService.handleCallback microsoft Example.ready_service "good"
            (Some "") (Some "abc") Example.world)
     = Returned (mkProfile "r0" "Alice" "alice@example.com" "microsoft")
  /\ net_log (snd (AuthService.handleCallback microsoft Example.ready_service "good"
                     (Some "") (Some "abc") Example.world))
     = [TokenRequest microsoft "ms-client" "ms-secret" "good";
        ProfileRequest microsoft "token-1"].
Proof.
  repeat split; vm_compute; reflexivity.
Qed.

(** C3, as the code has it. For every provider, whatever the states and
    whether the Orchestrator is initialized or not, [handleCallback] with
    an empty authorization code fails with the CALLBACK_ERROR kind and
    status 500: the error raised at the check carries 400, and
    [handleOAuthError] replaces it by its generic failure. The world is
    left as it was, so no request reached the provider. *)
Theorem empty_code_rejected :
  forall (p : Provider) (svc : AuthService.AuthServiceImpl)
         (requestState storedState : option string) (w : World),
    AuthService.handleCallback p svc "" requestState storedState w
    = (Thrown (AppErr (mkAppError OAUTH_CALLBACK_ERROR
                         ("Authentication with " ++ provider_name p
                            ++ " failed. Please try again.") 500)),
       w)
    /\ net_log (snd (AuthService.handleCallback p svc "" requestState storedState w))
       = net_log w.
Proof.
  intros p svc st ss w.
  rewrite AuthFacts.callback_empty_code. split; reflexivity.
Qed.

(** C3 as stated fails: the status the caller sees is 500, not 400. *)
Lemma empty_code_status_counterexample :
  thrown_status (fst (AuthService.handleCallback github Example.ready_service ""
                        None None Example.world)) = Some 500%Z
  /\ thrown_status (fst (AuthService.handleCallback github Example.ready_service ""
                           None None Example.world)) <> Some 400%Z.
Proof.
  split; vm_compute; [reflexivity | discriminate].
Qed.

(** C9, as the code has it. Called before the Orchestrator was
    initialized, [handleMicrosoftCallback] and [handleGitHubCallback] fail
    with status 500 and the CALLBACK_ERROR kind (the PROVIDER_ERROR of the
    gate is replaced by [handleOAuthError]), leaving the world as it was.
    [createSession], [validateSession] and [destroySession] do not consult
    the gate: each behaves the same whether the Orchestrator is initialized
    or not. *)
Theorem initialization_gate :
  forall (us : UserServiceI) (sm : SessionManagerI),
    (forall code st ss w,
        AuthService.handleMicrosoftCallback (AuthService.mk us sm false) code st ss w
        = (Thrown (AppErr (mkAppError OAUTH_CALLBACK_ERROR
                             "Authentication with microsoft failed. Please try again." 500)),
           w))
    /\ (forall code st ss w,
           AuthService.handleGitHubCallback (AuthService.mk us sm false) code st ss w
           = (Thrown (AppErr (mkAppError OAUTH_CALLBACK_ERROR
                                "Authentication with github failed. Please try again." 500)),
              w))
    /\ (forall initialized userId,
           AuthService.createSession (AuthService.mk us sm initialized) userId
           = AuthService.createSession (AuthService.mk us sm true) userId)
    /\ (forall initialized sessionId,
           AuthService.validateSession (AuthService.mk us sm initialized) sessionId
           = AuthService.validateSession (AuthService.mk us sm true) sessionId)
    /\ (forall initialized sessionId,
           AuthService.destroySession (AuthService.mk us sm initialized) sessionId
           = AuthService.destroySession (AuthService.mk us sm true) sessionId).
Proof.
  intros us sm. split; [|split; [|split; [|split]]].
  - intros. apply (AuthFacts.callback_before_initialization microsoft).
  - intros. apply (AuthFacts.callback_before_initialization github).
  - reflexivity.
  - reflexivity.
  - reflexivity.
Qed.

(** C9 as stated fails: before initialization a callback ends in
    CALLBACK_ERROR, not PROVIDER_ERROR, and the three session operations
    do not fail at all: a session is created, validated and destroyed. *)
Lemma initialization_gate_counterexample :
  fst (AuthService.handleMicrosoftCallback Example.fresh_service "good" None None
         Example.world)
  = Thrown (AppErr (mkAppError OAUTH_CALLBACK_ERROR
                      "Authentication with microsoft failed. Please try again." 500))
  /\ fst (AuthService.createSession Example.fresh_service "u-alice"
            Example.world_with_alice)
     = Returned "r0"
  /\ fst ((_ <- AuthService.createSession Example.fresh_service "u-alice" ;;
           AuthService.validateSession Example.fresh_service "r0")
            Example.world_with_alice)
     = Returned (Some (User.mk "u-alice" "alice" "alice@example.com" "github" "gh-1"
                               Example.ten_o_clock Example.ten_o_clock))
  /\ fst ((_ <- AuthService.createSession Example.fresh_service "u-alice" ;;
           AuthService.destroySession Example.fresh_service "r0")
            Example.world_with_alice)
     = Returned tt.
Proof.
  repeat split; vm_compute; reflexivity.
Qed.

(** ** The User Store (services/UserService.ts) *)

Module UserFacts.
Local Open Scope Z_scope.
Import UserService.

Lemma statement_reliable {A} (run : Prog A) w :
  db_fault w (db_pos w) = false ->
  Db.statement run w = run (set_db_pos (S (db_pos w)) w).
Proof.
  intros H. unfold Db.statement. now rewrite H.
Qed.

Lemma statement_faulty {A} (run : Prog A) w :
  db_fault w (db_pos w) = true ->
  Db.statement run w
  = (Thrown (JsError Db.driver_failure), set_db_pos (S (db_pos w)) w).
Proof.
  intros H. unfold Db.statement. now rewrite H.
Qed.

Lemma fromProfile_eval p w :
  User.fromProfile p w
  = (Returned (User.mk (random w (random_pos w)) (profile_username p)
                       (profile_email p) (profile_provider p) (profile_id p)
                       (clock w) (clock w)),
     set_random_pos (S (random_pos w)) w).
Proof.
  unfold User.fromProfile, User.new, bind, now, ret, draw_random. simpl.
  now rewrite !StringFacts.or_else_empty.
Qed.

(** Building a [User] from a row returns, and changes at most the number
    of random values drawn. *)
Lemma fromDatabaseRow_eval r w :
  exists i w',
    User.fromDatabaseRow r w
    = (Returned (User.mk i (u_username r) (u_email r) (u_provider r)
                         (u_provider_id r) (u_created_at r) (u_updated_at r)),
       w')
    /\ same_but_random w w'
    /\ (u_id r <> "" -> i = u_id r /\ w' = w).
Proof.
  unfold User.fromDatabaseRow, User.new, bind, ret, draw_random. simpl.
  rewrite !StringFacts.or_else_empty.
  destruct (u_id r) as [|c s] eqn:E; simpl.
  - eexists _, _. split; [reflexivity|]. split.
    + unfold same_but_random. destruct w; reflexivity.
    + intros H. now contradiction H.
  - eexists _, _. split; [reflexivity|]. split.
    + unfold same_but_random. destruct w; reflexivity.
    + intros _. split; reflexivity.
Qed.

(** The errors of a [User] depend on the four profile fields only. *)
Lemma validate_fields i un em pr pid c u :
  User.validate (User.mk i un em pr pid c u)
  = User.validate (User.mk "" un em pr pid 0 0).
Proof. reflexivity. Qed.

(** What a profile without validation errors satisfies. *)
Lemma profile_errors_nil p :
  profile_errors p = [] ->
  Js.nonempty (Js.trim (profile_id p)) = true
  /\ isValidProvider (profile_provider p) = true.
Proof.
  unfold profile_errors, User.validate. simpl.
  intros H.
  apply app_eq_nil in H. destruct H as [_ H].
  apply app_eq_nil in H. destruct H as [_ H].
  apply app_eq_nil in H. destruct H as [Hprov Hid].
  split.
  - unfold sanitizeInput in Hid.
    destruct (Js.nonempty (Js.trim (profile_id p))); [reflexivity|].
    simpl in Hid. discriminate Hid.
  - unfold isValidProvider.
    unfold User.isValidProvider in Hprov.
    destruct (Js.array_includes _ _); [reflexivity|].
    rewrite orb_true_r in Hprov. discriminate Hprov.
Qed.

Lemma find_none_filter {A} (f : A -> bool) l : find f l = None <-> filter f l = [].
Proof.
  induction l as [|x l IH]; simpl; [tauto|].
  destruct (f x); [split; discriminate | exact IH].
Qed.

Lemma find_some_filter {A} (f : A -> bool) l :
  filter f l <> [] -> exists x, find f l = Some x.
Proof.
  intros H. destruct (find f l) as [x|] eqn:E; [now exists x|].
  apply find_none_filter in E. now contradiction H.
Qed.

(** The lookup on a database that executes it, with arguments that pass
    the checks: no row, or the first row of that identity. *)
Lemma findByProviderId_none pid prov w :
  db_fault w (db_pos w) = false ->
  Js.nonempty (Js.trim pid) = true ->
  isValidProvider (Js.trim prov) = true ->
  with_identity (Js.trim prov) (Js.trim pid) (users w) = [] ->
  findByProviderId pid prov w = (Returned None, set_db_pos (S (db_pos w)) w).
Proof.
  intros Hdb Hpid Hprov Habs.
  unfold findByProviderId, try_catch, bind, sanitizeInput.
  rewrite Hpid, (StringFacts.valid_provider_nonempty _ Hprov), Hprov. simpl.
  unfold Db.select_user_by_provider.
  rewrite statement_reliable by assumption. simpl.
  apply find_none_filter in Habs. unfold with_identity in Habs.
  now rewrite Habs.
Qed.

Lemma findByProviderId_some pid prov w :
  db_fault w (db_pos w) = false ->
  Js.nonempty (Js.trim pid) = true ->
  isValidProvider (Js.trim prov) = true ->
  with_identity (Js.trim prov) (Js.trim pid) (users w) <> [] ->
  exists u w',
    findByProviderId pid prov w = (Returned (Some u), w')
    /\ same_but_random (set_db_pos (S (db_pos w)) w) w'.
Proof.
  intros Hdb Hpid Hprov Hpres.
  unfold findByProviderId, try_catch, bind, sanitizeInput.
  rewrite Hpid, (StringFacts.valid_provider_nonempty _ Hprov), Hprov. simpl.
  unfold Db.select_user_by_provider.
  rewrite statement_reliable by assumption. simpl.
  destruct (find_some_filter _ _ Hpres) as [r Hr].
  rewrite Hr. unfold user_of_row, bind.
  destruct (fromDatabaseRow_eval r (set_db_pos (S (db_pos w)) w)) as [i [w' [E [Hs _]]]].
  rewrite E. simpl. eexists _, w'. split; [reflexivity | exact Hs].
Qed.

(** The first part of [createUser] on an acceptable profile. *)
Lemma createUser_lookup_absent p w :
  profile_errors p = [] ->
  db_fault w (db_pos w) = false ->
  with_identity (profile_provider p) (Js.trim (profile_id p)) (users w) = [] ->
  createUser_lookup p w
  = (Returned (User.mk (random w (random_pos w)) (Js.trim (profile_username p))
                       (Js.trim (profile_email p)) (profile_provider p)
                       (Js.trim (profile_id p)) (clock w) (clock w),
               None),
     set_db_pos (S (db_pos w)) (set_random_pos (S (random_pos w)) w)).
Proof.
  intros Hval Hdb Habs.
  destruct (profile_errors_nil p Hval) as [Hid Hprov].
  unfold createUser_lookup, bind.
  rewrite fromProfile_eval.
  cbn [profile_username profile_email profile_provider profile_id].
  unfold sanitizeInput.
  rewrite validate_fields.
  unfold profile_errors, sanitizeInput in Hval. rewrite Hval. simpl.
  rewrite findByProviderId_none; simpl.
  - reflexivity.
  - assumption.
  - now rewrite StringFacts.trim_idem.
  - now rewrite (StringFacts.valid_provider_trim _ Hprov).
  - now rewrite StringFacts.trim_idem, (StringFacts.valid_provider_trim _ Hprov).
Qed.

Lemma createUser_lookup_present p w :
  profile_errors p = [] ->
  db_fault w (db_pos w) = false ->
  with_identity (profile_provider p) (Js.trim (profile_id p)) (users w) <> [] ->
  exists u u0 w',
    createUser_lookup p w = (Returned (u, Some u0), w')
    /\ same_but_random
         (set_db_pos (S (db_pos w)) (set_random_pos (S (random_pos w)) w)) w'.
Proof.
  intros Hval Hdb Hpres.
  destruct (profile_errors_nil p Hval) as [Hid Hprov].
  unfold createUser_lookup, bind.
  rewrite fromProfile_eval.
  cbn [profile_username profile_email profile_provider profile_id].
  unfold sanitizeInput.
  rewrite validate_fields.
  unfold profile_errors, sanitizeInput in Hval. rewrite Hval. simpl.
  destruct (findByProviderId_some (Js.trim (profile_id p)) (profile_provider p)
              (set_random_pos (S (random_pos w)) w)) as [u0 [w' [E Hs]]]; simpl.
  - assumption.
  - now rewrite StringFacts.trim_idem.
  - now rewrite (StringFacts.valid_provider_trim _ Hprov).
  - now rewrite StringFacts.trim_idem, (StringFacts.valid_provider_trim _ Hprov).
  - rewrite E. eexists _, u0, w'. split; [reflexivity | exact Hs].
Qed.

Lemma same_but_random_users w w' : same_but_random w w' -> users w' = users w.
Proof. intros H. rewrite H. reflexivity. Qed.

Lemma same_but_random_sessions w w' : same_but_random w w' -> sessions w' = sessions w.
Proof. intros H. rewrite H. reflexivity. Qed.

Lemma same_but_random_db w w' :
  same_but_random w w' -> db_fault w' = db_fault w /\ db_pos w' = db_pos w.
Proof. intros H. rewrite H. split; reflexivity. Qed.

Lemma identity_free r rows :
  with_identity (u_provider r) (u_provider_id r) rows = [] ->
  existsb (Db.same_identity r) rows = false.
Proof.
  unfold with_identity, Db.same_identity.
  induction rows as [|x rows IH]; simpl; [reflexivity|].
  rewrite (String.eqb_sym (u_provider r)), (String.eqb_sym (u_provider_id r)).
  rewrite (andb_comm (u_provider x =? u_provider r)%string).
  destruct ((u_provider_id x =? u_provider_id r)%string
            && (u_provider x =? u_provider r)%string); [discriminate|].
  exact IH.
Qed.

Lemma identity_taken r rows :
  with_identity (u_provider r) (u_provider_id r) rows <> [] ->
  existsb (Db.same_identity r) rows = true.
Proof.
  unfold with_identity, Db.same_identity.
  induction rows as [|x rows IH]; simpl; [intros H; now contradiction H|].
  rewrite (String.eqb_sym (u_provider r)), (String.eqb_sym (u_provider_id r)).
  rewrite (andb_comm (u_provider x =? u_provider r)%string).
  destruct ((u_provider_id x =? u_provider_id r)%string
            && (u_provider x =? u_provider r)%string); [reflexivity|].
  exact IH.
Qed.

Lemma id_free i rows :
  ~ In i (map u_id rows) -> existsb (fun x => String.eqb (u_id x) i) rows = false.
Proof.
  induction rows as [|x rows IH]; simpl; [reflexivity|].
  intros H.
  destruct (String.eqb_spec (u_id x) i) as [E|E].
  - contradiction H. now left.
  - apply IH. intros Hin. apply H. now right.
Qed.

(** The second part of [createUser]. *)
Lemma createUser_insert_found u u0 w :
  createUser_insert (u, Some u0) w = (Thrown (AppErr conflict_error), w).
Proof. reflexivity. Qed.

Lemma createUser_insert_fresh u w :
  db_fault w (db_pos w) = false ->
  ~ In (User.id u) (map u_id (users w)) ->
  with_identity (User.provider u) (User.providerId u) (users w) = [] ->
  createUser_insert (u, None) w
  = (Returned u,
     set_users (users w ++ [User.toDatabaseRow u])%list (set_db_pos (S (db_pos w)) w)).
Proof.
  intros Hdb Hid Habs.
  unfold createUser_insert, bind, Db.insert_user.
  rewrite statement_reliable by assumption. simpl.
  rewrite (id_free _ _ Hid).
  rewrite (identity_free (User.toDatabaseRow u) (users w) Habs).
  reflexivity.
Qed.

Lemma createUser_resume_fresh u w :
  db_fault w (db_pos w) = false ->
  ~ In (User.id u) (map u_id (users w)) ->
  with_identity (User.provider u) (User.providerId u) (users w) = [] ->
  createUser_resume (Returned (u, None)) w
  = (Returned u,
     set_users (users w ++ [User.toDatabaseRow u])%list (set_db_pos (S (db_pos w)) w)).
Proof.
  intros Hdb Hid Habs. unfold createUser_resume, try_catch.
  now rewrite createUser_insert_fresh.
Qed.

(** When the identity is in the table, the INSERT fails on a UNIQUE
    constraint, whichever it meets first, and the [catch] clause reports
    the conflict. *)
Lemma createUser_resume_taken u w :
  db_fault w (db_pos w) = false ->
  with_identity (User.provider u) (User.providerId u) (users w) <> [] ->
  createUser_resume (Returned (u, None)) w
  = (Thrown (AppErr conflict_error), set_db_pos (S (db_pos w)) w).
Proof.
  intros Hdb Hpres.
  unfold createUser_resume, try_catch, createUser_insert, bind, Db.insert_user.
  rewrite statement_reliable by assumption. simpl.
  rewrite (identity_taken (User.toDatabaseRow u) (users w) Hpres).
  destruct (existsb _ (users w)); reflexivity.
Qed.

Lemma with_identity_app prov pid l1 l2 :
  with_identity prov pid (l1 ++ l2) = (with_identity prov pid l1 ++ with_identity prov pid l2)%list.
Proof. apply filter_app. Qed.

Lemma with_identity_own u :
  with_identity (User.provider u) (User.providerId u) [User.toDatabaseRow u]
  = [User.toDatabaseRow u].
Proof.
  unfold with_identity. simpl. now rewrite !String.eqb_refl.
Qed.

(** [createUser] on an acceptable profile whose identity is new and whose
    generated id is new: the user is appended to the table. *)
Lemma createUser_new p w :
  profile_errors p = [] ->
  db_reliable w ->
  with_identity (profile_provider p) (Js.trim (profile_id p)) (users w) = [] ->
  ~ In (random w (random_pos w)) (map u_id (users w)) ->
  let u := User.mk (random w (random_pos w)) (Js.trim (profile_username p))
                   (Js.trim (profile_email p)) (profile_provider p)
                   (Js.trim (profile_id p)) (clock w) (clock w) in
  createUser p w
  = (Returned u,
     set_users (users w ++ [User.toDatabaseRow u])%list
       (set_db_pos (S (S (db_pos w))) (set_random_pos (S (random_pos w)) w))).
Proof.
  intros Hval Hdb Habs Hfresh u.
  unfold createUser, try_catch, bind.
  rewrite createUser_lookup_absent by auto.
  rewrite createUser_insert_fresh; simpl; auto.
Qed.

(** [createUser] on an acceptable profile whose identity is taken: the
    conflict, and the table is not touched. *)
Lemma createUser_taken p w :
  profile_errors p = [] ->
  db_reliable w ->
  with_identity (profile_provider p) (Js.trim (profile_id p)) (users w) <> [] ->
  fst (createUser p w) = Thrown (AppErr conflict_error)
  /\ users (snd (createUser p w)) = users w
  /\ db_reliable (snd (createUser p w)).
Proof.
  intros Hval Hdb Hpres.
  destruct (createUser_lookup_present p w Hval (Hdb _) Hpres) as [u [u0 [w' [E Hs]]]].
  unfold createUser, try_catch, bind. rewrite E.
  rewrite createUser_insert_found. simpl.
  split; [reflexivity|]. split.
  - now rewrite (same_but_random_users _ _ Hs).
  - intros n. destruct (same_but_random_db _ _ Hs) as [-> _]. apply Hdb.
Qed.

End UserFacts.

Section SameIdentity.
Local Open Scope Z_scope.
Import UserService.

Variables (first second : UserProfile) (w : World).
Hypothesis same_id : Js.trim (profile_id first) = Js.trim (profile_id second).
Hypothesis same_provider : profile_provider first = profile_provider second.
Hypothesis first_ok : profile_errors first = [].
Hypothesis second_ok : profile_errors second = [].
Hypothesis reliable : db_reliable w.
Hypothesis identity_new :
  with_identity (profile_provider first) (Js.trim (profile_id first)) (users w) = [].
Hypothesis id_new : ~ In (random w (random_pos w)) (map u_id (users w)).

(** The user the first call creates. *)
Let winner : User.t :=
  User.mk (random w (random_pos w)) (Js.trim (profile_username first))
          (Js.trim (profile_email first)) (profile_provider first)
          (Js.trim (profile_id first)) (clock w) (clock w).

Lemma winner_identity :
  with_identity (profile_provider first) (Js.trim (profile_id first))
                [User.toDatabaseRow winner]
  = [User.toDatabaseRow winner].
Proof. apply (UserFacts.with_identity_own winner). Qed.

Lemma one_then_the_other :
  fst (createUser first w) = Returned winner
  /\ users (snd (createUser first w)) = (users w ++ [User.toDatabaseRow winner])%list
  /\ fst (createUser second (snd (createUser first w))) = Thrown (AppErr conflict_error)
  /\ users (snd (createUser second (snd (createUser first w))))
     = (users w ++ [User.toDatabaseRow winner])%list.
Proof.
  rewrite (UserFacts.createUser_new first w first_ok reliable identity_new id_new).
  fold winner. cbn [fst snd].
  split; [reflexivity|]. split; [reflexivity|].
  match goal with |- context [createUser second ?w1] => set (w1' := w1) end.
  assert (Hrel : db_reliable w1') by (intros n; apply reliable).
  assert (Hpres : with_identity (profile_provider second) (Js.trim (profile_id second))
                    (users w1') <> []).
  { subst w1'. cbn [users set_users].
    rewrite UserFacts.with_identity_app, <- same_id, <- same_provider.
    rewrite winner_identity.
    intros H. apply app_eq_nil in H. destruct H as [_ H]. discriminate H. }
  destruct (UserFacts.createUser_taken second w1' second_ok Hrel Hpres) as [E1 [E2 _]].
  split; [exact E1|]. rewrite E2. reflexivity.
Qed.

Lemma both_in_flight :
  fst (fst (createUser_race first second w)) = Returned winner
  /\ snd (fst (createUser_race first second w)) = Thrown (AppErr conflict_error)
  /\ users (snd (createUser_race first second w))
     = (users w ++ [User.toDatabaseRow winner])%list.
Proof.
  unfold createUser_race.
  rewrite (UserFacts.createUser_lookup_absent first w first_ok (reliable _) identity_new).
  fold winner.
  rewrite UserFacts.createUser_lookup_absent;
    [| exact second_ok | apply reliable
     | cbn [users set_db_pos set_random_pos]; now rewrite <- same_id, <- same_provider ].
  rewrite UserFacts.createUser_resume_fresh;
    [| apply reliable | exact id_new | exact identity_new ].
  rewrite UserFacts.createUser_resume_taken.
  - cbn [fst snd users set_users set_db_pos]. repeat split; reflexivity.
  - apply reliable.
  - cbn [users set_users set_db_pos set_random_pos User.provider User.providerId].
    rewrite UserFacts.with_identity_app, <- same_id, <- same_provider.
    rewrite winner_identity.
    intros H. apply app_eq_nil in H. destruct H as [_ H]. discriminate H.
Qed.

End SameIdentity.

(** C4. For every pair of [createUser] calls that supply the same
    (provider, provider-id) pair: with two profiles that pass validation, an
    identity that is not in the store yet, a generated id that is not taken
    and a database that executes its statements, the call that comes first
    succeeds and the other fails with the conflict error (status 409, the
    specification's ConflictError), in either order of the two calls; the
    table is left with exactly one row of that identity. The same holds
    when both calls are in flight at once, each having looked the identity
    up before either inserts: the loser's INSERT meets the UNIQUE constraint
    and is reported as the same conflict. *)
Theorem createUser_identity_unique :
  forall (a b : UserProfile) (w : World),
    Js.trim (profile_id a) = Js.trim (profile_id b) ->
    profile_provider a = profile_provider b ->
    UserService.profile_errors a = [] ->
    UserService.profile_errors b = [] ->
    db_reliable w ->
    with_identity (profile_provider a) (Js.trim (profile_id a)) (users w) = [] ->
    ~ In (random w (random_pos w)) (map u_id (users w)) ->
    forall first second : UserProfile,
      (first = a /\ second = b) \/ (first = b /\ second = a) ->
      let after_first := UserService.createUser first w in
      let after_second := UserService.createUser second (snd after_first) in
      let race := UserService.createUser_race first second w in
      let rows_of_identity (x : World) :=
        with_identity (profile_provider a) (Js.trim (profile_id a)) (users x) in
      (exists u, fst after_first = Returned u
                 /\ User.provider u = profile_provider a
                 /\ User.providerId u = Js.trim (profile_id a))
      /\ fst after_second
         = Thrown (AppErr (mkAppError VALIDATION_ERROR
                             "User already exists with this provider ID" 409))
      /\ length (rows_of_identity (snd after_first)) = 1%nat
      /\ length (rows_of_identity (snd after_second)) = 1%nat
      /\ (exists u, fst (fst race) = Returned u)
      /\ snd (fst race)
         = Thrown (AppErr (mkAppError VALIDATION_ERROR
                             "User already exists with this provider ID" 409))
      /\ length (rows_of_identity (snd race)) = 1%nat.
Proof.
  intros a b w Hid Hprov Ha Hb Hrel Hnew Hfresh first second Horder.
  assert (H : Js.trim (profile_id first) = Js.trim (profile_id second)
              /\ profile_provider first = profile_provider second
              /\ UserService.profile_errors first = []
              /\ UserService.profile_errors second = []
              /\ profile_provider first = profile_provider a
              /\ Js.trim (profile_id first) = Js.trim (profile_id a)).
  { destruct Horder as [[-> ->] | [-> ->]]; repeat split; auto. }
  destruct H as [Hid' [Hprov' [Hf [Hs [Ep Ei]]]]].
  rewrite <- Ep, <- Ei in *.
  pose proof (one_then_the_other first second w Hid' Hprov' Hf Hs Hrel Hnew Hfresh)
    as [E1 [E2 [E3 E4]]].
  pose proof (both_in_flight first second w Hid' Hprov' Hf Hs Hrel Hnew Hfresh)
    as [R1 [R2 R3]].
  cbv zeta.
  assert (Hone : forall rows u,
             rows = (users w ++ [User.toDatabaseRow u])%list ->
             User.provider u = profile_provider first ->
             User.providerId u = Js.trim (profile_id first) ->
             length (with_identity (profile_provider first)
                       (Js.trim (profile_id first)) rows) = 1%nat).
  { intros rows u -> Hp Hi.
    rewrite UserFacts.with_identity_app, Hnew, <- Hp, <- Hi.
    now rewrite UserFacts.with_identity_own. }
  repeat split.
  - eexists. split; [exact E1|]. split; reflexivity.
  - exact E3.
  - eapply Hone; [exact E2 | reflexivity | reflexivity].
  - eapply Hone; [exact E4 | reflexivity | reflexivity].
  - eexists. exact R1.
  - exact R2.
  - eapply Hone; [exact R3 | reflexivity | reflexivity].
Qed.

(** The theorem at work: alice is created twice in the empty example
    world. *)
Lemma createUser_identity_unique_witness :
  (exists u, fst (UserService.createUser alice_profile Example.world) = Returned u)
  /\ fst (UserService.createUser alice_profile
            (snd (UserService.createUser alice_profile Example.world)))
     = Thrown (AppErr (mkAppError VALIDATION_ERROR
                         "User already exists with this provider ID" 409)).
Proof.
  assert (Hrel : db_reliable Example.world) by (intros n; reflexivity).
  assert (Hfresh : ~ In (random Example.world (random_pos Example.world))
                        (map u_id (users Example.world)))
    by (simpl; tauto).
  destruct (createUser_identity_unique alice_profile alice_profile Example.world
              eq_refl eq_refl eq_refl eq_refl Hrel eq_refl Hfresh
              alice_profile alice_profile (or_introl (conj eq_refl eq_refl)))
    as [[u [Hu _]] [H2 _]].
  split; [now exists u | exact H2].
Defined.

(** ** Components of the world a computation leaves alone *)

Section Frame.
Context {X : Type} (f : World -> X).

Lemma preserves_ret {A} (a : A) : preserves f (ret a).
Proof. intros w. reflexivity. Qed.

Lemma preserves_throw {A} (v : JsValue) : preserves f (@throw A v).
Proof. intros w. reflexivity. Qed.

Lemma preserves_throw_app {A} t msg status : preserves f (@throw_app A t msg status).
Proof. intros w. reflexivity. Qed.

Lemma preserves_now : preserves f now.
Proof. intros w. reflexivity. Qed.

Lemma preserves_bind {A B} (p : Prog A) (k : A -> Prog B) :
  preserves f p -> (forall a, preserves f (k a)) -> preserves f (bind p k).
Proof.
  intros Hp Hk w. unfold bind.
  specialize (Hp w). destruct (p w) as [[a|v] w']; simpl in *.
  - now rewrite Hk.
  - exact Hp.
Qed.

Lemma preserves_try_catch {A} (p : Prog A) (h : JsValue -> Prog A) :
  preserves f p -> (forall v, preserves f (h v)) -> preserves f (try_catch p h).
Proof.
  intros Hp Hh w. unfold try_catch.
  specialize (Hp w). destruct (p w) as [[a|v] w']; simpl in *.
  - exact Hp.
  - now rewrite Hh.
Qed.

(** [f] does not look at the two counters. *)
Hypothesis ignores_random_pos : forall n w, f (set_random_pos n w) = f w.
Hypothesis ignores_db_pos : forall n w, f (set_db_pos n w) = f w.

Lemma preserves_draw_random : preserves f draw_random.
Proof. intros w. apply ignores_random_pos. Qed.

Lemma preserves_statement {A} (run : Prog A) :
  preserves f run -> preserves f (Db.statement run).
Proof.
  intros H w. unfold Db.statement.
  destruct (db_fault w (db_pos w)); simpl.
  - apply ignores_db_pos.
  - rewrite H. apply ignores_db_pos.
Qed.

Lemma preserves_user_new data : preserves f (User.new data).
Proof.
  unfold User.new, User.date_or_now.
  repeat (apply preserves_bind; [|intros ?]).
  - destruct (Js.truthy _); [apply preserves_ret | apply preserves_draw_random].
  - destruct (User.p_createdAt data); [apply preserves_ret | apply preserves_now].
  - destruct (User.p_updatedAt data); [apply preserves_ret | apply preserves_now].
  - apply preserves_ret.
Qed.

Lemma preserves_session_new data : preserves f (Session.new data).
Proof.
  unfold Session.new, User.date_or_now.
  repeat (apply preserves_bind; [|intros ?]).
  - destruct (Js.truthy _); [apply preserves_ret | apply preserves_draw_random].
  - destruct (Session.p_createdAt data); [apply preserves_ret | apply preserves_now].
  - destruct (Session.p_expiresAt data); [apply preserves_ret|].
    apply preserves_bind; [apply preserves_now | intros ?; apply preserves_ret].
  - apply preserves_ret.
Qed.

Lemma preserves_rethrow_user {A} msg v :
  preserves f (@UserService.rethrow_or_database_error A msg v).
Proof.
  unfold UserService.rethrow_or_database_error.
  destruct (isAppError v); [apply preserves_throw | apply preserves_throw_app].
Qed.

Lemma preserves_rethrow_session {A} msg v :
  preserves f (@SessionManager.rethrow_or_database_error A msg v).
Proof.
  unfold SessionManager.rethrow_or_database_error.
  destruct (isAppError v); [apply preserves_throw | apply preserves_throw_app].
Qed.

End Frame.

Section ReadFrame.
Context {X : Type} (f : World -> X).
Hypothesis ignores_random_pos : forall n w, f (set_random_pos n w) = f w.
Hypothesis ignores_db_pos : forall n w, f (set_db_pos n w) = f w.

Local Ltac step :=
  first [ apply preserves_ret | apply preserves_throw | apply preserves_throw_app
        | apply preserves_now
        | apply preserves_draw_random; assumption
        | apply preserves_user_new; assumption
        | apply preserves_session_new; assumption
        | apply preserves_rethrow_user | apply preserves_rethrow_session
        | apply preserves_statement; [assumption | intros ?; reflexivity]
        | apply preserves_bind; [|intros ?]
        | apply preserves_try_catch; [|intros ?] ].

Lemma preserves_user_of_row row : preserves f (UserService.user_of_row row).
Proof.
  unfold UserService.user_of_row, User.fromDatabaseRow.
  destruct row; repeat step.
Qed.

(** The two lookups of the User Store only read the tables. *)
Lemma preserves_findByProviderId pid prov :
  preserves f (UserService.findByProviderId pid prov).
Proof.
  unfold UserService.findByProviderId, Db.select_user_by_provider.
  step.
  - destruct (_ || _); [step|]. destruct (negb _); [step|].
    step; [step | apply preserves_user_of_row].
  - step.
Qed.

Lemma preserves_findById userId : preserves f (UserService.findById userId).
Proof.
  unfold UserService.findById, Db.select_user_by_id.
  step.
  - destruct (negb _); [step|].
    step; [step | apply preserves_user_of_row].
  - step.
Qed.

Lemma preserves_verifyUserExists userId :
  preserves f (SessionManager.verifyUserExists userId).
Proof.
  unfold SessionManager.verifyUserExists, Db.select_user_exists.
  repeat step.
Qed.

Lemma preserves_createUser_lookup profile :
  preserves f (UserService.createUser_lookup profile).
Proof.
  unfold UserService.createUser_lookup, User.fromProfile.
  step.
  - repeat step.
  - destruct (0 <? _)%nat; [step|].
    step; [apply preserves_findByProviderId | step].
Qed.

Lemma preserves_createUser_catch v : preserves f (UserService.createUser_catch v).
Proof.
  unfold UserService.createUser_catch.
  destruct (isAppError v); [step|]. destruct (_ && _); step.
Qed.

End ReadFrame.

(** Computations that can only append rows to [users]. *)
Section Appends.

Lemma appends_of_preserves {A} (p : Prog A) : preserves users p -> appends_users p.
Proof.
  intros H w. exists []. rewrite app_nil_r. apply H.
Qed.

Lemma appends_bind {A B} (p : Prog A) (k : A -> Prog B) :
  appends_users p -> (forall a, appends_users (k a)) -> appends_users (bind p k).
Proof.
  intros Hp Hk w. unfold bind.
  destruct (Hp w) as [t1 E1]. destruct (p w) as [[a|v] w']; simpl in *.
  - destruct (Hk a w') as [t2 E2]. exists (t1 ++ t2)%list.
    now rewrite E2, E1, app_assoc.
  - now exists t1.
Qed.

Lemma appends_try_catch {A} (p : Prog A) (h : JsValue -> Prog A) :
  appends_users p -> (forall v, appends_users (h v)) -> appends_users (try_catch p h).
Proof.
  intros Hp Hh w. unfold try_catch.
  destruct (Hp w) as [t1 E1]. destruct (p w) as [[a|v] w']; simpl in *.
  - now exists t1.
  - destruct (Hh v w') as [t2 E2]. exists (t1 ++ t2)%list.
    now rewrite E2, E1, app_assoc.
Qed.

Lemma appends_insert_user r : appends_users (Db.insert_user r).
Proof.
  intros w. unfold Db.insert_user, Db.statement.
  destruct (db_fault w (db_pos w)); [exists []; now rewrite app_nil_r|].
  cbn [users set_db_pos].
  destruct (existsb _ (users w)); [exists []; now rewrite app_nil_r|].
  destruct (existsb _ (users w)); [exists []; now rewrite app_nil_r|].
  now exists [r].
Qed.

(** What [createUser] does to the rows that are already in [users]:
    nothing; it can only append a row. *)
Lemma createUser_appends profile : appends_users (UserService.createUser profile).
Proof.
  unfold UserService.createUser.
  apply appends_try_catch.
  - apply appends_bind.
    + apply appends_of_preserves.
      apply preserves_createUser_lookup; intros; reflexivity.
    + intros [user [u0|]]; unfold UserService.createUser_insert.
      * apply appends_of_preserves, preserves_throw_app.
      * apply appends_bind; [apply appends_insert_user|].
        intros changes. apply appends_of_preserves.
        destruct (changes =? 0)%Z; [apply preserves_throw_app | apply preserves_ret].
  - intros v. apply appends_of_preserves, preserves_createUser_catch.
Qed.

End Appends.

(** What the Session Store and the token exchange leave alone: every
    component that is not [sessions], respectively [net_log], nor a
    counter. *)
Section WriteFrame.
Context {X : Type} (f : World -> X).
Hypothesis ignores_random_pos : forall n w, f (set_random_pos n w) = f w.
Hypothesis ignores_db_pos : forall n w, f (set_db_pos n w) = f w.

Local Ltac step :=
  first [ apply preserves_ret | apply preserves_throw | apply preserves_throw_app
        | apply preserves_now
        | apply preserves_draw_random; assumption
        | apply preserves_session_new; assumption
        | apply preserves_rethrow_session
        | apply preserves_bind; [|intros ?]
        | apply preserves_try_catch; [|intros ?] ].

Section Sessions.
Hypothesis ignores_sessions : forall s w, f (set_sessions s w) = f w.

Lemma preserves_insert_session r : preserves f (Db.insert_session r).
Proof.
  unfold Db.insert_session. apply preserves_statement; [assumption|].
  intros w. destruct (existsb _ (sessions w)); [reflexivity|].
  destruct (negb _); [reflexivity|]. apply ignores_sessions.
Qed.

Lemma preserves_delete_session id : preserves f (Db.delete_session id).
Proof.
  unfold Db.delete_session. apply preserves_statement; [assumption|].
  intros w. apply ignores_sessions.
Qed.

Lemma preserves_delete_expired : preserves f Db.delete_expired_sessions.
Proof.
  unfold Db.delete_expired_sessions. apply preserves_statement; [assumption|].
  intros w. apply ignores_sessions.
Qed.

Lemma preserves_select_session id : preserves f (Db.select_session id).
Proof.
  unfold Db.select_session. apply preserves_statement; [assumption|].
  intros w. reflexivity.
Qed.

Lemma preserves_destroy id : preserves f (SessionManager.destroy id).
Proof.
  unfold SessionManager.destroy. step; [|step].
  destruct (negb _); [step|].
  step; [apply preserves_delete_session | step].
Qed.

Lemma preserves_validate id : preserves f (SessionManager.validate id).
Proof.
  unfold SessionManager.validate, Session.fromDatabaseRow, Session.isExpired,
    Session.isValid, Session.isExpired.
  step; [|step].
  destruct (negb _); [step|].
  step; [apply preserves_select_session|].
  destruct a as [r|]; [|step].
  step; [step|]. step; [repeat step|].
  destruct a0.
  - step; [apply preserves_destroy | step].
  - step; [repeat step|]. destruct (negb _); step.
Qed.

Lemma preserves_cleanup : preserves f SessionManager.cleanup.
Proof.
  unfold SessionManager.cleanup. step; [apply preserves_delete_expired | step].
Qed.

Lemma preserves_create userId durationMs :
  preserves f (SessionManager.create userId durationMs).
Proof.
  unfold SessionManager.create, SessionManager.generateSecureSessionId,
    Session.validate, Session.isExpired.
  step; [|step].
  destruct (negb _); [step|].
  step; [apply preserves_verifyUserExists; assumption|].
  destruct (negb _); [step|].
  do 4 (step; [step|]).
  step; [repeat step|].
  destruct (0 <? _)%nat; [step|].
  step; [apply preserves_insert_session|].
  destruct (_ =? _)%Z; step.
Qed.

Lemma preserves_delete_user_sessions id : preserves f (Db.delete_user_sessions id).
Proof.
  unfold Db.delete_user_sessions. apply preserves_statement; [assumption|].
  intros w. apply ignores_sessions.
Qed.

Lemma preserves_update_session_expiry e id :
  preserves f (Db.update_session_expiry e id).
Proof.
  unfold Db.update_session_expiry. apply preserves_statement; [assumption|].
  intros w. apply ignores_sessions.
Qed.

Lemma preserves_getSessionWithUser id :
  preserves f (SessionManager.getSessionWithUser id).
Proof.
  unfold SessionManager.getSessionWithUser. step; [|step].
  step; [apply preserves_validate|].
  destruct a as [s|]; [|step].
  step.
  - unfold Db.select_user_by_id. apply preserves_statement; [assumption|].
    intros w. reflexivity.
  - destruct a as [r|].
    + step; [|step]. unfold User.fromDatabaseRow. apply preserves_user_new; assumption.
    + step; [apply preserves_destroy | step].
Qed.

Lemma preserves_destroyAllUserSessions userId :
  preserves f (SessionManager.destroyAllUserSessions userId).
Proof.
  unfold SessionManager.destroyAllUserSessions. step; [|step].
  destruct (negb _); [step | apply preserves_delete_user_sessions].
Qed.

Lemma preserves_extendSession id durationMs :
  preserves f (SessionManager.extendSession id durationMs).
Proof.
  unfold SessionManager.extendSession, Session.extend. step; [|step].
  step; [apply preserves_validate|].
  destruct a as [s|]; [|step].
  step; [repeat step|].
  step; [apply preserves_update_session_expiry|].
  destruct (_ =? _)%Z; step.
Qed.

Lemma preserves_getSessionStats : preserves f SessionManager.getSessionStats.
Proof.
  unfold SessionManager.getSessionStats,
    Db.count_sessions, Db.count_active_sessions, Db.count_expired_sessions.
  step; [|step].
  repeat (step; [apply preserves_statement; [assumption | intros w; reflexivity]|]).
  step.
Qed.

(** The session operations of the Orchestrator over the two stores. *)
Lemma preserves_createSession initialized userId :
  preserves f (AuthService.createSession
                 (AuthService.mk theUserService theSessionManager initialized) userId).
Proof.
  unfold AuthService.createSession.
  cbn [AuthService.sessionManager theSessionManager sm_create].
  step.
  - destruct (AuthService.blank userId); [step|].
    step; [apply preserves_create | step].
  - destruct (isAppError v); step.
Qed.

Lemma preserves_validateSession initialized sessionId :
  preserves f (AuthService.validateSession
                 (AuthService.mk theUserService theSessionManager initialized) sessionId).
Proof.
  unfold AuthService.validateSession.
  cbn [AuthService.sessionManager AuthService.userService theSessionManager
       theUserService sm_validate sm_destroy us_findById].
  step; [|step].
  destruct (AuthService.blank sessionId); [step|].
  step; [apply preserves_validate|].
  destruct a as [s|]; [|step].
  step; [apply preserves_findById; assumption|].
  destruct a as [u|]; [step|].
  step; [apply preserves_destroy | step].
Qed.

Lemma preserves_destroySession initialized sessionId :
  preserves f (AuthService.destroySession
                 (AuthService.mk theUserService theSessionManager initialized) sessionId).
Proof.
  unfold AuthService.destroySession.
  cbn [AuthService.sessionManager theSessionManager sm_destroy].
  step.
  - destruct (AuthService.blank sessionId); [step | apply preserves_destroy].
  - destruct (isAppError v); step.
Qed.

End Sessions.

Section Network.
Hypothesis ignores_net_log : forall l w, f (set_net_log l w) = f w.

Lemma preserves_loadOAuthConfig : preserves f AuthService.loadOAuthConfig.
Proof.
  intros w. unfold AuthService.loadOAuthConfig.
  destruct (OAuth.loadOAuthConfig (environment w)); reflexivity.
Qed.

Lemma preserves_expect_ok {A} what (r : Reply A) :
  preserves f (AuthService.expect_ok what r).
Proof. destruct r; simpl; step. Qed.

Lemma preserves_exchange provider code :
  preserves f (AuthService.exchangeCodeForProfile provider code).
Proof.
  unfold AuthService.exchangeCodeForProfile.
  step; [|step].
  step; [apply preserves_loadOAuthConfig|].
  destruct provider.
  - unfold AuthService.exchangeMicrosoftCode.
    step; [|step].
    step; [intros w; apply ignores_net_log|].
    step; [apply preserves_expect_ok|].
    step; [intros w; apply ignores_net_log|].
    step; [apply preserves_expect_ok | step].
  - unfold AuthService.exchangeGitHubCode.
    step; [|step].
    step; [intros w; apply ignores_net_log|].
    step; [apply preserves_expect_ok|].
    step; [intros w; apply ignores_net_log|].
    step; [apply preserves_expect_ok|].
    step; [intros w; apply ignores_net_log|].
    step; [| step].
    match goal with
    | |- preserves _ (match ?r with _ => _ end) => destruct r
    end; step.
Qed.

End Network.
End WriteFrame.

(** ** [updateUser] and the identity of a user *)

Module UpdateFacts.
Local Open Scope Z_scope.
Import UserService.

Lemma find_some_in {A} (f : A -> bool) l x :
  find f l = Some x -> In x l /\ f x = true.
Proof. apply find_some. Qed.

(** A user that [findById] returns was built from a row of that id. *)
Lemma findById_found s w u w1 :
  findById s w = (Returned (Some u), w1) ->
  exists r,
    In r (users w) /\ u_id r = Js.trim s
    /\ User.id u = u_id r
    /\ User.provider u = u_provider r
    /\ User.providerId u = u_provider_id r.
Proof.
  unfold findById, try_catch, bind, sanitizeInput, Db.select_user_by_id, Db.statement.
  destruct (Js.nonempty (Js.trim s)) eqn:Hs; simpl; [|discriminate].
  destruct (db_fault w (db_pos w)); simpl; [discriminate|].
  destruct (find _ (users w)) as [r|] eqn:Hf; simpl; [|discriminate].
  apply find_some_in in Hf. destruct Hf as [Hin Hid].
  apply String.eqb_eq in Hid.
  destruct (UserFacts.fromDatabaseRow_eval r (set_db_pos (S (db_pos w)) w))
    as [i [w' [E [_ Hi]]]].
  unfold bind. rewrite E. simpl. intros H. inversion H; subst u w1; clear H.
  exists r. simpl.
  assert (Hne : u_id r <> "").
  { rewrite Hid. now apply JsFacts.nonempty_true. }
  destruct (Hi Hne) as [-> _].
  repeat split; auto.
Qed.

(** Rewriting the row of one id with its own provider and provider id
    changes no identity. *)
Lemma rewrite_row_identities r rows username email updated_at :
  NoDup (map u_id rows) -> In r rows ->
  map (fun x => (u_id x, u_provider x, u_provider_id x))
      (map (fun x => if String.eqb (u_id x) (u_id r)
                     then mkUserRow (u_id x) username email (u_provider r)
                                    (u_provider_id r) (u_created_at x) updated_at
                     else x) rows)
  = map (fun x => (u_id x, u_provider x, u_provider_id x)) rows.
Proof.
  intros Hnd Hin. rewrite map_map. apply map_ext_in.
  intros x Hx. destruct (String.eqb_spec (u_id x) (u_id r)) as [E|E]; [|reflexivity].
  simpl.
  assert (x = r) as ->; [|reflexivity].
  clear - Hnd Hin Hx E.
  induction rows as [|y rows IH]; simpl in *; [contradiction|].
  inversion Hnd as [|? ? Hy Hnd']; subst.
  destruct Hx as [-> | Hx], Hin as [-> | Hin]; auto.
  - exfalso. apply Hy. rewrite E. now apply in_map.
  - exfalso. apply Hy. rewrite <- E. now apply in_map.
Qed.

Lemma updateUser_identities userId patch w :
  partial_provider patch = None ->
  partial_id patch = None ->
  NoDup (map u_id (users w)) ->
  identities (snd (updateUser userId patch w)) = identities w.
Proof.
  intros Hprov Hid Hnd. unfold identities, updateUser, try_catch.
  match goal with
  | |- context [match ?body w with _ => _ end] => set (b := body)
  end.
  assert (Hb : map (fun x => (u_id x, u_provider x, u_provider_id x)) (users (snd (b w)))
               = map (fun x => (u_id x, u_provider x, u_provider_id x)) (users w)).
  { subst b. unfold sanitizeInput.
    destruct (Js.nonempty (Js.trim userId)); simpl; [|reflexivity].
    unfold bind at 1.
    pose proof (preserves_findById users (fun _ _ => eq_refl) (fun _ _ => eq_refl)
                  (Js.trim userId) w) as Hfr.
    destruct (findById (Js.trim userId) w) as [[[u|]|v] w1] eqn:F; simpl in Hfr;
      [ | simpl; now rewrite Hfr | simpl; now rewrite Hfr ].
    destruct (findById_found _ _ _ _ F) as [r [Hin [Hrid [Hu [Hp Hpi]]]]].
    rewrite Hprov, Hid.
    unfold User.update, bind, now, ret. cbn [option_map User.or_keep User.p_username
      User.p_email User.p_provider User.p_providerId].
    destruct (0 <? _)%nat; [simpl; now rewrite Hfr|].
    unfold Db.update_user, Db.statement.
    cbn [User.toDatabaseRow u_username u_email u_provider u_provider_id u_updated_at u_id
         User.id User.username User.email User.provider User.providerId User.updatedAt
         User.createdAt].
    destruct (db_fault w1 (db_pos w1)); [simpl; now rewrite Hfr|].
    cbn [users set_db_pos].
    destruct (existsb _ (users w1) && existsb _ (users w1)); [simpl; now rewrite Hfr|].
    match goal with
    | |- context [if ?c then _ else _] => destruct c
    end; cbn [fst snd users set_users set_db_pos throw_app throw ret];
      rewrite Hfr, Hu, Hp, Hpi; now apply rewrite_row_identities. }
  destruct (b w) as [[a|v] w'] eqn:E; simpl in *; [exact Hb|].
  rewrite (preserves_rethrow_user users). exact Hb.
Qed.

End UpdateFacts.

(** ** Operations that keep the identity of every user *)

Section KeepsIdentities.

Lemma keeps_of_preserves {A} (p : Prog A) : preserves users p -> keeps_identities p.
Proof.
  intros H w _. exists []. unfold identities. now rewrite H, app_nil_r.
Qed.

Lemma keeps_of_appends {A} (p : Prog A) : appends_users p -> keeps_identities p.
Proof.
  intros H w _. destruct (H w) as [tail E].
  exists (map (fun r => (u_id r, u_provider r, u_provider_id r)) tail).
  unfold identities. now rewrite E, map_app.
Qed.

(** A step that only reads, followed by one that keeps the identities. *)
Lemma keeps_after_read {A B} (p : Prog A) (k : A -> Prog B) :
  preserves users p -> (forall a, keeps_identities (k a)) -> keeps_identities (bind p k).
Proof.
  intros Hp Hk w Hnd. unfold bind.
  specialize (Hp w). destruct (p w) as [[a|v] w']; simpl in *.
  - destruct (Hk a w') as [tail E]; [now rewrite Hp|].
    exists tail. rewrite E. unfold identities. now rewrite Hp.
  - exists []. unfold identities. now rewrite Hp, app_nil_r.
Qed.

(** A [catch] clause that only throws. *)
Lemma keeps_try_catch {A} (p : Prog A) (h : JsValue -> Prog A) :
  keeps_identities p -> (forall v, preserves users (h v)) ->
  keeps_identities (try_catch p h).
Proof.
  intros Hp Hh w Hnd. unfold try_catch.
  destruct (Hp w Hnd) as [tail E]. destruct (p w) as [[a|v] w']; simpl in *.
  - now exists tail.
  - exists tail. unfold identities in *. now rewrite Hh.
Qed.

Lemma keeps_updateUser userId patch :
  partial_provider patch = None -> partial_id patch = None ->
  keeps_identities (UserService.updateUser userId patch).
Proof.
  intros Hp Hi w Hnd. exists [].
  rewrite app_nil_r. now apply UpdateFacts.updateUser_identities.
Qed.

Lemma keeps_findOrCreateUser sm initialized profile :
  keeps_identities
    (AuthService.findOrCreateUser (AuthService.mk theUserService sm initialized) profile).
Proof.
  unfold AuthService.findOrCreateUser. cbn [AuthService.userService theUserService
    us_findByProviderId us_createUser us_updateUser].
  apply keeps_try_catch; [|intros v; apply preserves_throw].
  apply keeps_after_read.
  - apply preserves_findByProviderId; intros; reflexivity.
  - intros [user|].
    + destruct (_ || _).
      * now apply keeps_updateUser.
      * apply keeps_of_preserves, preserves_ret.
    + apply keeps_of_appends, createUser_appends.
Qed.

(** A callback of the Orchestrator over the User Store keeps the identity
    of every user. *)
Lemma keeps_handleCallback provider sm initialized code requestState storedState :
  keeps_identities
    (AuthService.handleCallback provider (AuthService.mk theUserService sm initialized)
       code requestState storedState).
Proof.
  destruct provider;
    unfold AuthService.handleCallback, AuthService.handleMicrosoftCallback,
      AuthService.handleGitHubCallback, AuthService.ensureInitialized;
    (apply keeps_try_catch; [|intros v; apply preserves_throw]);
    (apply keeps_after_read;
     [ destruct (negb _); [apply preserves_throw | apply preserves_ret] | intros _ ]);
    (destruct (negb (Js.nonempty code));
     [apply keeps_of_preserves, preserves_throw|]);
    (destruct (_ && _); [apply keeps_of_preserves, preserves_throw|]);
    (apply keeps_after_read;
     [ apply preserves_exchange; intros; reflexivity | intros profile ]);
    (intros w Hnd;
     destruct (keeps_findOrCreateUser sm initialized profile w Hnd) as [tail E];
     exists tail; unfold bind;
     destruct (AuthService.findOrCreateUser _ profile w) as [[u|v] w']; exact E).
Qed.

Lemma preserves_initializeOAuth svc : preserves users (AuthService.initializeOAuth svc).
Proof.
  unfold AuthService.initializeOAuth, AuthService.configurePassport.
  apply preserves_try_catch; [|intros v; apply preserves_throw].
  apply preserves_bind; [apply preserves_loadOAuthConfig|].
  intros config. apply preserves_bind; [|intros u; apply preserves_ret].
  apply preserves_bind; [apply preserves_loadOAuthConfig|].
  intros config2. apply preserves_ret.
Qed.

(** The same for the verify callback of the passport strategies. *)
Lemma keeps_handleOAuthCallback profile :
  keeps_identities (Passport.handleOAuthCallback theUserService profile).
Proof.
  unfold Passport.handleOAuthCallback.
  cbn [theUserService us_findByProviderId us_createUser us_updateUser].
  apply keeps_try_catch; [|intros v; apply preserves_throw].
  apply keeps_after_read.
  - apply preserves_findByProviderId; intros; reflexivity.
  - intros [user|].
    + destruct (_ || _).
      * now apply keeps_updateUser.
      * apply keeps_of_preserves, preserves_ret.
    + apply keeps_of_appends, createUser_appends.
Qed.

Lemma keeps_verify provider queryState sessionState profile :
  keeps_identities (Passport.verify provider theUserService queryState sessionState profile).
Proof.
  unfold Passport.verify.
  apply keeps_try_catch; [|intros v; apply preserves_ret].
  destruct (negb _); [apply keeps_of_preserves, preserves_ret|].
  intros w Hnd. unfold bind.
  destruct (keeps_handleOAuthCallback (OAuth.normalizeProfile provider profile) w Hnd)
    as [tail E].
  exists tail.
  destruct (Passport.handleOAuthCallback theUserService _ w) as [[u|v] w']; exact E.
Qed.

End KeepsIdentities.

(** [deleteUser] only removes rows of [users]: the rows it leaves are rows
    that were there, unchanged and in the same order. *)
Lemma deleteUser_only_removes userId w :
  exists keep : user_row -> bool,
    users (snd (UserService.deleteUser userId w)) = filter keep (users w).
Proof.
  assert (Hsame : forall l : list user_row, l = filter (fun _ => true) l).
  { induction l as [|x l IH]; simpl; [reflexivity | now rewrite <- IH]. }
  unfold UserService.deleteUser, try_catch.
  destruct (negb _).
  - exists (fun _ => true). unfold throw_app, throw.
    unfold UserService.rethrow_or_database_error. cbn [isAppError]. apply Hsame.
  - unfold bind, Db.delete_user, Db.statement.
    destruct (db_fault w (db_pos w)).
    + exists (fun _ => true). unfold UserService.rethrow_or_database_error.
      cbn [isAppError]. apply Hsame.
    + eexists. cbn [snd users set_users set_sessions set_db_pos]. reflexivity.
Qed.

(** C5, as the code has it. On a table [users] whose ids are distinct, no
    core operation changes the provider or the provider-assigned id of an
    existing user, unless it is [updateUser] applied to a partial profile
    that carries a provider or an id. [updateUser] applied to a partial
    profile that carries neither (the one the Orchestrator's upsert passes:
    username and email) leaves the provider and provider-id of every stored
    user unchanged, whatever its outcome; [createUser], the Orchestrator's
    callbacks and its [findOrCreateUser], and the verify callback of the
    passport strategies can only add users; [deleteUser] can only remove
    rows; the lookups, every operation of the Session Store
    ([create], [validate], [destroy], [cleanup], [getSessionWithUser],
    [destroyAllUserSessions], [extendSession], [getSessionStats]) and the
    session operations of the Orchestrator ([createSession],
    [validateSession], [destroySession]), its [initializeOAuth] and its
    token exchange do not write to [users]. *)
Theorem user_identity_kept :
  forall w : World,
    NoDup (map u_id (users w)) ->
    (forall userId patch,
        partial_provider patch = None -> partial_id patch = None ->
        identities (snd (UserService.updateUser userId patch w)) = identities w)
    /\ (forall profile,
           exists tail,
             identities (snd (UserService.createUser profile w))
             = (identities w ++ tail)%list)
    /\ (forall provider sm initialized code requestState storedState,
           exists tail,
             identities
               (snd (AuthService.handleCallback provider
                       (AuthService.mk theUserService sm initialized)
                       code requestState storedState w))
             = (identities w ++ tail)%list)
    /\ (forall providerId provider,
           users (snd (UserService.findByProviderId providerId provider w)) = users w)
    /\ (forall userId, users (snd (UserService.findById userId w)) = users w)
    /\ (forall userId durationMs,
           users (snd (SessionManager.create userId durationMs w)) = users w)
    /\ (forall sessionId, users (snd (SessionManager.validate sessionId w)) = users w)
    /\ (forall sessionId, users (snd (SessionManager.destroy sessionId w)) = users w)
    /\ users (snd (SessionManager.cleanup w)) = users w
    /\ (forall sessionId,
           users (snd (SessionManager.getSessionWithUser sessionId w)) = users w)
    /\ (forall userId,
           users (snd (SessionManager.destroyAllUserSessions userId w)) = users w)
    /\ (forall sessionId durationMs,
           users (snd (SessionManager.extendSession sessionId durationMs w)) = users w)
    /\ users (snd (SessionManager.getSessionStats w)) = users w
    /\ (forall initialized userId,
           users (snd (AuthService.createSession
                         (AuthService.mk theUserService theSessionManager initialized)
                         userId w))
           = users w)
    /\ (forall initialized sessionId,
           users (snd (AuthService.validateSession
                         (AuthService.mk theUserService theSessionManager initialized)
                         sessionId w))
           = users w)
    /\ (forall initialized sessionId,
           users (snd (AuthService.destroySession
                         (AuthService.mk theUserService theSessionManager initialized)
                         sessionId w))
           = users w)
    /\ (forall sm initialized profile,
           exists tail,
             identities
               (snd (AuthService.findOrCreateUser
                       (AuthService.mk theUserService sm initialized) profile w))
             = (identities w ++ tail)%list)
    /\ (forall userId,
           exists keep : user_row -> bool,
             users (snd (UserService.deleteUser userId w)) = filter keep (users w))
    /\ (forall provider queryState sessionState profile,
           exists tail,
             identities
               (snd (Passport.verify provider theUserService queryState sessionState
                       profile w))
             = (identities w ++ tail)%list)
    /\ (forall svc, users (snd (AuthService.initializeOAuth svc w)) = users w)
    /\ (forall provider code,
           users (snd (AuthService.exchangeCodeForProfile provider code w)) = users w).
Proof.
  intros w Hnd. repeat apply conj.
  - intros userId patch Hp Hi. now apply UpdateFacts.updateUser_identities.
  - intros profile. now apply (keeps_of_appends _ (createUser_appends profile)).
  - intros provider sm initialized code rs ss. now apply keeps_handleCallback.
  - intros. apply preserves_findByProviderId; intros; reflexivity.
  - intros. apply preserves_findById; intros; reflexivity.
  - intros. apply preserves_create; intros; reflexivity.
  - intros. apply preserves_validate; intros; reflexivity.
  - intros. apply preserves_destroy; intros; reflexivity.
  - apply preserves_cleanup; intros; reflexivity.
  - intros. apply preserves_getSessionWithUser; intros; reflexivity.
  - intros. apply preserves_destroyAllUserSessions; intros; reflexivity.
  - intros. apply preserves_extendSession; intros; reflexivity.
  - apply preserves_getSessionStats; intros; reflexivity.
  - intros. apply preserves_createSession; intros; reflexivity.
  - intros. apply preserves_validateSession; intros; reflexivity.
  - intros. apply preserves_destroySession; intros; reflexivity.
  - intros sm initialized profile. now apply keeps_findOrCreateUser.
  - intros userId. apply deleteUser_only_removes.
  - intros provider qs ss profile. now apply keeps_verify.
  - intros svc. apply preserves_initializeOAuth.
  - intros. apply preserves_exchange; intros; reflexivity.
Qed.

(** The theorem at work: alice's username is refreshed. *)
Lemma user_identity_kept_witness :
  identities (snd (UserService.updateUser "u-alice"
                     (mkPartial None (Some "alice2") (Some "alice@example.com") None)
                     Example.world_with_alice))
  = [("u-alice", "github", "gh-1")].
Proof.
  assert (Hnd : NoDup (map u_id (users Example.world_with_alice)))
    by (simpl; constructor; [simpl; tauto | constructor]).
  exact (proj1 (user_identity_kept Example.world_with_alice Hnd) "u-alice"
           (mkPartial None (Some "alice2") (Some "alice@example.com") None)
           eq_refl eq_refl).
Defined.

(** C5 as stated fails: [updateUser] with a partial profile that carries
    a provider, or an id, writes it to the stored user. *)
Lemma user_identity_changed_counterexample :
  identities Example.world_with_alice = [("u-alice", "github", "gh-1")]
  /\ identities (snd (UserService.updateUser "u-alice"
                        (mkPartial None None None (Some "microsoft"))
                        Example.world_with_alice))
     = [("u-alice", "microsoft", "gh-1")]
  /\ identities (snd (UserService.updateUser "u-alice"
                        (mkPartial (Some "gh-2") None None None)
                        Example.world_with_alice))
     = [("u-alice", "github", "gh-2")].
Proof.
  repeat split; vm_compute; reflexivity.
Qed.

(** C10. The User Store validates provider names case-insensitively: every
    letter-casing of ["microsoft"] or ["github"] passes the provider check
    of [findByProviderId] and the one [createUser] applies through
    [User.validate], and [findByProviderId] with such a provider and a
    non-empty provider id returns instead of raising. Storage and lookup
    compare the provider case-sensitively: an acceptable profile is stored
    with the provider exactly as given, and looking its provider id up
    under any other accepted provider string returns not-found, unless a
    user of that other identity was in the store. In particular a user
    created with provider ["GitHub"] is stored with that casing and
    [findByProviderId(providerId, 'github')] returns not-found. *)
Theorem provider_casing :
  (forall name p : string,
      name = "microsoft" \/ name = "github" ->
      Casing.casing_of name p = true ->
      UserService.isValidProvider p = true
      /\ User.isValidProvider p = true
      /\ Js.nonempty p = true
      /\ forall providerId w,
          Js.trim providerId <> "" -> db_reliable w ->
          exists r, fst (UserService.findByProviderId providerId p w) = Returned r)
  /\ (forall (profile : UserProfile) (w : World) (other : string),
         UserService.profile_errors profile = [] ->
         db_reliable w ->
         with_identity (profile_provider profile) (Js.trim (profile_id profile)) (users w) = [] ->
         ~ In (random w (random_pos w)) (map u_id (users w)) ->
         UserService.isValidProvider other = true ->
         other <> profile_provider profile ->
         let created := UserService.createUser profile w in
         (exists u, fst created = Returned u
                    /\ User.provider u = profile_provider profile
                    /\ users (snd created) = (users w ++ [User.toDatabaseRow u])%list
                    /\ u_provider (User.toDatabaseRow u) = profile_provider profile)
         /\ (with_identity other (Js.trim (profile_id profile)) (users w) = [] ->
             fst (UserService.findByProviderId (profile_id profile) other (snd created))
             = Returned None))
  /\ (let created :=
        UserService.createUser (mkProfile "gh-1" "alice" "a@x.com" "GitHub") Example.world in
      Casing.casing_of "github" "GitHub" = true
      /\ map u_provider (users (snd created)) = ["GitHub"]
      /\ fst (UserService.findByProviderId "gh-1" "github" (snd created)) = Returned None
      /\ exists u, fst (UserService.findByProviderId "gh-1" "GitHub" (snd created))
                   = Returned (Some u)).
Proof.
  split; [|split].
  - intros name p Hname Hcase.
    assert (Hv : UserService.isValidProvider p = true).
    { unfold UserService.isValidProvider.
      rewrite (StringFacts.casing_of_lower name p Hcase).
      destruct Hname as [-> | ->]; reflexivity. }
    split; [exact Hv|]. split; [exact Hv|].
    split; [now apply StringFacts.valid_provider_nonempty|].
    intros pid w Hpid Hrel.
    apply JsFacts.nonempty_true in Hpid.
    assert (Hv' : UserService.isValidProvider (Js.trim p) = true)
      by now rewrite (StringFacts.valid_provider_trim p Hv).
    destruct (with_identity (Js.trim p) (Js.trim pid) (users w)) as [|x l] eqn:E.
    + exists None. now rewrite UserFacts.findByProviderId_none.
    + destruct (UserFacts.findByProviderId_some pid p w (Hrel _) Hpid Hv')
        as [u [w' [Hf _]]].
      * rewrite E. discriminate.
      * exists (Some u). now rewrite Hf.
  - intros profile w other Hval Hrel Hnew Hfresh Hother Hneq created. subst created.
    rewrite (UserFacts.createUser_new profile w Hval Hrel Hnew Hfresh).
    cbn [fst snd]. split.
    + eexists. split; [reflexivity|]. repeat split.
    + intros Habs.
      destruct (UserFacts.profile_errors_nil profile Hval) as [Hid _].
      rewrite UserFacts.findByProviderId_none; [reflexivity | apply Hrel | exact Hid | | ].
      * now rewrite (StringFacts.valid_provider_trim other Hother).
      * rewrite (StringFacts.valid_provider_trim other Hother).
        cbn [users set_users]. rewrite UserFacts.with_identity_app, Habs.
        unfold with_identity. cbn.
        destruct (String.eqb_spec (profile_provider profile) other) as [E|E].
        -- now contradiction Hneq.
        -- now rewrite andb_false_r.
  - cbv zeta. repeat split; try (vm_compute; reflexivity).
    eexists. vm_compute. reflexivity.
Qed.

(** ** The Session Store (services/SessionManager.ts) *)

Module SessionFacts.
Local Open Scope Z_scope.
Import SessionManager.

Lemma rethrow_create_error {A} msg v w :
  (forall e, v = AppErr e -> create_error e) ->
  exists e, fst (@rethrow_or_database_error A msg v w) = Thrown (AppErr e)
            /\ create_error e.
Proof.
  intros H. unfold rethrow_or_database_error.
  destruct v as [e|m]; simpl.
  - exists e. split; [reflexivity | now apply H].
  - eexists. split; [reflexivity|]. right. right. split; reflexivity.
Qed.

Lemma verifyUserExists_returns userId w :
  exists b, verifyUserExists userId w = (Returned b, set_db_pos (S (db_pos w)) w)
            /\ (b = true -> existsb (fun r => String.eqb (u_id r) userId) (users w) = true).
Proof.
  unfold verifyUserExists, try_catch, Db.select_user_exists, Db.statement.
  destruct (db_fault w (db_pos w)); simpl.
  - exists false. split; [reflexivity | discriminate].
  - eexists. split; [reflexivity|]. simpl. auto.
Qed.

(** Whatever [create] throws is an [AppError] of one of three kinds. *)
Lemma create_throws userId durationMs w v :
  fst (create userId durationMs w) = Thrown v ->
  exists e, v = AppErr e /\ create_error e.
Proof.
  unfold create, try_catch.
  match goal with
  | |- context [match ?body w with _ => _ end] => set (b := body)
  end.
  assert (Hb : forall v0, fst (b w) = Thrown v0 -> forall e, v0 = AppErr e -> create_error e).
  { subst b. unfold sanitizeInput.
    destruct (Js.nonempty (Js.trim userId)); simpl.
    - unfold bind at 1.
      destruct (verifyUserExists_returns (Js.trim userId) w) as [ex [-> _]].
      destruct ex; simpl.
      + unfold generateSecureSessionId, draw_random, bind at 1. simpl.
        unfold bind at 1. simpl. unfold bind at 1. simpl.
        unfold bind at 1.
        match goal with
        | |- context [Session.new ?d ?w0] =>
            destruct (Session.new d w0) as [[s|vs] ws] eqn:En
        end.
        * unfold bind at 1, Session.validate, Session.isExpired, bind, now, ret.
          simpl.
          match goal with
          | |- context [if ?c then _ else _] => destruct c
          end.
          -- simpl. intros v0 Hv e ->. inversion Hv; subst. left. split; reflexivity.
          -- unfold Db.insert_session, Db.statement.
             destruct (db_fault ws (db_pos ws)); simpl;
               [intros v0 Hv e ->; discriminate Hv|].
             destruct (existsb _ (sessions ws)); simpl;
               [intros v0 Hv e ->; discriminate Hv|].
             destruct (negb _); simpl;
               [intros v0 Hv e ->; discriminate Hv|].
             intros v0 Hv. discriminate Hv.
        * exfalso. clear - En.
          unfold Session.new, bind, ret, User.date_or_now in En. simpl in En.
          destruct (random w (random_pos w)); simpl in En; discriminate En.
      + intros v0 Hv e ->. inversion Hv; subst. right. left. split; reflexivity.
    - intros v0 Hv e ->. inversion Hv; subst. left. split; reflexivity. }
  destruct (b w) as [[s|v0] w'] eqn:E; simpl; [discriminate|].
  intros Hv.
  destruct (rethrow_create_error (A := Session.t) "Failed to create session" v0 w'
              (Hb v0 eq_refl)) as [e [He Hc]].
  rewrite He in Hv. inversion Hv; subst. now exists e.
Qed.

Lemma blank_false id : AuthService.blank id = false -> Js.nonempty (Js.trim id) = true.
Proof.
  unfold AuthService.blank. intros H.
  apply orb_false_elim in H. destruct H as [_ H].
  rewrite StringFacts.length_zero in H. now apply negb_false_iff in H.
Qed.

Lemma blank_true id : AuthService.blank id = true -> Js.trim id = "".
Proof.
  unfold AuthService.blank. intros H.
  apply orb_prop in H. destruct H as [H | H].
  - apply negb_true_iff, JsFacts.nonempty_false in H. now subst.
  - rewrite StringFacts.length_zero in H.
    now apply negb_true_iff, JsFacts.nonempty_false in H.
Qed.

(** [create] for a user id that no row of [users] carries: USER_NOT_FOUND,
    also when the existence query itself fails. *)
Lemma create_unknown_user userId durationMs w :
  Js.nonempty (Js.trim userId) = true ->
  existsb (fun r => String.eqb (u_id r) (Js.trim userId)) (users w) = false ->
  create userId durationMs w
  = (Thrown (AppErr (mkAppError USER_NOT_FOUND
                       "Cannot create session for non-existent user" 404)),
     set_db_pos (S (db_pos w)) w).
Proof.
  intros Hne Hex.
  unfold create, try_catch, sanitizeInput. rewrite Hne. simpl.
  unfold bind at 1.
  destruct (verifyUserExists_returns (Js.trim userId) w) as [b [-> Hb]].
  destruct b; [rewrite (Hb eq_refl) in Hex; discriminate Hex|].
  reflexivity.
Qed.

End SessionFacts.

(** C8, as the code has it. For every [userId], the Orchestrator's
    [createSession] surfaces an empty (or blank) [userId] as a
    VALIDATION_ERROR with status 400; every [AppError] the Session Store's
    [create] throws passes through unchanged; only a thrown value that is
    not an [AppError] becomes AUTHENTICATION_FAILED with status 500. The
    Session Store's own [create] throws [AppError]s only: VALIDATION_ERROR
    400, USER_NOT_FOUND 404 or DATABASE_ERROR 500. So with that store,
    [createSession] for a non-existent user fails with USER_NOT_FOUND and
    status 404, and it never fails with AUTHENTICATION_FAILED. *)
Theorem createSession_errors :
  forall (us : UserServiceI) (sm : SessionManagerI) (initialized : bool)
         (userId : string) (w : World),
    let svc := AuthService.mk us sm initialized in
    let real := AuthService.mk us theSessionManager initialized in
    (AuthService.blank userId = true ->
     AuthService.createSession svc userId w
     = (Thrown (AppErr (mkAppError VALIDATION_ERROR
                          "User ID is required to create session" 400)), w))
    /\ (AuthService.blank userId = false ->
        forall outcome w',
          sm_create sm userId None w = (outcome, w') ->
          AuthService.createSession svc userId w
          = (match outcome with
             | Returned session => Returned (Session.id session)
             | Thrown (AppErr e) => Thrown (AppErr e)
             | Thrown (JsError _) =>
                 Thrown (AppErr (mkAppError AUTHENTICATION_FAILED
                                   "Failed to create authentication session" 500))
             end, w'))
    /\ (forall durationMs v,
           fst (SessionManager.create userId durationMs w) = Thrown v ->
           exists e, v = AppErr e /\ create_error e)
    /\ (AuthService.blank userId = false ->
        existsb (fun r => String.eqb (u_id r) (Js.trim userId)) (users w) = false ->
        fst (AuthService.createSession real userId w)
        = Thrown (AppErr (mkAppError USER_NOT_FOUND
                            "Cannot create session for non-existent user" 404)))
    /\ (forall e,
           fst (AuthService.createSession real userId w) = Thrown (AppErr e) ->
           type e <> AUTHENTICATION_FAILED /\ create_error e).
Proof.
  intros us sm initialized userId w svc real. subst svc real.
  assert (Hpass : forall sm0, AuthService.blank userId = false ->
            forall outcome w',
              sm_create sm0 userId None w = (outcome, w') ->
              AuthService.createSession (AuthService.mk us sm0 initialized) userId w
              = (match outcome with
                 | Returned session => Returned (Session.id session)
                 | Thrown (AppErr e) => Thrown (AppErr e)
                 | Thrown (JsError _) =>
                     Thrown (AppErr (mkAppError AUTHENTICATION_FAILED
                                       "Failed to create authentication session" 500))
                 end, w')).
  { intros sm0 Hb outcome w' Hc.
    unfold AuthService.createSession, try_catch, bind. rewrite Hb.
    cbn [AuthService.sessionManager]. rewrite Hc.
    destruct outcome as [s|[e|m]]; reflexivity. }
  split; [|split; [|split; [|split]]].
  - intros Hb. unfold AuthService.createSession, try_catch. now rewrite Hb.
  - apply Hpass.
  - intros d v. apply SessionFacts.create_throws.
  - intros Hb Hex.
    rewrite (Hpass theSessionManager Hb _ _
               (SessionFacts.create_unknown_user userId None w
                  (SessionFacts.blank_false _ Hb) Hex)).
    reflexivity.
  - intros e He.
    assert (Hc : create_error e).
    { destruct (AuthService.blank userId) eqn:Hb.
      - unfold AuthService.createSession, try_catch in He. rewrite Hb in He.
        simpl in He. inversion He; subst. left. split; reflexivity.
      - destruct (SessionManager.create userId None w) as [outcome w'] eqn:Hc.
        rewrite (Hpass theSessionManager eq_refl outcome w' Hc) in He.
        destruct outcome as [s|v]; simpl in He; [discriminate|].
        destruct (SessionFacts.create_throws userId None w v) as [e0 [-> Hce]].
        { now rewrite Hc. }
        inversion He; subst. exact Hce. }
    split; [|exact Hc].
    destruct Hc as [[H _] | [[H _] | [H _]]]; rewrite H; discriminate.
Qed.

(** C8 as stated fails: creation attempted for a non-existent user ends
    in USER_NOT_FOUND with status 404, not in AUTHENTICATION_FAILED with
    status 500. *)
Lemma createSession_unknown_user_counterexample :
  fst (AuthService.createSession Example.ready_service "ghost" Example.world)
  = Thrown (AppErr (mkAppError USER_NOT_FOUND
                      "Cannot create session for non-existent user" 404))
  /\ thrown_status (fst (AuthService.createSession Example.ready_service "ghost"
                           Example.world)) <> Some 500%Z.
Proof.
  split; vm_compute; [reflexivity | discriminate].
Qed.

(** ** [validate] of the Session Store *)

Module ValidateFacts.
Local Open Scope Z_scope.
Import SessionManager.

Lemma validate_returns sessionId w :
  exists r, fst (validate sessionId w) = Returned r.
Proof.
  unfold validate, try_catch.
  match goal with
  | |- context [match ?body w with _ => _ end] => destruct (body w) as [[r|v] w']
  end.
  - now exists r.
  - now exists None.
Qed.

Lemma validate_blank sessionId w :
  Js.trim sessionId = "" -> validate sessionId w = (Returned None, w).
Proof.
  intros H. unfold validate, try_catch, sanitizeInput. now rewrite H.
Qed.

Lemma find_absent id rows :
  (forall r, In r rows -> s_id r <> id) ->
  find (fun r => String.eqb (s_id r) id) rows = None.
Proof.
  intros H. destruct (find _ rows) as [r|] eqn:E; [|reflexivity].
  apply find_some in E. destruct E as [Hin Hid].
  apply String.eqb_eq in Hid. now contradiction (H r Hin).
Qed.

Lemma find_unique r rows :
  NoDup (map s_id rows) -> In r rows ->
  find (fun x => String.eqb (s_id x) (s_id r)) rows = Some r.
Proof.
  induction rows as [|y rows IH]; simpl; [contradiction|].
  intros Hnd Hin. inversion Hnd as [|? ? Hy Hnd']; subst.
  destruct (String.eqb_spec (s_id y) (s_id r)) as [E|E].
  - destruct Hin as [-> | Hin]; [reflexivity|].
    exfalso. apply Hy. rewrite E. now apply in_map.
  - destruct Hin as [-> | Hin]; [now contradiction E|].
    now apply IH.
Qed.

Lemma validate_unknown sessionId w :
  (forall r, In r (sessions w) -> s_id r <> Js.trim sessionId) ->
  fst (validate sessionId w) = Returned None.
Proof.
  intros H. unfold validate, try_catch, sanitizeInput.
  destruct (Js.nonempty (Js.trim sessionId)); simpl; [|reflexivity].
  unfold bind, Db.select_session, Db.statement.
  destruct (db_fault w (db_pos w)); simpl; [reflexivity|].
  now rewrite (find_absent _ _ H).
Qed.

(** The session built from a row with a non-empty id. *)
Lemma session_of_row_eval r w :
  s_id r <> "" ->
  Session.fromDatabaseRow r w
  = (Returned (Session.mk (s_id r) (s_user_id r) (s_created_at r) (s_expires_at r)), w).
Proof.
  intros H. unfold Session.fromDatabaseRow, Session.new, bind, ret. simpl.
  rewrite !StringFacts.or_else_empty.
  destruct (s_id r); [now contradiction H | reflexivity].
Qed.

(** [destroy] of a non-blank id on a database that executes the DELETE. *)
Lemma destroy_eval id w :
  Js.nonempty (Js.trim id) = true ->
  db_fault w (db_pos w) = false ->
  destroy id w
  = (Returned tt,
     set_sessions (filter (fun x => negb (String.eqb (s_id x) (Js.trim id))) (sessions w))
                  (set_db_pos (S (db_pos w)) w)).
Proof.
  intros Hne Hdb. unfold destroy, try_catch, bind, sanitizeInput, Db.delete_session.
  rewrite Hne. simpl. rewrite UserFacts.statement_reliable by assumption. reflexivity.
Qed.

Lemma filter_out_absent id rows :
  forall x, In x (filter (fun x => negb (String.eqb (s_id x) id)) rows) -> s_id x <> id.
Proof.
  intros x Hx. apply filter_In in Hx. destruct Hx as [_ Hx].
  apply negb_true_iff in Hx. now apply String.eqb_neq.
Qed.

(** The expired row is found, and [validate] answers [null], whether the
    database executes the statements or not. *)
Lemma validate_expired sessionId w r :
  NoDup (map s_id (sessions w)) ->
  In r (sessions w) ->
  s_id r = Js.trim sessionId ->
  s_expires_at r < clock w ->
  fst (validate sessionId w) = Returned None.
Proof.
  intros Hnd Hin Hid Hexp.
  unfold validate, try_catch, sanitizeInput.
  destruct (Js.nonempty (Js.trim sessionId)) eqn:Hne; simpl; [|reflexivity].
  unfold bind at 1. unfold Db.select_session, Db.statement.
  destruct (db_fault w (db_pos w)); simpl; [reflexivity|].
  rewrite <- Hid, (find_unique r _ Hnd Hin).
  unfold bind at 1.
  rewrite session_of_row_eval
    by (rewrite Hid; now apply JsFacts.nonempty_true).
  unfold bind at 1, Session.isExpired, bind at 1, now, ret. simpl.
  apply Z.ltb_lt in Hexp. rewrite Hexp.
  unfold bind.
  match goal with
  | |- context [destroy ?i ?w0] => destruct (destroy i w0) as [[u|v] w1]
  end; reflexivity.
Qed.

(** On a database that executes the statements, [validate] of a
    non-blank id whose row is expired deletes that row and nothing else. *)
Lemma validate_expired_deletes sessionId w r :
  Js.trim sessionId <> "" ->
  NoDup (map s_id (sessions w)) ->
  In r (sessions w) ->
  s_id r = Js.trim sessionId ->
  s_expires_at r < clock w ->
  db_reliable w ->
  validate sessionId w
  = (Returned None,
     set_sessions
       (filter (fun x => negb (String.eqb (s_id x) (Js.trim sessionId))) (sessions w))
       (set_db_pos (S (S (db_pos w))) w)).
Proof.
  intros Hne Hnd Hin Hid Hexp Hrel.
  apply JsFacts.nonempty_true in Hne.
  unfold validate, try_catch, sanitizeInput. rewrite Hne. simpl.
  unfold bind at 1. unfold Db.select_session.
  rewrite UserFacts.statement_reliable by apply Hrel. simpl.
  rewrite <- Hid, (find_unique r _ Hnd Hin).
  unfold bind at 1.
  rewrite session_of_row_eval
    by (rewrite Hid; now apply JsFacts.nonempty_true).
  unfold bind at 1, Session.isExpired, bind at 1, now, ret. simpl.
  apply Z.ltb_lt in Hexp. rewrite Hexp.
  unfold bind.
  rewrite destroy_eval; simpl.
  - rewrite Hid, StringFacts.trim_idem. reflexivity.
  - now rewrite Hid, StringFacts.trim_idem.
  - apply Hrel.
Qed.

End ValidateFacts.

(** C6. The Session Store's [validate(sessionId)] never throws. It
    returns [null] for an empty id (and for one that is blank), for an id
    that no row carries, and for a session whose expiry is strictly in the
    past; these hold whether or not the database executes the statements.
    In the expired case, on a database that executes the statements and for
    an id that is not blank, the row is deleted and no other row is: after
    the call no row carries the id, and a later [validate] on the same id,
    at any time, returns [null] too. *)
Theorem validate_never_throws_and_purges :
  (forall sessionId w, exists r, fst (SessionManager.validate sessionId w) = Returned r)
  /\ (forall w, SessionManager.validate "" w = (Returned None, w))
  /\ (forall sessionId w,
         Js.trim sessionId = "" ->
         SessionManager.validate sessionId w = (Returned None, w))
  /\ (forall sessionId w,
         (forall r, In r (sessions w) -> s_id r <> Js.trim sessionId) ->
         fst (SessionManager.validate sessionId w) = Returned None)
  /\ (forall sessionId w r,
         NoDup (map s_id (sessions w)) ->
         In r (sessions w) ->
         s_id r = Js.trim sessionId ->
         (s_expires_at r < clock w)%Z ->
         fst (SessionManager.validate sessionId w) = Returned None
         /\ (Js.trim sessionId <> "" -> db_reliable w ->
             let w' := snd (SessionManager.validate sessionId w) in
             sessions w'
             = filter (fun x => negb (String.eqb (s_id x) (Js.trim sessionId)))
                      (sessions w)
             /\ (forall x, In x (sessions w') -> s_id x <> Js.trim sessionId)
             /\ users w' = users w
             /\ forall t,
                 fst (SessionManager.validate sessionId (set_clock t w'))
                 = Returned None)).
Proof.
  split; [|split; [|split; [|split]]].
  - apply ValidateFacts.validate_returns.
  - intros w. now apply ValidateFacts.validate_blank.
  - apply ValidateFacts.validate_blank.
  - apply ValidateFacts.validate_unknown.
  - intros sid w r Hnd Hin Hid Hexp. split.
    + now apply (ValidateFacts.validate_expired sid w r).
    + intros Hne Hrel w'. subst w'.
      rewrite (ValidateFacts.validate_expired_deletes sid w r Hne Hnd Hin Hid Hexp Hrel).
      cbn [snd sessions set_sessions users set_db_pos].
      split; [reflexivity|]. split; [apply ValidateFacts.filter_out_absent|].
      split; [reflexivity|].
      intros t. apply ValidateFacts.validate_unknown.
      cbn [sessions set_clock set_sessions]. apply ValidateFacts.filter_out_absent.
Qed.

(** The theorem at work, scenario B of the specification: a session that
    lived one millisecond is validated ten milliseconds after its creation;
    the answer is [null], and no row is left. *)
Lemma validate_never_throws_and_purges_witness :
  fst (SessionManager.validate "s-1" Example.world_soon_after) = Returned None
  /\ sessions (snd (SessionManager.validate "s-1" Example.world_soon_after)) = [].
Proof.
  assert (Hnd : NoDup (map s_id (sessions Example.world_soon_after)))
    by (simpl; constructor; [simpl; tauto | constructor]).
  assert (Hin : In Example.short_session (sessions Example.world_soon_after))
    by (simpl; tauto).
  assert (Hexp : (s_expires_at Example.short_session < clock Example.world_soon_after)%Z)
    by (vm_compute; reflexivity).
  assert (Hne : Js.trim "s-1" <> "") by (vm_compute; discriminate).
  assert (Hrel : db_reliable Example.world_soon_after) by (intros n; reflexivity).
  destruct (proj2 (proj2 (proj2 (proj2 validate_never_throws_and_purges)))
              "s-1" Example.world_soon_after Example.short_session
              Hnd Hin eq_refl Hexp) as [H1 H2].
  destruct (H2 Hne Hrel) as [H3 _].
  split; [exact H1|]. rewrite H3. vm_compute. reflexivity.
Defined.

(** ** [cleanup] of the Session Store *)

Module CleanupFacts.
Local Open Scope Z_scope.

Lemma ascii_compare_refl c : Ascii.compare c c = Eq.
Proof.
  unfold Ascii.compare. apply N.compare_refl.
Qed.

(** Two texts that agree up to a ["T"] in the first and a [" "] in the
    second: the first is not below the second. *)
Lemma iso_not_below_sql (d x y : string) :
  DateText.text_lt (d ++ "T" ++ x) (d ++ " " ++ y) = false.
Proof.
  unfold DateText.text_lt, String.ltb.
  induction d as [|c d IH]; simpl.
  - reflexivity.
  - rewrite ascii_compare_refl. exact IH.
Qed.

(** The WHERE clause of [cleanup] does not select a session that expires
    on the current day (UTC), not even one that expired hours ago. *)
Lemma expired_today_not_selected t r :
  DateText.date_text (s_expires_at r) = DateText.date_text t ->
  Db.expired_in_sql t r = false.
Proof.
  intros H. unfold Db.expired_in_sql, DateText.sqlite_now.
  destruct (DateText.in_sqlite_range t); [|reflexivity].
  unfold DateText.toISOString, DateText.datetime_now.
  rewrite H. apply iso_not_below_sql.
Qed.

(** Whatever the database does, [cleanup] leaves in the table every
    session that expires on the current day. *)
Lemma cleanup_keeps_today w r :
  In r (sessions w) ->
  DateText.date_text (s_expires_at r) = DateText.date_text (clock w) ->
  In r (sessions (snd (SessionManager.cleanup w))).
Proof.
  intros Hin Hday.
  unfold SessionManager.cleanup, try_catch, Db.delete_expired_sessions, Db.statement.
  destruct (db_fault w (db_pos w)); simpl; [exact Hin|].
  apply filter_In. split; [exact Hin|].
  now rewrite (expired_today_not_selected _ _ Hday).
Qed.

(** The two formats on known instants. *)
Example toISOString_epoch : DateText.toISOString 0 = "1970-01-01T00:00:00.000Z".
Proof. reflexivity. Qed.

Example toISOString_leap_day :
  DateText.toISOString 1709210096789 = "2024-02-29T12:34:56.789Z".
Proof. vm_compute. reflexivity. Qed.

Example toISOString_before_epoch :
  DateText.toISOString (-1) = "1969-12-31T23:59:59.999Z".
Proof. vm_compute. reflexivity. Qed.

Example datetime_now_noon :
  DateText.datetime_now Example.noon = "2024-01-01 12:00:00".
Proof. vm_compute. reflexivity. Qed.

End CleanupFacts.

(** C7, the code at the failing input. At noon the table holds a session
    that expired at 10:00:00.001 of the same day. The text of its
    [expires_at] is ["2024-01-01T10:00:00.001Z"], the text of
    [datetime('now')] is ["2024-01-01 12:00:00"], and the first is not
    below the second: they differ first at index 10, where ["T"] is above
    [" "]. [cleanup] deletes nothing and returns 0, while [validate], which
    compares the time values, treats the same session as expired. *)
Theorem cleanup_leaves_session_expired_today :
  (s_expires_at Example.short_session < clock Example.world_at_noon)%Z
  /\ DateText.toISOString (s_expires_at Example.short_session)
     = "2024-01-01T10:00:00.001Z"
  /\ DateText.datetime_now (clock Example.world_at_noon) = "2024-01-01 12:00:00"
  /\ fst (SessionManager.cleanup Example.world_at_noon) = Returned 0%Z
  /\ sessions (snd (SessionManager.cleanup Example.world_at_noon))
     = [Example.short_session]
  /\ fst (SessionManager.validate "s-1" Example.world_at_noon) = Returned None
  /\ sessions (snd (SessionManager.validate "s-1" Example.world_at_noon)) = [].
Proof.
  repeat split; vm_compute; reflexivity.
Qed.

(* ================================================================== *)
(** * Further properties of the models, the stores and the orchestrator *)
(* ================================================================== *)

(** ** models/User.ts: the e-mail pattern and the provider check *)

Module EmailFacts.

Lemma all_chars_app f a b :
  User.all_chars f (a ++ b) = User.all_chars f a && User.all_chars f b.
Proof.
  induction a as [|c a IH]; simpl; [reflexivity|].
  now rewrite IH, andb_assoc.
Qed.

Lemma dot_then_more_shape s :
  User.dot_then_more s = true <-> exists x b, s = x ++ "." ++ b /\ b <> "".
Proof.
  induction s as [|c s IH].
  - split; [discriminate|]. intros (x & b & H & _). destruct x; discriminate.
  - destruct s as [|c' s'].
    + split; [discriminate|]. intros (x & b & H & Hb).
      destruct x as [|c0 [|c1 x]]; simpl in H; inversion H; subst; try now contradiction Hb.
    + change (User.dot_then_more (String c (String c' s')))
        with (Ascii.eqb c "." || User.dot_then_more (String c' s')).
      rewrite orb_true_iff, IH. split.
      * intros [Hc | (x & b & H & Hb)].
        -- apply Ascii.eqb_eq in Hc. subst c. exists "", (String c' s'). split; [reflexivity|discriminate].
        -- exists (String c x), b. split; [simpl; now rewrite H | exact Hb].
      * intros (x & b & H & Hb). destruct x as [|c0 x]; simpl in H; inversion H; subst.
        -- left. reflexivity.
        -- right. exists x, b. split; [assumption | exact Hb].
Qed.

Lemma email_domain_shape s :
  User.email_domain s = true <->
  exists a b, s = a ++ "." ++ b /\ a <> "" /\ b <> ""
              /\ User.all_chars User.email_char a = true
              /\ User.all_chars User.email_char b = true.
Proof.
  unfold User.email_domain. rewrite andb_true_iff. split.
  - intros [Hall Hdot]. destruct s as [|c s]; [discriminate|].
    apply dot_then_more_shape in Hdot. destruct Hdot as (x & b & -> & Hb).
    exists (String c x), b.
    change (String c (x ++ "." ++ b)) with (String c x ++ "." ++ b) in Hall.
    rewrite !all_chars_app in Hall.
    apply andb_true_iff in Hall. destruct Hall as [Ha Hall].
    apply andb_true_iff in Hall. destruct Hall as [_ Hb'].
    repeat split; try assumption; discriminate.
  - intros (a & b & -> & Ha & Hb & Hca & Hcb). split.
    + rewrite !all_chars_app, Hca, Hcb. reflexivity.
    + destruct a as [|c a]; [now contradiction Ha|]. simpl.
      apply dot_then_more_shape. now exists a, b.
Qed.

Lemma email_char_at c : User.email_char c = true -> Ascii.eqb c "@" = false /\ Js.is_space c = false.
Proof.
  unfold User.email_char. rewrite andb_true_iff, !negb_true_iff. tauto.
Qed.

Lemma email_from_shape s : forall seen,
  User.email_from seen s = true <->
  exists loc rest, s = loc ++ "@" ++ rest
                   /\ (seen = true \/ loc <> "")
                   /\ User.all_chars User.email_char loc = true
                   /\ User.email_domain rest = true.
Proof.
  induction s as [|c s IH]; intros seen.
  - split; [discriminate|]. intros (loc & rest & H & _). destruct loc; discriminate.
  - simpl. destruct (Ascii.eqb c "@") eqn:Hat.
    + apply Ascii.eqb_eq in Hat. subst c. rewrite andb_true_iff. split.
      * intros [Hs Hd]. exists "", s. repeat split; auto.
      * intros (loc & rest & H & Hseen & Hall & Hd).
        destruct loc as [|c0 loc]; simpl in H; inversion H; subst.
        -- split; [|exact Hd]. destruct Hseen as [?|?]; [assumption|congruence].
        -- cbn [User.all_chars] in Hall. apply andb_true_iff in Hall.
           destruct Hall as [Hc _].
           apply email_char_at in Hc. destruct Hc as [Hc _]. discriminate.
    + destruct (Js.is_space c) eqn:Hsp.
      * split; [discriminate|]. intros (loc & rest & H & _ & Hall & _).
        destruct loc as [|c0 loc]; simpl in H; inversion H; subst.
        -- discriminate.
        -- cbn [User.all_chars] in Hall. apply andb_true_iff in Hall.
           destruct Hall as [Hc _].
           apply email_char_at in Hc. destruct Hc as [_ Hc]. congruence.
      * rewrite IH. split.
        -- intros (loc & rest & -> & _ & Hall & Hd). exists (String c loc), rest.
           repeat split; try assumption.
           ++ right. discriminate.
           ++ cbn [User.all_chars]. rewrite Hall. unfold User.email_char.
              now rewrite Hat, Hsp.
        -- intros (loc & rest & H & _ & Hall & Hd).
           destruct loc as [|c0 loc]; simpl in H; inversion H; subst.
           ++ discriminate.
           ++ exists loc, rest. cbn [User.all_chars] in Hall.
              apply andb_true_iff in Hall.
              repeat split; try tauto.
Qed.

Lemma email_chars_no_space s :
  User.all_chars User.email_char s = true ->
  User.all_chars (fun c => negb (Js.is_space c)) s = true.
Proof.
  induction s as [|c s IH]; simpl; [reflexivity|].
  intros H. apply andb_true_iff in H. destruct H as [Hc Hs].
  apply email_char_at in Hc. destruct Hc as [_ Hc]. rewrite Hc. simpl. now apply IH.
Qed.

(** A text the pattern accepts holds no white space. *)
Lemma isValidEmail_shape_chars e :
  User.isValidEmail e = true ->
  User.all_chars (fun c => negb (Js.is_space c)) e = true.
Proof.
  unfold User.isValidEmail. intros H. apply email_from_shape in H.
  destruct H as (loc & rest & -> & _ & Hloc & Hd).
  apply email_domain_shape in Hd. destruct Hd as (a & b & -> & _ & _ & Ha & Hb).
  rewrite !all_chars_app.
  rewrite (email_chars_no_space _ Hloc), (email_chars_no_space _ Ha),
          (email_chars_no_space _ Hb).
  reflexivity.
Qed.

End EmailFacts.

(** The pattern [/^[^\s@]+@[^\s@]+\.[^\s@]+$/] of [User.isValidEmail]
    accepts exactly the texts [local@a.b] whose three parts are non-empty
    and hold neither white space nor ["@"] ([a] and [b] may hold further
    dots). *)
Theorem isValidEmail_shape :
  forall email : string,
    User.isValidEmail email = true <->
    exists local a b,
      email = local ++ "@" ++ a ++ "." ++ b
      /\ local <> "" /\ a <> "" /\ b <> ""
      /\ User.all_chars User.email_char local = true
      /\ User.all_chars User.email_char a = true
      /\ User.all_chars User.email_char b = true.
Proof.
  intros email. unfold User.isValidEmail. rewrite EmailFacts.email_from_shape. split.
  - intros (loc & rest & -> & Hloc & Hall & Hd).
    apply EmailFacts.email_domain_shape in Hd.
    destruct Hd as (a & b & -> & Ha & Hb & Hca & Hcb).
    exists loc, a, b. repeat split; try assumption.
    destruct Hloc as [?|?]; [discriminate | assumption].
  - intros (loc & a & b & -> & Hloc & Ha & Hb & Hcl & Hca & Hcb).
    exists loc, (a ++ "." ++ b). repeat split; try assumption.
    + now right.
    + apply EmailFacts.email_domain_shape. now exists a, b.
Qed.

Module CasingFacts.

(** A code unit whose lower case is a small ASCII letter is that letter or
    its capital. *)
Lemma lower_char_casing a :
  Casing.is_lower_letter (Js.lower_char a) = true ->
  Casing.casing_char a (Js.lower_char a) = true.
Proof.
  destruct a as [[] [] [] [] [] [] [] []]; vm_compute; intros H;
    first [reflexivity | discriminate].
Qed.

Lemma lower_casing_of name : forall p,
  User.all_chars Casing.is_lower_letter name = true ->
  Js.toLowerCase p = name -> Casing.casing_of name p = true.
Proof.
  induction name as [|b name IH]; intros p Hall Hp.
  - destruct p; [reflexivity | discriminate].
  - destruct p as [|a p]; [discriminate|].
    simpl in Hp. inversion Hp; subst. simpl in Hall.
    apply andb_true_iff in Hall. destruct Hall as [Hb Hall].
    simpl. rewrite (lower_char_casing a Hb). simpl. now apply IH.
Qed.

Lemma valid_provider_names p :
  UserService.isValidProvider p = true ->
  Js.toLowerCase p = "microsoft" \/ Js.toLowerCase p = "github".
Proof.
  unfold UserService.isValidProvider, Js.array_includes. simpl.
  rewrite orb_false_r, orb_true_iff, !String.eqb_eq. tauto.
Qed.

End CasingFacts.

(** The provider check of the User Store and of the [User] model accepts
    the letter-casings of ["microsoft"] and ["github"] and nothing else:
    no surrounding white space, no other name, no accented look-alike. *)
Theorem isValidProvider_exactly_the_casings :
  forall p : string,
    (UserService.isValidProvider p = true <->
     Casing.casing_of "microsoft" p = true \/ Casing.casing_of "github" p = true)
    /\ User.isValidProvider p = UserService.isValidProvider p.
Proof.
  intros p. split; [|reflexivity]. split.
  - intros H. apply CasingFacts.valid_provider_names in H. destruct H as [H|H].
    + left. now apply CasingFacts.lower_casing_of.
    + right. now apply CasingFacts.lower_casing_of.
  - intros [H|H]; apply StringFacts.casing_of_lower in H;
      unfold UserService.isValidProvider; rewrite H; reflexivity.
Qed.

(** ** What the stores throw *)

Section Throws.
Context {A : Type}.

Lemma throws_ret P (a : A) : throws_only P (ret a).
Proof. intros w v H. discriminate. Qed.

Lemma throws_throw (P : JsValue -> Prop) v : P v -> throws_only P (@throw A v).
Proof. intros H w v' E. simpl in E. now inversion E; subst. Qed.

Lemma throws_now P : throws_only P now.
Proof. intros w v H. discriminate. Qed.

Lemma throws_draw_random P : throws_only P draw_random.
Proof. intros w v H. discriminate. Qed.

Lemma throws_bind {B} P (p : Prog B) (k : B -> Prog A) :
  throws_only P p -> (forall b, throws_only P (k b)) -> throws_only P (bind p k).
Proof.
  intros Hp Hk w v. unfold bind.
  specialize (Hp w). destruct (p w) as [[b|v'] w1]; simpl in *.
  - apply Hk.
  - intros E. inversion E; subst. now apply Hp.
Qed.

Lemma throws_try_catch (Q P : JsValue -> Prop) (p : Prog A) (h : JsValue -> Prog A) :
  throws_only Q p -> (forall v, Q v -> throws_only P (h v)) ->
  throws_only P (try_catch p h).
Proof.
  intros Hp Hh w v. unfold try_catch.
  specialize (Hp w). destruct (p w) as [[a|v'] w1]; simpl in *.
  - discriminate.
  - apply Hh. now apply Hp.
Qed.

Lemma throws_weaken (P Q : JsValue -> Prop) (p : Prog A) :
  (forall v, P v -> Q v) -> throws_only P p -> throws_only Q p.
Proof. intros H Hp w v E. apply H. now apply (Hp w). Qed.

Lemma throws_statement (P : JsValue -> Prop) (run : Prog A) :
  P (JsError Db.driver_failure) -> throws_only P run ->
  throws_only P (Db.statement run).
Proof.
  intros Hd Hr w v. unfold Db.statement.
  destruct (db_fault w (db_pos w)); simpl.
  - intros E. now inversion E; subst.
  - apply Hr.
Qed.

Lemma throws_throw_app l t msg status :
  In (t, status) l -> throws_only (raw_or l) (@throw_app A t msg status).
Proof.
  intros H. apply throws_throw. right. eexists. split; [reflexivity|exact H].
Qed.

Lemma throws_rethrow_user l msg v :
  raw_or l v -> In (DATABASE_ERROR, 500%Z) l ->
  throws_only (app_error (one_of l)) (@UserService.rethrow_or_database_error A msg v).
Proof.
  intros [[m ->] | (e & -> & He)] Hdb; apply throws_throw.
  - eexists. split; [reflexivity | exact Hdb].
  - eexists. split; [reflexivity | exact He].
Qed.

Lemma throws_rethrow_session l msg v :
  raw_or l v -> In (DATABASE_ERROR, 500%Z) l ->
  throws_only (app_error (one_of l)) (@SessionManager.rethrow_or_database_error A msg v).
Proof.
  intros [[m ->] | (e & -> & He)] Hdb; apply throws_throw.
  - eexists. split; [reflexivity | exact Hdb].
  - eexists. split; [reflexivity | exact He].
Qed.

End Throws.

Lemma raw_or_driver l : raw_or l (JsError Db.driver_failure).
Proof. left. now eexists. Qed.

Lemma raw_or_mono l l' v : incl l l' -> raw_or l v -> raw_or l' v.
Proof.
  intros Hi [H | (e & -> & He)]; [now left | right].
  eexists. split; [reflexivity | now apply Hi].
Qed.

Lemma app_error_raw l v : app_error (one_of l) v -> raw_or l v.
Proof. now right. Qed.

Module ThrowFacts.
Local Open Scope Z_scope.

Lemma throws_user_new P data : throws_only P (User.new data).
Proof.
  unfold User.new.
  apply throws_bind; [destruct (Js.truthy _); [apply throws_ret | apply throws_draw_random]|].
  intros i. apply throws_bind.
  { unfold User.date_or_now. destruct (User.p_createdAt data); [apply throws_ret | apply throws_now]. }
  intros c. apply throws_bind.
  { unfold User.date_or_now. destruct (User.p_updatedAt data); [apply throws_ret | apply throws_now]. }
  intros u. apply throws_ret.
Qed.

Lemma throws_user_of_row P row : throws_only P (UserService.user_of_row row).
Proof.
  destruct row as [r|]; simpl; [|apply throws_ret].
  apply throws_bind; [apply throws_user_new | intros u; apply throws_ret].
Qed.

Lemma throws_session_new P data : throws_only P (Session.new data).
Proof.
  unfold Session.new.
  apply throws_bind; [destruct (Js.truthy _); [apply throws_ret | apply throws_draw_random]|].
  intros i. apply throws_bind.
  { unfold User.date_or_now. destruct (Session.p_createdAt data); [apply throws_ret | apply throws_now]. }
  intros c. apply throws_bind.
  { destruct (Session.p_expiresAt data); [apply throws_ret|].
    apply throws_bind; [apply throws_now | intros n; apply throws_ret]. }
  intros e. apply throws_ret.
Qed.

(** A database statement whose own work cannot fail throws the driver's
    error or nothing. *)
Lemma throws_query {A} l (f : World -> A * World) :
  throws_only (raw_or l) (Db.statement (fun w => (Returned (fst (f w)), snd (f w)))).
Proof.
  apply throws_statement; [apply raw_or_driver|]. intros w v H. discriminate.
Qed.

Lemma throws_select_user_by_provider l pid prov :
  throws_only (raw_or l) (Db.select_user_by_provider pid prov).
Proof.
  apply throws_statement; [apply raw_or_driver|]. intros w v H. discriminate.
Qed.

Lemma throws_select_user_by_id l id : throws_only (raw_or l) (Db.select_user_by_id id).
Proof.
  apply throws_statement; [apply raw_or_driver|]. intros w v H. discriminate.
Qed.

Lemma throws_insert_user l r : throws_only (raw_or l) (Db.insert_user r).
Proof.
  apply throws_statement; [apply raw_or_driver|]. intros w v.
  destruct (existsb _ (users w)); simpl.
  - intros E. inversion E. left. now eexists.
  - destruct (existsb _ (users w)); simpl; [|discriminate].
    intros E. inversion E. left. now eexists.
Qed.

Lemma throws_update_user l un em pr pid t id :
  throws_only (raw_or l) (Db.update_user un em pr pid t id).
Proof.
  apply throws_statement; [apply raw_or_driver|]. intros w v. simpl.
  destruct (_ && _); simpl; [|discriminate].
  intros E. inversion E. left. now eexists.
Qed.

Lemma throws_delete_user l id : throws_only (raw_or l) (Db.delete_user id).
Proof.
  apply throws_statement; [apply raw_or_driver|]. intros w v H. discriminate.
Qed.

Lemma throws_findByProviderId pid prov :
  throws_only (app_error (one_of [(VALIDATION_ERROR, 400); (DATABASE_ERROR, 500)]))
              (UserService.findByProviderId pid prov).
Proof.
  unfold UserService.findByProviderId.
  apply throws_try_catch
    with (Q := raw_or [(VALIDATION_ERROR, 400); (DATABASE_ERROR, 500)]).
  - destruct (_ || _); [apply throws_throw_app; simpl; tauto|].
    destruct (negb _); [apply throws_throw_app; simpl; tauto|].
    apply throws_bind; [apply throws_select_user_by_provider|].
    intros row. apply throws_user_of_row.
  - intros v Hv. apply throws_rethrow_user; [exact Hv | simpl; tauto].
Qed.

Lemma throws_findById userId :
  throws_only (app_error (one_of [(DATABASE_ERROR, 500)])) (UserService.findById userId).
Proof.
  unfold UserService.findById.
  apply throws_try_catch with (Q := fun _ => True).
  - intros w v _. exact I.
  - intros v _. apply throws_throw. eexists.
    split; [reflexivity | unfold one_of; simpl; tauto].
Qed.

Lemma throws_createUser profile :
  throws_only (app_error (one_of [(VALIDATION_ERROR, 400); (VALIDATION_ERROR, 409);
                                  (DATABASE_ERROR, 500)]))
              (UserService.createUser profile).
Proof.
  unfold UserService.createUser.
  set (l := [(VALIDATION_ERROR, 400); (VALIDATION_ERROR, 409); (DATABASE_ERROR, 500)]).
  apply throws_try_catch with (Q := raw_or l).
  - apply throws_bind.
    + unfold UserService.createUser_lookup.
      apply throws_bind.
      { unfold User.fromProfile. apply throws_bind; [apply throws_now|]. intros c.
        apply throws_bind; [apply throws_now|]. intros u. apply throws_user_new. }
      intros user. destruct (_ <? _)%nat; [apply throws_throw_app; simpl; tauto|].
      apply throws_bind; [|intros x; apply throws_ret].
      eapply throws_weaken; [|apply throws_findByProviderId].
      intros v Hv. apply app_error_raw. destruct Hv as (e & -> & He).
      eexists. split; [reflexivity|]. unfold one_of in *. simpl in *. tauto.
    + intros [user [existing|]]; simpl.
      * apply throws_throw_app; simpl; tauto.
      * apply throws_bind; [apply throws_insert_user|].
        intros changes. destruct (changes =? 0); [apply throws_throw_app; simpl; tauto|].
        apply throws_ret.
  - intros v Hv. unfold UserService.createUser_catch.
    destruct Hv as [[m ->] | (e & -> & He)]; simpl.
    + destruct (Js.includes m _); apply throws_throw; eexists;
        (split; [reflexivity | unfold one_of; simpl; tauto]).
    + apply throws_throw. eexists. split; [reflexivity | exact He].
Qed.

Lemma throws_updateUser userId patch :
  throws_only (app_error (one_of [(VALIDATION_ERROR, 400); (USER_NOT_FOUND, 404);
                                  (DATABASE_ERROR, 500)]))
              (UserService.updateUser userId patch).
Proof.
  unfold UserService.updateUser.
  set (l := [(VALIDATION_ERROR, 400); (USER_NOT_FOUND, 404); (DATABASE_ERROR, 500)]).
  apply throws_try_catch with (Q := raw_or l).
  - destruct (negb _); [apply throws_throw_app; simpl; tauto|].
    apply throws_bind.
    { eapply throws_weaken; [|apply throws_findById].
      intros v (e & -> & He). apply app_error_raw.
      eexists. split; [reflexivity|]. unfold one_of in *. simpl in *. tauto. }
    intros [existing|]; [|apply throws_throw_app; simpl; tauto].
    apply throws_bind.
    { unfold User.update. apply throws_bind; [apply throws_now | intros n; apply throws_ret]. }
    intros updated. destruct (_ <? _)%nat; [apply throws_throw_app; simpl; tauto|].
    apply throws_bind; [apply throws_update_user|].
    intros changes. destruct (changes =? 0); [apply throws_throw_app; simpl; tauto|].
    apply throws_ret.
  - intros v Hv. apply throws_rethrow_user; [exact Hv | simpl; tauto].
Qed.

Lemma throws_deleteUser userId :
  throws_only (app_error (one_of [(VALIDATION_ERROR, 400); (DATABASE_ERROR, 500)]))
              (UserService.deleteUser userId).
Proof.
  unfold UserService.deleteUser.
  apply throws_try_catch
    with (Q := raw_or [(VALIDATION_ERROR, 400); (DATABASE_ERROR, 500)]).
  - destruct (negb _); [apply throws_throw_app; simpl; tauto|].
    apply throws_bind; [apply throws_delete_user | intros c; apply throws_ret].
  - intros v Hv. apply throws_rethrow_user; [exact Hv | simpl; tauto].
Qed.

End ThrowFacts.

(** The User Store throws [AppError]s only, never the [Error] of the
    driver, and each method a fixed set of kinds and statuses:
    [findByProviderId] and [deleteUser] VALIDATION_ERROR 400 or
    DATABASE_ERROR 500; [findById] DATABASE_ERROR 500; [createUser]
    VALIDATION_ERROR 400 or 409, or DATABASE_ERROR 500; [updateUser]
    VALIDATION_ERROR 400, USER_NOT_FOUND 404 or DATABASE_ERROR 500 (so an
    update that runs into UNIQUE(provider, provider_id) is a 500, not a
    409). This holds for every argument, every content of the tables and
    every failure of the driver. *)
Theorem user_store_throws_app_errors :
  (forall providerId provider,
      throws_only (app_error (one_of [(VALIDATION_ERROR, 400%Z); (DATABASE_ERROR, 500%Z)]))
                  (UserService.findByProviderId providerId provider))
  /\ (forall userId,
         throws_only (app_error (one_of [(DATABASE_ERROR, 500%Z)]))
                     (UserService.findById userId))
  /\ (forall profile,
         throws_only (app_error (one_of [(VALIDATION_ERROR, 400%Z);
                                         (VALIDATION_ERROR, 409%Z);
                                         (DATABASE_ERROR, 500%Z)]))
                     (UserService.createUser profile))
  /\ (forall userId patch,
         throws_only (app_error (one_of [(VALIDATION_ERROR, 400%Z);
                                         (USER_NOT_FOUND, 404%Z);
                                         (DATABASE_ERROR, 500%Z)]))
                     (UserService.updateUser userId patch))
  /\ (forall userId,
         throws_only (app_error (one_of [(VALIDATION_ERROR, 400%Z); (DATABASE_ERROR, 500%Z)]))
                     (UserService.deleteUser userId)).
Proof.
  split; [|split; [|split; [|split]]].
  - apply ThrowFacts.throws_findByProviderId.
  - apply ThrowFacts.throws_findById.
  - apply ThrowFacts.throws_createUser.
  - apply ThrowFacts.throws_updateUser.
  - apply ThrowFacts.throws_deleteUser.
Qed.

(** ** The User Store on a database that executes the statements *)

Module StoreFacts.
Local Open Scope Z_scope.
Import UserService.

Lemma trim_nonempty s : Js.nonempty (Js.trim s) = true <-> Js.trim s <> "".
Proof. apply JsFacts.nonempty_true. Qed.

Lemma valid_email_nonempty e : User.isValidEmail e = true -> Js.nonempty e = true.
Proof. destruct e; [discriminate | reflexivity]. Qed.

(** The four checks of [User.validate] on the fields [createUser]
    builds. *)
Lemma profile_errors_nil_iff p :
  profile_errors p = [] <->
  Js.trim (profile_username p) <> ""
  /\ User.isValidEmail (Js.trim (profile_email p)) = true
  /\ isValidProvider (profile_provider p) = true
  /\ Js.trim (profile_id p) <> "".
Proof.
  unfold profile_errors, User.validate, sanitizeInput.
  cbn [User.username User.email User.provider User.providerId].
  rewrite !StringFacts.trim_idem, !StringFacts.length_zero, !orb_diag.
  change (User.isValidProvider (profile_provider p))
    with (isValidProvider (profile_provider p)).
  rewrite <- !JsFacts.nonempty_true.
  destruct (Js.nonempty (Js.trim (profile_username p)));
    destruct (Js.nonempty (Js.trim (profile_id p)));
    destruct (User.isValidEmail (Js.trim (profile_email p))) eqn:He;
    destruct (isValidProvider (profile_provider p)) eqn:Hp;
    try (apply valid_email_nonempty in He; rewrite He);
    try (apply StringFacts.valid_provider_nonempty in Hp; rewrite Hp);
    rewrite ?orb_true_r; simpl;
    (split; [intros H; try discriminate H; repeat split; auto
            | intros (H1 & H2 & H3 & H4); try discriminate; reflexivity]).
Qed.

(** A profile that fails a check is refused before the database is
    touched. *)
Lemma createUser_invalid p w :
  profile_errors p <> [] ->
  createUser p w
  = (Thrown (AppErr (mkAppError VALIDATION_ERROR "User validation failed" 400)),
     set_random_pos (S (random_pos w)) w).
Proof.
  intros H. unfold createUser, try_catch, bind, createUser_lookup, bind.
  rewrite UserFacts.fromProfile_eval.
  cbn [profile_username profile_email profile_provider profile_id].
  unfold sanitizeInput. rewrite UserFacts.validate_fields.
  unfold profile_errors, sanitizeInput in H.
  destruct (User.validate _); [now contradiction H | reflexivity].
Qed.

Lemma fromDatabaseRow_row_user r w :
  u_id r <> "" -> User.fromDatabaseRow r w = (Returned (row_user r), w).
Proof.
  intros H. unfold User.fromDatabaseRow, User.new, bind, ret, row_user. simpl.
  rewrite !StringFacts.or_else_empty.
  destruct (u_id r); [now contradiction H | reflexivity].
Qed.

Lemma find_user_unique r rows :
  NoDup (map u_id rows) -> In r rows ->
  find (fun x => String.eqb (u_id x) (u_id r)) rows = Some r.
Proof.
  induction rows as [|y rows IH]; simpl; [contradiction|].
  intros Hnd Hin. inversion Hnd as [|? ? Hy Hnd']; subst.
  destruct (String.eqb_spec (u_id y) (u_id r)) as [E|E].
  - destruct Hin as [-> | Hin]; [reflexivity|].
    exfalso. apply Hy. rewrite E. now apply in_map.
  - destruct Hin as [-> | Hin]; [now contradiction E|].
    now apply IH.
Qed.

Lemma find_user_absent id rows :
  ~ In id (map u_id rows) -> find (fun x => String.eqb (u_id x) id) rows = None.
Proof.
  intros H. destruct (find _ rows) as [r|] eqn:E; [|reflexivity].
  apply find_some in E. destruct E as [Hin Hid].
  apply String.eqb_eq in Hid. exfalso. apply H. rewrite <- Hid. now apply in_map.
Qed.

Lemma existsb_user_iff id rows :
  existsb (fun r => String.eqb (u_id r) id) rows = true <-> In id (map u_id rows).
Proof.
  rewrite existsb_exists, in_map_iff. split.
  - intros (r & Hin & E). apply String.eqb_eq in E. now exists r.
  - intros (r & E & Hin). exists r. split; [assumption | now apply String.eqb_eq].
Qed.

(** [findById] when the SELECT runs: the row of that id, if any. *)
Lemma findById_eval userId w :
  Js.trim userId <> "" ->
  db_fault w (db_pos w) = false ->
  findById userId w
  = match find (fun r => String.eqb (u_id r) (Js.trim userId)) (users w) with
    | Some r => (Returned (Some (row_user r)), set_db_pos (S (db_pos w)) w)
    | None => (Returned None, set_db_pos (S (db_pos w)) w)
    end.
Proof.
  intros Hne Hdb. unfold findById, try_catch, bind, sanitizeInput.
  rewrite (proj2 (trim_nonempty userId) Hne). simpl.
  unfold Db.select_user_by_id. rewrite UserFacts.statement_reliable by assumption.
  cbn [users set_db_pos].
  destruct (find _ (users w)) as [r|] eqn:E; [|reflexivity].
  unfold user_of_row, bind. rewrite fromDatabaseRow_row_user; [reflexivity|].
  apply find_some in E. destruct E as [_ E]. apply String.eqb_eq in E.
  now rewrite E.
Qed.

Lemma findById_blank userId w :
  Js.trim userId = "" -> findById userId w = (Returned None, w).
Proof.
  intros H. unfold findById, try_catch, sanitizeInput. now rewrite H.
Qed.

Lemma findById_faulty userId w :
  Js.trim userId <> "" ->
  db_fault w (db_pos w) = true ->
  findById userId w
  = (Thrown (AppErr (mkAppError DATABASE_ERROR "Failed to find user by ID" 500)),
     set_db_pos (S (db_pos w)) w).
Proof.
  intros Hne Hdb. unfold findById, try_catch, bind, sanitizeInput.
  rewrite (proj2 (trim_nonempty userId) Hne). simpl.
  unfold Db.select_user_by_id. now rewrite UserFacts.statement_faulty by assumption.
Qed.

(** [findByProviderId] when its arguments pass the checks and the SELECT
    runs: the first row of that identity, if any. *)
Lemma findByProviderId_eval pid prov w :
  Js.trim pid <> "" ->
  isValidProvider (Js.trim prov) = true ->
  db_fault w (db_pos w) = false ->
  (forall r, In r (users w) -> u_id r <> "") ->
  findByProviderId pid prov w
  = (Returned (option_map row_user
                 (find (fun r => String.eqb (u_provider_id r) (Js.trim pid)
                                 && String.eqb (u_provider r) (Js.trim prov)) (users w))),
     set_db_pos (S (db_pos w)) w).
Proof.
  intros Hpid Hprov Hdb Hids.
  unfold findByProviderId, try_catch, bind, sanitizeInput.
  rewrite (proj2 (trim_nonempty pid) Hpid),
          (StringFacts.valid_provider_nonempty _ Hprov), Hprov. simpl.
  unfold Db.select_user_by_provider.
  rewrite UserFacts.statement_reliable by assumption. cbn [users set_db_pos].
  destruct (find _ (users w)) as [r|] eqn:E; [|reflexivity].
  unfold user_of_row, bind. rewrite fromDatabaseRow_row_user; [reflexivity|].
  apply find_some in E. apply Hids. tauto.
Qed.

Lemma find_app_absent {A} (f : A -> bool) l x :
  filter f l = [] -> f x = true -> find f (l ++ [x]) = Some x.
Proof.
  induction l as [|y l IH]; simpl; intros Hl Hx.
  - now rewrite Hx.
  - destruct (f y); [discriminate | now apply IH].
Qed.

Lemma findByProviderId_found pid prov w r :
  Js.trim pid <> "" ->
  isValidProvider (Js.trim prov) = true ->
  db_fault w (db_pos w) = false ->
  find (fun r => String.eqb (u_provider_id r) (Js.trim pid)
                 && String.eqb (u_provider r) (Js.trim prov)) (users w) = Some r ->
  u_id r <> "" ->
  findByProviderId pid prov w
  = (Returned (Some (row_user r)), set_db_pos (S (db_pos w)) w).
Proof.
  intros Hpid Hprov Hdb Hfind Hid.
  unfold findByProviderId, try_catch, bind, sanitizeInput.
  rewrite (proj2 (trim_nonempty pid) Hpid),
          (StringFacts.valid_provider_nonempty _ Hprov), Hprov. simpl.
  unfold Db.select_user_by_provider.
  rewrite UserFacts.statement_reliable by assumption. cbn [users set_db_pos].
  rewrite Hfind. unfold user_of_row, bind.
  now rewrite fromDatabaseRow_row_user.
Qed.

(** [updateUser] with a blank id, and with an id no row carries. *)
Lemma updateUser_blank userId patch w :
  Js.trim userId = "" ->
  updateUser userId patch w
  = (Thrown (AppErr (mkAppError VALIDATION_ERROR "User ID is required" 400)), w).
Proof.
  intros H. unfold updateUser, try_catch, sanitizeInput. now rewrite H.
Qed.

Lemma updateUser_unknown userId patch w :
  Js.trim userId <> "" ->
  db_fault w (db_pos w) = false ->
  ~ In (Js.trim userId) (map u_id (users w)) ->
  updateUser userId patch w
  = (Thrown (AppErr (mkAppError USER_NOT_FOUND "User not found" 404)),
     set_db_pos (S (db_pos w)) w).
Proof.
  intros Hne Hdb Habs. unfold updateUser, try_catch, sanitizeInput.
  rewrite (proj2 (trim_nonempty userId) Hne). simpl.
  unfold bind at 1.
  rewrite findById_eval; rewrite ?StringFacts.trim_idem; try assumption.
  now rewrite (find_user_absent _ _ Habs).
Qed.

(** [updateUser] when the row is found, the merged fields pass the checks
    and no other row carries the identity written. *)
Lemma updateUser_eval userId patch w r :
  db_reliable w ->
  Js.trim userId <> "" ->
  find (fun x => String.eqb (u_id x) (Js.trim userId)) (users w) = Some r ->
  User.validate (merged_user patch r (clock w)) = [] ->
  (forall x, In x (users w) -> u_id x <> u_id r ->
             u_provider x = User.provider (merged_user patch r (clock w)) ->
             u_provider_id x = User.providerId (merged_user patch r (clock w)) -> False) ->
  updateUser userId patch w
  = (Returned (merged_user patch r (clock w)),
     set_users (replace_user (u_id r) (merged_user patch r (clock w)) (users w))
               (set_db_pos (S (S (db_pos w))) w)).
Proof.
  intros Hrel Hne Hfind Hval Hfree.
  pose proof (find_some _ _ Hfind) as [Hin Hhit]. apply String.eqb_eq in Hhit.
  unfold updateUser, try_catch. change sanitizeInput with Js.trim.
  rewrite (proj2 (trim_nonempty userId) Hne). simpl.
  unfold bind at 1.
  rewrite findById_eval; rewrite ?StringFacts.trim_idem; try assumption; [|apply Hrel].
  rewrite Hfind.
  unfold bind at 1, User.update, bind at 1, now, ret.
  cbn [clock set_db_pos row_user User.id User.username User.email User.provider
       User.providerId User.createdAt User.p_username User.p_email User.p_provider
       User.p_providerId].
  fold (merged_user patch r (clock w)). rewrite Hval.
  change (0 <? Datatypes.length (@nil AppError))%nat with false. cbv iota.
  unfold bind, Db.update_user.
  rewrite UserFacts.statement_reliable by apply Hrel.
  cbn [users set_db_pos db_pos User.toDatabaseRow u_username u_email u_provider
       u_provider_id u_updated_at u_id].
  set (m := merged_user patch r (clock w)) in *.
  replace (existsb _ (users w) && existsb _ (users w)) with false.
  2:{ symmetry. apply andb_false_iff. right.
      apply not_true_is_false. intros Hex. apply existsb_exists in Hex.
      destruct Hex as (x & Hx & Hc).
      apply andb_true_iff in Hc. destruct Hc as [Hc Hpid].
      apply andb_true_iff in Hc. destruct Hc as [Hnot Hprov].
      apply negb_true_iff, String.eqb_neq in Hnot.
      apply String.eqb_eq in Hprov, Hpid.
      exact (Hfree x Hx Hnot Hprov Hpid). }
  assert (Hlen : (Z.of_nat (length (filter (fun x => String.eqb (u_id x) (u_id r)) (users w)))
                  =? 0) = false).
  { apply Z.eqb_neq. intros Hz.
    assert (Hf : In r (filter (fun x => String.eqb (u_id x) (u_id r)) (users w))).
    { apply filter_In. split; [exact Hin|]. apply String.eqb_refl. }
    destruct (filter _ (users w)); [contradiction | simpl in Hz; lia]. }
  rewrite Hlen. reflexivity.
Qed.

(** [updateUser] up to the validation of the merged fields. *)
Lemma updateUser_found userId patch w r :
  db_fault w (db_pos w) = false ->
  Js.trim userId <> "" ->
  find (fun x => String.eqb (u_id x) (Js.trim userId)) (users w) = Some r ->
  updateUser userId patch w
  = try_catch
      (let updated := merged_user patch r (clock w) in
       if (0 <? length (User.validate updated))%nat
       then throw_app VALIDATION_ERROR "User validation failed" 400
       else
         changes <- Db.update_user (User.username updated) (User.email updated)
                                   (User.provider updated) (User.providerId updated)
                                   (User.updatedAt updated) (User.id updated) ;;
         if changes =? 0
         then throw_app DATABASE_ERROR "Failed to update user - no rows affected" 500
         else ret updated)
      (rethrow_or_database_error "Failed to update user")
      (set_db_pos (S (db_pos w)) w).
Proof.
  intros Hdb Hne Hfind.
  unfold updateUser, try_catch. change sanitizeInput with Js.trim.
  rewrite (proj2 (trim_nonempty userId) Hne). simpl.
  unfold bind at 1.
  rewrite findById_eval; rewrite ?StringFacts.trim_idem; try assumption.
  rewrite Hfind.
  unfold bind at 1, User.update, bind at 1, now, ret.
  reflexivity.
Qed.

Lemma updateUser_invalid userId patch w r :
  db_fault w (db_pos w) = false ->
  Js.trim userId <> "" ->
  find (fun x => String.eqb (u_id x) (Js.trim userId)) (users w) = Some r ->
  User.validate (merged_user patch r (clock w)) <> [] ->
  updateUser userId patch w
  = (Thrown (AppErr (mkAppError VALIDATION_ERROR "User validation failed" 400)),
     set_db_pos (S (db_pos w)) w).
Proof.
  intros Hdb Hne Hfind Hval.
  rewrite (updateUser_found userId patch w r) by assumption.
  unfold try_catch. cbv zeta.
  destruct (User.validate _); [now contradiction Hval | reflexivity].
Qed.

(** An update that would give the row the identity of another row runs
    into UNIQUE(provider, provider_id): a DATABASE_ERROR, and the table is
    as it was. *)
Lemma updateUser_clash userId patch w r x :
  db_reliable w ->
  Js.trim userId <> "" ->
  find (fun x => String.eqb (u_id x) (Js.trim userId)) (users w) = Some r ->
  User.validate (merged_user patch r (clock w)) = [] ->
  In x (users w) -> u_id x <> u_id r ->
  u_provider x = User.provider (merged_user patch r (clock w)) ->
  u_provider_id x = User.providerId (merged_user patch r (clock w)) ->
  updateUser userId patch w
  = (Thrown (AppErr (mkAppError DATABASE_ERROR "Failed to update user" 500)),
     set_db_pos (S (S (db_pos w))) w).
Proof.
  intros Hrel Hne Hfind Hval Hx Hid Hprov Hpid.
  pose proof (find_some _ _ Hfind) as [Hin Hhit]. apply String.eqb_eq in Hhit.
  rewrite (updateUser_found userId patch w r) by (try assumption; apply Hrel).
  unfold try_catch. cbv zeta. rewrite Hval.
  change (0 <? Datatypes.length (@nil AppError))%nat with false. cbv iota.
  unfold bind, Db.update_user.
  rewrite UserFacts.statement_reliable by apply Hrel.
  cbn [users set_db_pos db_pos].
  set (m := merged_user patch r (clock w)) in *.
  assert (H1 : existsb (fun r0 => String.eqb (u_id r0) (User.id m)) (users w) = true).
  { apply existsb_exists. exists r. split; [exact Hin | apply String.eqb_refl]. }
  assert (H2 : existsb (fun r0 => negb (String.eqb (u_id r0) (User.id m))
                                  && String.eqb (u_provider r0) (User.provider m)
                                  && String.eqb (u_provider_id r0) (User.providerId m))
                       (users w) = true).
  { apply existsb_exists. exists x. split; [exact Hx|].
    rewrite Hprov, Hpid, !String.eqb_refl, !andb_true_r.
    apply negb_true_iff, String.eqb_neq. exact Hid. }
  rewrite H1, H2. reflexivity.
Qed.

Lemma positive_length {A} (f : A -> bool) l :
  (0 <? Z.of_nat (length (filter f l))) = existsb f l.
Proof.
  induction l as [|x l IH]; simpl; [reflexivity|].
  destruct (f x); simpl; [|exact IH].
  apply Z.ltb_lt. lia.
Qed.

(** [deleteUser] when the DELETE runs. *)
Lemma deleteUser_eval userId w :
  Js.trim userId <> "" ->
  db_fault w (db_pos w) = false ->
  let hit r := String.eqb (u_id r) (Js.trim userId) in
  deleteUser userId w
  = (Returned (existsb hit (users w)),
     set_sessions
       (filter (fun s => negb (existsb hit (users w)
                                && String.eqb (s_user_id s) (Js.trim userId)))
               (sessions w))
       (set_users (filter (fun r => negb (hit r)) (users w))
                  (set_db_pos (S (db_pos w)) w))).
Proof.
  intros Hne Hdb hit.
  unfold deleteUser, try_catch, bind. change sanitizeInput with Js.trim.
  rewrite (proj2 (trim_nonempty userId) Hne). simpl.
  unfold Db.delete_user. rewrite UserFacts.statement_reliable by assumption.
  cbn [users sessions set_db_pos]. now rewrite positive_length.
Qed.

Lemma deleteUser_blank userId w :
  Js.trim userId = "" ->
  deleteUser userId w
  = (Thrown (AppErr (mkAppError VALIDATION_ERROR "User ID is required" 400)), w).
Proof.
  intros H. unfold deleteUser, try_catch. change sanitizeInput with Js.trim.
  now rewrite H.
Qed.

(** A generated id that a row carries already: the INSERT runs into the
    primary key, and [createUser] reports it like a taken identity. *)
Lemma createUser_id_collision p w :
  profile_errors p = [] ->
  db_reliable w ->
  with_identity (profile_provider p) (Js.trim (profile_id p)) (users w) = [] ->
  In (random w (random_pos w)) (map u_id (users w)) ->
  createUser p w
  = (Thrown (AppErr conflict_error),
     set_db_pos (S (S (db_pos w))) (set_random_pos (S (random_pos w)) w)).
Proof.
  intros Hval Hrel Habs Hcol.
  unfold createUser, try_catch, bind.
  rewrite UserFacts.createUser_lookup_absent by (try assumption; apply Hrel).
  unfold createUser_insert, bind, Db.insert_user.
  rewrite UserFacts.statement_reliable by apply Hrel.
  cbn [users set_db_pos set_random_pos User.toDatabaseRow u_id User.id].
  rewrite (proj2 (existsb_user_iff _ _) Hcol). reflexivity.
Qed.

End StoreFacts.

(** [createUser] checks the profile before it touches the database. A
    profile whose trimmed username or id is empty, whose trimmed e-mail
    does not match the pattern, or whose provider (which is not trimmed) is
    not a casing of microsoft or github, is refused with VALIDATION_ERROR
    400: no statement is executed, the world is as it was but for the one
    id generated for the [User] object. A profile that passes the checks,
    on a database that executes the statements, ends in the new user or in
    the 409 conflict, and in nothing else; the conflict leaves the table as
    it was. *)
Theorem createUser_checks_profile_first :
  forall (p : UserProfile) (w : World),
    (Js.trim (profile_username p) = ""
     \/ User.isValidEmail (Js.trim (profile_email p)) = false
     \/ UserService.isValidProvider (profile_provider p) = false
     \/ Js.trim (profile_id p) = "" ->
     UserService.createUser p w
     = (Thrown (AppErr (mkAppError VALIDATION_ERROR "User validation failed" 400)),
        set_random_pos (S (random_pos w)) w))
    /\ (Js.trim (profile_username p) <> "" ->
        User.isValidEmail (Js.trim (profile_email p)) = true ->
        UserService.isValidProvider (profile_provider p) = true ->
        Js.trim (profile_id p) <> "" ->
        db_reliable w ->
        (exists u,
            fst (UserService.createUser p w) = Returned u
            /\ users (snd (UserService.createUser p w))
               = (users w ++ [User.toDatabaseRow u])%list)
        \/ (fst (UserService.createUser p w)
            = Thrown (AppErr (mkAppError VALIDATION_ERROR
                                "User already exists with this provider ID" 409))
            /\ users (snd (UserService.createUser p w)) = users w)).
Proof.
  intros p w. split.
  - intros H. apply StoreFacts.createUser_invalid. intros Hnil.
    apply StoreFacts.profile_errors_nil_iff in Hnil.
    destruct Hnil as (H1 & H2 & H3 & H4).
    destruct H as [H | [H | [H | H]]]; congruence.
  - intros H1 H2 H3 H4 Hrel.
    assert (Hval : UserService.profile_errors p = [])
      by (apply StoreFacts.profile_errors_nil_iff; tauto).
    destruct (with_identity (profile_provider p) (Js.trim (profile_id p)) (users w))
      as [|r0 rest] eqn:Hid.
    + destruct (in_dec string_dec (random w (random_pos w)) (map u_id (users w)))
        as [Hcol | Hfresh].
      * right. rewrite (StoreFacts.createUser_id_collision p w Hval Hrel Hid Hcol).
        split; reflexivity.
      * left. eexists.
        rewrite (UserFacts.createUser_new p w Hval Hrel Hid Hfresh).
        split; reflexivity.
    + right.
      destruct (UserFacts.createUser_taken p w Hval Hrel) as (Ha & Hb & _).
      * rewrite Hid. discriminate.
      * split; assumption.
Qed.

(** Round trip of the User Store. After [createUser] stored a profile, a
    lookup by the profile's provider and id (with whatever white space
    around the id) and a lookup by the generated id both return the user
    [createUser] returned, at any later time. The generated id is a UUID:
    not empty and without surrounding white space. *)
Theorem createUser_then_find :
  forall (p : UserProfile) (w : World),
    UserService.profile_errors p = [] ->
    db_reliable w ->
    with_identity (profile_provider p) (Js.trim (profile_id p)) (users w) = [] ->
    ~ In (random w (random_pos w)) (map u_id (users w)) ->
    random w (random_pos w) <> "" ->
    Js.trim (random w (random_pos w)) = random w (random_pos w) ->
    exists u w1,
      UserService.createUser p w = (Returned u, w1)
      /\ User.id u = random w (random_pos w)
      /\ User.username u = Js.trim (profile_username p)
      /\ User.email u = Js.trim (profile_email p)
      /\ User.provider u = profile_provider p
      /\ User.providerId u = Js.trim (profile_id p)
      /\ forall (t : Z) (providerId : string),
          Js.trim providerId = Js.trim (profile_id p) ->
          fst (UserService.findByProviderId providerId (profile_provider p) (set_clock t w1))
          = Returned (Some u)
          /\ fst (UserService.findById (User.id u) (set_clock t w1)) = Returned (Some u).
Proof.
  intros p w Hval Hrel Hid Hfresh Hne Htrim.
  destruct (UserFacts.profile_errors_nil p Hval) as [Hpid Hprov].
  eexists _, _. split; [apply (UserFacts.createUser_new p w Hval Hrel Hid Hfresh)|].
  repeat (split; [reflexivity|]).
  intros t pid' Hpid'.
  set (u := User.mk (random w (random_pos w)) (Js.trim (profile_username p))
                    (Js.trim (profile_email p)) (profile_provider p)
                    (Js.trim (profile_id p)) (clock w) (clock w)).
  split.
  - rewrite (StoreFacts.findByProviderId_found pid' (profile_provider p) _
               (User.toDatabaseRow u)).
    + reflexivity.
    + rewrite Hpid'. now apply JsFacts.nonempty_true.
    + now rewrite (StringFacts.valid_provider_trim _ Hprov).
    + apply Hrel.
    + cbn [users set_clock set_users].
      apply StoreFacts.find_app_absent.
      * rewrite Hpid', (StringFacts.valid_provider_trim _ Hprov). exact Hid.
      * rewrite Hpid', (StringFacts.valid_provider_trim _ Hprov).
        cbn [User.toDatabaseRow u u_provider_id u_provider User.providerId User.provider].
        now rewrite !String.eqb_refl.
    + exact Hne.
  - change (User.id u) with (random w (random_pos w)).
    rewrite StoreFacts.findById_eval.
    + cbn [users set_clock set_users]. rewrite Htrim.
      rewrite (StoreFacts.find_app_absent _ _ (User.toDatabaseRow u)).
      * reflexivity.
      * apply UserFacts.find_none_filter. now apply StoreFacts.find_user_absent.
      * apply String.eqb_refl.
    + now rewrite Htrim.
    + apply Hrel.
Qed.

(** The round trip on the empty database, for the profile of alice. *)
Lemma createUser_then_find_witness :
  exists u w1,
    UserService.createUser alice_profile Example.world = (Returned u, w1)
    /\ fst (UserService.findByProviderId "  gh-1 " "github" w1) = Returned (Some u)
    /\ fst (UserService.findById "r0" w1) = Returned (Some u).
Proof.
  destruct (createUser_then_find alice_profile Example.world)
    as (u & w1 & Hc & Hi & _ & _ & _ & _ & Hf).
  - reflexivity.
  - intros n. reflexivity.
  - reflexivity.
  - simpl. tauto.
  - vm_compute. discriminate.
  - vm_compute. reflexivity.
  - exists u, w1. split; [exact Hc|].
    destruct (Hf (clock w1) "  gh-1 " eq_refl) as [H1 H2].
    rewrite Hi in H2.
    replace (set_clock (clock w1) w1) with w1 in H1, H2 by (destruct w1; reflexivity).
    split; assumption.
Defined.

Module UpdateRoundTrip.

Lemma find_map_same {A} (f : A -> bool) (g : A -> A) l :
  (forall x, f (g x) = f x) -> find f (map g l) = option_map g (find f l).
Proof.
  intros H. induction l as [|x l IH]; simpl; [reflexivity|].
  rewrite H. destruct (f x); [reflexivity | exact IH].
Qed.

Lemma replace_user_ids id u rows :
  map u_id (replace_user id u rows) = map u_id rows.
Proof.
  unfold replace_user. rewrite map_map. apply map_ext.
  intros x. now destruct (String.eqb (u_id x) id).
Qed.

Lemma replace_user_others id u rows x :
  In x rows -> u_id x <> id -> In x (replace_user id u rows).
Proof.
  intros Hin Hne. unfold replace_user. apply in_map_iff. exists x.
  split; [|exact Hin]. apply String.eqb_neq in Hne. now rewrite Hne.
Qed.

Lemma find_replaced patch r t rows :
  find (fun x => String.eqb (u_id x) (u_id r)) rows = Some r ->
  find (fun x => String.eqb (u_id x) (u_id r))
       (replace_user (u_id r) (merged_user patch r t) rows)
  = Some (User.toDatabaseRow (merged_user patch r t)).
Proof.
  intros H. unfold replace_user. rewrite find_map_same.
  - rewrite H. simpl. now rewrite String.eqb_refl.
  - intros x. now destruct (String.eqb (u_id x) (u_id r)) eqn:E.
Qed.

End UpdateRoundTrip.

(** [updateUser] on a user that exists. Each field of the patch that is not
    [undefined] is trimmed and replaces the stored one, the update time
    becomes the current time, id and creation time stay. If the merged
    fields pass the checks and no other row carries the resulting
    identity, the merged user is returned and written: the row of that id
    is replaced, every other row and the sessions stay, and a later
    [findById] returns the merged user. *)
Theorem updateUser_applies_patch :
  forall (userId : string) (patch : PartialProfile) (w : World) (r : user_row),
    db_reliable w ->
    NoDup (map u_id (users w)) ->
    In r (users w) ->
    u_id r = Js.trim userId ->
    Js.trim userId <> "" ->
    User.validate (merged_user patch r (clock w)) = [] ->
    (forall x, In x (users w) -> u_id x <> u_id r ->
               u_provider x = User.provider (merged_user patch r (clock w)) ->
               u_provider_id x = User.providerId (merged_user patch r (clock w)) -> False) ->
    exists w1,
      UserService.updateUser userId patch w = (Returned (merged_user patch r (clock w)), w1)
      /\ users w1 = replace_user (u_id r) (merged_user patch r (clock w)) (users w)
      /\ map u_id (users w1) = map u_id (users w)
      /\ (forall x, In x (users w) -> u_id x <> u_id r -> In x (users w1))
      /\ sessions w1 = sessions w
      /\ forall t : Z,
          fst (UserService.findById userId (set_clock t w1))
          = Returned (Some (merged_user patch r (clock w))).
Proof.
  intros userId patch w r Hrel Hnd Hin Hid Hne Hval Hfree.
  assert (Hfind : find (fun x => String.eqb (u_id x) (Js.trim userId)) (users w) = Some r)
    by (rewrite <- Hid; now apply StoreFacts.find_user_unique).
  eexists. split; [now apply StoreFacts.updateUser_eval|].
  cbn [users sessions set_users set_db_pos].
  split; [reflexivity|].
  split; [apply UpdateRoundTrip.replace_user_ids|].
  split; [intros x Hx Hxr; now apply UpdateRoundTrip.replace_user_others|].
  split; [reflexivity|].
  intros t. rewrite StoreFacts.findById_eval; [|assumption|apply Hrel].
  cbn [users set_clock set_users]. rewrite <- Hid.
  rewrite UpdateRoundTrip.find_replaced by (rewrite Hid; exact Hfind).
  reflexivity.
Qed.

(** Scenario E of the specification at the User Store: alice's username
    is replaced, her identity and her id stay. *)
Lemma updateUser_applies_patch_witness :
  exists w1,
    UserService.updateUser " u-alice " (mkPartial None (Some " alice2 ") None None)
                           Example.world_with_alice
    = (Returned (User.mk "u-alice" "alice2" "alice@example.com" "github" "gh-1"
                         Example.ten_o_clock Example.ten_o_clock), w1)
    /\ fst (UserService.findById " u-alice " w1)
       = Returned (Some (User.mk "u-alice" "alice2" "alice@example.com" "github" "gh-1"
                                 Example.ten_o_clock Example.ten_o_clock)).
Proof.
  destruct (updateUser_applies_patch " u-alice " (mkPartial None (Some " alice2 ") None None)
              Example.world_with_alice Example.alice)
    as (w1 & Hu & _ & _ & _ & _ & Hf).
  - intros n. reflexivity.
  - simpl. constructor; [simpl; tauto | constructor].
  - simpl. tauto.
  - reflexivity.
  - vm_compute. discriminate.
  - reflexivity.
  - simpl. intros x [<- | []] H. now contradiction H.
  - exists w1. split; [exact Hu|].
    specialize (Hf (clock w1)).
    replace (set_clock (clock w1) w1) with w1 in Hf by (destruct w1; reflexivity).
    exact Hf.
Defined.

(** The ways [updateUser] fails. A blank id is refused with
    VALIDATION_ERROR 400 before the database is touched. An id that no row
    carries ends in USER_NOT_FOUND 404. When the row exists, merged fields
    that fail a check end in VALIDATION_ERROR 400, and an identity that
    another row carries ends in DATABASE_ERROR 500 (the UNIQUE constraint;
    not a 409). In each case the table [users] is as it was. *)
Theorem updateUser_failures :
  forall (userId : string) (patch : PartialProfile) (w : World),
    (Js.trim userId = "" ->
     UserService.updateUser userId patch w
     = (Thrown (AppErr (mkAppError VALIDATION_ERROR "User ID is required" 400)), w))
    /\ (Js.trim userId <> "" ->
        db_fault w (db_pos w) = false ->
        ~ In (Js.trim userId) (map u_id (users w)) ->
        fst (UserService.updateUser userId patch w)
        = Thrown (AppErr (mkAppError USER_NOT_FOUND "User not found" 404))
        /\ users (snd (UserService.updateUser userId patch w)) = users w)
    /\ (forall r,
           Js.trim userId <> "" ->
           db_reliable w ->
           find (fun x => String.eqb (u_id x) (Js.trim userId)) (users w) = Some r ->
           (User.validate (merged_user patch r (clock w)) <> [] ->
            fst (UserService.updateUser userId patch w)
            = Thrown (AppErr (mkAppError VALIDATION_ERROR "User validation failed" 400))
            /\ users (snd (UserService.updateUser userId patch w)) = users w)
           /\ (User.validate (merged_user patch r (clock w)) = [] ->
               forall x,
                 In x (users w) -> u_id x <> u_id r ->
                 u_provider x = User.provider (merged_user patch r (clock w)) ->
                 u_provider_id x = User.providerId (merged_user patch r (clock w)) ->
                 fst (UserService.updateUser userId patch w)
                 = Thrown (AppErr (mkAppError DATABASE_ERROR "Failed to update user" 500))
                 /\ users (snd (UserService.updateUser userId patch w)) = users w)).
Proof.
  intros userId patch w. split; [|split].
  - apply StoreFacts.updateUser_blank.
  - intros Hne Hdb Habs.
    rewrite (StoreFacts.updateUser_unknown userId patch w Hne Hdb Habs).
    split; reflexivity.
  - intros r Hne Hrel Hfind. split.
    + intros Hval.
      rewrite (StoreFacts.updateUser_invalid userId patch w r (Hrel _) Hne Hfind Hval).
      split; reflexivity.
    + intros Hval x Hx Hxr Hprov Hpid.
      rewrite (StoreFacts.updateUser_clash userId patch w r x Hrel Hne Hfind Hval
                 Hx Hxr Hprov Hpid).
      split; reflexivity.
Qed.

(** [deleteUser] when the DELETE runs: it returns whether a row carried
    the (trimmed) id; that row is gone and so are the sessions of that user
    (ON DELETE CASCADE); every other row of both tables stays. For an id no
    row carries nothing changes. Afterwards the user is not found, and a
    second [deleteUser] returns false. *)
Theorem deleteUser_removes_user_and_sessions :
  forall (userId : string) (w : World),
    Js.trim userId <> "" ->
    db_fault w (db_pos w) = false ->
    let existed := existsb (fun r => String.eqb (u_id r) (Js.trim userId)) (users w) in
    let w1 := snd (UserService.deleteUser userId w) in
    fst (UserService.deleteUser userId w) = Returned existed
    /\ users w1 = filter (fun r => negb (String.eqb (u_id r) (Js.trim userId))) (users w)
    /\ (existed = true ->
        sessions w1
        = filter (fun s => negb (String.eqb (s_user_id s) (Js.trim userId))) (sessions w))
    /\ (existed = false -> users w1 = users w /\ sessions w1 = sessions w)
    /\ (db_fault w (S (db_pos w)) = false ->
        (forall t, fst (UserService.findById userId (set_clock t w1)) = Returned None)
        /\ fst (UserService.deleteUser userId w1) = Returned false).
Proof.
  intros userId w Hne Hdb existed w1. subst w1.
  rewrite (StoreFacts.deleteUser_eval userId w Hne Hdb).
  cbn [fst snd users sessions set_users set_sessions set_db_pos].
  fold existed.
  assert (Hgone : ~ In (Js.trim userId)
                    (map u_id (filter (fun r => negb (String.eqb (u_id r) (Js.trim userId)))
                                      (users w)))).
  { intros Hin. apply in_map_iff in Hin. destruct Hin as (r & Hr & Hin).
    apply filter_In in Hin. destruct Hin as [_ Hin].
    apply negb_true_iff, String.eqb_neq in Hin. contradiction. }
  split; [reflexivity|]. split; [reflexivity|]. split; [|split].
  - intros He. rewrite He. reflexivity.
  - intros He. rewrite He. simpl. split.
    + apply forallb_filter_id. apply forallb_forall. intros r Hr.
      apply negb_true_iff. apply not_true_is_false. intros Heq.
      assert (existed = true); [|congruence].
      apply existsb_exists. now exists r.
    + apply forallb_filter_id. apply forallb_forall. reflexivity.
  - intros Hdb2. split.
    + intros t. rewrite StoreFacts.findById_eval; [|assumption|exact Hdb2].
      cbn [users set_clock set_users set_sessions].
      now rewrite (StoreFacts.find_user_absent _ _ Hgone).
    + rewrite StoreFacts.deleteUser_eval; [|assumption|exact Hdb2].
      cbn [fst users set_users set_sessions].
      f_equal. apply not_true_is_false. intros Hex.
      apply StoreFacts.existsb_user_iff in Hex. contradiction.
Qed.

(** Deleting alice deletes her session with her. *)
Lemma deleteUser_removes_user_and_sessions_witness :
  fst (UserService.deleteUser "u-alice" Example.world_soon_after) = Returned true
  /\ users (snd (UserService.deleteUser "u-alice" Example.world_soon_after)) = []
  /\ sessions (snd (UserService.deleteUser "u-alice" Example.world_soon_after)) = [].
Proof.
  destruct (deleteUser_removes_user_and_sessions "u-alice" Example.world_soon_after)
    as (H1 & H2 & H3 & _).
  - vm_compute. discriminate.
  - reflexivity.
  - split; [exact H1|]. split; [rewrite H2 | rewrite (H3 eq_refl)]; reflexivity.
Defined.

(** ** The constraints of the schema are kept *)

Section Wellformed.
Local Open Scope Z_scope.

Lemma tables_wf_of_tables w w1 : tables w1 = tables w -> tables_wf w -> tables_wf w1.
Proof.
  unfold tables, tables_wf. intros E. inversion E as [[Eu Es]].
  now rewrite Eu, Es.
Qed.

Lemma keeps_wf_of_preserves {A} (p : Prog A) : preserves tables p -> keeps_wf p.
Proof. intros H w. apply tables_wf_of_tables, H. Qed.

Lemma keeps_wf_bind {A B} (p : Prog A) (k : A -> Prog B) :
  keeps_wf p -> (forall a, keeps_wf (k a)) -> keeps_wf (bind p k).
Proof.
  intros Hp Hk w Hw. unfold bind. specialize (Hp w Hw).
  destruct (p w) as [[a|v] w1]; simpl in *; [now apply Hk | exact Hp].
Qed.

Lemma keeps_wf_try_catch {A} (p : Prog A) (h : JsValue -> Prog A) :
  keeps_wf p -> (forall v, keeps_wf (h v)) -> keeps_wf (try_catch p h).
Proof.
  intros Hp Hh w Hw. unfold try_catch. specialize (Hp w Hw).
  destruct (p w) as [[a|v] w1]; simpl in *; [exact Hp | now apply Hh].
Qed.

Lemma keeps_wf_ret {A} (a : A) : keeps_wf (ret a).
Proof. intros w H. exact H. Qed.

Lemma keeps_wf_throw {A} v : keeps_wf (@throw A v).
Proof. intros w H. exact H. Qed.

Lemma keeps_wf_throw_app {A} t msg status : keeps_wf (@throw_app A t msg status).
Proof. intros w H. exact H. Qed.

Lemma keeps_wf_statement {A} (run : Prog A) : keeps_wf run -> keeps_wf (Db.statement run).
Proof.
  intros Hr w Hw. unfold Db.statement.
  destruct (db_fault w (db_pos w)); simpl.
  - exact Hw.
  - apply Hr. exact Hw.
Qed.

Lemma NoDup_map_filter {A B} (f : A -> B) (p : A -> bool) l :
  NoDup (map f l) -> NoDup (map f (filter p l)).
Proof.
  induction l as [|x l IH]; simpl; intros H; [constructor|].
  inversion H as [|? ? Hx Hl]; subst.
  destruct (p x); simpl; [|now apply IH].
  constructor; [|now apply IH].
  intros Hin. apply Hx. apply in_map_iff in Hin. destruct Hin as (y & E & Hy).
  apply filter_In in Hy. apply in_map_iff. exists y. tauto.
Qed.

Lemma NoDup_map_snoc {A B} (f : A -> B) l x :
  NoDup (map f l) -> ~ In (f x) (map f l) -> NoDup (map f (l ++ [x])).
Proof.
  intros Hl Hx. rewrite map_app. simpl.
  apply NoDup_app; [exact Hl | constructor; [simpl; tauto | constructor] |].
  intros y Hy [<- | []]. contradiction.
Qed.

Lemma keeps_wf_insert_user r : keeps_wf (Db.insert_user r).
Proof.
  apply keeps_wf_statement. intros w (Hids & Hident & Hsids & Hfk).
  destruct (existsb (fun x => String.eqb (u_id x) (u_id r)) (users w)) eqn:Eid; simpl;
    [repeat split; assumption|].
  destruct (existsb (Db.same_identity r) (users w)) eqn:Eident; simpl;
    [repeat split; assumption|].
  unfold tables_wf. cbn [users sessions set_users].
  split; [|split; [|split]].
  - apply NoDup_map_snoc; [exact Hids|].
    intros Hin. apply StoreFacts.existsb_user_iff in Hin. congruence.
  - apply NoDup_map_snoc; [exact Hident|].
    intros Hin. apply in_map_iff in Hin. destruct Hin as (x & E & Hx).
    inversion E as [[E1 E2]].
    assert (existsb (Db.same_identity r) (users w) = true); [|congruence].
    apply existsb_exists. exists x. split; [exact Hx|].
    unfold Db.same_identity. now rewrite E1, E2, !String.eqb_refl.
  - exact Hsids.
  - intros s Hs. rewrite map_app. apply in_or_app. left. now apply Hfk.
Qed.

(** Rewriting the identity of the row of one id to an identity that no
    other row carries keeps the identities distinct. *)
Lemma NoDup_identity_rewritten id (g : user_row -> user_row) pr pid rows :
  (forall x, u_id (g x) = u_id x) ->
  (forall x, u_id x = id -> (u_provider (g x), u_provider_id (g x)) = (pr, pid)) ->
  (forall x, u_id x <> id -> g x = x) ->
  NoDup (map u_id rows) ->
  NoDup (map (fun r => (u_provider r, u_provider_id r)) rows) ->
  (forall x, In x rows -> u_id x <> id -> (u_provider x, u_provider_id x) <> (pr, pid)) ->
  NoDup (map (fun r => (u_provider r, u_provider_id r)) (map g rows)).
Proof.
  intros Hgid Hhit Hmiss.
  induction rows as [|y rows IH]; simpl; intros Hids Hident Hfree; [constructor|].
  inversion Hids as [|? ? Hy Hids']; subst.
  inversion Hident as [|? ? Hyi Hident']; subst.
  destruct (string_dec (u_id y) id) as [E|E].
  - assert (Hsame : map g rows = rows).
    { rewrite <- (map_id rows) at 2. apply map_ext_in. intros x Hx. apply Hmiss.
      intros Hxid. apply Hy. rewrite E, <- Hxid. now apply in_map. }
    rewrite Hsame, (Hhit y E). constructor; [|exact Hident'].
    intros Hin. apply in_map_iff in Hin. destruct Hin as (x & Ex & Hx).
    apply (Hfree x); [now right | | exact Ex].
    intros Hxid. apply Hy. rewrite E, <- Hxid. now apply in_map.
  - rewrite (Hmiss y E). constructor.
    + intros Hin. apply in_map_iff in Hin. destruct Hin as (z' & Ez & Hz).
      apply in_map_iff in Hz. destruct Hz as (z & <- & Hz).
      destruct (string_dec (u_id z) id) as [Ezid|Ezid].
      * rewrite (Hhit z Ezid) in Ez. apply (Hfree y); [now left | exact E | now symmetry].
      * rewrite (Hmiss z Ezid) in Ez. apply Hyi. apply in_map_iff. now exists z.
    + apply IH; [exact Hids' | exact Hident' |].
      intros x Hx. apply Hfree. now right.
Qed.

Lemma keeps_wf_update_user un em pr pid t id : keeps_wf (Db.update_user un em pr pid t id).
Proof.
  apply keeps_wf_statement. intros w (Hids & Hident & Hsids & Hfk). cbv zeta.
  set (hit := fun r => String.eqb (u_id r) id).
  set (g := fun r => if hit r
                     then mkUserRow (u_id r) un em pr pid (u_created_at r) t else r).
  set (clash := fun r => negb (hit r) && String.eqb (u_provider r) pr
                         && String.eqb (u_provider_id r) pid).
  destruct (existsb hit (users w) && existsb clash (users w)) eqn:Eboth; simpl;
    [repeat split; assumption|].
  assert (Hgid : forall x, u_id (g x) = u_id x)
    by (intros x; unfold g; now destruct (hit x)).
  unfold tables_wf. cbn [users sessions set_users].
  split; [|split; [|split]].
  - rewrite map_map. erewrite map_ext; [exact Hids | exact Hgid].
  - destruct (existsb hit (users w)) eqn:Ehit.
    + simpl in Eboth.
      apply (NoDup_identity_rewritten id g pr pid); try assumption.
      * intros x Hx. unfold g, hit. apply String.eqb_eq in Hx. now rewrite Hx.
      * intros x Hx. unfold g, hit. apply String.eqb_neq in Hx. now rewrite Hx.
      * intros x Hx Hxid Hxi. inversion Hxi as [[E1 E2]].
        assert (existsb clash (users w) = true); [|congruence].
        apply existsb_exists. exists x. split; [exact Hx|].
        unfold clash, hit. apply String.eqb_neq in Hxid.
        now rewrite Hxid, E1, E2, !String.eqb_refl.
    + replace (map g (users w)) with (users w); [exact Hident|].
      rewrite <- (map_id (users w)) at 1. apply map_ext_in. intros x Hx.
      unfold g. destruct (hit x) eqn:Ex; [|reflexivity].
      assert (existsb hit (users w) = true); [|congruence].
      apply existsb_exists. now exists x.
  - exact Hsids.
  - intros s Hs. rewrite map_map.
    erewrite map_ext; [now apply Hfk | exact Hgid].
Qed.

Lemma keeps_wf_delete_user id : keeps_wf (Db.delete_user id).
Proof.
  apply keeps_wf_statement. intros w (Hids & Hident & Hsids & Hfk). cbv zeta.
  unfold tables_wf. cbn [fst snd users sessions set_users set_sessions].
  split; [|split; [|split]].
  - now apply NoDup_map_filter.
  - now apply NoDup_map_filter.
  - now apply NoDup_map_filter.
  - intros s Hs. apply filter_In in Hs. destruct Hs as [Hs Hkeep].
    specialize (Hfk s Hs). apply in_map_iff in Hfk. destruct Hfk as (u & Eu & Hu).
    apply in_map_iff. exists u. split; [exact Eu|].
    apply filter_In. split; [exact Hu|].
    apply negb_true_iff. apply not_true_is_false. intros Hhit.
    apply String.eqb_eq in Hhit.
    apply negb_true_iff, andb_false_iff in Hkeep. destruct Hkeep as [Hk|Hk].
    + assert (existsb (fun r => String.eqb (u_id r) id) (users w) = true); [|congruence].
      apply existsb_exists. exists u. split; [exact Hu | now apply String.eqb_eq].
    + apply String.eqb_neq in Hk. congruence.
Qed.

Lemma keeps_wf_insert_session r : keeps_wf (Db.insert_session r).
Proof.
  apply keeps_wf_statement. intros w (Hids & Hident & Hsids & Hfk).
  destruct (existsb (fun x => String.eqb (s_id x) (s_id r)) (sessions w)) eqn:Eid; simpl;
    [repeat split; assumption|].
  destruct (existsb (fun u => String.eqb (u_id u) (s_user_id r)) (users w)) eqn:Efk; simpl;
    [|repeat split; assumption].
  unfold tables_wf. cbn [users sessions set_sessions].
  split; [exact Hids|]. split; [exact Hident|]. split.
  - apply NoDup_map_snoc; [exact Hsids|].
    intros Hin. apply in_map_iff in Hin. destruct Hin as (x & E & Hx).
    assert (existsb (fun x => String.eqb (s_id x) (s_id r)) (sessions w) = true);
      [|congruence].
    apply existsb_exists. exists x. split; [exact Hx | now apply String.eqb_eq].
  - intros s Hs. apply in_app_or in Hs. destruct Hs as [Hs | [<- | []]].
    + now apply Hfk.
    + now apply StoreFacts.existsb_user_iff.
Qed.

(** A statement that deletes rows of [sessions] and touches nothing
    else. *)
Lemma keeps_wf_delete_sessions (keep : World -> session_row -> bool) (count : World -> Z) :
  keeps_wf (Db.statement (fun w =>
    (Returned (count w), set_sessions (filter (keep w) (sessions w)) w))).
Proof.
  apply keeps_wf_statement. intros w (Hids & Hident & Hsids & Hfk).
  unfold tables_wf. cbn [snd users sessions set_sessions].
  split; [exact Hids|]. split; [exact Hident|]. split.
  - now apply NoDup_map_filter.
  - intros s Hs. apply filter_In in Hs. now apply Hfk.
Qed.

Lemma keeps_wf_delete_session id : keeps_wf (Db.delete_session id).
Proof.
  exact (keeps_wf_delete_sessions
           (fun _ r => negb (String.eqb (s_id r) id))
           (fun w => Z.of_nat (length (filter (fun r => String.eqb (s_id r) id) (sessions w))))).
Qed.

Lemma keeps_wf_delete_expired : keeps_wf Db.delete_expired_sessions.
Proof.
  exact (keeps_wf_delete_sessions
           (fun w r => negb (Db.expired_in_sql (clock w) r))
           (fun w => Z.of_nat (length (filter (Db.expired_in_sql (clock w)) (sessions w))))).
Qed.

Lemma keeps_wf_delete_user_sessions id : keeps_wf (Db.delete_user_sessions id).
Proof.
  exact (keeps_wf_delete_sessions
           (fun _ r => negb (String.eqb (s_user_id r) id))
           (fun w => Z.of_nat (length (filter (fun r => String.eqb (s_user_id r) id)
                                              (sessions w))))).
Qed.

Lemma keeps_wf_update_session_expiry e id : keeps_wf (Db.update_session_expiry e id).
Proof.
  apply keeps_wf_statement. intros w (Hids & Hident & Hsids & Hfk). cbv zeta.
  unfold tables_wf. cbn [snd users sessions set_sessions].
  split; [exact Hids|]. split; [exact Hident|]. split.
  - rewrite map_map. erewrite map_ext; [exact Hsids|].
    intros x. now destruct (String.eqb (s_id x) id).
  - intros s Hs. apply in_map_iff in Hs. destruct Hs as (x & <- & Hx).
    destruct (String.eqb (s_id x) id); cbn [s_user_id]; now apply Hfk.
Qed.

End Wellformed.

Section WellformedOperations.
Local Open Scope Z_scope.

Lemma keeps_wf_now : keeps_wf now.
Proof. intros w H. exact H. Qed.

Lemma keeps_wf_draw_random : keeps_wf draw_random.
Proof. intros w H. exact H. Qed.

(** A statement that reads. *)
Lemma keeps_wf_read {A} (f : World -> A) :
  keeps_wf (Db.statement (fun w => (Returned (f w), w))).
Proof. apply keeps_wf_statement. intros w H. exact H. Qed.

Lemma keeps_wf_user_new data : keeps_wf (User.new data).
Proof. apply keeps_wf_of_preserves, preserves_user_new; intros; reflexivity. Qed.

Lemma keeps_wf_session_new data : keeps_wf (Session.new data).
Proof. apply keeps_wf_of_preserves, preserves_session_new; intros; reflexivity. Qed.

Lemma keeps_wf_findByProviderId pid prov : keeps_wf (UserService.findByProviderId pid prov).
Proof. apply keeps_wf_of_preserves, preserves_findByProviderId; intros; reflexivity. Qed.

Lemma keeps_wf_findById userId : keeps_wf (UserService.findById userId).
Proof. apply keeps_wf_of_preserves, preserves_findById; intros; reflexivity. Qed.

Lemma keeps_wf_createUser profile : keeps_wf (UserService.createUser profile).
Proof.
  unfold UserService.createUser. apply keeps_wf_try_catch.
  - apply keeps_wf_bind.
    + apply keeps_wf_of_preserves, preserves_createUser_lookup; intros; reflexivity.
    + intros [user [existing|]]; simpl; [apply keeps_wf_throw_app|].
      apply keeps_wf_bind; [apply keeps_wf_insert_user|].
      intros changes. destruct (changes =? 0); [apply keeps_wf_throw_app | apply keeps_wf_ret].
  - intros v. apply keeps_wf_of_preserves, preserves_createUser_catch; intros; reflexivity.
Qed.

Lemma keeps_wf_rethrow_user {A} msg v :
  keeps_wf (@UserService.rethrow_or_database_error A msg v).
Proof. apply keeps_wf_of_preserves, preserves_rethrow_user. Qed.

Lemma keeps_wf_rethrow_session {A} msg v :
  keeps_wf (@SessionManager.rethrow_or_database_error A msg v).
Proof. apply keeps_wf_of_preserves, preserves_rethrow_session. Qed.

Lemma keeps_wf_updateUser userId patch : keeps_wf (UserService.updateUser userId patch).
Proof.
  unfold UserService.updateUser.
  apply keeps_wf_try_catch; [|intros v; apply keeps_wf_rethrow_user].
  destruct (negb _); [apply keeps_wf_throw_app|].
  apply keeps_wf_bind; [apply keeps_wf_findById|].
  intros [existing|]; [|apply keeps_wf_throw_app].
  apply keeps_wf_bind.
  { unfold User.update. apply keeps_wf_bind; [apply keeps_wf_now | intros n; apply keeps_wf_ret]. }
  intros updated. destruct (_ <? _)%nat; [apply keeps_wf_throw_app|].
  apply keeps_wf_bind; [apply keeps_wf_update_user|].
  intros changes. destruct (changes =? 0); [apply keeps_wf_throw_app | apply keeps_wf_ret].
Qed.

Lemma keeps_wf_deleteUser userId : keeps_wf (UserService.deleteUser userId).
Proof.
  unfold UserService.deleteUser.
  apply keeps_wf_try_catch; [|intros v; apply keeps_wf_rethrow_user].
  destruct (negb _); [apply keeps_wf_throw_app|].
  apply keeps_wf_bind; [apply keeps_wf_delete_user | intros c; apply keeps_wf_ret].
Qed.

Lemma keeps_wf_isExpired s : keeps_wf (Session.isExpired s).
Proof.
  unfold Session.isExpired.
  apply keeps_wf_bind; [apply keeps_wf_now | intros n; apply keeps_wf_ret].
Qed.

Lemma keeps_wf_create userId durationMs : keeps_wf (SessionManager.create userId durationMs).
Proof.
  unfold SessionManager.create.
  apply keeps_wf_try_catch; [|intros v; apply keeps_wf_rethrow_session].
  destruct (negb _); [apply keeps_wf_throw_app|].
  apply keeps_wf_bind.
  { apply keeps_wf_of_preserves, preserves_verifyUserExists; intros; reflexivity. }
  intros userExists. destruct (negb userExists); [apply keeps_wf_throw_app|].
  apply keeps_wf_bind; [apply keeps_wf_draw_random|]. intros sessionId.
  apply keeps_wf_bind; [apply keeps_wf_now|]. intros createdAt.
  apply keeps_wf_bind; [apply keeps_wf_now|]. intros n.
  apply keeps_wf_bind; [apply keeps_wf_session_new|]. intros session.
  apply keeps_wf_bind.
  { unfold Session.validate.
    apply keeps_wf_bind; [apply keeps_wf_isExpired | intros e; apply keeps_wf_ret]. }
  intros errors. destruct (_ <? _)%nat; [apply keeps_wf_throw_app|].
  apply keeps_wf_bind; [apply keeps_wf_insert_session|].
  intros changes. destruct (changes =? 0); [apply keeps_wf_throw_app | apply keeps_wf_ret].
Qed.

Lemma keeps_wf_destroy sessionId : keeps_wf (SessionManager.destroy sessionId).
Proof.
  unfold SessionManager.destroy.
  apply keeps_wf_try_catch; [|intros v; apply keeps_wf_rethrow_session].
  destruct (negb _); [apply keeps_wf_throw_app|].
  apply keeps_wf_bind; [apply keeps_wf_delete_session | intros c; apply keeps_wf_ret].
Qed.

Lemma keeps_wf_validate sessionId : keeps_wf (SessionManager.validate sessionId).
Proof.
  unfold SessionManager.validate.
  apply keeps_wf_try_catch; [|intros v; apply keeps_wf_ret].
  destruct (negb _); [apply keeps_wf_ret|].
  apply keeps_wf_bind; [apply keeps_wf_read|].
  intros [r|]; [|apply keeps_wf_ret].
  apply keeps_wf_bind; [apply keeps_wf_session_new|]. intros session.
  apply keeps_wf_bind; [apply keeps_wf_isExpired|]. intros expired.
  destruct expired.
  - apply keeps_wf_bind; [apply keeps_wf_destroy | intros _; apply keeps_wf_ret].
  - apply keeps_wf_bind.
    + unfold Session.isValid.
      apply keeps_wf_bind; [apply keeps_wf_isExpired | intros e; apply keeps_wf_ret].
    + intros valid. destruct (negb valid); apply keeps_wf_ret.
Qed.

Lemma keeps_wf_cleanup : keeps_wf SessionManager.cleanup.
Proof.
  unfold SessionManager.cleanup.
  apply keeps_wf_try_catch; [apply keeps_wf_delete_expired|].
  intros v. apply keeps_wf_throw_app.
Qed.

Lemma keeps_wf_getSessionWithUser sessionId :
  keeps_wf (SessionManager.getSessionWithUser sessionId).
Proof.
  unfold SessionManager.getSessionWithUser.
  apply keeps_wf_try_catch; [|intros v; apply keeps_wf_ret].
  apply keeps_wf_bind; [apply keeps_wf_validate|].
  intros [s|]; [|apply keeps_wf_ret].
  apply keeps_wf_bind; [apply keeps_wf_read|].
  intros [r|].
  - apply keeps_wf_bind; [apply keeps_wf_user_new | intros u; apply keeps_wf_ret].
  - apply keeps_wf_bind; [apply keeps_wf_destroy | intros _; apply keeps_wf_ret].
Qed.

Lemma keeps_wf_destroyAllUserSessions userId :
  keeps_wf (SessionManager.destroyAllUserSessions userId).
Proof.
  unfold SessionManager.destroyAllUserSessions.
  apply keeps_wf_try_catch; [|intros v; apply keeps_wf_rethrow_session].
  destruct (negb _); [apply keeps_wf_throw_app | apply keeps_wf_delete_user_sessions].
Qed.

Lemma keeps_wf_extendSession sessionId durationMs :
  keeps_wf (SessionManager.extendSession sessionId durationMs).
Proof.
  unfold SessionManager.extendSession. cbv zeta.
  apply keeps_wf_try_catch; [|intros v; apply keeps_wf_ret].
  apply keeps_wf_bind; [apply keeps_wf_validate|].
  intros [s|]; [|apply keeps_wf_ret].
  apply keeps_wf_bind.
  { unfold Session.extend. cbv zeta.
    apply keeps_wf_bind; [apply keeps_wf_now | intros n; apply keeps_wf_ret]. }
  intros extended.
  apply keeps_wf_bind; [apply keeps_wf_update_session_expiry|].
  intros changes. destruct (changes =? 0); apply keeps_wf_ret.
Qed.

Lemma keeps_wf_getSessionStats : keeps_wf SessionManager.getSessionStats.
Proof.
  unfold SessionManager.getSessionStats.
  apply keeps_wf_try_catch; [|intros v; apply keeps_wf_ret].
  apply keeps_wf_bind; [apply keeps_wf_read|]. intros total.
  apply keeps_wf_bind; [apply keeps_wf_read|]. intros active.
  apply keeps_wf_bind; [apply keeps_wf_read|]. intros expired.
  apply keeps_wf_ret.
Qed.

(** The Orchestrator over the two stores. *)
Lemma keeps_wf_findOrCreateUser sm initialized profile :
  keeps_wf (AuthService.findOrCreateUser
              (AuthService.mk theUserService sm initialized) profile).
Proof.
  unfold AuthService.findOrCreateUser.
  cbn [AuthService.userService theUserService us_findByProviderId us_createUser
       us_updateUser].
  apply keeps_wf_try_catch; [|intros v; apply keeps_wf_throw].
  apply keeps_wf_bind; [apply keeps_wf_findByProviderId|].
  intros [user|]; [|apply keeps_wf_createUser].
  destruct (_ || _); [apply keeps_wf_updateUser | apply keeps_wf_ret].
Qed.

Lemma keeps_wf_handleCallback provider sm initialized code requestState storedState :
  keeps_wf (AuthService.handleCallback provider
              (AuthService.mk theUserService sm initialized)
              code requestState storedState).
Proof.
  destruct provider;
    unfold AuthService.handleCallback, AuthService.handleMicrosoftCallback,
      AuthService.handleGitHubCallback, AuthService.ensureInitialized;
    (apply keeps_wf_try_catch; [|intros v; apply keeps_wf_throw]);
    (apply keeps_wf_bind;
     [ destruct (negb _); [apply keeps_wf_throw | apply keeps_wf_ret] | intros _ ]);
    (destruct (negb (Js.nonempty code)); [apply keeps_wf_throw|]);
    (destruct (_ && _); [apply keeps_wf_throw|]);
    (apply keeps_wf_bind;
     [ apply keeps_wf_of_preserves, preserves_exchange; intros; reflexivity
     | intros profile ]);
    (apply keeps_wf_bind; [apply keeps_wf_findOrCreateUser | intros u; apply keeps_wf_ret]).
Qed.

Lemma keeps_wf_createSession us initialized userId :
  keeps_wf (AuthService.createSession
              (AuthService.mk us theSessionManager initialized) userId).
Proof.
  unfold AuthService.createSession.
  cbn [AuthService.sessionManager theSessionManager sm_create].
  apply keeps_wf_try_catch.
  - destruct (AuthService.blank userId); [apply keeps_wf_throw_app|].
    apply keeps_wf_bind; [apply keeps_wf_create | intros s; apply keeps_wf_ret].
  - intros v. destruct (isAppError v); [apply keeps_wf_throw | apply keeps_wf_throw_app].
Qed.

Lemma keeps_wf_validateSession initialized sessionId :
  keeps_wf (AuthService.validateSession
              (AuthService.mk theUserService theSessionManager initialized) sessionId).
Proof.
  unfold AuthService.validateSession.
  cbn [AuthService.sessionManager AuthService.userService theSessionManager
       theUserService sm_validate sm_destroy us_findById].
  apply keeps_wf_try_catch; [|intros v; apply keeps_wf_ret].
  destruct (AuthService.blank sessionId); [apply keeps_wf_ret|].
  apply keeps_wf_bind; [apply keeps_wf_validate|].
  intros [s|]; [|apply keeps_wf_ret].
  apply keeps_wf_bind; [apply keeps_wf_findById|].
  intros [u|]; [apply keeps_wf_ret|].
  apply keeps_wf_bind; [apply keeps_wf_destroy | intros _; apply keeps_wf_ret].
Qed.

Lemma keeps_wf_destroySession us initialized sessionId :
  keeps_wf (AuthService.destroySession
              (AuthService.mk us theSessionManager initialized) sessionId).
Proof.
  unfold AuthService.destroySession.
  cbn [AuthService.sessionManager theSessionManager sm_destroy].
  apply keeps_wf_try_catch.
  - destruct (AuthService.blank sessionId); [apply keeps_wf_throw_app | apply keeps_wf_destroy].
  - intros v. destruct (isAppError v); [apply keeps_wf_throw | apply keeps_wf_throw_app].
Qed.

End WellformedOperations.

(** The constraints of the schema hold in every state the services can
    reach. If the ids of [users] are distinct, no two users share a
    (provider, provider id) pair, the ids of [sessions] are distinct and
    every session belongs to a user of the table, then the same holds after
    any method of the User Store, of the Session Store and of the
    Orchestrator over these stores, for every argument and whether the
    method returns or throws, and whether or not the driver fails. They
    hold in the empty database. *)
Theorem schema_constraints_kept :
  tables_wf Example.world
  /\ (forall providerId provider, keeps_wf (UserService.findByProviderId providerId provider))
  /\ (forall userId, keeps_wf (UserService.findById userId))
  /\ (forall profile, keeps_wf (UserService.createUser profile))
  /\ (forall userId patch, keeps_wf (UserService.updateUser userId patch))
  /\ (forall userId, keeps_wf (UserService.deleteUser userId))
  /\ (forall userId durationMs, keeps_wf (SessionManager.create userId durationMs))
  /\ (forall sessionId, keeps_wf (SessionManager.validate sessionId))
  /\ (forall sessionId, keeps_wf (SessionManager.destroy sessionId))
  /\ keeps_wf SessionManager.cleanup
  /\ (forall sessionId, keeps_wf (SessionManager.getSessionWithUser sessionId))
  /\ (forall userId, keeps_wf (SessionManager.destroyAllUserSessions userId))
  /\ (forall sessionId durationMs, keeps_wf (SessionManager.extendSession sessionId durationMs))
  /\ keeps_wf SessionManager.getSessionStats
  /\ (forall provider initialized code requestState storedState,
         keeps_wf (AuthService.handleCallback provider
                     (AuthService.mk theUserService theSessionManager initialized)
                     code requestState storedState))
  /\ (forall initialized userId,
         keeps_wf (AuthService.createSession
                     (AuthService.mk theUserService theSessionManager initialized) userId))
  /\ (forall initialized sessionId,
         keeps_wf (AuthService.validateSession
                     (AuthService.mk theUserService theSessionManager initialized) sessionId))
  /\ (forall initialized sessionId,
         keeps_wf (AuthService.destroySession
                     (AuthService.mk theUserService theSessionManager initialized) sessionId)).
Proof.
  repeat apply conj.
  - simpl. constructor.
  - simpl. constructor.
  - simpl. constructor.
  - simpl. tauto.
  - apply keeps_wf_findByProviderId.
  - apply keeps_wf_findById.
  - apply keeps_wf_createUser.
  - apply keeps_wf_updateUser.
  - apply keeps_wf_deleteUser.
  - apply keeps_wf_create.
  - apply keeps_wf_validate.
  - apply keeps_wf_destroy.
  - apply keeps_wf_cleanup.
  - apply keeps_wf_getSessionWithUser.
  - apply keeps_wf_destroyAllUserSessions.
  - apply keeps_wf_extendSession.
  - apply keeps_wf_getSessionStats.
  - intros. apply keeps_wf_handleCallback.
  - intros. apply keeps_wf_createSession.
  - intros. apply keeps_wf_validateSession.
  - intros. apply keeps_wf_destroySession.
Qed.

(** ** What the Session Store throws *)

Module SessionThrowFacts.
Local Open Scope Z_scope.

Lemma throws_catch_all {A} (P : JsValue -> Prop) (p : Prog A) (a : A) :
  throws_only P (try_catch p (fun _ => ret a)).
Proof.
  apply throws_try_catch with (Q := fun _ => True).
  - intros w v _. exact I.
  - intros v _. apply throws_ret.
Qed.

Lemma throws_destroy sessionId :
  throws_only (app_error (one_of [(VALIDATION_ERROR, 400); (DATABASE_ERROR, 500)]))
              (SessionManager.destroy sessionId).
Proof.
  unfold SessionManager.destroy.
  apply throws_try_catch
    with (Q := raw_or [(VALIDATION_ERROR, 400); (DATABASE_ERROR, 500)]).
  - destruct (negb _); [apply throws_throw_app; simpl; tauto|].
    apply throws_bind; [|intros c; apply throws_ret].
    apply throws_statement; [apply raw_or_driver|]. intros w v H. discriminate.
  - intros v Hv. apply throws_rethrow_session; [exact Hv | simpl; tauto].
Qed.

Lemma throws_destroyAllUserSessions userId :
  throws_only (app_error (one_of [(VALIDATION_ERROR, 400); (DATABASE_ERROR, 500)]))
              (SessionManager.destroyAllUserSessions userId).
Proof.
  unfold SessionManager.destroyAllUserSessions.
  apply throws_try_catch
    with (Q := raw_or [(VALIDATION_ERROR, 400); (DATABASE_ERROR, 500)]).
  - destruct (negb _); [apply throws_throw_app; simpl; tauto|].
    apply throws_statement; [apply raw_or_driver|]. intros w v H. discriminate.
  - intros v Hv. apply throws_rethrow_session; [exact Hv | simpl; tauto].
Qed.

Lemma throws_cleanup :
  throws_only (app_error (one_of [(DATABASE_ERROR, 500)])) SessionManager.cleanup.
Proof.
  unfold SessionManager.cleanup.
  apply throws_try_catch with (Q := fun _ => True).
  - intros w v _. exact I.
  - intros v _. apply throws_throw. eexists.
    split; [reflexivity | unfold one_of; simpl; tauto].
Qed.

End SessionThrowFacts.

(** The Session Store has two kinds of methods. [destroy],
    [destroyAllUserSessions] and [cleanup] throw [AppError]s only:
    VALIDATION_ERROR 400 for a blank argument, DATABASE_ERROR 500 for
    anything else. [getSessionWithUser], [extendSession] and
    [getSessionStats] never throw, whatever the arguments, the tables and
    the driver do. *)
Theorem session_store_throws :
  (forall sessionId,
      throws_only (app_error (one_of [(VALIDATION_ERROR, 400%Z); (DATABASE_ERROR, 500%Z)]))
                  (SessionManager.destroy sessionId))
  /\ (forall userId,
         throws_only (app_error (one_of [(VALIDATION_ERROR, 400%Z); (DATABASE_ERROR, 500%Z)]))
                     (SessionManager.destroyAllUserSessions userId))
  /\ throws_only (app_error (one_of [(DATABASE_ERROR, 500%Z)])) SessionManager.cleanup
  /\ (forall sessionId, never_throws (SessionManager.getSessionWithUser sessionId))
  /\ (forall sessionId durationMs,
         never_throws (SessionManager.extendSession sessionId durationMs))
  /\ never_throws SessionManager.getSessionStats.
Proof.
  assert (Hnever : forall A (p : Prog A),
             throws_only (fun _ => False) p -> never_throws p).
  { intros A p H w. specialize (H w). destruct (fst (p w)) as [a|v].
    - now exists a.
    - now contradiction (H v). }
  split; [|split; [|split; [|split; [|split]]]].
  - apply SessionThrowFacts.throws_destroy.
  - apply SessionThrowFacts.throws_destroyAllUserSessions.
  - apply SessionThrowFacts.throws_cleanup.
  - intros sessionId. apply Hnever. apply SessionThrowFacts.throws_catch_all.
  - intros sessionId durationMs. apply Hnever. apply SessionThrowFacts.throws_catch_all.
  - apply Hnever. apply SessionThrowFacts.throws_catch_all.
Qed.

(** ** A method that throws has changed no row *)

Section FailsClean.
Local Open Scope Z_scope.

Lemma fails_clean_of_preserves {A} (p : Prog A) : preserves tables p -> fails_clean p.
Proof. intros H w v _. apply H. Qed.

Lemma fails_clean_after_read {A B} (p : Prog A) (k : A -> Prog B) :
  preserves tables p -> (forall a, fails_clean (k a)) -> fails_clean (bind p k).
Proof.
  intros Hp Hk w v. unfold bind. specialize (Hp w).
  destruct (p w) as [[a|v'] w1]; simpl in *.
  - intros E. rewrite (Hk a w1 v E). exact Hp.
  - intros _. exact Hp.
Qed.

Lemma fails_clean_try_catch {A} (p : Prog A) (h : JsValue -> Prog A) :
  fails_clean p -> (forall v, preserves tables (h v)) -> fails_clean (try_catch p h).
Proof.
  intros Hp Hh w v. unfold try_catch. specialize (Hp w).
  destruct (p w) as [[a|v'] w1]; simpl in *.
  - discriminate.
  - intros _. rewrite (Hh v' w1). now apply (Hp v').
Qed.

(** A write followed by code that returns when a row was changed. *)
Lemma fails_clean_after_write {B} (stmt : Prog Z) (k : Z -> Prog B) :
  clean_write stmt ->
  (forall c, preserves tables (k c)) ->
  (forall c w, c <> 0 -> exists b, fst (k c w) = Returned b) ->
  fails_clean (bind stmt k).
Proof.
  intros Hs Hk Hret w v. unfold bind. specialize (Hs w).
  destruct (stmt w) as [[c|v'] w1]; simpl in *.
  - intros E. rewrite (Hk c w1). apply Hs.
    destruct (Z.eq_dec c 0) as [Hc|Hc]; [exact Hc|].
    destruct (Hret c w1 Hc) as [b Hb]. congruence.
  - intros _. exact Hs.
Qed.

Lemma fails_clean_write (stmt : Prog Z) : clean_write stmt -> fails_clean stmt.
Proof.
  intros Hs w v E. specialize (Hs w).
  destruct (stmt w) as [[c|v'] w1]; simpl in *; [discriminate | exact Hs].
Qed.

Lemma clean_write_statement (run : Prog Z) :
  clean_write run -> clean_write (Db.statement run).
Proof.
  intros Hr w. unfold Db.statement.
  destruct (db_fault w (db_pos w)); [reflexivity|].
  specialize (Hr (set_db_pos (S (db_pos w)) w)).
  destruct (run _) as [[c|v] w1]; exact Hr.
Qed.

Lemma no_hit_filter {A} (f : A -> bool) l :
  Z.of_nat (length (filter f l)) = 0 -> filter (fun x => negb (f x)) l = l.
Proof.
  induction l as [|x l IH]; simpl; [reflexivity|].
  destruct (f x); simpl; [lia|]. intros H. now rewrite IH.
Qed.

Lemma no_hit_map {A} (f : A -> bool) (g : A -> A) l :
  Z.of_nat (length (filter f l)) = 0 -> map (fun x => if f x then g x else x) l = l.
Proof.
  induction l as [|x l IH]; simpl; [reflexivity|].
  destruct (f x); simpl; [lia|]. intros H. now rewrite IH.
Qed.

Lemma no_hit_existsb {A} (f : A -> bool) l :
  Z.of_nat (length (filter f l)) = 0 -> existsb f l = false.
Proof.
  induction l as [|x l IH]; simpl; [reflexivity|].
  destruct (f x); simpl; [lia | exact IH].
Qed.

Lemma clean_insert_user r : clean_write (Db.insert_user r).
Proof.
  apply clean_write_statement. intros w.
  destruct (existsb _ (users w)); [reflexivity|].
  destruct (existsb _ (users w)); [reflexivity|]. discriminate.
Qed.

Lemma clean_update_user un em pr pid t id : clean_write (Db.update_user un em pr pid t id).
Proof.
  apply clean_write_statement. intros w. cbv zeta.
  destruct (_ && _); [reflexivity|].
  intros H. unfold tables. cbn [users sessions set_users].
  now rewrite (no_hit_map _ _ _ H).
Qed.

Lemma clean_delete_user id : clean_write (Db.delete_user id).
Proof.
  apply clean_write_statement. intros w. cbv zeta.
  intros H. unfold tables. cbn [users sessions set_users set_sessions].
  rewrite (no_hit_filter _ _ H), (no_hit_existsb _ _ H). simpl.
  f_equal. apply forallb_filter_id. apply forallb_forall. reflexivity.
Qed.

Lemma clean_insert_session r : clean_write (Db.insert_session r).
Proof.
  apply clean_write_statement. intros w.
  destruct (existsb _ (sessions w)); [reflexivity|].
  destruct (negb _); [reflexivity|]. discriminate.
Qed.

Lemma clean_delete_session id : clean_write (Db.delete_session id).
Proof.
  apply clean_write_statement. intros w. cbv zeta.
  intros H. unfold tables. cbn [users sessions set_sessions].
  now rewrite (no_hit_filter _ _ H).
Qed.

Lemma clean_delete_user_sessions id : clean_write (Db.delete_user_sessions id).
Proof.
  apply clean_write_statement. intros w. cbv zeta.
  intros H. unfold tables. cbn [users sessions set_sessions].
  now rewrite (no_hit_filter _ _ H).
Qed.

Lemma clean_delete_expired : clean_write Db.delete_expired_sessions.
Proof.
  apply clean_write_statement. intros w. cbv zeta.
  intros H. unfold tables. cbn [users sessions set_sessions].
  now rewrite (no_hit_filter _ _ H).
Qed.

Local Ltac reads :=
  first [ apply preserves_ret | apply preserves_throw | apply preserves_throw_app
        | apply preserves_now
        | apply preserves_draw_random; intros; reflexivity
        | apply preserves_user_new; intros; reflexivity
        | apply preserves_session_new; intros; reflexivity
        | apply preserves_rethrow_user | apply preserves_rethrow_session
        | apply preserves_findByProviderId; intros; reflexivity
        | apply preserves_findById; intros; reflexivity
        | apply preserves_verifyUserExists; intros; reflexivity
        | apply preserves_createUser_lookup; intros; reflexivity
        | apply preserves_createUser_catch; intros; reflexivity ].

Lemma returns_unless_zero {A} t msg status (a : A) c w :
  c <> 0 ->
  exists b, fst ((if c =? 0 then throw_app t msg status else ret a) w) = Returned b.
Proof.
  intros H. apply Z.eqb_neq in H. rewrite H. now exists a.
Qed.

Lemma preserves_unless_zero {A} t msg status (a : A) c :
  preserves tables (if c =? 0 then @throw_app A t msg status else ret a).
Proof. destruct (c =? 0); reads. Qed.

Lemma fails_clean_createUser profile : fails_clean (UserService.createUser profile).
Proof.
  unfold UserService.createUser.
  apply fails_clean_try_catch; [|intros v; reads].
  apply fails_clean_after_read; [reads|].
  intros [user [existing|]]; simpl.
  - apply fails_clean_of_preserves. reads.
  - apply fails_clean_after_write.
    + apply clean_insert_user.
    + intros c. apply preserves_unless_zero.
    + intros c w. apply returns_unless_zero.
Qed.

Lemma fails_clean_updateUser userId patch : fails_clean (UserService.updateUser userId patch).
Proof.
  unfold UserService.updateUser.
  apply fails_clean_try_catch; [|intros v; reads].
  destruct (negb _); [apply fails_clean_of_preserves; reads|].
  apply fails_clean_after_read; [reads|].
  intros [existing|]; [|apply fails_clean_of_preserves; reads].
  apply fails_clean_after_read.
  { unfold User.update. apply preserves_bind; [reads | intros n; reads]. }
  intros updated. destruct (_ <? _)%nat; [apply fails_clean_of_preserves; reads|].
  apply fails_clean_after_write.
  - apply clean_update_user.
  - intros c. apply preserves_unless_zero.
  - intros c w. apply returns_unless_zero.
Qed.

Lemma fails_clean_deleteUser userId : fails_clean (UserService.deleteUser userId).
Proof.
  unfold UserService.deleteUser.
  apply fails_clean_try_catch; [|intros v; reads].
  destruct (negb _); [apply fails_clean_of_preserves; reads|].
  apply fails_clean_after_write.
  - apply clean_delete_user.
  - intros c. reads.
  - intros c w _. now eexists.
Qed.

Lemma fails_clean_create userId durationMs :
  fails_clean (SessionManager.create userId durationMs).
Proof.
  unfold SessionManager.create.
  apply fails_clean_try_catch; [|intros v; reads].
  destruct (negb _); [apply fails_clean_of_preserves; reads|].
  apply fails_clean_after_read; [reads|].
  intros userExists. destruct (negb userExists); [apply fails_clean_of_preserves; reads|].
  apply fails_clean_after_read; [unfold SessionManager.generateSecureSessionId; reads|].
  intros sessionId.
  apply fails_clean_after_read; [reads|]. intros createdAt.
  apply fails_clean_after_read; [reads|]. intros n.
  apply fails_clean_after_read; [reads|]. intros session.
  apply fails_clean_after_read.
  { unfold Session.validate, Session.isExpired.
    apply preserves_bind; [apply preserves_bind; [reads | intros x; reads] | intros e; reads]. }
  intros errors. destruct (_ <? _)%nat; [apply fails_clean_of_preserves; reads|].
  apply fails_clean_after_write.
  - apply clean_insert_session.
  - intros c. apply preserves_unless_zero.
  - intros c w. apply returns_unless_zero.
Qed.

Lemma fails_clean_destroy sessionId : fails_clean (SessionManager.destroy sessionId).
Proof.
  unfold SessionManager.destroy.
  apply fails_clean_try_catch; [|intros v; reads].
  destruct (negb _); [apply fails_clean_of_preserves; reads|].
  apply fails_clean_after_write.
  - apply clean_delete_session.
  - intros c. reads.
  - intros c w _. now eexists.
Qed.

Lemma fails_clean_destroyAllUserSessions userId :
  fails_clean (SessionManager.destroyAllUserSessions userId).
Proof.
  unfold SessionManager.destroyAllUserSessions.
  apply fails_clean_try_catch; [|intros v; reads].
  destruct (negb _); [apply fails_clean_of_preserves; reads|].
  apply fails_clean_write, clean_delete_user_sessions.
Qed.

Lemma fails_clean_cleanup : fails_clean SessionManager.cleanup.
Proof.
  unfold SessionManager.cleanup.
  apply fails_clean_try_catch; [|intros v; reads].
  apply fails_clean_write, clean_delete_expired.
Qed.

Lemma fails_clean_findOrCreateUser sm initialized profile :
  fails_clean (AuthService.findOrCreateUser
                 (AuthService.mk theUserService sm initialized) profile).
Proof.
  unfold AuthService.findOrCreateUser.
  cbn [AuthService.userService theUserService us_findByProviderId us_createUser
       us_updateUser].
  apply fails_clean_try_catch; [|intros v; reads].
  apply fails_clean_after_read; [reads|].
  intros [user|]; [|apply fails_clean_createUser].
  destruct (_ || _); [apply fails_clean_updateUser | apply fails_clean_of_preserves; reads].
Qed.

Lemma fails_clean_handleCallback provider sm initialized code requestState storedState :
  fails_clean (AuthService.handleCallback provider
                 (AuthService.mk theUserService sm initialized)
                 code requestState storedState).
Proof.
  destruct provider;
    unfold AuthService.handleCallback, AuthService.handleMicrosoftCallback,
      AuthService.handleGitHubCallback, AuthService.ensureInitialized;
    (apply fails_clean_try_catch; [|intros v; reads]);
    (apply fails_clean_after_read; [ destruct (negb _); reads | intros _ ]);
    (destruct (negb (Js.nonempty code)); [apply fails_clean_of_preserves; reads|]);
    (destruct (_ && _); [apply fails_clean_of_preserves; reads|]);
    (apply fails_clean_after_read;
     [ apply preserves_exchange; intros; reflexivity | intros profile ]);
    (intros w v E; unfold bind in *;
     pose proof (fails_clean_findOrCreateUser sm initialized profile w) as Hf;
     destruct (AuthService.findOrCreateUser _ profile w) as [[u|v'] w1]; simpl in *;
     [discriminate | now apply (Hf v')]).
Qed.

Lemma fails_clean_createSession us initialized userId :
  fails_clean (AuthService.createSession
                 (AuthService.mk us theSessionManager initialized) userId).
Proof.
  unfold AuthService.createSession.
  cbn [AuthService.sessionManager theSessionManager sm_create].
  apply fails_clean_try_catch.
  - destruct (AuthService.blank userId); [apply fails_clean_of_preserves; reads|].
    intros w v E. unfold bind in *.
    pose proof (fails_clean_create userId None w) as Hf.
    destruct (SessionManager.create userId None w) as [[s|v'] w1]; simpl in *;
      [discriminate | now apply (Hf v')].
  - intros v. destruct (isAppError v); reads.
Qed.

End FailsClean.

(** A method of the stores or of the Orchestrator that throws has changed
    no row of either table: a failed [createUser], [updateUser],
    [deleteUser], [create], [destroy], [destroyAllUserSessions] or
    [cleanup], a failed sign-in ([handleCallback]) and a failed
    [createSession] leave [users] and [sessions] exactly as they were, for
    every argument and every failure of the driver. *)
Theorem failure_changes_no_row :
  (forall profile, fails_clean (UserService.createUser profile))
  /\ (forall userId patch, fails_clean (UserService.updateUser userId patch))
  /\ (forall userId, fails_clean (UserService.deleteUser userId))
  /\ (forall userId durationMs, fails_clean (SessionManager.create userId durationMs))
  /\ (forall sessionId, fails_clean (SessionManager.destroy sessionId))
  /\ (forall userId, fails_clean (SessionManager.destroyAllUserSessions userId))
  /\ fails_clean SessionManager.cleanup
  /\ (forall provider initialized code requestState storedState,
         fails_clean (AuthService.handleCallback provider
                        (AuthService.mk theUserService theSessionManager initialized)
                        code requestState storedState))
  /\ (forall initialized userId,
         fails_clean (AuthService.createSession
                        (AuthService.mk theUserService theSessionManager initialized)
                        userId)).
Proof.
  repeat apply conj.
  - apply fails_clean_createUser.
  - apply fails_clean_updateUser.
  - apply fails_clean_deleteUser.
  - apply fails_clean_create.
  - apply fails_clean_destroy.
  - apply fails_clean_destroyAllUserSessions.
  - apply fails_clean_cleanup.
  - intros. apply fails_clean_handleCallback.
  - intros. apply fails_clean_createSession.
Qed.

(** ** The Session Store on a database that executes the statements *)

Module SessionStoreFacts.
Local Open Scope Z_scope.
Import SessionManager.

Lemma verifyUserExists_eval userId w :
  db_fault w (db_pos w) = false ->
  verifyUserExists userId w
  = (Returned (existsb (fun r => String.eqb (u_id r) userId) (users w)),
     set_db_pos (S (db_pos w)) w).
Proof.
  intros H. unfold verifyUserExists, try_catch, Db.select_user_exists.
  now rewrite UserFacts.statement_reliable by assumption.
Qed.

(** [create] up to the validation of the session it built. *)
Lemma create_reaches_validation userId durationMs w :
  Js.trim userId <> "" ->
  db_fault w (db_pos w) = false ->
  In (Js.trim userId) (map u_id (users w)) ->
  random w (random_pos w) <> "" ->
  create userId durationMs w
  = try_catch
      (let session := Session.mk (random w (random_pos w)) (Js.trim userId) (clock w)
                                 (clock w + duration_or_default durationMs) in
       validationErrors <- Session.validate session ;;
       if (0 <? length validationErrors)%nat
       then throw_app VALIDATION_ERROR "Session validation failed" 400
       else
         changes <- Db.insert_session (Session.toDatabaseRow session) ;;
         if changes =? 0
         then throw_app DATABASE_ERROR "Failed to create session - no rows affected" 500
         else ret session)
      (rethrow_or_database_error "Failed to create session")
      (set_random_pos (S (random_pos w)) (set_db_pos (S (db_pos w)) w)).
Proof.
  intros Hne Hdb Hin Hsid.
  unfold create, try_catch. change sanitizeInput with Js.trim.
  rewrite (proj2 (StoreFacts.trim_nonempty userId) Hne). simpl.
  unfold bind at 1. rewrite verifyUserExists_eval by assumption.
  rewrite (proj2 (StoreFacts.existsb_user_iff _ _) Hin). simpl.
  unfold generateSecureSessionId, draw_random, bind at 1.
  unfold bind at 1, now. unfold bind at 1. unfold bind at 1.
  unfold Session.new, bind at 1.
  cbn [Session.p_id Session.p_userId Session.p_createdAt Session.p_expiresAt
       random random_pos set_db_pos set_random_pos clock].
  rewrite !StringFacts.opt_or_else_some.
  destruct (random w (random_pos w)) as [|c sid] eqn:E; [now contradiction Hsid|].
  reflexivity.
Qed.

Lemma session_validate_nil s w :
  Js.trim (Session.userId s) <> "" ->
  clock w <= Session.expiresAt s ->
  Session.createdAt s <= Session.expiresAt s ->
  Session.validate s w = (Returned [], w).
Proof.
  intros Hu He Hc.
  unfold Session.validate, Session.isExpired, bind, now, ret.
  rewrite StringFacts.length_zero.
  assert (Hn : Js.nonempty (Session.userId s) = true).
  { destruct (Session.userId s); [now contradiction Hu | reflexivity]. }
  rewrite Hn, (proj2 (StoreFacts.trim_nonempty _) Hu).
  rewrite (proj2 (Z.ltb_ge _ _) He), (proj2 (Z.ltb_ge _ _) Hc). reflexivity.
Qed.

Lemma session_validate_expired s w :
  Session.expiresAt s < clock w ->
  exists e errors, Session.validate s w = (Returned (e :: errors), w).
Proof.
  intros He.
  unfold Session.validate, Session.isExpired, bind, now, ret.
  rewrite (proj2 (Z.ltb_lt _ _) He).
  destruct (negb _ || _); simpl; eexists _, _; reflexivity.
Qed.

Lemma find_session_absent id rows :
  ~ In id (map s_id rows) -> existsb (fun x => String.eqb (s_id x) id) rows = false.
Proof.
  intros H. apply not_true_is_false. intros Hex. apply H.
  apply existsb_exists in Hex. destruct Hex as (x & Hx & E).
  apply String.eqb_eq in E. rewrite <- E. now apply in_map.
Qed.

(** [create] for a user that exists, with a duration that is not
    negative and a generated id that is not empty and not in use. *)
Lemma create_eval userId durationMs w :
  Js.trim userId <> "" ->
  db_reliable w ->
  In (Js.trim userId) (map u_id (users w)) ->
  random w (random_pos w) <> "" ->
  ~ In (random w (random_pos w)) (map s_id (sessions w)) ->
  0 <= duration_or_default durationMs ->
  let session := Session.mk (random w (random_pos w)) (Js.trim userId) (clock w)
                            (clock w + duration_or_default durationMs) in
  create userId durationMs w
  = (Returned session,
     set_sessions (sessions w ++ [Session.toDatabaseRow session])%list
       (set_db_pos (S (S (db_pos w))) (set_random_pos (S (random_pos w)) w))).
Proof.
  intros Hne Hrel Hin Hsid Hfresh Hd session.
  rewrite create_reaches_validation by (try assumption; apply Hrel).
  unfold try_catch. cbv zeta. fold session. unfold bind at 1.
  rewrite session_validate_nil.
  2:{ cbn [Session.userId session]. now rewrite StringFacts.trim_idem. }
  2:{ cbn [Session.expiresAt session clock set_random_pos set_db_pos]. lia. }
  2:{ cbn [Session.expiresAt Session.createdAt session]. lia. }
  change (0 <? Datatypes.length (@nil AppError))%nat with false. cbv iota.
  unfold bind, Db.insert_session.
  rewrite UserFacts.statement_reliable by apply Hrel.
  cbn [sessions users set_db_pos set_random_pos db_pos Session.toDatabaseRow
       s_id s_user_id Session.id Session.userId session].
  rewrite (find_session_absent _ _ Hfresh).
  rewrite (proj2 (StoreFacts.existsb_user_iff _ _) Hin). reflexivity.
Qed.

(** [create] with a negative duration: the session it builds is expired
    from the start, and is refused. *)
Lemma create_negative userId d w :
  Js.trim userId <> "" ->
  db_fault w (db_pos w) = false ->
  In (Js.trim userId) (map u_id (users w)) ->
  random w (random_pos w) <> "" ->
  d < 0 ->
  create userId (Some d) w
  = (Thrown (AppErr (mkAppError VALIDATION_ERROR "Session validation failed" 400)),
     set_random_pos (S (random_pos w)) (set_db_pos (S (db_pos w)) w)).
Proof.
  intros Hne Hdb Hin Hsid Hd.
  rewrite create_reaches_validation by assumption.
  unfold try_catch. cbv zeta. unfold bind at 1.
  match goal with
  | |- context [Session.validate ?s ?w0] =>
      destruct (session_validate_expired s w0) as (e & errors & ->)
  end.
  - cbn [Session.expiresAt clock set_random_pos set_db_pos duration_or_default].
    destruct (Z.eqb_spec d 0); lia.
  - reflexivity.
Qed.

Lemma fromDatabaseRow_row_session r w :
  s_id r <> "" -> Session.fromDatabaseRow r w = (Returned (row_session r), w).
Proof. apply ValidateFacts.session_of_row_eval. Qed.

(** [validate] of a session that is found and is not expired. *)
Lemma validate_live sessionId w r :
  Js.trim sessionId <> "" ->
  db_fault w (db_pos w) = false ->
  find (fun x => String.eqb (s_id x) (Js.trim sessionId)) (sessions w) = Some r ->
  clock w <= s_expires_at r ->
  validate sessionId w
  = (Returned (if Js.nonempty (Js.trim (s_user_id r)) then Some (row_session r) else None),
     set_db_pos (S (db_pos w)) w).
Proof.
  intros Hne Hdb Hfind Hlive.
  pose proof (find_some _ _ Hfind) as [Hin Hid]. apply String.eqb_eq in Hid.
  unfold validate, try_catch. change sanitizeInput with Js.trim.
  rewrite (proj2 (StoreFacts.trim_nonempty sessionId) Hne). simpl.
  unfold bind at 1, Db.select_session.
  rewrite UserFacts.statement_reliable by assumption.
  cbn [sessions set_db_pos]. rewrite Hfind.
  unfold bind at 1. rewrite fromDatabaseRow_row_session by (now rewrite Hid).
  unfold bind at 1, Session.isExpired, bind at 1, now, ret.
  cbn [clock set_db_pos row_session Session.expiresAt].
  rewrite (proj2 (Z.ltb_ge _ _) Hlive).
  unfold Session.isValid, Session.isExpired, bind, now, ret.
  cbn [clock set_db_pos].
  change (Session.expiresAt (row_session r)) with (s_expires_at r).
  change (Session.userId (row_session r)) with (s_user_id r).
  rewrite (proj2 (Z.ltb_ge _ _) Hlive).
  destruct (Js.trim (s_user_id r)); reflexivity.
Qed.

(** [validate] of a session that is found and is expired, whatever the
    driver does. *)
Lemma validate_dead sessionId w r :
  find (fun x => String.eqb (s_id x) (Js.trim sessionId)) (sessions w) = Some r ->
  s_expires_at r < clock w ->
  fst (validate sessionId w) = Returned None.
Proof.
  intros Hfind Hexp.
  pose proof (find_some _ _ Hfind) as [Hin Hid]. apply String.eqb_eq in Hid.
  unfold validate, try_catch. change sanitizeInput with Js.trim.
  destruct (Js.nonempty (Js.trim sessionId)) eqn:Hne; simpl; [|reflexivity].
  unfold bind at 1. unfold Db.select_session, Db.statement.
  destruct (db_fault w (db_pos w)); simpl; [reflexivity|].
  rewrite Hfind. unfold bind at 1.
  rewrite fromDatabaseRow_row_session
    by (rewrite Hid; now apply JsFacts.nonempty_true).
  unfold bind at 1, Session.isExpired, bind at 1, now, ret. simpl.
  apply Z.ltb_lt in Hexp. rewrite Hexp.
  unfold bind.
  match goal with
  | |- context [destroy ?i ?w0] => destruct (destroy i w0) as [[u|v] w1]
  end; reflexivity.
Qed.

End SessionStoreFacts.

(** Round trip of the Session Store. [create] for a user that exists,
    with a duration that is not negative and gives an expiry a [Date] can
    hold (at most 8.64e15 ms from the epoch), returns a session of that
    user that starts now and ends after the duration asked for, or after 24
    hours when the duration is [undefined] or 0, and stores one row for it.
    From then on [validate] of its id (with whatever white space around it)
    returns that session at every time up to and including the expiry, and
    [null] after it. The generated id is a string of hex digits: not
    empty. *)
Theorem create_then_validate :
  forall (userId : string) (durationMs : option Z) (w : World),
    Js.trim userId <> "" ->
    db_reliable w ->
    In (Js.trim userId) (map u_id (users w)) ->
    random w (random_pos w) <> "" ->
    ~ In (random w (random_pos w)) (map s_id (sessions w)) ->
    (0 <= SessionManager.duration_or_default durationMs)%Z ->
    Js.valid_time (clock w + SessionManager.duration_or_default durationMs) = true ->
    exists s w1,
      SessionManager.create userId durationMs w = (Returned s, w1)
      /\ Session.id s = random w (random_pos w)
      /\ Session.userId s = Js.trim userId
      /\ Session.createdAt s = clock w
      /\ Session.expiresAt s = (clock w + SessionManager.duration_or_default durationMs)%Z
      /\ sessions w1 = (sessions w ++ [Session.toDatabaseRow s])%list
      /\ users w1 = users w
      /\ forall (t : Z) (sessionId : string),
          Js.trim sessionId = Session.id s ->
          ((t <= Session.expiresAt s)%Z ->
           fst (SessionManager.validate sessionId (set_clock t w1)) = Returned (Some s))
          /\ ((Session.expiresAt s < t)%Z ->
              fst (SessionManager.validate sessionId (set_clock t w1)) = Returned None).
Proof.
  intros userId durationMs w Hne Hrel Hin Hsid Hfresh Hd Hdate.
  eexists _, _.
  split; [apply (SessionStoreFacts.create_eval userId durationMs w); assumption|].
  repeat (split; [reflexivity|]).
  intros t sessionId Hid. cbn [Session.id Session.expiresAt] in *.
  set (s := Session.mk (random w (random_pos w)) (Js.trim userId) (clock w)
                       (clock w + SessionManager.duration_or_default durationMs)).
  assert (Hfind : forall w0,
             sessions w0 = (sessions w ++ [Session.toDatabaseRow s])%list ->
             find (fun x => String.eqb (s_id x) (Js.trim sessionId)) (sessions w0)
             = Some (Session.toDatabaseRow s)).
  { intros w0 ->. apply StoreFacts.find_app_absent.
    - rewrite Hid. destruct (filter _ (sessions w)) as [|x l] eqn:E; [reflexivity|].
      exfalso. apply Hfresh.
      assert (Hx : In x (filter (fun x => String.eqb (s_id x) (random w (random_pos w)))
                                (sessions w))) by (rewrite E; now left).
      apply filter_In in Hx. destruct Hx as [Hx Heq]. apply String.eqb_eq in Heq.
      rewrite <- Heq. now apply in_map.
    - rewrite Hid. apply String.eqb_refl. }
  split.
  - intros Ht. rewrite (SessionStoreFacts.validate_live sessionId _ (Session.toDatabaseRow s)).
    + cbn [fst Session.toDatabaseRow s_user_id s Session.userId].
      rewrite StringFacts.trim_idem, (proj2 (StoreFacts.trim_nonempty userId) Hne).
      reflexivity.
    + now rewrite Hid.
    + apply Hrel.
    + now apply Hfind.
    + exact Ht.
  - intros Ht.
    apply (SessionStoreFacts.validate_dead sessionId _ (Session.toDatabaseRow s)).
    + now apply Hfind.
    + exact Ht.
Qed.

(** Alice's session of one hour: valid at once and an hour later, gone
    one millisecond after that. *)
Lemma create_then_validate_witness :
  exists s w1,
    SessionManager.create "u-alice" (Some 3600000%Z) Example.world_with_alice
    = (Returned s, w1)
    /\ fst (SessionManager.validate "r0" (set_clock (Example.ten_o_clock + 3600000) w1))
       = Returned (Some s)
    /\ fst (SessionManager.validate "r0" (set_clock (Example.ten_o_clock + 3600001) w1))
       = Returned None.
Proof.
  destruct (create_then_validate "u-alice" (Some 3600000%Z) Example.world_with_alice)
    as (s & w1 & Hc & Hi & _ & _ & He & _ & _ & Hv).
  - vm_compute. discriminate.
  - intros n. reflexivity.
  - simpl. tauto.
  - vm_compute. discriminate.
  - simpl. tauto.
  - vm_compute. discriminate.
  - vm_compute. reflexivity.
  - exists s, w1. split; [exact Hc|].
    assert (Hid : Js.trim "r0" = Session.id s) by (rewrite Hi; reflexivity).
    split.
    + apply (Hv _ "r0" Hid). rewrite He. vm_compute. discriminate.
    + apply (Hv _ "r0" Hid). rewrite He. vm_compute. reflexivity.
Defined.

Module SessionEdgeFacts.
Local Open Scope Z_scope.
Import SessionManager.

(** A generated id that a session carries already: the INSERT runs into
    the primary key. *)
Lemma create_id_collision userId durationMs w :
  Js.trim userId <> "" ->
  db_reliable w ->
  In (Js.trim userId) (map u_id (users w)) ->
  random w (random_pos w) <> "" ->
  In (random w (random_pos w)) (map s_id (sessions w)) ->
  0 <= duration_or_default durationMs ->
  create userId durationMs w
  = (Thrown (AppErr (mkAppError DATABASE_ERROR "Failed to create session" 500)),
     set_db_pos (S (S (db_pos w))) (set_random_pos (S (random_pos w)) w)).
Proof.
  intros Hne Hrel Hin Hsid Hused Hd.
  rewrite SessionStoreFacts.create_reaches_validation by (try assumption; apply Hrel).
  unfold try_catch. cbv zeta. unfold bind at 1.
  rewrite SessionStoreFacts.session_validate_nil.
  2:{ cbn [Session.userId]. now rewrite StringFacts.trim_idem. }
  2:{ cbn [Session.expiresAt clock set_random_pos set_db_pos]. lia. }
  2:{ cbn [Session.expiresAt Session.createdAt]. lia. }
  change (0 <? Datatypes.length (@nil AppError))%nat with false. cbv iota.
  unfold bind, Db.insert_session.
  rewrite UserFacts.statement_reliable by apply Hrel.
  cbn [sessions users set_db_pos set_random_pos db_pos Session.toDatabaseRow
       s_id s_user_id Session.id Session.userId].
  assert (Hex : existsb (fun x => String.eqb (s_id x) (random w (random_pos w)))
                        (sessions w) = true).
  { apply in_map_iff in Hused. destruct Hused as (x & E & Hx).
    apply existsb_exists. exists x. split; [exact Hx | now apply String.eqb_eq]. }
  rewrite Hex. reflexivity.
Qed.

Lemma destroy_blank sessionId w :
  Js.trim sessionId = "" ->
  destroy sessionId w
  = (Thrown (AppErr (mkAppError VALIDATION_ERROR "Session ID is required" 400)), w).
Proof.
  intros H. unfold destroy, try_catch. change sanitizeInput with Js.trim. now rewrite H.
Qed.

Lemma destroy_faulty sessionId w :
  Js.trim sessionId <> "" ->
  db_fault w (db_pos w) = true ->
  destroy sessionId w
  = (Thrown (AppErr (mkAppError DATABASE_ERROR "Failed to destroy session" 500)),
     set_db_pos (S (db_pos w)) w).
Proof.
  intros Hne Hdb. unfold destroy, try_catch, bind. change sanitizeInput with Js.trim.
  rewrite (proj2 (StoreFacts.trim_nonempty _) Hne). simpl.
  unfold Db.delete_session. now rewrite UserFacts.statement_faulty by assumption.
Qed.

Lemma filter_filter_same {A} (f : A -> bool) l : filter f (filter f l) = filter f l.
Proof.
  induction l as [|x l IH]; simpl; [reflexivity|].
  destruct (f x) eqn:E; simpl; [rewrite E, IH|]; auto.
Qed.

End SessionEdgeFacts.

(** Two ways [create] refuses a request for a user that exists. A
    negative duration that gives an expiry a [Date] can hold (at most
    8.64e15 ms from the epoch) gives a session that is expired from the
    start: it fails its own validation, [create] throws VALIDATION_ERROR
    400 and writes nothing. A generated id that a session carries already
    runs into the primary key: DATABASE_ERROR 500, and again nothing is
    written. *)
Theorem create_refusals :
  forall (userId : string) (w : World),
    Js.trim userId <> "" ->
    In (Js.trim userId) (map u_id (users w)) ->
    random w (random_pos w) <> "" ->
    db_reliable w ->
    (forall d : Z,
        (d < 0)%Z ->
        Js.valid_time (clock w + d) = true ->
        fst (SessionManager.create userId (Some d) w)
        = Thrown (AppErr (mkAppError VALIDATION_ERROR "Session validation failed" 400))
        /\ sessions (snd (SessionManager.create userId (Some d) w)) = sessions w
        /\ db_pos (snd (SessionManager.create userId (Some d) w)) = S (db_pos w))
    /\ (forall durationMs : option Z,
           (0 <= SessionManager.duration_or_default durationMs)%Z ->
           In (random w (random_pos w)) (map s_id (sessions w)) ->
           fst (SessionManager.create userId durationMs w)
           = Thrown (AppErr (mkAppError DATABASE_ERROR "Failed to create session" 500))
           /\ sessions (snd (SessionManager.create userId durationMs w)) = sessions w).
Proof.
  intros userId w Hne Hin Hsid Hrel. split.
  - intros d Hd Hdate.
    rewrite (SessionStoreFacts.create_negative userId d w Hne (Hrel _) Hin Hsid Hd).
    repeat split.
  - intros durationMs Hd Hused.
    rewrite (SessionEdgeFacts.create_id_collision userId durationMs w Hne Hrel Hin Hsid
               Hused Hd).
    split; reflexivity.
Qed.

(** A session of minus one second for alice is refused. *)
Lemma create_refusals_witness :
  fst (SessionManager.create "u-alice" (Some (-1000)%Z) Example.world_with_alice)
  = Thrown (AppErr (mkAppError VALIDATION_ERROR "Session validation failed" 400))
  /\ sessions (snd (SessionManager.create "u-alice" (Some (-1000)%Z)
                      Example.world_with_alice)) = [].
Proof.
  destruct (create_refusals "u-alice" Example.world_with_alice) as [H _].
  - vm_compute. discriminate.
  - simpl. tauto.
  - vm_compute. discriminate.
  - intros n. reflexivity.
  - destruct (H (-1000)%Z) as (H1 & H2 & _); [reflexivity | vm_compute; reflexivity |].
    split; [exact H1 | exact H2].
Defined.

(** [destroy] of an id that is not blank, when the DELETE runs: it
    returns, the rows of that (trimmed) id are gone and every other row
    stays, whether or not a row carried the id. So it can be repeated: a
    second [destroy] returns as well and changes nothing more, and
    [validate] of the id answers [null] afterwards. A blank id is refused
    with VALIDATION_ERROR 400, and a failure of the driver is a
    DATABASE_ERROR 500. *)
Theorem destroy_is_idempotent :
  forall (sessionId : string) (w : World),
    (Js.trim sessionId = "" ->
     SessionManager.destroy sessionId w
     = (Thrown (AppErr (mkAppError VALIDATION_ERROR "Session ID is required" 400)), w))
    /\ (Js.trim sessionId <> "" -> db_fault w (db_pos w) = true ->
        fst (SessionManager.destroy sessionId w)
        = Thrown (AppErr (mkAppError DATABASE_ERROR "Failed to destroy session" 500)))
    /\ (Js.trim sessionId <> "" -> db_fault w (db_pos w) = false ->
        let w1 := snd (SessionManager.destroy sessionId w) in
        fst (SessionManager.destroy sessionId w) = Returned tt
        /\ sessions w1
           = filter (fun x => negb (String.eqb (s_id x) (Js.trim sessionId))) (sessions w)
        /\ users w1 = users w
        /\ (forall t, fst (SessionManager.validate sessionId (set_clock t w1)) = Returned None)
        /\ (db_fault w (S (db_pos w)) = false ->
            fst (SessionManager.destroy sessionId w1) = Returned tt
            /\ sessions (snd (SessionManager.destroy sessionId w1)) = sessions w1)).
Proof.
  intros sessionId w. split; [|split].
  - apply SessionEdgeFacts.destroy_blank.
  - intros Hne Hdb. now rewrite SessionEdgeFacts.destroy_faulty.
  - intros Hne Hdb w1. subst w1.
    rewrite (ValidateFacts.destroy_eval sessionId w
               (proj2 (StoreFacts.trim_nonempty _) Hne) Hdb).
    cbn [fst snd sessions users set_sessions set_db_pos].
    split; [reflexivity|]. split; [reflexivity|]. split; [reflexivity|]. split.
    + intros t. apply ValidateFacts.validate_unknown.
      cbn [sessions set_clock set_sessions]. apply ValidateFacts.filter_out_absent.
    + intros Hdb2.
      rewrite ValidateFacts.destroy_eval;
        [|now apply StoreFacts.trim_nonempty | exact Hdb2].
      cbn [fst snd sessions set_sessions set_db_pos].
      split; [reflexivity | apply SessionEdgeFacts.filter_filter_same].
Qed.

Module ExtendFacts.
Local Open Scope Z_scope.
Import SessionManager.

Lemma find_with_expiry id t rows r :
  find (fun x => String.eqb (s_id x) id) rows = Some r ->
  find (fun x => String.eqb (s_id x) id) (with_expiry id t rows)
  = Some (mkSessionRow (s_id r) (s_user_id r) (s_created_at r) t).
Proof.
  intros H. unfold with_expiry. rewrite UpdateRoundTrip.find_map_same.
  - rewrite H. simpl. apply find_some in H. destruct H as [_ H]. now rewrite H.
  - intros x. now destruct (String.eqb (s_id x) id) eqn:E.
Qed.

(** [extendSession] of a session [validate] accepts. *)
Lemma extendSession_live sessionId durationMs w r :
  Js.trim sessionId <> "" ->
  db_reliable w ->
  find (fun x => String.eqb (s_id x) (Js.trim sessionId)) (sessions w) = Some r ->
  clock w <= s_expires_at r ->
  Js.trim (s_user_id r) <> "" ->
  let d := match durationMs with Some d => d | None => 24 * 60 * 60 * 1000 end in
  extendSession sessionId durationMs w
  = (Returned (Some (Session.mk (s_id r) (s_user_id r) (s_created_at r) (clock w + d))),
     set_sessions (with_expiry (s_id r) (clock w + d) (sessions w))
                  (set_db_pos (S (S (db_pos w))) w)).
Proof.
  intros Hne Hrel Hfind Hlive Huid d.
  pose proof (find_some _ _ Hfind) as [Hin Hid]. apply String.eqb_eq in Hid.
  unfold extendSession, try_catch. cbv zeta. fold d.
  unfold bind at 1.
  rewrite (SessionStoreFacts.validate_live sessionId w r Hne (Hrel _) Hfind Hlive).
  rewrite (proj2 (StoreFacts.trim_nonempty _) Huid).
  unfold bind at 1, Session.extend, bind at 1, now, ret.
  cbn [clock set_db_pos row_session Session.id Session.userId Session.createdAt
       Session.expiresAt].
  unfold bind, Db.update_session_expiry.
  rewrite UserFacts.statement_reliable by apply Hrel.
  cbn [sessions set_db_pos db_pos].
  assert (Hlen : (Z.of_nat (length (filter (fun x => String.eqb (s_id x) (s_id r))
                                           (sessions w))) =? 0) = false).
  { apply Z.eqb_neq. intros Hz.
    assert (Hf : In r (filter (fun x => String.eqb (s_id x) (s_id r)) (sessions w))).
    { apply filter_In. split; [exact Hin | apply String.eqb_refl]. }
    destruct (filter _ (sessions w)); [contradiction | simpl in Hz; lia]. }
  rewrite Hlen. reflexivity.
Qed.

(** What [validate] refuses, [extendSession] refuses. *)
Lemma extendSession_refused sessionId durationMs w :
  fst (validate sessionId w) = Returned None ->
  fst (extendSession sessionId durationMs w) = Returned None.
Proof.
  intros H. unfold extendSession, try_catch, bind.
  destruct (validate sessionId w) as [[[s|]|v] w1]; simpl in *;
    try discriminate; reflexivity.
Qed.

End ExtendFacts.

(** [extendSession] of a session that [validate] accepts, with a duration
    that gives an expiry a [Date] can hold (at most 8.64e15 ms from the
    epoch), sets its expiry to the current time plus the duration (24 hours
    when it is [undefined]), whatever the sign of the duration, returns the
    session with that expiry and writes it; id, user and creation time
    stay. From then on [validate] accepts the session up to and including
    the new expiry and refuses it after; with a negative duration the
    session is refused from that moment on. A session [validate] refuses is
    not extended. *)
Theorem extendSession_sets_expiry :
  forall (sessionId : string) (durationMs : option Z) (w : World) (r : session_row),
    Js.trim sessionId <> "" ->
    db_reliable w ->
    find (fun x => String.eqb (s_id x) (Js.trim sessionId)) (sessions w) = Some r ->
    Js.trim (s_user_id r) <> "" ->
    let d := match durationMs with Some d => d | None => (24 * 60 * 60 * 1000)%Z end in
    let extended := Session.mk (s_id r) (s_user_id r) (s_created_at r) (clock w + d)%Z in
    ((clock w <= s_expires_at r)%Z ->
     Js.valid_time (clock w + d) = true ->
     exists w1,
       SessionManager.extendSession sessionId durationMs w = (Returned (Some extended), w1)
       /\ sessions w1 = with_expiry (s_id r) (clock w + d)%Z (sessions w)
       /\ users w1 = users w
       /\ forall t : Z,
           ((t <= clock w + d)%Z ->
            fst (SessionManager.validate sessionId (set_clock t w1))
            = Returned (Some extended))
           /\ ((clock w + d < t)%Z ->
               fst (SessionManager.validate sessionId (set_clock t w1)) = Returned None))
    /\ ((s_expires_at r < clock w)%Z ->
        fst (SessionManager.extendSession sessionId durationMs w) = Returned None).
Proof.
  intros sessionId durationMs w r Hne Hrel Hfind Huid d extended.
  pose proof (find_some _ _ Hfind) as [Hin Hid]. apply String.eqb_eq in Hid.
  split.
  - intros Hlive Hdate. eexists.
    split; [apply (ExtendFacts.extendSession_live sessionId durationMs w r); assumption|].
    fold d. cbn [sessions users set_sessions set_db_pos].
    split; [reflexivity|]. split; [reflexivity|].
    intros t.
    assert (Hf : find (fun x => String.eqb (s_id x) (Js.trim sessionId))
                      (with_expiry (s_id r) (clock w + d)%Z (sessions w))
                 = Some (mkSessionRow (s_id r) (s_user_id r) (s_created_at r)
                                      (clock w + d)%Z)).
    { rewrite <- Hid. apply ExtendFacts.find_with_expiry. now rewrite Hid. }
    split.
    + intros Ht.
      match goal with
      | |- context [SessionManager.validate _ ?w0] =>
          rewrite (SessionStoreFacts.validate_live sessionId w0 _ Hne (Hrel _) Hf Ht)
      end.
      cbn [fst s_user_id]. now rewrite (proj2 (StoreFacts.trim_nonempty _) Huid).
    + intros Ht.
      match goal with
      | |- context [SessionManager.validate _ ?w0] =>
          apply (SessionStoreFacts.validate_dead sessionId w0 _ Hf)
      end.
      exact Ht.
  - intros Hdead. apply ExtendFacts.extendSession_refused.
    now apply (SessionStoreFacts.validate_dead sessionId w r).
Qed.

(** Alice's one-millisecond session is extended by one hour at the
    moment it expires; at noon it is dead and is not extended. *)
Lemma extendSession_sets_expiry_witness :
  fst (SessionManager.extendSession "s-1" (Some 3600000%Z)
         (set_clock (Example.ten_o_clock + 1) Example.world_soon_after))
  = Returned (Some (Session.mk "s-1" "u-alice" Example.ten_o_clock
                               (Example.ten_o_clock + 1 + 3600000)))
  /\ fst (SessionManager.extendSession "s-1" (Some 3600000%Z) Example.world_at_noon)
     = Returned None.
Proof.
  split.
  - destruct (extendSession_sets_expiry "s-1" (Some 3600000%Z)
                (set_clock (Example.ten_o_clock + 1) Example.world_soon_after)
                Example.short_session) as [H _].
    + vm_compute. discriminate.
    + intros n. reflexivity.
    + reflexivity.
    + vm_compute. discriminate.
    + destruct H as (w1 & H & _); [vm_compute; discriminate | vm_compute; reflexivity |].
      rewrite H. reflexivity.
  - destruct (extendSession_sets_expiry "s-1" (Some 3600000%Z) Example.world_at_noon
                Example.short_session) as [_ H].
    + vm_compute. discriminate.
    + intros n. reflexivity.
    + reflexivity.
    + vm_compute. discriminate.
    + apply H. vm_compute. reflexivity.
Defined.

Module BulkFacts.
Local Open Scope Z_scope.
Import SessionManager.

Lemma destroyAll_eval userId w :
  Js.trim userId <> "" ->
  db_fault w (db_pos w) = false ->
  destroyAllUserSessions userId w
  = (Returned (Z.of_nat (length (filter (fun r => String.eqb (s_user_id r) (Js.trim userId))
                                        (sessions w)))),
     set_sessions (filter (fun r => negb (String.eqb (s_user_id r) (Js.trim userId)))
                          (sessions w))
                  (set_db_pos (S (db_pos w)) w)).
Proof.
  intros Hne Hdb. unfold destroyAllUserSessions, try_catch.
  change sanitizeInput with Js.trim.
  rewrite (proj2 (StoreFacts.trim_nonempty _) Hne). simpl.
  unfold Db.delete_user_sessions. now rewrite UserFacts.statement_reliable by assumption.
Qed.

Lemma destroyAll_blank userId w :
  Js.trim userId = "" ->
  destroyAllUserSessions userId w
  = (Thrown (AppErr (mkAppError VALIDATION_ERROR "User ID is required" 400)), w).
Proof.
  intros H. unfold destroyAllUserSessions, try_catch.
  change sanitizeInput with Js.trim. now rewrite H.
Qed.

Lemma filter_none {A} (f : A -> bool) l :
  filter f (filter (fun x => negb (f x)) l) = [].
Proof.
  induction l as [|x l IH]; simpl; [reflexivity|].
  destruct (f x) eqn:E; simpl; [|rewrite E]; exact IH.
Qed.

Lemma filter_length_le {A} (f : A -> bool) l :
  0 <= Z.of_nat (length (filter f l)) <= Z.of_nat (length l).
Proof.
  split; [lia|]. apply Nat2Z.inj_le. induction l as [|x l IH]; simpl; [lia|].
  destruct (f x); simpl; lia.
Qed.

(** ['T'] is above [' ']: a text that continues with ["T"] where the other
    continues with [" "] is above it. *)
Lemma sql_below_iso (d x y : string) :
  DateText.text_lt (d ++ " " ++ y) (d ++ "T" ++ x) = true.
Proof.
  unfold DateText.text_lt, String.ltb.
  induction d as [|c d IH]; simpl.
  - reflexivity.
  - rewrite CleanupFacts.ascii_compare_refl. exact IH.
Qed.

Lemma expiring_today_is_active t r :
  DateText.in_sqlite_range t = true ->
  DateText.date_text (s_expires_at r) = DateText.date_text t ->
  Db.active_in_sql t r = true.
Proof.
  intros Hrange H. unfold Db.active_in_sql, DateText.sqlite_now. rewrite Hrange.
  unfold DateText.toISOString, DateText.datetime_now.
  rewrite H. apply sql_below_iso.
Qed.

(** Beyond the years SQLite covers [datetime('now')] is NULL and no
    session is above it. *)
Lemma nothing_active_beyond_range t l :
  DateText.in_sqlite_range t = false ->
  filter (Db.active_in_sql t) l = [].
Proof.
  intros Hrange. induction l as [|r l IH]; simpl; [reflexivity|].
  unfold Db.active_in_sql at 1, DateText.sqlite_now. now rewrite Hrange.
Qed.

(** [getSessionStats] when the three SELECTs run. *)
Lemma getSessionStats_eval w :
  db_fault w (db_pos w) = false ->
  db_fault w (S (db_pos w)) = false ->
  db_fault w (S (S (db_pos w))) = false ->
  getSessionStats w
  = (Returned
       (mkStats (Z.of_nat (length (sessions w)))
                (Z.of_nat (length (filter (Db.active_in_sql (clock w)) (sessions w))))
                (Z.of_nat (length (filter (Db.at_most_now_in_sql (clock w)) (sessions w))))),
     set_db_pos (S (S (S (db_pos w)))) w).
Proof.
  intros H0 H1 H2.
  unfold getSessionStats, try_catch, bind,
    Db.count_sessions, Db.count_active_sessions, Db.count_expired_sessions.
  rewrite UserFacts.statement_reliable by assumption. cbn [db_fault db_pos set_db_pos].
  rewrite UserFacts.statement_reliable by assumption. cbn [db_fault db_pos set_db_pos].
  rewrite UserFacts.statement_reliable by assumption. reflexivity.
Qed.

Lemma getSessionStats_faulty w :
  db_fault w (db_pos w) = true \/ db_fault w (S (db_pos w)) = true
  \/ db_fault w (S (S (db_pos w))) = true ->
  fst (getSessionStats w) = Returned (mkStats 0 0 0).
Proof.
  intros H.
  unfold getSessionStats, try_catch, bind,
    Db.count_sessions, Db.count_active_sessions, Db.count_expired_sessions, Db.statement.
  destruct (db_fault w (db_pos w)) eqn:E0; [reflexivity|]. cbn [db_fault db_pos set_db_pos].
  destruct (db_fault w (S (db_pos w))) eqn:E1; [reflexivity|]. cbn [db_fault db_pos set_db_pos].
  destruct (db_fault w (S (S (db_pos w)))) eqn:E2; [reflexivity|].
  destruct H as [H | [H | H]]; discriminate.
Qed.

End BulkFacts.

Lemma keeps_tables_getSessionStats : preserves tables SessionManager.getSessionStats.
Proof.
  unfold SessionManager.getSessionStats,
    Db.count_sessions, Db.count_active_sessions, Db.count_expired_sessions.
  apply preserves_try_catch; [|intros v; apply preserves_ret].
  repeat (apply preserves_bind;
          [apply preserves_statement; [intros; reflexivity | intros w0; reflexivity]
          | intros ?]).
  apply preserves_ret.
Qed.

Lemma keeps_users_getSessionStats w :
  users (snd (SessionManager.getSessionStats w)) = users w.
Proof. exact (f_equal fst (keeps_tables_getSessionStats w)). Qed.

Lemma keeps_sessions_getSessionStats w :
  sessions (snd (SessionManager.getSessionStats w)) = sessions w.
Proof. exact (f_equal snd (keeps_tables_getSessionStats w)). Qed.

(** [destroyAllUserSessions] for a user id that is not blank, when the
    DELETE runs: it returns the number of sessions of that user, deletes
    exactly those and keeps every session of every other user; the users
    are untouched. A second call returns 0. A blank id is refused with
    VALIDATION_ERROR 400 before the database is touched. *)
Theorem destroyAllUserSessions_removes_the_users_sessions :
  forall (userId : string) (w : World),
    (Js.trim userId = "" ->
     SessionManager.destroyAllUserSessions userId w
     = (Thrown (AppErr (mkAppError VALIDATION_ERROR "User ID is required" 400)), w))
    /\ (Js.trim userId <> "" -> db_fault w (db_pos w) = false ->
        let w1 := snd (SessionManager.destroyAllUserSessions userId w) in
        fst (SessionManager.destroyAllUserSessions userId w)
        = Returned (Z.of_nat (length (filter (fun r => String.eqb (s_user_id r) (Js.trim userId))
                                             (sessions w))))
        /\ (forall r, In r (sessions w1) <->
                      In r (sessions w) /\ s_user_id r <> Js.trim userId)
        /\ users w1 = users w
        /\ (db_fault w (S (db_pos w)) = false ->
            fst (SessionManager.destroyAllUserSessions userId w1) = Returned 0%Z)).
Proof.
  intros userId w. split; [apply BulkFacts.destroyAll_blank|].
  intros Hne Hdb w1. subst w1.
  rewrite (BulkFacts.destroyAll_eval userId w Hne Hdb).
  cbn [fst snd sessions users set_sessions set_db_pos].
  split; [reflexivity|]. split; [|split; [reflexivity|]].
  - intros r. rewrite filter_In, negb_true_iff, String.eqb_neq. tauto.
  - intros Hdb2. rewrite BulkFacts.destroyAll_eval; [|assumption|exact Hdb2].
    cbn [fst sessions set_sessions set_db_pos].
    now rewrite BulkFacts.filter_none.
Qed.

(** [getSessionStats] never throws and changes no row, and neither of
    its two partial counts is above the total. When the three SELECTs run,
    the total is the number of rows, and "active" is decided by SQLite's
    comparison of texts: while the clock is within the years 0000 to 9999
    that SQLite covers, the active sessions are those whose stored ISO
    text is above the text of [datetime('now')], so that a session that
    expires on the current day (UTC) counts as active whatever the hour,
    also when it expired hours ago; after the year 9999 [datetime('now')]
    is NULL and no session counts as active. When a SELECT fails, all three
    numbers are 0. *)
Theorem getSessionStats_counts :
  forall w : World,
    (exists stats,
        fst (SessionManager.getSessionStats w) = Returned stats
        /\ (0 <= SessionManager.activeSessions stats
            <= SessionManager.totalSessions stats)%Z
        /\ (0 <= SessionManager.expiredSessions stats
            <= SessionManager.totalSessions stats)%Z)
    /\ users (snd (SessionManager.getSessionStats w)) = users w
    /\ sessions (snd (SessionManager.getSessionStats w)) = sessions w
    /\ (db_fault w (db_pos w) = false ->
        db_fault w (S (db_pos w)) = false ->
        db_fault w (S (S (db_pos w))) = false ->
        exists stats,
          fst (SessionManager.getSessionStats w) = Returned stats
          /\ SessionManager.totalSessions stats = Z.of_nat (length (sessions w))
          /\ (DateText.in_sqlite_range (clock w) = true ->
              let above_now r :=
                DateText.text_lt (DateText.datetime_now (clock w))
                                 (DateText.toISOString (s_expires_at r)) in
              SessionManager.activeSessions stats
              = Z.of_nat (length (filter above_now (sessions w)))
              /\ forall r,
                  In r (sessions w) ->
                  DateText.date_text (s_expires_at r) = DateText.date_text (clock w) ->
                  In r (filter above_now (sessions w)))
          /\ ((DateText.sqlite_last < clock w)%Z ->
              SessionManager.activeSessions stats = 0%Z))
    /\ (db_fault w (db_pos w) = true \/ db_fault w (S (db_pos w)) = true
        \/ db_fault w (S (S (db_pos w))) = true ->
        fst (SessionManager.getSessionStats w) = Returned (SessionManager.mkStats 0 0 0)).
Proof.
  intros w.
  assert (Hcases : (db_fault w (db_pos w) = false /\ db_fault w (S (db_pos w)) = false
                    /\ db_fault w (S (S (db_pos w))) = false)
                   \/ (db_fault w (db_pos w) = true \/ db_fault w (S (db_pos w)) = true
                       \/ db_fault w (S (S (db_pos w))) = true)).
  { destruct (db_fault w (db_pos w)); destruct (db_fault w (S (db_pos w)));
      destruct (db_fault w (S (S (db_pos w)))); tauto. }
  split; [|split; [|split; [|split]]].
  - destruct Hcases as [(H0 & H1 & H2) | H].
    + rewrite (BulkFacts.getSessionStats_eval w H0 H1 H2). eexists. split; [reflexivity|].
      cbn [SessionManager.totalSessions SessionManager.activeSessions
           SessionManager.expiredSessions].
      split; apply BulkFacts.filter_length_le.
    + rewrite (BulkFacts.getSessionStats_faulty w H). eexists. split; [reflexivity|].
      cbn [SessionManager.totalSessions SessionManager.activeSessions
           SessionManager.expiredSessions]. lia.
  - apply keeps_users_getSessionStats.
  - apply keeps_sessions_getSessionStats.
  - intros H0 H1 H2. rewrite (BulkFacts.getSessionStats_eval w H0 H1 H2).
    eexists. split; [reflexivity|]. split; [reflexivity|].
    cbn [SessionManager.activeSessions]. split.
    + intros Hrange. cbv zeta.
      set (above_now := fun r : session_row =>
                          DateText.text_lt (DateText.datetime_now (clock w))
                                           (DateText.toISOString (s_expires_at r))).
      assert (Heq : forall r, Db.active_in_sql (clock w) r = above_now r).
      { intros r. unfold Db.active_in_sql, DateText.sqlite_now. now rewrite Hrange. }
      rewrite (filter_ext _ _ Heq). split; [reflexivity|].
      intros r Hin Hday. apply filter_In. split; [exact Hin|].
      rewrite <- Heq. now apply BulkFacts.expiring_today_is_active.
    + intros Hlate. rewrite BulkFacts.nothing_active_beyond_range; [reflexivity|].
      unfold DateText.in_sqlite_range. apply andb_false_iff. right.
      apply Z.leb_gt. exact Hlate.
  - apply BulkFacts.getSessionStats_faulty.
Qed.

(** At noon, the session that expired at ten counts as active. *)
Lemma getSessionStats_counts_witness :
  exists stats,
    fst (SessionManager.getSessionStats Example.world_at_noon) = Returned stats
    /\ SessionManager.totalSessions stats = 1%Z
    /\ SessionManager.activeSessions stats = 1%Z.
Proof.
  destruct (proj1 (proj2 (proj2 (proj2 (getSessionStats_counts Example.world_at_noon))))
              eq_refl eq_refl eq_refl)
    as (stats & H & Ht & Ha & _).
  exists stats. split; [exact H|]. split.
  - rewrite Ht. reflexivity.
  - destruct (Ha eq_refl) as [Hactive _]. rewrite Hactive. vm_compute. reflexivity.
Defined.

Module OwnerFacts.
Local Open Scope Z_scope.

(** Under the foreign key, the user of a session is in [users]. *)
Lemma owner_exists w r :
  tables_wf w -> In r (sessions w) ->
  exists ur, In ur (users w) /\ u_id ur = s_user_id r
             /\ find (fun x => String.eqb (u_id x) (s_user_id r)) (users w) = Some ur.
Proof.
  intros (Hids & _ & _ & Hfk) Hin.
  specialize (Hfk r Hin). apply in_map_iff in Hfk. destruct Hfk as (ur & E & Hur).
  exists ur. split; [exact Hur|]. split; [exact E|].
  rewrite <- E. now apply StoreFacts.find_user_unique.
Qed.

Lemma getSessionWithUser_live sessionId w r ur :
  Js.trim sessionId <> "" ->
  db_reliable w ->
  find (fun x => String.eqb (s_id x) (Js.trim sessionId)) (sessions w) = Some r ->
  clock w <= s_expires_at r ->
  Js.trim (s_user_id r) <> "" ->
  find (fun x => String.eqb (u_id x) (s_user_id r)) (users w) = Some ur ->
  SessionManager.getSessionWithUser sessionId w
  = (Returned (Some (row_session r, row_user ur)), set_db_pos (S (S (db_pos w))) w).
Proof.
  intros Hne Hrel Hfind Hlive Huid Hur.
  pose proof (find_some _ _ Hur) as [_ Eur]. apply String.eqb_eq in Eur.
  unfold SessionManager.getSessionWithUser, try_catch. unfold bind at 1.
  rewrite (SessionStoreFacts.validate_live sessionId w r Hne (Hrel _) Hfind Hlive).
  rewrite (proj2 (StoreFacts.trim_nonempty _) Huid).
  unfold bind at 1, Db.select_user_by_id.
  rewrite UserFacts.statement_reliable by apply Hrel.
  cbn [users set_db_pos db_pos row_session Session.userId]. rewrite Hur.
  unfold bind. rewrite StoreFacts.fromDatabaseRow_row_user; [reflexivity|].
  rewrite Eur. intros E. apply Huid. now rewrite E.
Qed.

Lemma validateSession_live initialized sessionId w r ur :
  Js.trim sessionId <> "" ->
  db_reliable w ->
  find (fun x => String.eqb (s_id x) (Js.trim sessionId)) (sessions w) = Some r ->
  clock w <= s_expires_at r ->
  Js.trim (s_user_id r) <> "" ->
  find (fun x => String.eqb (u_id x) (Js.trim (s_user_id r))) (users w) = Some ur ->
  AuthService.validateSession
    (AuthService.mk theUserService theSessionManager initialized) sessionId w
  = (Returned (Some (row_user ur)), set_db_pos (S (S (db_pos w))) w).
Proof.
  intros Hne Hrel Hfind Hlive Huid Hur.
  unfold AuthService.validateSession, try_catch.
  cbn [AuthService.sessionManager AuthService.userService theSessionManager
       theUserService sm_validate sm_destroy us_findById].
  assert (Hb : AuthService.blank sessionId = false).
  { unfold AuthService.blank. rewrite StringFacts.length_zero.
    rewrite (proj2 (StoreFacts.trim_nonempty _) Hne).
    destruct sessionId; [now contradiction Hne | reflexivity]. }
  rewrite Hb. unfold bind at 1.
  rewrite (SessionStoreFacts.validate_live sessionId w r Hne (Hrel _) Hfind Hlive).
  rewrite (proj2 (StoreFacts.trim_nonempty _) Huid).
  unfold bind at 1. cbn [row_session Session.userId].
  rewrite StoreFacts.findById_eval; [|exact Huid|apply Hrel].
  cbn [users set_db_pos db_pos]. rewrite Hur. reflexivity.
Qed.

End OwnerFacts.

(** Who a session belongs to. In a database that satisfies the schema and
    executes the statements, for a session that is not expired (and whose
    user id is a proper id: not blank, no surrounding white space), the
    Session Store's [getSessionWithUser] returns the session together with
    the user whose id the session carries, and the Orchestrator's
    [validateSession] returns that same user; neither changes a row. *)
Theorem session_resolves_to_its_user :
  forall (sessionId : string) (w : World) (r : session_row) (initialized : bool),
    db_reliable w ->
    tables_wf w ->
    In r (sessions w) ->
    s_id r = Js.trim sessionId ->
    Js.trim sessionId <> "" ->
    (clock w <= s_expires_at r)%Z ->
    s_user_id r <> "" ->
    Js.trim (s_user_id r) = s_user_id r ->
    exists ur,
      In ur (users w)
      /\ u_id ur = s_user_id r
      /\ fst (SessionManager.getSessionWithUser sessionId w)
         = Returned (Some (row_session r, row_user ur))
      /\ fst (AuthService.validateSession
                (AuthService.mk theUserService theSessionManager initialized) sessionId w)
         = Returned (Some (row_user ur))
      /\ tables (snd (SessionManager.getSessionWithUser sessionId w)) = tables w
      /\ tables (snd (AuthService.validateSession
                        (AuthService.mk theUserService theSessionManager initialized)
                        sessionId w)) = tables w.
Proof.
  intros sessionId w r initialized Hrel Hwf Hin Hid Hne Hlive Huid Htrim.
  destruct (OwnerFacts.owner_exists w r Hwf Hin) as (ur & Hur & Eur & Hfu).
  assert (Hfind : find (fun x => String.eqb (s_id x) (Js.trim sessionId)) (sessions w)
                  = Some r).
  { rewrite <- Hid. apply ValidateFacts.find_unique; [apply Hwf | exact Hin]. }
  assert (Huid' : Js.trim (s_user_id r) <> "") by now rewrite Htrim.
  exists ur. split; [exact Hur|]. split; [exact Eur|].
  rewrite (OwnerFacts.getSessionWithUser_live sessionId w r ur) by assumption.
  rewrite (OwnerFacts.validateSession_live initialized sessionId w r ur)
    by (try assumption; now rewrite Htrim).
  repeat split.
Qed.

(** Alice's session, at the moment it was created. *)
Lemma session_resolves_to_its_user_witness :
  fst (AuthService.validateSession Example.ready_service "s-1"
         (set_clock Example.ten_o_clock Example.world_soon_after))
  = Returned (Some (row_user Example.alice)).
Proof.
  destruct (session_resolves_to_its_user "s-1"
              (set_clock Example.ten_o_clock Example.world_soon_after)
              Example.short_session true) as (ur & Hur & _ & _ & H & _).
  - intros n. reflexivity.
  - repeat split; simpl.
    + constructor; [simpl; tauto | constructor].
    + constructor; [simpl; tauto | constructor].
    + constructor; [simpl; tauto | constructor].
    + intros s [<- | []]. simpl. tauto.
  - simpl. tauto.
  - reflexivity.
  - vm_compute. discriminate.
  - vm_compute. discriminate.
  - vm_compute. discriminate.
  - reflexivity.
  - destruct Hur as [<- | []]. exact H.
Defined.

(** ** The Orchestrator *)

Module CollapseFacts.
Local Open Scope Z_scope.
Import AuthService OAuthErrors.

Lemma throws_exchange p code :
  throws_only (fun v => v = AppErr (mkAppError OAUTH_TOKEN_ERROR
                                      ("Failed to exchange authorization code for "
                                         ++ provider_name p) 500))
              (exchangeCodeForProfile p code).
Proof.
  unfold exchangeCodeForProfile.
  apply throws_try_catch with (Q := fun _ => True).
  - intros w v _. exact I.
  - intros v _. now apply throws_throw.
Qed.

Lemma throws_findOrCreateUser svc profile :
  throws_only (fun v => v = AppErr (mkAppError OAUTH_PROFILE_ERROR
                                      "Failed to process user profile" 500))
              (findOrCreateUser svc profile).
Proof.
  unfold findOrCreateUser.
  apply throws_try_catch with (Q := fun _ => True).
  - intros w v _. exact I.
  - intros v _. now apply throws_throw.
Qed.

(** After the checks, whatever goes wrong ends in the generic failure. *)
Lemma throws_after_checks p svc code :
  throws_only (fun v => v = AppErr (generic_failure p))
    (try_catch
       (profile <- exchangeCodeForProfile p code ;;
        user <- findOrCreateUser svc profile ;;
        ret (mkProfile (User.id user) (User.username user) (User.email user)
                       (provider_name p)))
       (fun error => throw (AppErr (handleOAuthError error p)))).
Proof.
  apply throws_try_catch
    with (Q := fun v => handleOAuthError v p = generic_failure p).
  - apply throws_bind.
    + eapply throws_weaken; [|apply throws_exchange].
      intros v ->. destruct p; reflexivity.
    + intros profile. apply throws_bind; [|intros u; apply throws_ret].
      eapply throws_weaken; [|apply throws_findOrCreateUser].
      intros v ->. destruct p; reflexivity.
  - intros v Hv. apply throws_throw. now rewrite Hv.
Qed.

End CollapseFacts.

(** Whatever goes wrong in a callback, for whatever User Store and Session
    Store the Orchestrator was constructed with, the caller sees one of two
    errors: OAUTH_INVALID_STATE with status 400, or the generic
    OAUTH_CALLBACK_ERROR with status 500 and the message "Authentication
    with <provider> failed. Please try again.". The first one is thrown
    only by an initialized service, for a non-empty code, when both state
    tokens are present and differ. The other three results of
    [handleOAuthError] (403 access denied, 500 configuration error, 500
    profile error) are never thrown by a callback, and neither is the text
    of an error of a provider or of the database. *)
Theorem callback_errors_collapse :
  forall (p : Provider) (svc : AuthService.AuthServiceImpl) (code : string)
         (requestState storedState : option string) (w : World) (v : JsValue),
    fst (AuthService.handleCallback p svc code requestState storedState w) = Thrown v ->
    (v = AppErr (mkAppError OAUTH_INVALID_STATE
                   "Authentication request validation failed. Please try again." 400)
     /\ AuthService.isInitialized svc = true
     /\ code <> ""
     /\ Js.truthy requestState = true
     /\ Js.truthy storedState = true
     /\ OAuthErrors.validateOAuthState requestState storedState = false)
    \/ v = AppErr (generic_failure p).
Proof.
  intros p [us sm initialized] code st ss w v H.
  destruct initialized.
  2:{ right. rewrite AuthFacts.callback_before_initialization in H.
      now inversion H. }
  destruct code as [|c code].
  { right. rewrite AuthFacts.callback_empty_code in H. now inversion H. }
  destruct (Js.truthy st && Js.truthy ss && negb (OAuthErrors.validateOAuthState st ss))
    eqn:Hcheck.
  - left. rewrite (CallbackFacts.callback_rejects_state p us sm c code st ss w Hcheck) in H.
    inversion H.
    apply andb_true_iff in Hcheck. destruct Hcheck as [Hcheck Hv].
    apply andb_true_iff in Hcheck. destruct Hcheck as [Hst Hss].
    apply negb_true_iff in Hv.
    repeat split; try assumption. discriminate.
  - right.
    rewrite (CallbackFacts.callback_skips_state_check p us sm c code st ss w Hcheck) in H.
    exact (CollapseFacts.throws_after_checks p _ _ w v H).
Qed.

(** A code the provider refuses: the caller sees the generic failure, not
    the provider's answer. *)
Lemma callback_errors_collapse_witness :
  fst (AuthService.handleCallback github Example.ready_service "bad" None None Example.world)
  = Thrown (AppErr (generic_failure github))
  /\ ((AppErr (generic_failure github)
       = AppErr (mkAppError OAUTH_INVALID_STATE
                   "Authentication request validation failed. Please try again." 400)
       /\ AuthService.isInitialized Example.ready_service = true
       /\ "bad" <> ""
       /\ Js.truthy None = true
       /\ Js.truthy None = true
       /\ OAuthErrors.validateOAuthState None None = false)
      \/ AppErr (generic_failure github) = AppErr (generic_failure github)).
Proof.
  split; [vm_compute; reflexivity|].
  apply (callback_errors_collapse github Example.ready_service "bad" None None
           Example.world).
  vm_compute. reflexivity.
Defined.

Module ExchangeFacts.
Local Open Scope Z_scope.
Import AuthService.

Lemma loadOAuthConfig_eval w :
  loadOAuthConfig w
  = match OAuth.loadOAuthConfig (environment w) with
    | inl cfg => (Returned cfg, w)
    | inr msg => (Thrown (JsError msg), w)
    end.
Proof. reflexivity. Qed.

Local Ltac by_replies :=
  repeat (match goal with
          | |- context [match ?x with
                        | NetworkFailure _ => _
                        | HttpFailure _ => _
                        | HttpOk _ => _
                        end] => destruct x
          end; cbn -[String.append OAuth.normalizeProfile app]);
  unfold set_net_log; cbn -[String.append OAuth.normalizeProfile app];
  rewrite <- ?app_assoc; reflexivity.

(** The world after the exchange with Microsoft, by the replies. *)
Lemma exchangeMicrosoftCode_world code config w :
  let token_request := TokenRequest microsoft (clientId config) (clientSecret config) code in
  snd (exchangeMicrosoftCode code config w)
  = set_net_log
      (net_log w ++
       match token_endpoint (network w) microsoft (clientId config) (clientSecret config) code with
       | HttpOk token => [token_request; ProfileRequest microsoft token]
       | _ => [token_request]
       end)%list w.
Proof.
  intros token_request. subst token_request.
  unfold exchangeMicrosoftCode, try_catch, bind, fetch_token, fetch_profile, expect_ok.
  destruct w as [us ss ck rnd rp df dp env net log].
  cbn -[String.append OAuth.normalizeProfile app].
  by_replies.
Qed.

(** The world after the exchange with GitHub, by the replies. *)
Lemma exchangeGitHubCode_world code config w :
  let token_request := TokenRequest github (clientId config) (clientSecret config) code in
  snd (exchangeGitHubCode code config w)
  = set_net_log
      (net_log w ++
       match token_endpoint (network w) github (clientId config) (clientSecret config) code with
       | HttpOk token =>
           match github_user (network w) token with
           | HttpOk _ => [token_request; ProfileRequest github token; EmailsRequest token]
           | _ => [token_request; ProfileRequest github token]
           end
       | _ => [token_request]
       end)%list w.
Proof.
  intros token_request. subst token_request.
  unfold exchangeGitHubCode, try_catch, bind, fetch_token, fetch_profile, fetch_emails,
    expect_ok.
  destruct w as [us ss ck rnd rp df dp env net log].
  cbn -[String.append OAuth.normalizeProfile app].
  by_replies.
Qed.

Lemma exchange_world p code w cfg :
  OAuth.loadOAuthConfig (environment w) = inl cfg ->
  snd (exchangeCodeForProfile p code w)
  = match p with
    | microsoft => snd (exchangeMicrosoftCode code (cfg_microsoft cfg) w)
    | github => snd (exchangeGitHubCode code (cfg_github cfg) w)
    end.
Proof.
  intros H. unfold exchangeCodeForProfile, try_catch, bind.
  rewrite loadOAuthConfig_eval, H.
  destruct p.
  - destruct (exchangeMicrosoftCode code (cfg_microsoft cfg) w) as [[a|v] w1]; reflexivity.
  - destruct (exchangeGitHubCode code (cfg_github cfg) w) as [[a|v] w1]; reflexivity.
Qed.

Lemma exchange_unconfigured p code w msg :
  OAuth.loadOAuthConfig (environment w) = inr msg ->
  exchangeCodeForProfile p code w
  = (Thrown (AppErr (mkAppError OAUTH_TOKEN_ERROR
                       ("Failed to exchange authorization code for " ++ provider_name p)
                       500)), w).
Proof.
  intros H. unfold exchangeCodeForProfile, try_catch, bind.
  now rewrite loadOAuthConfig_eval, H.
Qed.

Lemma Returned_inj {A} (a b : A) : Returned a = Returned b -> a = b.
Proof. intros H. now injection H. Qed.

(** The profile the exchange returns is the normalized answer of the
    provider. *)
Lemma exchange_returns p code w profile :
  fst (exchangeCodeForProfile p code w) = Returned profile ->
  exists raw, profile = OAuth.normalizeProfile p raw.
Proof.
  unfold exchangeCodeForProfile, try_catch, bind.
  rewrite loadOAuthConfig_eval.
  destruct (OAuth.loadOAuthConfig (environment w)) as [cfg|msg]; [|discriminate].
  destruct p.
  - unfold exchangeMicrosoftCode, try_catch, bind, fetch_token, fetch_profile, expect_ok.
    destruct w as [us ss ck rnd rp df dp env net log].
    cbn -[String.append OAuth.normalizeProfile app].
    repeat (match goal with
            | |- context [match ?x with
                          | NetworkFailure _ => _
                          | HttpFailure _ => _
                          | HttpOk _ => _
                          end] => destruct x
            end; cbn -[String.append OAuth.normalizeProfile app]);
      try discriminate.
    intros E. apply Returned_inj in E. eexists. symmetry. exact E.
  - unfold exchangeGitHubCode, try_catch, bind, fetch_token, fetch_profile, fetch_emails,
      expect_ok.
    destruct w as [us ss ck rnd rp df dp env net log].
    cbn -[String.append OAuth.normalizeProfile app].
    repeat (match goal with
            | |- context [match ?x with
                          | NetworkFailure _ => _
                          | HttpFailure _ => _
                          | HttpOk _ => _
                          end] => destruct x
            end; cbn -[String.append OAuth.normalizeProfile app]);
      try discriminate;
      intros E; apply Returned_inj in E; eexists; symmetry; exact E.
Qed.

Lemma or_else_nonempty a b : b <> "" -> Js.or_else a b <> "".
Proof.
  intros Hb. unfold Js.or_else. destruct a; simpl; [exact Hb | discriminate].
Qed.

Lemma normalizeProfile_shape p raw :
  profile_provider (OAuth.normalizeProfile p raw) = provider_name p
  /\ profile_username (OAuth.normalizeProfile p raw) <> ""
  /\ profile_id (OAuth.normalizeProfile p raw) = OAuth.raw_id raw
  /\ profile_email (OAuth.normalizeProfile p raw)
     = match OAuth.raw_emails raw with
       | Some (first :: _) => first
       | _ => ""
       end.
Proof.
  destruct p; cbn [OAuth.normalizeProfile profile_provider profile_username profile_id
                   profile_email provider_name].
  - repeat split; [apply or_else_nonempty; discriminate|].
    unfold OAuth.first_email. destruct (OAuth.raw_emails raw) as [[|e l]|]; try reflexivity.
    apply StringFacts.opt_or_else_some.
  - repeat split; [apply or_else_nonempty; discriminate|].
    unfold OAuth.first_email. destruct (OAuth.raw_emails raw) as [[|e l]|]; try reflexivity.
    apply StringFacts.opt_or_else_some.
Qed.

End ExchangeFacts.

(** The requests of the token exchange. Without the four credentials in
    the environment nothing is sent. With them, the first request is the
    token request for the code, with the client id and secret of that
    provider; a profile request is sent only if the token request was
    answered with a token, and it carries that token; for GitHub an e-mail
    request follows, with the same token, only if the profile request
    succeeded. Nothing else is ever sent and nothing else of the world
    changes, whether the exchange returns or throws. *)
Theorem exchange_requests :
  forall (p : Provider) (code : string) (w : World),
    (forall msg,
        OAuth.loadOAuthConfig (environment w) = inr msg ->
        snd (AuthService.exchangeCodeForProfile p code w) = w)
    /\ (forall cfg,
           OAuth.loadOAuthConfig (environment w) = inl cfg ->
           let pc := match p with
                     | microsoft => cfg_microsoft cfg
                     | github => cfg_github cfg
                     end in
           let token_request := TokenRequest p (clientId pc) (clientSecret pc) code in
           snd (AuthService.exchangeCodeForProfile p code w)
           = set_net_log
               (net_log w ++
                match token_endpoint (network w) p (clientId pc) (clientSecret pc) code with
                | HttpOk token =>
                    match p with
                    | microsoft => [token_request; ProfileRequest microsoft token]
                    | github =>
                        match github_user (network w) token with
                        | HttpOk _ => [token_request; ProfileRequest github token;
                                       EmailsRequest token]
                        | _ => [token_request; ProfileRequest github token]
                        end
                    end
                | _ => [token_request]
                end)%list w).
Proof.
  intros p code w. split.
  - intros msg H. now rewrite (ExchangeFacts.exchange_unconfigured p code w msg H).
  - intros cfg H pc token_request. subst pc token_request.
    rewrite (ExchangeFacts.exchange_world p code w cfg H).
    destruct p.
    + rewrite ExchangeFacts.exchangeMicrosoftCode_world.
      destruct (token_endpoint _ _ _ _ _); reflexivity.
    + rewrite ExchangeFacts.exchangeGitHubCode_world.
      destruct (token_endpoint _ _ _ _ _); reflexivity.
Qed.

(** What the exchange hands on. A profile it returns carries the name of
    the provider that was asked and a username that is not empty (at
    worst ["Unknown"]). What it throws is always the same OAUTH_TOKEN_ERROR
    with status 500, whose message names the provider and nothing of what
    the provider or the network answered. *)
Theorem exchange_outcome :
  forall (p : Provider) (code : string) (w : World),
    (forall profile,
        fst (AuthService.exchangeCodeForProfile p code w) = Returned profile ->
        profile_provider profile = provider_name p
        /\ profile_username profile <> ""
        /\ UserService.isValidProvider (profile_provider profile) = true)
    /\ (forall v,
           fst (AuthService.exchangeCodeForProfile p code w) = Thrown v ->
           v = AppErr (mkAppError OAUTH_TOKEN_ERROR
                         ("Failed to exchange authorization code for " ++ provider_name p)
                         500)).
Proof.
  intros p code w. split.
  - intros profile H.
    destruct (ExchangeFacts.exchange_returns p code w profile H) as [raw ->].
    destruct (ExchangeFacts.normalizeProfile_shape p raw) as (Hp & Hu & _).
    split; [exact Hp|]. split; [exact Hu|]. rewrite Hp. now destruct p.
  - intros v H. exact (CollapseFacts.throws_exchange p code w v H).
Qed.

Module ConfigFacts.

Lemma missing_nil name v : OAuth.missing name v = [] <-> Js.truthy v = true.
Proof.
  unfold OAuth.missing. destruct (Js.truthy v); split; intros H;
    first [reflexivity | discriminate].
Qed.

Lemma truthy_value v : Js.truthy v = true -> Some (Js.opt_or_else v "") = v
                                            /\ Js.nonempty (Js.opt_or_else v "") = true.
Proof.
  destruct v as [[|c s]|]; simpl; intros H; try discriminate. split; reflexivity.
Qed.

Lemma loadOAuthConfig_complete env :
  Js.truthy (MICROSOFT_CLIENT_ID env) = true ->
  Js.truthy (MICROSOFT_CLIENT_SECRET env) = true ->
  Js.truthy (GITHUB_CLIENT_ID env) = true ->
  Js.truthy (GITHUB_CLIENT_SECRET env) = true ->
  exists cfg, OAuth.loadOAuthConfig env = inl cfg.
Proof.
  intros H1 H2 H3 H4. unfold OAuth.loadOAuthConfig, OAuth.missing.
  rewrite H1, H2, H3, H4. simpl. now eexists.
Qed.

Lemma loadOAuthConfig_loaded env cfg :
  OAuth.loadOAuthConfig env = inl cfg ->
  Js.truthy (MICROSOFT_CLIENT_ID env) = true
  /\ Js.truthy (MICROSOFT_CLIENT_SECRET env) = true
  /\ Js.truthy (GITHUB_CLIENT_ID env) = true
  /\ Js.truthy (GITHUB_CLIENT_SECRET env) = true
  /\ cfg = mkOAuthConfig
             (mkProviderConfig (Js.opt_or_else (MICROSOFT_CLIENT_ID env) "")
                (Js.opt_or_else (MICROSOFT_CLIENT_SECRET env) "")
                (Js.opt_or_else (BASE_URL env) "http://localhost:3000"
                   ++ "/auth/callback/microsoft")
                ["openid"; "profile"; "email"])
             (mkProviderConfig (Js.opt_or_else (GITHUB_CLIENT_ID env) "")
                (Js.opt_or_else (GITHUB_CLIENT_SECRET env) "")
                (Js.opt_or_else (BASE_URL env) "http://localhost:3000"
                   ++ "/auth/callback/github")
                ["user:email"]).
Proof.
  unfold OAuth.loadOAuthConfig, OAuth.missing.
  destruct (Js.truthy (MICROSOFT_CLIENT_ID env));
    destruct (Js.truthy (MICROSOFT_CLIENT_SECRET env));
    destruct (Js.truthy (GITHUB_CLIENT_ID env));
    destruct (Js.truthy (GITHUB_CLIENT_SECRET env));
    cbn [app length Nat.ltb Nat.leb]; intros H; try discriminate H.
  injection H as <-. repeat split.
Qed.

End ConfigFacts.

(** The OAuth configuration. [loadOAuthConfig] succeeds exactly when the
    four credentials are set and not empty. The configuration it returns
    holds those four values, passes [validateOAuthConfig] without a
    message, and its redirect URIs are BASE_URL (or
    [http://localhost:3000] when BASE_URL is unset or empty) followed by
    [/auth/callback/microsoft] and [/auth/callback/github].
    [initializeOAuth] returns the service with its flag set exactly in that
    case, and throws OAUTH_PROVIDER_ERROR 500 otherwise; in both cases the
    world is as it was. *)
Theorem oauth_configuration :
  forall env : Env,
    let complete :=
      Js.truthy (MICROSOFT_CLIENT_ID env) && Js.truthy (MICROSOFT_CLIENT_SECRET env)
      && Js.truthy (GITHUB_CLIENT_ID env) && Js.truthy (GITHUB_CLIENT_SECRET env) in
    (complete = true <-> exists cfg, OAuth.loadOAuthConfig env = inl cfg)
    /\ (forall cfg,
           OAuth.loadOAuthConfig env = inl cfg ->
           OAuthErrors.validateOAuthConfig cfg = []
           /\ Some (clientId (cfg_microsoft cfg)) = MICROSOFT_CLIENT_ID env
           /\ Some (clientSecret (cfg_microsoft cfg)) = MICROSOFT_CLIENT_SECRET env
           /\ Some (clientId (cfg_github cfg)) = GITHUB_CLIENT_ID env
           /\ Some (clientSecret (cfg_github cfg)) = GITHUB_CLIENT_SECRET env
           /\ redirectUri (cfg_microsoft cfg)
              = Js.opt_or_else (BASE_URL env) "http://localhost:3000"
                  ++ "/auth/callback/microsoft"
           /\ redirectUri (cfg_github cfg)
              = Js.opt_or_else (BASE_URL env) "http://localhost:3000"
                  ++ "/auth/callback/github")
    /\ (forall (svc : AuthService.AuthServiceImpl) (w : World),
           environment w = env ->
           AuthService.initializeOAuth svc w
           = (if complete
              then Returned (AuthService.mk (AuthService.userService svc)
                                            (AuthService.sessionManager svc) true)
              else Thrown (AppErr (mkAppError OAUTH_PROVIDER_ERROR
                                     "Failed to initialize OAuth2 configuration" 500)),
              w)).
Proof.
  intros env complete. split; [|split].
  - split.
    + intros H. unfold complete in H.
      apply andb_true_iff in H. destruct H as [H H4].
      apply andb_true_iff in H. destruct H as [H H3].
      apply andb_true_iff in H. destruct H as [H1 H2].
      now apply ConfigFacts.loadOAuthConfig_complete.
    + intros [cfg H]. apply ConfigFacts.loadOAuthConfig_loaded in H.
      destruct H as (H1 & H2 & H3 & H4 & _). unfold complete.
      now rewrite H1, H2, H3, H4.
  - intros cfg H. apply ConfigFacts.loadOAuthConfig_loaded in H.
    destruct H as (H1 & H2 & H3 & H4 & ->).
    destruct (ConfigFacts.truthy_value _ H1) as [E1 N1].
    destruct (ConfigFacts.truthy_value _ H2) as [E2 N2].
    destruct (ConfigFacts.truthy_value _ H3) as [E3 N3].
    destruct (ConfigFacts.truthy_value _ H4) as [E4 N4].
    unfold OAuthErrors.validateOAuthConfig.
    cbn [cfg_microsoft cfg_github clientId clientSecret redirectUri].
    rewrite N1, N2, N3, N4. repeat split; assumption.
  - intros svc w Hw. subst env.
    unfold AuthService.initializeOAuth, AuthService.configurePassport, try_catch, bind.
    rewrite !ExchangeFacts.loadOAuthConfig_eval.
    destruct (OAuth.loadOAuthConfig (environment w)) as [cfg|msg] eqn:E.
    + rewrite ExchangeFacts.loadOAuthConfig_eval, E.
      apply ConfigFacts.loadOAuthConfig_loaded in E.
      destruct E as (H1 & H2 & H3 & H4 & _). unfold complete.
      now rewrite H1, H2, H3, H4.
    + assert (Hc : complete = false).
      { destruct complete eqn:Hc; [|reflexivity].
        unfold complete in Hc.
        apply andb_true_iff in Hc. destruct Hc as [Hc H4].
        apply andb_true_iff in Hc. destruct Hc as [Hc H3].
        apply andb_true_iff in Hc. destruct Hc as [H1 H2].
        destruct (ConfigFacts.loadOAuthConfig_complete _ H1 H2 H3 H4) as [cfg Hcfg].
        congruence. }
      now rewrite Hc.
Qed.

Module SessionOpsFacts.
Local Open Scope Z_scope.
Import AuthService.

Lemma blank_iff id : blank id = true <-> Js.trim id = "".
Proof.
  split; [apply SessionFacts.blank_true|].
  intros H. unfold blank. rewrite StringFacts.length_zero, H. apply orb_true_r.
Qed.

Lemma throws_destroySession us initialized sessionId :
  throws_only (app_error (one_of [(VALIDATION_ERROR, 400); (DATABASE_ERROR, 500)]))
    (destroySession (mk us theSessionManager initialized) sessionId).
Proof.
  unfold destroySession. cbn [sessionManager theSessionManager sm_destroy].
  apply throws_try_catch
    with (Q := app_error (one_of [(VALIDATION_ERROR, 400); (DATABASE_ERROR, 500)])).
  - destruct (blank sessionId).
    + apply throws_throw. eexists. split; [reflexivity | unfold one_of; simpl; tauto].
    + apply SessionThrowFacts.throws_destroy.
  - intros v (e & -> & He). simpl. apply throws_throw. now exists e.
Qed.

End SessionOpsFacts.

(** [destroySession] of the Orchestrator, for whatever Session Store it was
    constructed with. A blank id is refused with VALIDATION_ERROR 400 and
    the store is not called. Otherwise the store's [destroy] is called with
    the id: its return is the return, an [AppError] it throws passes
    through unchanged, and anything else it throws becomes
    AUTHENTICATION_FAILED 500. The Session Store of this program throws
    [AppError]s only, so with it [destroySession] ends in VALIDATION_ERROR
    400 or DATABASE_ERROR 500 and never in AUTHENTICATION_FAILED. *)
Theorem destroySession_errors :
  forall (us : UserServiceI) (sm : SessionManagerI) (initialized : bool)
         (sessionId : string) (w : World),
    (Js.trim sessionId = "" ->
     AuthService.destroySession (AuthService.mk us sm initialized) sessionId w
     = (Thrown (AppErr (mkAppError VALIDATION_ERROR
                          "Session ID is required to destroy session" 400)), w))
    /\ (Js.trim sessionId <> "" ->
        forall outcome w1,
          sm_destroy sm sessionId w = (outcome, w1) ->
          AuthService.destroySession (AuthService.mk us sm initialized) sessionId w
          = (match outcome with
             | Returned tt => Returned tt
             | Thrown (AppErr e) => Thrown (AppErr e)
             | Thrown (JsError _) =>
                 Thrown (AppErr (mkAppError AUTHENTICATION_FAILED
                                   "Failed to destroy session" 500))
             end, w1))
    /\ (forall v,
           fst (AuthService.destroySession
                  (AuthService.mk us theSessionManager initialized) sessionId w) = Thrown v ->
           app_error (one_of [(VALIDATION_ERROR, 400%Z); (DATABASE_ERROR, 500%Z)]) v).
Proof.
  intros us sm initialized sessionId w. split; [|split].
  - intros H. apply SessionOpsFacts.blank_iff in H.
    unfold AuthService.destroySession, try_catch. now rewrite H.
  - intros H outcome w1 Hd.
    assert (Hb : AuthService.blank sessionId = false).
    { destruct (AuthService.blank sessionId) eqn:E; [|reflexivity].
      apply SessionOpsFacts.blank_iff in E. contradiction. }
    unfold AuthService.destroySession, try_catch. rewrite Hb.
    cbn [AuthService.sessionManager]. rewrite Hd.
    destruct outcome as [[]|[e|m]]; reflexivity.
  - intros v. apply SessionOpsFacts.throws_destroySession.
Qed.

Module UpsertFacts.
Local Open Scope Z_scope.
Import AuthService.

Lemma find_identity_unique r rows :
  NoDup (map (fun x => (u_provider x, u_provider_id x)) rows) -> In r rows ->
  find (fun x => String.eqb (u_provider_id x) (u_provider_id r)
                 && String.eqb (u_provider x) (u_provider r)) rows = Some r.
Proof.
  induction rows as [|y rows IH]; simpl; [contradiction|].
  intros Hnd Hin. inversion Hnd as [|? ? Hy Hnd']; subst.
  destruct (String.eqb (u_provider_id y) (u_provider_id r)
            && String.eqb (u_provider y) (u_provider r)) eqn:E.
  - apply andb_true_iff in E. destruct E as [E1 E2].
    apply String.eqb_eq in E1, E2.
    destruct Hin as [-> | Hin]; [reflexivity|].
    exfalso. apply Hy. apply in_map_iff. exists r. split; [|exact Hin].
    now rewrite E1, E2.
  - destruct Hin as [-> | Hin].
    + now rewrite !String.eqb_refl in E.
    + now apply IH.
Qed.

Lemma identity_unique r x rows :
  NoDup (map (fun x => (u_provider x, u_provider_id x)) rows) ->
  In r rows -> In x rows ->
  u_provider x = u_provider r -> u_provider_id x = u_provider_id r -> x = r.
Proof.
  intros Hnd Hr Hx E1 E2.
  pose proof (find_identity_unique r rows Hnd Hr) as Fr.
  pose proof (find_identity_unique x rows Hnd Hx) as Fx.
  rewrite E1, E2 in Fx. congruence.
Qed.

(** The patch [findOrCreateUser] sends: the username and the e-mail
    address of the profile. *)
Lemma merged_valid profile r t :
  UserService.profile_errors profile = [] ->
  u_provider r = profile_provider profile ->
  u_provider_id r = Js.trim (profile_id profile) ->
  User.validate
    (merged_user (mkPartial None (Some (profile_username profile))
                            (Some (profile_email profile)) None) r t) = [].
Proof.
  intros Hval Hp Hi. unfold merged_user.
  cbn [partial_username partial_email partial_provider partial_id option_map User.or_keep].
  rewrite UserFacts.validate_fields, Hp, Hi. exact Hval.
Qed.

Lemma wrap_returned svc profile w (o : User.t) w1 :
  (found <- us_findByProviderId (userService svc) (profile_id profile)
              (profile_provider profile) ;;
   match found with
   | None => us_createUser (userService svc) profile
   | Some user =>
       if negb (String.eqb (User.username user) (profile_username profile))
          || negb (String.eqb (User.email user) (profile_email profile))
       then us_updateUser (userService svc) (User.id user)
              (mkPartial None (Some (profile_username profile))
                         (Some (profile_email profile)) None)
       else ret user
   end) w = (Returned o, w1) ->
  findOrCreateUser svc profile w = (Returned o, w1).
Proof.
  intros H. unfold findOrCreateUser, try_catch. now rewrite H.
Qed.

Lemma findOrCreateUser_creates sm initialized profile w :
  db_reliable w ->
  UserService.profile_errors profile = [] ->
  with_identity (profile_provider profile) (Js.trim (profile_id profile)) (users w) = [] ->
  ~ In (random w (random_pos w)) (map u_id (users w)) ->
  let u := User.mk (random w (random_pos w)) (Js.trim (profile_username profile))
                   (Js.trim (profile_email profile)) (profile_provider profile)
                   (Js.trim (profile_id profile)) (clock w) (clock w) in
  findOrCreateUser (mk theUserService sm initialized) profile w
  = (Returned u,
     set_users (users w ++ [User.toDatabaseRow u])%list
       (set_db_pos (S (S (S (db_pos w)))) (set_random_pos (S (random_pos w)) w))).
Proof.
  intros Hrel Hval Habs Hfresh u.
  destruct (UserFacts.profile_errors_nil profile Hval) as [Hpid Hprov].
  apply wrap_returned.
  cbn [userService theUserService us_findByProviderId us_createUser us_updateUser].
  unfold bind.
  rewrite UserFacts.findByProviderId_none;
    [| apply Hrel | exact Hpid
     | now rewrite (StringFacts.valid_provider_trim _ Hprov)
     | now rewrite (StringFacts.valid_provider_trim _ Hprov)].
  rewrite UserFacts.createUser_new; [reflexivity | exact Hval | | exact Habs | exact Hfresh].
  intros n. apply Hrel.
Qed.

Lemma findOrCreateUser_finds sm initialized profile w r :
  db_reliable w ->
  tables_wf w ->
  UserService.profile_errors profile = [] ->
  In r (users w) ->
  u_provider r = profile_provider profile ->
  u_provider_id r = Js.trim (profile_id profile) ->
  u_id r <> "" ->
  Js.trim (u_id r) = u_id r ->
  findOrCreateUser (mk theUserService sm initialized) profile w
  = if negb (String.eqb (u_username r) (profile_username profile))
       || negb (String.eqb (u_email r) (profile_email profile))
    then
      let updated := merged_user (mkPartial None (Some (profile_username profile))
                                            (Some (profile_email profile)) None)
                                 r (clock w) in
      (Returned updated,
       set_users (replace_user (u_id r) updated (users w))
                 (set_db_pos (S (S (S (db_pos w)))) w))
    else (Returned (row_user r), set_db_pos (S (db_pos w)) w).
Proof.
  intros Hrel (Hids & Hident & _) Hval Hin Hp Hi Hid Htrim.
  destruct (UserFacts.profile_errors_nil profile Hval) as [Hpid Hprov].
  assert (Hfound : UserService.findByProviderId (profile_id profile)
                     (profile_provider profile) w
                   = (Returned (Some (row_user r)), set_db_pos (S (db_pos w)) w)).
  { apply StoreFacts.findByProviderId_found.
    - now apply JsFacts.nonempty_true.
    - now rewrite (StringFacts.valid_provider_trim _ Hprov).
    - apply Hrel.
    - rewrite (StringFacts.valid_provider_trim _ Hprov), <- Hp, <- Hi.
      now apply find_identity_unique.
    - exact Hid. }
  match goal with
  | |- _ = (if ?c then _ else _) => destruct c eqn:Hneeds
  end; apply wrap_returned;
    cbn [userService theUserService us_findByProviderId us_createUser us_updateUser];
    unfold bind; rewrite Hfound;
    cbn [row_user User.username User.email User.id]; rewrite Hneeds.
  - cbv zeta.
    rewrite (StoreFacts.updateUser_eval (u_id r) _ (set_db_pos (S (db_pos w)) w) r).
    + reflexivity.
    + intros n. apply Hrel.
    + now rewrite Htrim.
    + cbn [users set_db_pos]. rewrite Htrim. now apply StoreFacts.find_user_unique.
    + now apply merged_valid.
    + cbn [users set_db_pos clock].
      intros x Hx Hxid Hxp Hxi. apply Hxid. f_equal.
      apply (identity_unique r x (users w)); assumption.
  - reflexivity.
Qed.

End UpsertFacts.

(** The two writes of the User Store leave [sessions] alone. *)
Lemma users_only_createUser profile : preserves sessions (UserService.createUser profile).
Proof.
  unfold UserService.createUser.
  apply preserves_try_catch;
    [|intros v; apply preserves_createUser_catch; intros; reflexivity].
  apply preserves_bind; [apply preserves_createUser_lookup; intros; reflexivity|].
  intros [user [existing|]]; simpl; [apply preserves_throw_app|].
  apply preserves_bind.
  - apply preserves_statement; [intros; reflexivity|]. intros w.
    destruct (existsb _ (users w)); [reflexivity|].
    destruct (existsb _ (users w)); reflexivity.
  - intros c. destruct (c =? 0)%Z; [apply preserves_throw_app | apply preserves_ret].
Qed.

Lemma users_only_updateUser userId patch :
  preserves sessions (UserService.updateUser userId patch).
Proof.
  unfold UserService.updateUser.
  apply preserves_try_catch; [|intros v; apply preserves_rethrow_user].
  destruct (negb _); [apply preserves_throw_app|].
  apply preserves_bind; [apply preserves_findById; intros; reflexivity|].
  intros [existing|]; [|apply preserves_throw_app].
  apply preserves_bind.
  { unfold User.update. apply preserves_bind; [apply preserves_now|].
    intros n. apply preserves_ret. }
  intros updated. destruct (_ <? _)%nat; [apply preserves_throw_app|].
  apply preserves_bind.
  - apply preserves_statement; [intros; reflexivity|]. intros w. cbv zeta.
    destruct (_ && _); reflexivity.
  - intros c. destruct (c =? 0)%Z; [apply preserves_throw_app | apply preserves_ret].
Qed.

(** [findOrCreateUser] over the User Store is an upsert keyed by
    (provider, trimmed provider id). In a database that satisfies the
    schema and executes the statements, for a profile that passes the
    checks: if no user has that identity, one is created from the trimmed
    fields; if a user has it and its stored username and e-mail address
    equal the profile's (exactly, before trimming), that user is returned
    and no row is written; otherwise the username and the e-mail address of
    that row are replaced by the trimmed ones of the profile, its update
    time becomes the current time, and its id, identity and creation time
    stay. The sessions are untouched in every case. *)
Theorem findOrCreateUser_upserts :
  forall (sm : SessionManagerI) (initialized : bool) (profile : UserProfile) (w : World),
    db_reliable w ->
    tables_wf w ->
    UserService.profile_errors profile = [] ->
    let result := AuthService.findOrCreateUser
                    (AuthService.mk theUserService sm initialized) profile w in
    sessions (snd result) = sessions w
    /\ (with_identity (profile_provider profile) (Js.trim (profile_id profile)) (users w) = [] ->
        ~ In (random w (random_pos w)) (map u_id (users w)) ->
        let u := User.mk (random w (random_pos w)) (Js.trim (profile_username profile))
                         (Js.trim (profile_email profile)) (profile_provider profile)
                         (Js.trim (profile_id profile)) (clock w) (clock w) in
        fst result = Returned u
        /\ users (snd result) = (users w ++ [User.toDatabaseRow u])%list)
    /\ (forall r,
           In r (users w) ->
           u_provider r = profile_provider profile ->
           u_provider_id r = Js.trim (profile_id profile) ->
           u_id r <> "" ->
           Js.trim (u_id r) = u_id r ->
           (u_username r = profile_username profile ->
            u_email r = profile_email profile ->
            fst result = Returned (row_user r) /\ users (snd result) = users w)
           /\ (u_username r <> profile_username profile
               \/ u_email r <> profile_email profile ->
               let updated :=
                 User.mk (u_id r) (Js.trim (profile_username profile))
                         (Js.trim (profile_email profile)) (u_provider r)
                         (u_provider_id r) (u_created_at r) (clock w) in
               fst result = Returned updated
               /\ users (snd result) = replace_user (u_id r) updated (users w))).
Proof.
  intros sm initialized profile w Hrel Hwf Hval result. subst result.
  split; [|split].
  - assert (H : preserves sessions
                  (AuthService.findOrCreateUser
                     (AuthService.mk theUserService sm initialized) profile)).
    { unfold AuthService.findOrCreateUser.
      cbn [AuthService.userService theUserService us_findByProviderId us_createUser
           us_updateUser].
      apply preserves_try_catch; [|intros v; apply preserves_throw].
      apply preserves_bind; [apply preserves_findByProviderId; intros; reflexivity|].
      intros [user|].
      - destruct (_ || _); [|apply preserves_ret].
        apply users_only_updateUser.
      - apply users_only_createUser. }
    apply H.
  - intros Habs Hfresh u.
    rewrite (UpsertFacts.findOrCreateUser_creates sm initialized profile w
               Hrel Hval Habs Hfresh).
    split; reflexivity.
  - intros r Hin Hp Hi Hid Htrim.
    rewrite (UpsertFacts.findOrCreateUser_finds sm initialized profile w r
               Hrel Hwf Hval Hin Hp Hi Hid Htrim).
    split.
    + intros -> ->. rewrite !String.eqb_refl. split; reflexivity.
    + intros Hdiff.
      assert (Hneeds : negb (String.eqb (u_username r) (profile_username profile))
                       || negb (String.eqb (u_email r) (profile_email profile)) = true).
      { apply orb_true_iff.
        destruct Hdiff as [H|H]; [left|right];
          now apply negb_true_iff, String.eqb_neq. }
      rewrite Hneeds. split; reflexivity.
Qed.

(** Scenario E of the specification: alice signs in again under a new
    username. *)
Lemma findOrCreateUser_upserts_witness :
  fst (AuthService.findOrCreateUser Example.ready_service
         (mkProfile "gh-1" "alice2" "alice@example.com" "github") Example.world_with_alice)
  = Returned (User.mk "u-alice" "alice2" "alice@example.com" "github" "gh-1"
                      Example.ten_o_clock Example.ten_o_clock)
  /\ map u_id (users (snd (AuthService.findOrCreateUser Example.ready_service
                             (mkProfile "gh-1" "alice2" "alice@example.com" "github")
                             Example.world_with_alice)))
     = ["u-alice"].
Proof.
  destruct (findOrCreateUser_upserts theSessionManager true
              (mkProfile "gh-1" "alice2" "alice@example.com" "github")
              Example.world_with_alice) as (_ & _ & H).
  - intros n. reflexivity.
  - repeat split; simpl.
    + constructor; [simpl; tauto | constructor].
    + constructor; [simpl; tauto | constructor].
    + constructor.
    + tauto.
  - reflexivity.
  - destruct (H Example.alice) as [_ Hu].
    + simpl. tauto.
    + reflexivity.
    + reflexivity.
    + vm_compute. discriminate.
    + reflexivity.
    + destruct Hu as [H1 H2].
      * left. vm_compute. discriminate.
      * split; [exact H1|]. unfold Example.ready_service. rewrite H2. reflexivity.
Defined.

Module SignInFacts.
Local Open Scope Z_scope.
Import AuthService.




End SignInFacts.



Module LookupFacts.
Local Open Scope Z_scope.
Import UserService.

Lemma findByProviderId_blank pid prov w :
  Js.trim pid = "" \/ Js.trim prov = "" ->
  findByProviderId pid prov w
  = (Thrown (AppErr (mkAppError VALIDATION_ERROR
                       "Provider ID and provider are required" 400)), w).
Proof.
  intros H. unfold findByProviderId, try_catch. change sanitizeInput with Js.trim.
  destruct H as [H|H]; rewrite H; [reflexivity|].
  now rewrite orb_true_r.
Qed.

Lemma findByProviderId_unknown_provider pid prov w :
  Js.trim pid <> "" -> Js.trim prov <> "" ->
  isValidProvider (Js.trim prov) = false ->
  findByProviderId pid prov w
  = (Thrown (AppErr (mkAppError VALIDATION_ERROR
                       "Invalid provider. Must be microsoft or github" 400)), w).
Proof.
  intros H1 H2 H3. unfold findByProviderId, try_catch. change sanitizeInput with Js.trim.
  rewrite (proj2 (StoreFacts.trim_nonempty _) H1), (proj2 (StoreFacts.trim_nonempty _) H2), H3.
  reflexivity.
Qed.

Lemma findByProviderId_faulty pid prov w :
  Js.trim pid <> "" ->
  isValidProvider (Js.trim prov) = true ->
  db_fault w (db_pos w) = true ->
  findByProviderId pid prov w
  = (Thrown (AppErr (mkAppError DATABASE_ERROR "Failed to find user by provider ID" 500)),
     set_db_pos (S (db_pos w)) w).
Proof.
  intros H1 H2 H3. unfold findByProviderId, try_catch, bind.
  change sanitizeInput with Js.trim.
  rewrite (proj2 (StoreFacts.trim_nonempty _) H1),
          (StringFacts.valid_provider_nonempty _ H2), H2. simpl.
  unfold Db.select_user_by_provider. now rewrite UserFacts.statement_faulty by assumption.
Qed.

End LookupFacts.

(** [findByProviderId] checks its arguments before it touches the
    database: an id or a provider that is empty or only white space, and a
    provider that (trimmed) is no casing of microsoft or github, are
    refused with VALIDATION_ERROR 400 and no statement is executed.
    Otherwise one SELECT is executed, with the trimmed id and provider: a
    failure of the driver becomes DATABASE_ERROR 500; on a table whose ids
    are not empty the result is the first row of that identity as a [User],
    or [null] when there is none. *)
Theorem findByProviderId_checks_arguments :
  forall (providerId provider : string) (w : World),
    (Js.trim providerId = "" \/ Js.trim provider = "" ->
     UserService.findByProviderId providerId provider w
     = (Thrown (AppErr (mkAppError VALIDATION_ERROR
                          "Provider ID and provider are required" 400)), w))
    /\ (Js.trim providerId <> "" -> Js.trim provider <> "" ->
        UserService.isValidProvider (Js.trim provider) = false ->
        UserService.findByProviderId providerId provider w
        = (Thrown (AppErr (mkAppError VALIDATION_ERROR
                             "Invalid provider. Must be microsoft or github" 400)), w))
    /\ (Js.trim providerId <> "" ->
        UserService.isValidProvider (Js.trim provider) = true ->
        (db_fault w (db_pos w) = true ->
         UserService.findByProviderId providerId provider w
         = (Thrown (AppErr (mkAppError DATABASE_ERROR
                              "Failed to find user by provider ID" 500)),
            set_db_pos (S (db_pos w)) w))
        /\ (db_fault w (db_pos w) = false ->
            (forall r, In r (users w) -> u_id r <> "") ->
            UserService.findByProviderId providerId provider w
            = (Returned
                 (option_map row_user
                    (find (fun r => String.eqb (u_provider_id r) (Js.trim providerId)
                                    && String.eqb (u_provider r) (Js.trim provider))
                          (users w))),
               set_db_pos (S (db_pos w)) w))).
Proof.
  intros pid prov w. split; [|split].
  - apply LookupFacts.findByProviderId_blank.
  - apply LookupFacts.findByProviderId_unknown_provider.
  - intros H1 H2. split.
    + now apply LookupFacts.findByProviderId_faulty.
    + intros Hdb Hids. now apply StoreFacts.findByProviderId_eval.
Qed.

(** ** The models *)

Module ModelFacts.
Local Open Scope Z_scope.

Lemma session_validate_list s w :
  Session.validate s w
  = (Returned
       ((if negb (Js.nonempty (Js.trim (Session.userId s)))
         then [mkAppError VALIDATION_ERROR "User ID is required for session" 400] else [])
        ++ (if Session.expiresAt s <? clock w
            then [mkAppError SESSION_EXPIRED "Session has expired" 401] else [])
        ++ (if Session.expiresAt s <? Session.createdAt s
            then [mkAppError VALIDATION_ERROR
                    "Session expiration time cannot be before creation time" 400]
            else []))%list, w).
Proof.
  unfold Session.validate, Session.isExpired, bind, now, ret.
  rewrite StringFacts.length_zero.
  destruct (Session.userId s) as [|c u] eqn:E; [reflexivity|].
  reflexivity.
Qed.

Lemma session_isValid_eval s w :
  Session.isValid s w
  = (Returned (negb (Session.expiresAt s <? clock w)
               && Js.nonempty (Js.trim (Session.userId s))), w).
Proof.
  unfold Session.isValid, Session.isExpired, bind, now, ret.
  now destruct (Js.trim (Session.userId s)).
Qed.

End ModelFacts.

(** The [Session] model is consistent with itself, for a session whose two
    dates are valid and as long as the dates it computes are ones a [Date]
    can hold (at most 8.64e15 ms from the epoch). [validate] finds no error
    exactly when [isValid] holds and the session does not end before it
    starts. A session that [isExpired] has no time remaining. After
    [extend] with a duration the session is expired exactly when the
    duration is negative, and its remaining time is the duration, or 0 for
    a negative one; after [refresh] it has 24 hours. [createForUser] keeps
    the user id as given, starts the session now and ends it after the
    duration, or after 24 hours when the duration is [undefined] or 0. *)
Theorem session_model_consistent :
  forall (s : Session.t) (w : World),
    Js.valid_time (Session.createdAt s) = true ->
    Js.valid_time (Session.expiresAt s) = true ->
    (fst (Session.validate s w) = Returned []
     <-> fst (Session.isValid s w) = Returned true
         /\ (Session.createdAt s <= Session.expiresAt s)%Z)
    /\ (fst (Session.isExpired s w) = Returned true ->
        fst (Session.getRemainingTime s w) = Returned 0%Z)
    /\ (forall d : Z,
           Js.valid_time (clock w + d) = true ->
           let extended := Session.mk (Session.id s) (Session.userId s) (Session.createdAt s)
                                      (clock w + d)%Z in
           Session.extend (Some d) s w = (Returned extended, w)
           /\ fst (Session.isExpired extended w) = Returned (d <? 0)%Z
           /\ fst (Session.getRemainingTime extended w) = Returned (Z.max 0 d))
    /\ (Js.valid_time (clock w + 86400000) = true ->
        exists refreshed,
          Session.refresh s w = (Returned refreshed, w)
          /\ fst (Session.isExpired refreshed w) = Returned false
          /\ fst (Session.getRemainingTime refreshed w) = Returned 86400000%Z)
    /\ (forall (userId : string) (durationMs : option Z),
           random w (random_pos w) <> "" ->
           Js.valid_time (clock w + Session.duration_or_default durationMs) = true ->
           Session.createForUser userId durationMs w
           = (Returned (Session.mk (random w (random_pos w)) userId (clock w)
                                   (clock w + Session.duration_or_default durationMs)%Z),
              set_random_pos (S (random_pos w)) w)).
Proof.
  intros s w Hcreated Hexpires. split; [|split; [|split; [|split]]].
  - rewrite ModelFacts.session_validate_list, ModelFacts.session_isValid_eval.
    cbn [fst].
    destruct (Js.nonempty (Js.trim (Session.userId s)));
      destruct (Session.expiresAt s <? clock w)%Z;
      destruct (Z.ltb_spec (Session.expiresAt s) (Session.createdAt s));
      simpl; split;
      first [ intros Hx; discriminate Hx
            | intros [Hx Hy]; discriminate Hx
            | intros [Hx Hy]; lia
            | intros _; split; [reflexivity | lia]
            | intros _; reflexivity ].
  - unfold Session.isExpired, Session.getRemainingTime, bind, now, ret. cbn [fst].
    intros H. injection H as H. apply Z.ltb_lt in H. f_equal. lia.
  - intros d Hdate extended. subst extended.
    unfold Session.extend, Session.isExpired, Session.getRemainingTime, bind, now, ret.
    cbn [fst Session.expiresAt].
    split; [reflexivity|]. split; f_equal.
    + destruct (Z.ltb_spec (clock w + d) (clock w)); destruct (Z.ltb_spec d 0);
        first [reflexivity | lia].
    + lia.
  - intros Hdate. eexists. split; [reflexivity|].
    unfold Session.isExpired, Session.getRemainingTime, bind, now, ret.
    cbn [fst Session.expiresAt]. unfold Session.DEFAULT_DURATION_MS.
    split; f_equal.
    + apply Z.ltb_ge. lia.
    + lia.
  - intros userId durationMs Hr Hdate.
    unfold Session.createForUser, Session.new, bind, now, ret, draw_random.
    cbn [Session.p_id Session.p_userId Session.p_createdAt Session.p_expiresAt Js.truthy
         User.date_or_now ret].
    rewrite StringFacts.opt_or_else_some. reflexivity.
Qed.

(** Alice's short session at noon: it has no time remaining, and extended
    by five seconds it has five. *)
Lemma session_model_consistent_witness :
  fst (Session.getRemainingTime (row_session Example.short_session) Example.world_at_noon)
  = Returned 0%Z
  /\ fst (Session.getRemainingTime
            (Session.mk "s-1" "u-alice" Example.ten_o_clock (Example.noon + 5000))
            Example.world_at_noon)
     = Returned 5000%Z.
Proof.
  destruct (session_model_consistent (row_session Example.short_session)
              Example.world_at_noon) as (_ & Hgone & Hextend & _).
  - vm_compute. reflexivity.
  - vm_compute. reflexivity.
  - split.
    + apply Hgone. vm_compute. reflexivity.
    + destruct (Hextend 5000%Z) as (_ & _ & H); [vm_compute; reflexivity|].
      exact H.
Defined.

(** ** config/passport.ts: the verify callback of the strategies *)

Module PassportFacts.
Import Passport OAuthErrors.

Lemma throws_handleOAuthCallback us profile :
  throws_only (fun v => v = JsError "Failed to process OAuth authentication")
              (handleOAuthCallback us profile).
Proof.
  unfold handleOAuthCallback.
  apply throws_try_catch with (Q := fun _ => True).
  - intros w v _. exact I.
  - intros v _. now apply throws_throw.
Qed.

Lemma invalid_state_error p :
  handleOAuthError (JsError "Invalid state parameter - possible CSRF attack") p
  = mkAppError OAUTH_INVALID_STATE
      "Authentication request validation failed. Please try again." 400.
Proof. reflexivity. Qed.

Lemma processing_error p :
  handleOAuthError (JsError "Failed to process OAuth authentication") p
  = generic_failure p.
Proof. destruct p; reflexivity. Qed.

(** Over the User Store, [handleOAuthCallback] is the upsert of the
    Orchestrator with another error. *)
Lemma handleOAuthCallback_as_upsert sm initialized profile w :
  handleOAuthCallback theUserService profile w
  = match AuthService.findOrCreateUser
            (AuthService.mk theUserService sm initialized) profile w with
    | (Returned u, w1) => (Returned u, w1)
    | (Thrown _, w1) => (Thrown (JsError "Failed to process OAuth authentication"), w1)
    end.
Proof.
  destruct profile as [i n e p].
  unfold handleOAuthCallback, AuthService.findOrCreateUser, try_catch.
  cbn [AuthService.userService theUserService us_findByProviderId us_createUser
       us_updateUser profile_id profile_username profile_email profile_provider].
  match goal with
  | |- context [match ?body w with _ => _ end] => destruct (body w) as [[u|v] w1]
  end; reflexivity.
Qed.

(** [verify] with the same non-empty token on both sides. *)
Lemma verify_accepts provider us t profile w :
  t <> "" ->
  verify provider us (Some t) (Some t) profile w
  = match handleOAuthCallback us (OAuth.normalizeProfile provider profile) w with
    | (Returned user, w1) => (Returned (DoneUser user, None), w1)
    | (Thrown _, w1) => (Returned (DoneError (generic_failure provider), Some t), w1)
    end.
Proof.
  intros Ht.
  assert (E : validateOAuthState (Some t) (Some t) = true).
  { apply StateTokenFacts.validate_true_iff_equal. now exists t. }
  unfold verify, try_catch, bind. rewrite E. cbn [negb]. cbv beta iota zeta.
  pose proof (throws_handleOAuthCallback us (OAuth.normalizeProfile provider profile) w)
    as Hthrow.
  destruct (handleOAuthCallback us (OAuth.normalizeProfile provider profile) w)
    as [[user|v] w1]; cbn [fst] in Hthrow.
  - destruct t; [now contradiction Ht | reflexivity].
  - rewrite (Hthrow v eq_refl). unfold ret. now rewrite processing_error.
Qed.

Lemma verify_refuses provider us queryState sessionState profile w :
  validateOAuthState queryState sessionState = false ->
  verify provider us queryState sessionState profile w
  = (Returned (DoneError (mkAppError OAUTH_INVALID_STATE
                            "Authentication request validation failed. Please try again."
                            400),
               sessionState), w).
Proof.
  intros E. unfold verify, try_catch. rewrite E. cbn [negb]. cbv beta iota.
  now rewrite invalid_state_error.
Qed.

End PassportFacts.

(** The verify callback of the passport strategies is strict about the
    state token, unlike the callbacks of the Orchestrator: unless the token
    of the request and the one of the session are both present, not empty
    and equal, it reports OAUTH_INVALID_STATE 400 and calls no store; the
    token of the session stays. With equal tokens it reports what
    [handleOAuthCallback] returns for the normalized profile and deletes
    the token of the session, or, whatever the store throws, it reports the
    generic failure and the token stays. It never throws. Over the User
    Store, in a database that satisfies the schema and executes the
    statements, for a normalized profile that passes the checks and with
    equal tokens: a new identity gets a user made of the trimmed fields,
    which is reported and appended; a known identity whose stored username
    and e-mail address equal the profile's is reported as stored, and
    nothing is written; otherwise its username and e-mail address are
    replaced by the trimmed ones of the profile and the refreshed user is
    reported. Whenever an error is reported, the token of the session is
    the one it was and no row has changed. *)
Theorem passport_verify_is_strict :
  forall (provider : Provider) (us : UserServiceI) (queryState sessionState : option string)
         (profile : OAuth.RawProfile) (w : World),
    let normalized := OAuth.normalizeProfile provider profile in
    let stored := Passport.verify provider theUserService queryState sessionState
                                  profile w in
    ((exists t, queryState = Some t /\ sessionState = Some t /\ t <> "")
     \/ Passport.verify provider us queryState sessionState profile w
        = (Returned (Passport.DoneError
                       (mkAppError OAUTH_INVALID_STATE
                          "Authentication request validation failed. Please try again."
                          400),
                     sessionState), w))
    /\ (forall t,
           queryState = Some t -> sessionState = Some t -> t <> "" ->
           forall outcome w1,
             Passport.handleOAuthCallback us normalized w = (outcome, w1) ->
             Passport.verify provider us queryState sessionState profile w
             = (Returned match outcome with
                         | Returned user => (Passport.DoneUser user, None)
                         | Thrown _ => (Passport.DoneError (generic_failure provider),
                                        sessionState)
                         end, w1))
    /\ (exists result,
           fst (Passport.verify provider us queryState sessionState profile w)
           = Returned result)
    /\ (forall t,
           queryState = Some t -> sessionState = Some t -> t <> "" ->
           db_reliable w -> tables_wf w ->
           UserService.profile_errors normalized = [] ->
           (with_identity (profile_provider normalized) (Js.trim (profile_id normalized))
                          (users w) = [] ->
            ~ In (random w (random_pos w)) (map u_id (users w)) ->
            let u := User.mk (random w (random_pos w))
                             (Js.trim (profile_username normalized))
                             (Js.trim (profile_email normalized))
                             (profile_provider normalized)
                             (Js.trim (profile_id normalized)) (clock w) (clock w) in
            fst stored = Returned (Passport.DoneUser u, None)
            /\ users (snd stored) = (users w ++ [User.toDatabaseRow u])%list)
           /\ (forall r,
                  In r (users w) ->
                  u_provider r = profile_provider normalized ->
                  u_provider_id r = Js.trim (profile_id normalized) ->
                  u_id r <> "" ->
                  Js.trim (u_id r) = u_id r ->
                  (u_username r = profile_username normalized ->
                   u_email r = profile_email normalized ->
                   fst stored = Returned (Passport.DoneUser (row_user r), None)
                   /\ users (snd stored) = users w)
                  /\ (u_username r <> profile_username normalized
                      \/ u_email r <> profile_email normalized ->
                      let updated :=
                        User.mk (u_id r) (Js.trim (profile_username normalized))
                                (Js.trim (profile_email normalized)) (u_provider r)
                                (u_provider_id r) (u_created_at r) (clock w) in
                      fst stored = Returned (Passport.DoneUser updated, None)
                      /\ users (snd stored) = replace_user (u_id r) updated (users w))))
    /\ (forall error token,
           fst stored = Returned (Passport.DoneError error, token) ->
           token = sessionState /\ tables (snd stored) = tables w).
Proof.
  intros provider us qs ss profile w normalized stored.
  split; [|split; [|split; [|split]]].
  - destruct (OAuthErrors.validateOAuthState qs ss) eqn:E.
    + left. now apply StateTokenFacts.validate_true_iff_equal.
    + right. now apply PassportFacts.verify_refuses.
  - intros t -> -> Ht outcome w1 Hcb.
    rewrite (PassportFacts.verify_accepts provider us t profile w Ht).
    fold normalized. rewrite Hcb. now destruct outcome.
  - unfold Passport.verify, try_catch.
    match goal with
    | |- context [match ?body w with _ => _ end] => destruct (body w) as [[r|v] w1]
    end; eexists; reflexivity.
  - intros t -> -> Ht Hrel Hwf Hval. subst stored.
    rewrite (PassportFacts.verify_accepts provider theUserService t profile w Ht).
    fold normalized.
    rewrite (PassportFacts.handleOAuthCallback_as_upsert theSessionManager true normalized w).
    split.
    + intros Habs Hfresh u.
      rewrite (UpsertFacts.findOrCreateUser_creates theSessionManager true normalized w
                 Hrel Hval Habs Hfresh).
      split; reflexivity.
    + intros r Hin Hp Hi Hid Htrim.
      rewrite (UpsertFacts.findOrCreateUser_finds theSessionManager true normalized w r
                 Hrel Hwf Hval Hin Hp Hi Hid Htrim).
      split.
      * intros -> ->. rewrite !String.eqb_refl. split; reflexivity.
      * intros Hdiff.
        assert (Hneeds : negb (String.eqb (u_username r) (profile_username normalized))
                         || negb (String.eqb (u_email r) (profile_email normalized))
                         = true).
        { apply orb_true_iff.
          destruct Hdiff as [H|H]; [left|right];
            now apply negb_true_iff, String.eqb_neq. }
        rewrite Hneeds. split; reflexivity.
  - intros error token. subst stored.
    destruct (OAuthErrors.validateOAuthState qs ss) eqn:E.
    + apply StateTokenFacts.validate_true_iff_equal in E.
      destruct E as (t & -> & -> & Ht).
      rewrite (PassportFacts.verify_accepts provider theUserService t profile w Ht).
      fold normalized.
      rewrite (PassportFacts.handleOAuthCallback_as_upsert theSessionManager true
                 normalized w).
      pose proof (fails_clean_findOrCreateUser theSessionManager true normalized w)
        as Hclean.
      destruct (AuthService.findOrCreateUser _ normalized w) as [[u|v] w1];
        cbn [fst snd] in *.
      * intros H. discriminate H.
      * intros H. injection H as _ <-. split; [reflexivity|]. now apply (Hclean v).
    + rewrite (PassportFacts.verify_refuses provider theUserService qs ss profile w E).
      cbn [fst snd]. intros H. injection H as _ <-. split; reflexivity.
Qed.

(** Alice arrives from GitHub with the token of her session: the user is
    created and reported, and the token is deleted. Without a token in
    the request the strategy refuses, and the stored token is kept. *)
Lemma passport_verify_is_strict_witness :
  fst (Passport.verify github theUserService (Some "state-1") (Some "state-1")
         (OAuth.mkRaw "42" (Some "alice") None (Some ["alice@example.com"]))
         Example.world)
  = Returned (Passport.DoneUser
                (User.mk "r0" "alice" "alice@example.com" "github" "42"
                         Example.ten_o_clock Example.ten_o_clock),
              None)
  /\ fst (Passport.verify github theUserService None (Some "state-1")
            (OAuth.mkRaw "42" (Some "alice") None (Some ["alice@example.com"]))
            Example.world)
     = Returned (Passport.DoneError
                   (mkAppError OAUTH_INVALID_STATE
                      "Authentication request validation failed. Please try again." 400),
                 Some "state-1").
Proof.
  split.
  - destruct (passport_verify_is_strict github theUserService
                (Some "state-1") (Some "state-1")
                (OAuth.mkRaw "42" (Some "alice") None (Some ["alice@example.com"]))
                Example.world) as (_ & _ & _ & H & _).
    destruct (H "state-1" eq_refl eq_refl) as [Hnew _].
    + discriminate.
    + intros n. reflexivity.
    + repeat split; simpl; try constructor. tauto.
    + reflexivity.
    + destruct Hnew as [H1 _].
      * reflexivity.
      * simpl. tauto.
      * exact H1.
  - destruct (proj1 (passport_verify_is_strict github theUserService None (Some "state-1")
                       (OAuth.mkRaw "42" (Some "alice") None (Some ["alice@example.com"]))
                       Example.world)) as [(t & H & _) | H].
    + discriminate H.
    + now rewrite H.
Defined.

(** ** Signing in again, and signing in without an e-mail address *)

Module ReturningFacts.
Local Open Scope Z_scope.
Import AuthService.

Lemma tables_wf_set_clock t w : tables_wf w -> tables_wf (set_clock t w).
Proof. apply tables_wf_of_tables. reflexivity. Qed.

(** A valid e-mail address holds no white space, so trimming leaves it. *)
Lemma valid_email_trim e : User.isValidEmail e = true -> Js.trim e = e.
Proof.
  intros H. apply StringFacts.trim_no_space.
  apply EmailFacts.isValidEmail_shape_chars. exact H.
Qed.

(** What a lookup that returns a user says about the table. *)
Lemma findByProviderId_returned pid prov w u w1 :
  UserService.findByProviderId pid prov w = (Returned (Some u), w1) ->
  users w1 = users w
  /\ exists r, In r (users w)
               /\ User.username u = u_username r /\ User.email u = u_email r.
Proof.
  intros H. split.
  - pose proof (preserves_findByProviderId users
                  (fun _ _ => eq_refl) (fun _ _ => eq_refl) pid prov w) as Hp.
    now rewrite H in Hp.
  - revert H. unfold UserService.findByProviderId, try_catch.
    change UserService.sanitizeInput with Js.trim.
    destruct (_ || _); [discriminate|].
    destruct (negb _); [discriminate|].
    unfold bind at 1, Db.select_user_by_provider, Db.statement.
    destruct (db_fault w (db_pos w)); [discriminate|].
    cbn [users set_db_pos].
    destruct (find _ (users w)) as [r|] eqn:E; [|discriminate].
    unfold UserService.user_of_row, bind.
    destruct (UserFacts.fromDatabaseRow_eval r (set_db_pos (S (db_pos w)) w))
      as (i & w2 & -> & _ & _).
    intros H. injection H as Hu _. exists r.
    apply find_some in E. destruct E as [Hin _].
    split; [exact Hin|]. rewrite <- Hu. split; reflexivity.
Qed.

(** A patch whose e-mail address does not match the pattern is never
    written. *)
Lemma updateUser_invalid_email userId patch w e :
  partial_email patch = Some e ->
  User.isValidEmail (Js.trim e) = false ->
  exists v w1, UserService.updateUser userId patch w = (Thrown v, w1).
Proof.
  intros He Hinv.
  assert (Hcatch : forall A msg v w0,
             exists v1 w1, @UserService.rethrow_or_database_error A msg v w0 = (Thrown v1, w1)).
  { intros A msg v w0. unfold UserService.rethrow_or_database_error.
    destruct (isAppError v); eexists _, _; reflexivity. }
  unfold UserService.updateUser, try_catch.
  match goal with
  | |- context [match ?body w with _ => _ end] =>
      assert (Hbody : exists v w1, body w = (Thrown v, w1))
  end.
  { change UserService.sanitizeInput with Js.trim.
    destruct (negb _); [eexists _, _; reflexivity|].
    unfold bind at 1.
    destruct (UserService.findById (Js.trim userId) w) as [[[existing|]|v] w1];
      [|eexists _, _; reflexivity|eexists _, _; reflexivity].
    unfold bind at 1, User.update, bind at 1, now, ret.
    rewrite He. cbn [option_map User.p_email User.or_keep].
    match goal with
    | |- context [User.validate ?u] =>
        assert (Hlen : (0 <? length (User.validate u))%nat = true)
    end.
    { unfold User.validate. cbn [User.email]. rewrite Hinv.
      rewrite orb_true_r. rewrite !length_app. cbn [length].
      apply Nat.ltb_lt. lia. }
    rewrite Hlen. eexists _, _; reflexivity. }
  destruct Hbody as (v & w1 & ->). apply Hcatch.
Qed.

(** A profile whose e-mail address does not match the pattern never gets
    through [findOrCreateUser], on a table whose stored addresses do match
    it. *)
Lemma findOrCreateUser_needs_email sm initialized profile w :
  User.isValidEmail (Js.trim (profile_email profile)) = false ->
  (forall r, In r (users w) -> User.isValidEmail (u_email r) = true) ->
  fst (findOrCreateUser (mk theUserService sm initialized) profile w)
  = Thrown (AppErr (mkAppError OAUTH_PROFILE_ERROR "Failed to process user profile" 500)).
Proof.
  intros Hinv Hrows.
  pose proof (CollapseFacts.throws_findOrCreateUser
                (mk theUserService sm initialized) profile w) as Hthrow.
  destruct (fst (findOrCreateUser (mk theUserService sm initialized) profile w))
    as [u|v] eqn:E; [exfalso | now rewrite (Hthrow v eq_refl)].
  clear Hthrow. revert E.
  unfold findOrCreateUser, try_catch.
  cbn [userService theUserService us_findByProviderId us_createUser us_updateUser].
  unfold bind.
  destruct (UserService.findByProviderId (profile_id profile) (profile_provider profile) w)
    as [[[user|]|v] w1] eqn:Hfind; try discriminate.
  - destruct (findByProviderId_returned _ _ _ _ _ Hfind) as (_ & r & Hin & Hun & Hem).
    assert (Hneeds : negb (String.eqb (User.username user) (profile_username profile))
                     || negb (String.eqb (User.email user) (profile_email profile)) = true).
    { apply orb_true_iff. right. apply negb_true_iff, String.eqb_neq.
      intros Heq. rewrite Hem in Heq.
      pose proof (Hrows r Hin) as Hvalid. rewrite Heq in Hvalid.
      rewrite (valid_email_trim _ Hvalid) in Hinv. congruence. }
    rewrite Hneeds.
    destruct (updateUser_invalid_email (User.id user)
                (mkPartial None (Some (profile_username profile))
                           (Some (profile_email profile)) None) w1
                (profile_email profile) eq_refl Hinv) as (v & w2 & ->).
    discriminate.
  - rewrite StoreFacts.createUser_invalid; [discriminate|].
    intros Hnil. apply StoreFacts.profile_errors_nil_iff in Hnil.
    destruct Hnil as (_ & Hvalid & _). congruence.
Qed.

End ReturningFacts.

(** Signing in twice gives one user. After [findOrCreateUser] created a
    user for a profile, the same profile, at any later time, resolves to
    the user of the same id, with the same username, e-mail address,
    identity and creation time; no row is added. *)
Theorem second_sign_in_reuses_the_user :
  forall (sm : SessionManagerI) (initialized : bool) (profile : UserProfile) (w : World),
    let svc := AuthService.mk theUserService sm initialized in
    db_reliable w ->
    tables_wf w ->
    UserService.profile_errors profile = [] ->
    with_identity (profile_provider profile) (Js.trim (profile_id profile)) (users w) = [] ->
    ~ In (random w (random_pos w)) (map u_id (users w)) ->
    random w (random_pos w) <> "" ->
    Js.trim (random w (random_pos w)) = random w (random_pos w) ->
    exists u w1,
      AuthService.findOrCreateUser svc profile w = (Returned u, w1)
      /\ User.id u = random w (random_pos w)
      /\ forall t : Z,
          exists u2,
            fst (AuthService.findOrCreateUser svc profile (set_clock t w1)) = Returned u2
            /\ User.id u2 = User.id u
            /\ User.username u2 = User.username u
            /\ User.email u2 = User.email u
            /\ User.provider u2 = User.provider u
            /\ User.providerId u2 = User.providerId u
            /\ User.createdAt u2 = User.createdAt u
            /\ map u_id (users (snd (AuthService.findOrCreateUser svc profile
                                       (set_clock t w1))))
               = map u_id (users w1)
            /\ map u_id (users w1) = (map u_id (users w) ++ [User.id u])%list.
Proof.
  intros sm initialized profile w svc Hrel Hwf Hval Habs Hfresh Hne Htrim.
  subst svc.
  pose proof (keeps_wf_findOrCreateUser sm initialized profile w Hwf) as Hwf1.
  pose proof (UpsertFacts.findOrCreateUser_creates sm initialized profile w
                Hrel Hval Habs Hfresh) as Hc.
  cbv zeta in Hc.
  set (u := User.mk (random w (random_pos w)) (Js.trim (profile_username profile))
                    (Js.trim (profile_email profile)) (profile_provider profile)
                    (Js.trim (profile_id profile)) (clock w) (clock w)) in *.
  rewrite Hc in Hwf1. cbn [snd] in Hwf1.
  eexists u, _. split; [exact Hc|]. split; [reflexivity|].
  intros t.
  match goal with
  | |- context [AuthService.findOrCreateUser _ profile (set_clock t ?w2)] =>
      rewrite (UpsertFacts.findOrCreateUser_finds sm initialized profile (set_clock t w2)
                 (User.toDatabaseRow u))
  end.
  - destruct (_ || _).
    + eexists. cbv zeta. cbn [fst snd users set_users set_db_pos set_clock].
      split; [reflexivity|]. repeat (split; [reflexivity|]).
      split; [apply UpdateRoundTrip.replace_user_ids|].
      now rewrite map_app.
    + eexists. cbn [fst snd users set_users set_db_pos set_clock].
      split; [reflexivity|]. repeat (split; [reflexivity|]).
      now rewrite map_app.
  - intros n. apply Hrel.
  - now apply ReturningFacts.tables_wf_set_clock.
  - exact Hval.
  - cbn [users set_users set_clock]. apply in_or_app. right. now left.
  - reflexivity.
  - reflexivity.
  - exact Hne.
  - exact Htrim.
Qed.

(** Alice signs in at GitHub twice. *)
Lemma second_sign_in_reuses_the_user_witness :
  exists u w1,
    AuthService.findOrCreateUser Example.ready_service alice_profile Example.world
    = (Returned u, w1)
    /\ exists u2,
        fst (AuthService.findOrCreateUser Example.ready_service alice_profile
               (set_clock Example.noon w1)) = Returned u2
        /\ User.id u2 = User.id u
        /\ map u_id (users (snd (AuthService.findOrCreateUser Example.ready_service
                                   alice_profile (set_clock Example.noon w1))))
           = map u_id (users w1).
Proof.
  destruct (second_sign_in_reuses_the_user theSessionManager true alice_profile Example.world)
    as (u & w1 & Hc & _ & H).
  - intros n. reflexivity.
  - repeat split; simpl; try constructor. tauto.
  - reflexivity.
  - reflexivity.
  - simpl. tauto.
  - vm_compute. discriminate.
  - vm_compute. reflexivity.
  - exists u, w1. split; [exact Hc|].
    destruct (H Example.noon) as (u2 & H1 & H2 & _ & _ & _ & _ & _ & H3 & _).
    exists u2. repeat split; assumption.
Defined.

(** Nobody signs in without an e-mail address. When the profile the
    provider hands out has an e-mail address that (trimmed) does not match
    the pattern of the [User] model, as for a GitHub account whose
    addresses cannot be read, the callback of an initialized Orchestrator
    over the two stores fails with the generic OAUTH_CALLBACK_ERROR 500 and
    no row is written, whether the user exists or not and whatever the
    driver does. The addresses already stored match the pattern, as every
    address the User Store writes does. *)
Theorem sign_in_needs_an_email :
  forall (p : Provider) (code : string) (requestState storedState : option string)
         (w w0 : World) (profile : UserProfile),
    let svc := AuthService.mk theUserService theSessionManager true in
    code <> "" ->
    Js.truthy requestState && Js.truthy storedState
      && negb (OAuthErrors.validateOAuthState requestState storedState) = false ->
    AuthService.exchangeCodeForProfile p code w = (Returned profile, w0) ->
    User.isValidEmail (Js.trim (profile_email profile)) = false ->
    (forall r, In r (users w) -> User.isValidEmail (u_email r) = true) ->
    fst (AuthService.handleCallback p svc code requestState storedState w)
    = Thrown (AppErr (generic_failure p))
    /\ users (snd (AuthService.handleCallback p svc code requestState storedState w))
       = users w
    /\ sessions (snd (AuthService.handleCallback p svc code requestState storedState w))
       = sessions w.
Proof.
  intros p code st ss w w0 profile svc Hcode Hcheck Hex Hinv Hrows.
  assert (Hthrown : fst (AuthService.handleCallback p svc code st ss w)
                    = Thrown (AppErr (generic_failure p))).
  { destruct code as [|c code]; [now contradiction Hcode|].
    unfold svc.
    rewrite (CallbackFacts.callback_skips_state_check p _ _ c code st ss w Hcheck).
    assert (Hu0 : users w0 = users w).
    { assert (Hp : preserves users (AuthService.exchangeCodeForProfile p (String c code)))
        by (apply preserves_exchange; intros; reflexivity).
      specialize (Hp w). now rewrite Hex in Hp. }
    pose proof (ReturningFacts.findOrCreateUser_needs_email theSessionManager true
                  profile w0 Hinv) as Hf.
    rewrite Hu0 in Hf. specialize (Hf Hrows).
    unfold try_catch, bind at 1. rewrite Hex. unfold bind.
    destruct (AuthService.findOrCreateUser _ profile w0) as [[u|v] w1]; cbn [fst] in Hf;
      [discriminate|].
    injection Hf as ->. destruct p; reflexivity. }
  split; [exact Hthrown|].
  pose proof (fails_clean_handleCallback p theSessionManager true code st ss w _ Hthrown)
    as Hclean.
  fold svc in Hclean. unfold tables in Hclean.
  injection Hclean as Hu Hs. split; assumption.
Qed.

(** GitHub does not list the addresses of the account: the callback
    fails and the tables stay empty. *)
Lemma sign_in_needs_an_email_witness :
  fst (AuthService.handleCallback github Example.ready_service "good" None None
         world_private_email)
  = Thrown (AppErr (generic_failure github))
  /\ users (snd (AuthService.handleCallback github Example.ready_service "good" None None
                   world_private_email)) = users world_private_email
  /\ sessions (snd (AuthService.handleCallback github Example.ready_service "good" None None
                      world_private_email)) = sessions world_private_email.
Proof.
  eapply (sign_in_needs_an_email github "good" None None world_private_email).
  - discriminate.
  - reflexivity.
  - vm_compute. reflexivity.
  - vm_compute. reflexivity.
  - intros r Hin. destruct Hin.
Defined.
